(* ===== verification/_CoqProject ===== *)
-Q . S2P
Prelude.v
External.v
ToyLib.v
GoLib.v
Util.v
Types.v
Log.v
Config.v
ClientController.v
Keyring.v
Emulator.v
Cmd.v
CmdFacts.v
Cli.v
SetupFacts.v
ToyWorld.v
BatchFacts.v
SigningFacts.v
TickFacts.v
Lifecycle.v
Daemon.v
BabylonDaemon.v
NodeHandler.v
Datagen.v
Codec.v
