(* ===== verification/Prelude.v ===== *)
(** * The covenant emulator: a verification library

    ** The program

    The covenant emulator ([src/]) is a daemon run by a member of the Babylon
    covenant committee.  Every query interval it asks the Babylon chain for the
    staking parameters and the pending BTC delegations, checks each delegation's
    transactions, signs those that pass with the covenant's key (adaptor signatures
    on the slashing transactions, one per finality provider, and a Schnorr signature
    on the unbonding transaction), and submits the signatures in batches.

    Its parts, and the files that model them:

    - [src/types]: delegations, undelegations, staking parameters, signatures and
      their small methods.  [Types].
    - [src/util], [src/log], [src/config], [src/codec]: paths and files, the logger,
      the configuration, the protobuf codec.  [Util], [Log], [Config], [Codec].
    - [src/clientcontroller]: the interface to the chain and its implementation by the
      Babylon RPC client.  [ClientController].
    - [src/keyring]: the Cosmos keyring, prompting on a reader shared with the
      repository's controller.  [Keyring].
    - [src/covenant/covenant.go]: the emulator.  Its sequential code ([UpdateParams],
      [AddCovenantSignatures], [removeAlreadySigned], [delegationsToBatches], a turn of
      [covenantSigSubmissionLoop], [NewCovenantEmulator], [CreateCovenantKey]) is in
      [Emulator]; its goroutines ([Start], [Stop], the select of the loop) together
      with [RunUntilShutdown] of [src/covenant/service/server.go] are in [Lifecycle].
      [Daemon] puts the two together, with the environment running alongside;
      [BabylonDaemon] is the daemon with the repository's own client.
    - [src/cmd/covd]: the actions [init], [create-key] and [start] are in [Cmd], the
      declarations of the commands, [main] and the exit status in [Cli].
    - [src/itest]: [NodeHandler], the handler that runs a [babylond] process for the
      end-to-end tests.  [src/testutil/datagen.go]: [Datagen], the random data of the
      tests.

    [GoLib] has what the code uses of Go's standard library (hex, paths, [os.Expand]).
    [External] has the types and functions of the libraries outside the repository as a
    class; every component is generic in it.  [ToyLib] and [ToyWorld] are concrete
    instances, on which the examples run.

    ** How the code is represented

    Integers are [Z] with the wrap-around of their width written out.  Pointers that
    can be nil are options; reading through nil, an index out of range and [panic] are
    the outcome [Panic].  A call returns [Ok] or [Err], panics, or does not return
    ([Hang]).  Code with effects is in the monad [Go W] over a world [W]: the heap of
    [strings.Reader]s and whatever is outside the process (chain, keyring store, file
    system), of which the model knows only the calls made on it.  Interfaces are
    records of operations with a class of laws: [ClientControllerSpec] (proved for the
    Babylon controller), [KeyringSpec] (proved for an in-memory keyring),
    [PersistentKeyring], [IniSpec], [RetrySpec], [CliSpec], [CodecSpec] and [DatagenSpec]
    (documented behaviour of the keyring, of go-flags, retry-go, urfave/cli, the
    Cosmos SDK's codec and Babylon's generators, each with an instance).

    The goroutines are a step relation on the two [sync.Once], the [sync.WaitGroup],
    the quit channel, the server's counter and the position of every goroutine; any
    number of goroutines may call the methods, in any interleaving.  A state of the
    daemon adds the emulator and the world; a tick ends by running the code of the tick
    on them.  The node handler is over a kernel reached by system calls, and every call
    is recorded with its outcome.

    ** What is proved

    - Signing ([SigningFacts]): a specification, independent of the control flow, of
      when a delegation is [approved] and which signatures it gets; the code submits
      exactly the specified signatures of batches in which every delegation is
      approved, and nothing else; every rule violation is an error; the emulator signs
      with the key it announces; timelock bounds at 16 bits; when signing returns.
    - The tick ([TickFacts]): all submissions of a turn are approved, unsigned, pending
      delegations under the parameters just queried; failing queries are retried five
      times; a failing batch does not stop the others; a tick always returns.
    - Batching and filtering ([BatchFacts]): the loop equals a reference definition
      [chunks], partitions the delegations and terminates; the filter keeps exactly the
      unsigned ones.
    - Lifecycle ([Lifecycle]): inductive invariants over all interleavings: no panic, at
      most one loop, no tick after the shutdown has completed, no deadlock.
    - The daemon ([Daemon]): in every execution only approved batches are submitted;
      until the shutdown signal a further tick can always be done; a shutdown can always
      complete; after [RunUntilShutdown] has returned the world is left alone.  Lemmas
      relate the executions of the daemon and of [Lifecycle] in both directions.  On a Babylon node ([BabylonDaemon]): what the node and the RPC client
      have to keep for the daemon not to crash, and the messages the node can receive.
    - Client, keyring, types and configuration: conversions keep the data, the
      parameters are the chain's, keys read back, the quorum test counts.
    - Commands ([CmdFacts], [Cli], [SetupFacts]): [init], [create-key] and [start] in
      sequence run an emulator with the created key; the actions read only the flags
      their commands declare; the exit status.
    - Harness ([NodeHandler], [Datagen]): the handler touches only its own process and
      files, what its failing methods leave behind; generated parameters are well formed.
    - Where the code departs from its comments or its purpose, the theorem states what
      the code does (a batch dropped when one delegation has its quorum, a batch size of
      zero, truncated timelocks, an unbonding transaction without outputs, the log level
      trace, a query interval of zero).

    ** Bounds and fuel

    [batches_loop] runs on fuel [S (length dels)]: with a positive batch size the index
    grows by at least one per turn, and [batches_partition_delegations] shows that the
    fuel suffices; [unset_batch_size_hangs_emulator] quantifies over all fuel.
    [QueryFinalityProviders_loop] takes its fuel as an argument; one turn per page is
    enough.  [RtyAttNum] is the code's own bound of five attempts.

    ** What is not modelled

    Log output and printed messages; the passing of time (retry delays, contexts beyond
    their deadline, the ticker's period); the runtime's detection of a [WaitGroup]
    that is added to while being waited on; key and signature pointers that are nil; the
    tests themselves with their test manager, and the mocks, which are generated and
    whose behaviour is gomock's; the blank imports of [src/tools]. *)

From Stdlib Require Import ZArith Lia String Ascii Strings.Byte.
From stdpp Require Import base tactics list strings gmap.

#[global] Open Scope Z_scope.
#[global] Open Scope stdpp_scope.

(** ** Machine integers

    A Go integer of width [w] is a [Z]; every conversion and every arithmetic
    operation that can leave the range is followed by the wrap-around written
    here.  [int] is 64 bits wide, as on every platform the daemon is built for. *)

Definition u16 (z : Z) : Z := z mod 2 ^ 16.
Definition u32 (z : Z) : Z := z mod 2 ^ 32.
Definition u64 (z : Z) : Z := z mod 2 ^ 64.
Definition i64 (z : Z) : Z := (z + 2 ^ 63) mod 2 ^ 64 - 2 ^ 63.
Definition MaxUint16 : Z := 2 ^ 16 - 1.

Definition in_u16 (z : Z) : Prop := 0 <= z < 2 ^ 16.
Definition in_u32 (z : Z) : Prop := 0 <= z < 2 ^ 32.
Definition in_u64 (z : Z) : Prop := 0 <= z < 2 ^ 64.
Definition in_i64 (z : Z) : Prop := - 2 ^ 63 <= z < 2 ^ 63.

(** [len(x)] of a slice, an [int]. *)
Definition go_len {A} (l : list A) : Z := Z.of_nat (length l).

(** What the Go runtime guarantees of every slice: its length is an [int]. *)
Definition slice_ok {A} (l : list A) : Prop := go_len l < 2 ^ 63.

Lemma u16_range z : in_u16 (u16 z).
Proof. apply Z.mod_pos_bound. lia. Qed.

Lemma u32_range z : in_u32 (u32 z).
Proof. apply Z.mod_pos_bound. lia. Qed.

Lemma u64_range z : in_u64 (u64 z).
Proof. apply Z.mod_pos_bound. lia. Qed.

Lemma u16_id z : in_u16 z -> u16 z = z.
Proof. intros H. apply Z.mod_small, H. Qed.

Lemma u32_id z : in_u32 z -> u32 z = z.
Proof. intros H. apply Z.mod_small, H. Qed.

Lemma u64_id z : in_u64 z -> u64 z = z.
Proof. intros H. apply Z.mod_small, H. Qed.

Lemma i64_id z : in_i64 z -> i64 z = z.
Proof. unfold in_i64, i64. intros H. rewrite Z.mod_small; lia. Qed.

(** Unsigned subtraction that borrows lands just below [2^64]. *)
Lemma u64_sub_borrow a b : in_u64 a -> in_u64 b -> a < b -> u64 (a - b) = 2 ^ 64 - (b - a).
Proof.
  unfold in_u64, u64. intros Ha Hb Hab.
  replace (a - b) with ((2 ^ 64 - (b - a)) + (-1) * 2 ^ 64) by lia.
  rewrite Z_mod_plus_full. apply Z.mod_small. lia.
Qed.

Lemma go_len_nonneg {A} (l : list A) : 0 <= go_len l.
Proof. unfold go_len. lia. Qed.

Lemma go_len_app {A} (l k : list A) : go_len (l ++ k) = go_len l + go_len k.
Proof. unfold go_len. rewrite length_app. lia. Qed.

Lemma go_len_zero {A} (l : list A) : go_len l = 0 <-> l = [].
Proof. unfold go_len. destruct l; cbn; split; intros; try done; lia. Qed.

(** ** Errors and outcomes

    A Go error built by [fmt.Errorf] is kept as its format string and its
    arguments, so that wrapping ([%w]) stays visible.  A call has one of four
    outcomes: it returns a value and a nil error, it returns an error, it
    panics, or it never returns. *)

Inductive error :=
| Errorf (format : string) (args : list farg)
with farg :=
| FInt (z : Z)
| FStr (s : string)
| FErr (e : error).

Inductive result (A : Type) :=
| Ok (a : A)
| Err (e : error)
| Panic (msg : string)
| Hang.

Arguments Ok {A} a.
Arguments Err {A} e.
Arguments Panic {A} msg.
Arguments Hang {A}.

Definition errorString (s : string) : error := Errorf s [].

#[export] Instance result_ret : MRet result := fun A a => Ok a.
#[export] Instance result_bind : MBind result := fun A B k m =>
  match m with
  | Ok a => k a
  | Err e => Err e
  | Panic p => Panic p
  | Hang => Hang
  end.

(** A library function that reports failure through its error result only. *)
Definition errorOr (A : Type) : Type := (error + A)%type.

Definition of_errorOr {A} (x : errorOr A) : result A :=
  match x with
  | inl e => Err e
  | inr a => Ok a
  end.

(** [if err != nil { return nil, f(err) }] *)
Definition wrap_err {A} (f : error -> error) (r : result A) : result A :=
  match r with
  | Err e => Err (f e)
  | r => r
  end.

(** [x[i]] with the runtime's bounds check. *)
Definition go_index {A} (l : list A) (i : nat) : result A :=
  match l !! i with
  | Some a => Ok a
  | None => Panic "runtime error: index out of range"
  end.

(** [*p] with the runtime's nil check. *)
Definition go_deref {A} (p : option A) : result A :=
  match p with
  | Some a => Ok a
  | None => Panic "runtime error: invalid memory address or nil pointer dereference"
  end.

Definition returns {A} (r : result A) : bool :=
  match r with
  | Ok _ | Err _ => true
  | Panic _ | Hang => false
  end.

(** ** The state-and-outcome monad of effectful Go code *)

Definition Go (W A : Type) : Type := W -> result A * W.

#[export] Instance go_ret {W} : MRet (Go W) := fun A a w => (Ok a, w).
#[export] Instance go_bind {W} : MBind (Go W) := fun A B k m w =>
  match m w with
  | (Ok a, w') => k a w'
  | (Err e, w') => (Err e, w')
  | (Panic p, w') => (Panic p, w')
  | (Hang, w') => (Hang, w')
  end.

(** Pure code run inside an effectful function. *)
Definition lift {W A} (r : result A) : Go W A := fun w => (r, w).

Definition go_wrap {W A} (f : error -> error) (m : Go W A) : Go W A := fun w =>
  let '(r, w') := m w in (wrap_err f r, w').

(** [require.NoError] of the tests leaves the test on an error, by [runtime.Goexit]. *)
Definition FailNow : string := "FailNow".

Definition require_NoError {W A} (m : Go W A) : Go W A := fun w =>
  match m w with
  | (Err _, w') => (Panic FailNow, w')
  | x => x
  end.

(** [for _, x := range l { ... append(acc, f(x)) ... }] with early return on
    every error, in [result]. *)
Fixpoint mapM_result {A B} (f : A -> result B) (l : list A) : result (list B) :=
  match l with
  | [] => Ok []
  | x :: l' => y ← f x; ys ← mapM_result f l'; mret (y :: ys)
  end.

(** The same loop with an effectful body. *)
Fixpoint mapM_go {W A B} (f : A -> Go W B) (l : list A) : Go W (list B) :=
  match l with
  | [] => mret []
  | x :: l' => y ← f x; ys ← mapM_go f l'; mret (y :: ys)
  end.

(** ** Inversion of successful runs *)

Lemma bind_Ok {A B} (m : result A) (k : A -> result B) b :
  m ≫= k = Ok b <-> exists a, m = Ok a /\ k a = Ok b.
Proof.
  destruct m as [a|e|p|]; cbn; (split; [intros H | intros (a' & [= ->] & H)]); eauto; done.
Qed.

Lemma of_errorOr_Ok {A} (x : errorOr A) a : of_errorOr x = Ok a <-> x = inr a.
Proof. destruct x; cbn; naive_solver. Qed.

Lemma wrap_err_Ok {A} f (r : result A) a : wrap_err f r = Ok a <-> r = Ok a.
Proof. destruct r; cbn; naive_solver. Qed.

Lemma go_index_Ok {A} (l : list A) i a : go_index l i = Ok a <-> l !! i = Some a.
Proof. unfold go_index. destruct (l !! i); naive_solver. Qed.

Lemma go_deref_Ok {A} (p : option A) a : go_deref p = Ok a <-> p = Some a.
Proof. unfold go_deref. destruct p; naive_solver. Qed.

Lemma mret_Ok {A} (a b : A) : mret a = Ok b <-> a = b.
Proof. split; [by intros [= ->] | by intros ->]. Qed.

Lemma mapM_result_Ok {A B} (f : A -> result B) l ys :
  mapM_result f l = Ok ys <-> Forall2 (fun x y => f x = Ok y) l ys.
Proof.
  revert ys. induction l as [|x l IH]; intros ys; cbn [mapM_result].
  - split; [intros [= <-]; constructor | inversion 1; done].
  - rewrite bind_Ok. setoid_rewrite bind_Ok. setoid_rewrite mret_Ok.
    setoid_rewrite IH. split.
    + intros (y & Hy & zs & Hzs & <-). by constructor.
    + inversion 1; subst; eauto.
Qed.

(** What holds of every result of the body holds of all results of the loop. *)
Lemma mapM_result_Forall {A B} (f : A -> result B) (Q : B -> Prop) l ys :
  (forall x y, f x = Ok y -> Q y) -> mapM_result f l = Ok ys -> Forall Q ys.
Proof.
  intros HQ H%mapM_result_Ok. induction H; constructor; eauto.
Qed.

(** A function that succeeds everywhere lets the loop succeed. *)
Lemma mapM_result_total {A B} (f : A -> result B) l :
  (forall x, x ∈ l -> exists y, f x = Ok y) -> exists ys, mapM_result f l = Ok ys.
Proof.
  induction l as [|x l IH]; intros Hf; cbn; [by eexists|].
  destruct (Hf x) as [y ->]; [set_solver|].
  destruct IH as [ys ->]; [set_solver|]. by eexists.
Qed.

(** ** Runs of effectful code *)

Section run.
Context {W A B : Type}.
Implicit Types (m : Go W A) (k : A -> Go W B) (w : W).

Lemma go_ret_run (a : A) w : (mret a : Go W A) w = (Ok a, w).
Proof. done. Qed.

Lemma go_bind_run m k w :
  (m ≫= k) w =
  match m w with
  | (Ok a, w') => k a w'
  | (Err e, w') => (Err e, w')
  | (Panic p, w') => (Panic p, w')
  | (Hang, w') => (Hang, w')
  end.
Proof. done. Qed.

Lemma go_bind_Ok_run m k w a w' : m w = (Ok a, w') -> (m ≫= k) w = k a w'.
Proof. intros H. by rewrite go_bind_run, H. Qed.

Lemma go_bind_Ok m k w b w'' :
  (m ≫= k) w = (Ok b, w'') <-> exists a w', m w = (Ok a, w') /\ k a w' = (Ok b, w'').
Proof.
  rewrite go_bind_run. destruct (m w) as [[a|e|p|] w'];
    (split; [intros H | intros (? & ? & Heq & H); inversion Heq; subst]); eauto; done.
Qed.

Lemma lift_run (r : result A) w : lift r w = (r, w).
Proof. done. Qed.

Lemma go_wrap_Ok f m w a w' : go_wrap f m w = (Ok a, w') <-> m w = (Ok a, w').
Proof. unfold go_wrap. destruct (m w) as [[] ?]; naive_solver. Qed.

Lemma require_NoError_Ok m w a w' :
  require_NoError m w = (Ok a, w') <-> m w = (Ok a, w').
Proof. unfold require_NoError. destruct (m w) as [[] ?]; naive_solver. Qed.

End run.

(** An effectful loop that succeeds visits the elements from left to right. *)
Lemma mapM_go_length {W A B} (f : A -> Go W B) l w ys w' :
  mapM_go f l w = (Ok ys, w') -> length ys = length l.
Proof.
  revert w ys. induction l as [|x l IH]; intros w ys; cbn [mapM_go].
  - by intros [= <- <-].
  - rewrite go_bind_Ok. intros (y & w1 & _ & Hk).
    apply go_bind_Ok in Hk as (zs & w2 & Hzs & [= <- <-]).
    cbn. f_equal. eauto.
Qed.

(** ** World invariants of effectful code

    [preserves I m]: whatever [m] does, the world satisfies [I] afterwards when
    it did before, on every outcome. *)

Definition preserves {W A} (I : W -> Prop) (m : Go W A) : Prop :=
  forall w, I w -> I (m w).2.

Section preserves.
Context {W : Type} (I : W -> Prop).

Lemma preserves_ret {A} (a : A) : preserves I (mret a).
Proof. by intros w Hw. Qed.

Lemma preserves_lift {A} (r : result A) : preserves I (lift r).
Proof. by intros w Hw. Qed.

Lemma preserves_bind {A B} (m : Go W A) (k : A -> Go W B) :
  preserves I m -> (forall a, preserves I (k a)) -> preserves I (m ≫= k).
Proof.
  intros Hm Hk w Hw. rewrite go_bind_run. specialize (Hm w Hw).
  destruct (m w) as [[a|e|p|] w']; cbn in *; try done. by apply Hk.
Qed.

Lemma preserves_wrap {A} f (m : Go W A) : preserves I m -> preserves I (go_wrap f m).
Proof. intros Hm w Hw. specialize (Hm w Hw). unfold go_wrap. by destruct (m w). Qed.

Lemma preserves_mapM {A B} (f : A -> Go W B) l :
  (forall x, x ∈ l -> preserves I (f x)) -> preserves I (mapM_go f l).
Proof.
  induction l as [|x l IH]; intros Hf; cbn [mapM_go]; [apply preserves_ret|].
  apply preserves_bind; [apply Hf; set_solver|]. intros y.
  apply preserves_bind; [apply IH; set_solver|]. intros ys. apply preserves_ret.
Qed.

End preserves.

(** ** Code that returns

    [returns r]: the call neither panicked nor hung. *)

Lemma returns_bind {A B} (m : result A) (k : A -> result B) :
  returns m = true -> (forall a, m = Ok a -> returns (k a) = true) -> returns (m ≫= k) = true.
Proof. destruct m; cbn; auto. Qed.

Lemma returns_errorOr {A} (x : errorOr A) : returns (of_errorOr x) = true.
Proof. by destruct x. Qed.

Lemma returns_wrap {A} f (r : result A) : returns (wrap_err f r) = returns r.
Proof. by destruct r. Qed.

Lemma returns_mapM {A B} (f : A -> result B) l :
  (forall x, returns (f x) = true) -> returns (mapM_result f l) = true.
Proof.
  intros Hf. induction l as [|x l IH]; [done|]. cbn [mapM_result].
  apply returns_bind; [apply Hf|]. intros y _. by apply returns_bind.
Qed.

(** A loop that ends in an error met one in its body. *)
Lemma mapM_result_Err {A B} (f : A -> result B) l e :
  mapM_result f l = Err e -> Exists (fun x => f x = Err e) l.
Proof.
  induction l as [|x l IH]; [done|]. cbn [mapM_result].
  destruct (f x) as [y|e'|p|] eqn:Hx; cbn; try done.
  - destruct (mapM_result f l); cbn; try done. right. auto.
  - intros [= ->]. by left.
Qed.

(** An effectful call returns from every world. *)
Definition go_returns {W A} (m : Go W A) : Prop := forall w, returns (m w).1 = true.

Lemma go_returns_bind_at {W A B} (m : Go W A) (k : A -> Go W B) w :
  returns (m w).1 = true ->
  (forall a w', m w = (Ok a, w') -> returns (k a w').1 = true) ->
  returns ((m ≫= k) w).1 = true.
Proof. rewrite go_bind_run. destruct (m w) as [[] w']; cbn; auto. Qed.

Lemma go_returns_wrap_at {W A} f (m : Go W A) w : returns (go_wrap f m w).1 = returns (m w).1.
Proof. unfold go_wrap. by destruct (m w) as [[] ?]. Qed.

(** ** Automation *)

Create HintDb covdb discriminated.
#[export] Hint Resolve u16_range u32_range u64_range go_len_nonneg : covdb.
#[export] Hint Resolve preserves_ret preserves_lift preserves_bind preserves_wrap
  preserves_mapM : covdb.

(** [go_inv] takes the equations of successful runs in the context apart. *)
Ltac go_inv_step :=
  match goal with
  | H : mret _ = Ok _ |- _ => apply (proj1 (mret_Ok _ _)) in H; subst
  | H : _ ≫= _ = Ok _ |- _ =>
      let a := fresh "a" in let E := fresh "E" in
      apply (proj1 (bind_Ok _ _ _)) in H as (a & E & H)
  | H : (_ ≫= _) _ = (Ok _, _) |- _ =>
      let a := fresh "a" in let w := fresh "w" in let E := fresh "E" in
      apply (proj1 (go_bind_Ok _ _ _ _ _)) in H as (a & w & E & H)
  | H : go_wrap _ _ _ = (Ok _, _) |- _ => apply (proj1 (go_wrap_Ok _ _ _ _ _)) in H
  | H : require_NoError _ _ = (Ok _, _) |- _ => apply (proj1 (require_NoError_Ok _ _ _ _)) in H
  | H : lift _ _ = (Ok _, _) |- _ => rewrite lift_run in H
  | H : mret _ _ = (Ok _, _) |- _ => rewrite go_ret_run in H
  | H : of_errorOr _ = Ok _ |- _ => apply (proj1 (of_errorOr_Ok _ _)) in H
  | H : wrap_err _ _ = Ok _ |- _ => apply (proj1 (wrap_err_Ok _ _ _)) in H
  | H : go_index _ _ = Ok _ |- _ => apply (proj1 (go_index_Ok _ _ _)) in H
  | H : go_deref _ = Ok _ |- _ => apply (proj1 (go_deref_Ok _ _)) in H
  | H : mapM_result _ _ = Ok _ |- _ => apply (proj1 (mapM_result_Ok _ _ _)) in H
  | H : Ok _ = Ok _ |- _ => injection H as H
  | H : (_, _) = (_, _) |- _ =>
      let E := fresh "E" in apply pair_equal_spec in H as [H E]
  end.
Ltac go_inv := repeat (go_inv_step; simplify_eq).
