(* ===== verification/External.v ===== *)
(** * Code outside the repository

    The daemon calls btcd, the Babylon staking and adaptor-signature libraries
    and the Cosmos SDK.  None of that code is in the repository, so it enters
    the development as a class of types and functions over which every component
    is generic.  A function that can only fail through its error result has type
    [errorOr]; a [Must...] function, which panics instead, has type [result].
    Nothing is assumed of any of them here: the few documented facts a theorem
    relies on are hypotheses of that theorem. *)

From S2P Require Import Prelude.
From Stdlib Require Import ZArith String Strings.Byte.
From stdpp Require Import base list strings.

Definition bytes : Type := list Byte.byte.

#[export] Instance byte_eq_dec : EqDecision Byte.byte := Byte.byte_eq_dec.

Class BtcLib := {
  (** btcec, schnorr, chainhash, wire, chaincfg, btcutil *)
  PublicKey : Type;
  PrivateKey : Type;
  SchnorrSignature : Type;
  Hash : Type;
  MsgTx : Type;
  NetParams : Type;
  Address : Type;
  SerializePubKey : PublicKey -> bytes;
  PrivKeyFromBytes : bytes -> PrivateKey * PublicKey;
  ParsePubKey : bytes -> errorOr PublicKey;
  TxHash : MsgTx -> Hash;
  HashString : Hash -> string;
  (** the values of [tx.TxOut], in order *)
  TxOutValues : MsgTx -> list Z;
  DecodeAddress : string -> NetParams -> errorOr Address;

  (** the five networks of chaincfg *)
  MainNetParams : NetParams;
  TestNet3Params : NetParams;
  RegressionNetParams : NetParams;
  SimNetParams : NetParams;
  SigNetParams : NetParams;
  (** btcutil.AppDataDir *)
  AppDataDir : string -> bool -> string;

  (** float64, only passed through *)
  Float64 : Type;

  (** cosmossdk.io/math *)
  LegacyDec : Type;
  sdkmath_Max : Z -> Z -> Z;

  (** cosmos/relayer *)
  RelayerEvent : Type;

  (** babylon/types and babylon/x/btcstaking/types *)
  BIP340PubKey : Type;
  BIP340Signature : Type;
  BTCSlashingTx : Type;
  NewBTCTxFromHex : string -> errorOr MsgTx;
  NewBTCSlashingTxFromHex : string -> errorOr BTCSlashingTx;
  ToMsgTx : BTCSlashingTx -> errorOr MsgTx;
  ToHexStr : BTCSlashingTx -> string;
  ToBTCPK : BIP340PubKey -> errorOr PublicKey;
  MustToBTCPK : BIP340PubKey -> result PublicKey;
  ToBTCSig : BIP340Signature -> errorOr SchnorrSignature;
  NewBIP340PubKeyFromBTCPK : PublicKey -> BIP340PubKey;
  NewBIP340SignatureFromBTCSig : SchnorrSignature -> BIP340Signature;
  BIP340MarshalHex : BIP340PubKey -> string;

  (** babylon/btcstaking *)
  StakingInfo : Type;
  UnbondingInfo : Type;
  SpendInfo : Type;
  CheckTransactions :
    forall (slashingTx fundingTx : MsgTx) (fundingOutputIdx : Z) (slashingTxMinFee : Z)
      (slashingRate : LegacyDec) (slashingAddress : Address) (stakerPk : PublicKey)
      (slashingChangeLockTime : Z) (net : NetParams), option error;
  BuildStakingInfo :
    forall (stakerKey : PublicKey) (fpKeys covenantKeys : list PublicKey) (covenantQuorum : Z)
      (stakingTime : Z) (stakingAmount : Z) (net : NetParams), errorOr StakingInfo;
  BuildUnbondingInfo :
    forall (stakerKey : PublicKey) (fpKeys covenantKeys : list PublicKey) (covenantQuorum : Z)
      (unbondingTime : Z) (unbondingAmount : Z) (net : NetParams), errorOr UnbondingInfo;
  StakingSlashingPathSpendInfo : StakingInfo -> errorOr SpendInfo;
  StakingUnbondingPathSpendInfo : StakingInfo -> errorOr SpendInfo;
  UnbondingSlashingPathSpendInfo : UnbondingInfo -> errorOr SpendInfo;
  GetPkScriptPath : SpendInfo -> bytes;
  SignTxWithOneScriptSpendInputStrict :
    forall (txToSign fundingTx : MsgTx) (fundingOutputIdx : Z) (script : bytes)
      (sk : PrivateKey), errorOr SchnorrSignature;

  (** babylon/crypto/schnorr-adaptor-signature *)
  EncryptionKey : Type;
  AdaptorSignature : Type;
  NewEncryptionKeyFromBTCPK : PublicKey -> errorOr EncryptionKey;
  EncSign :
    forall (slashingTx : BTCSlashingTx) (stakingMsgTx : MsgTx) (stakingOutputIdx : Z)
      (script : bytes) (sk : PrivateKey) (encKey : EncryptionKey), errorOr AdaptorSignature;
  MustMarshal : AdaptorSignature -> result bytes;
}.
