(* ===== verification/ToyLib.v ===== *)
(** * A small concrete instance of the external libraries

    The components are generic in the Bitcoin and staking libraries.  This
    instance makes the model executable: keys and signatures are byte strings,
    a transaction is its identifier and its output values, parsing fails on the
    empty string, and the staking library rejects one particular slashing
    transaction.  It shows that the hypotheses of the theorems can be met, and
    the examples of the other files run on it. *)

From S2P Require Import Prelude External.
From Stdlib Require Import ZArith String Strings.Byte.
From stdpp Require Import base list strings.

#[local] Open Scope string_scope.
#[local] Open Scope Z_scope.

Record toy_tx := mkToyTx {
  toy_id : string;
  toy_outs : list Z;
}.

Definition toy_nonempty {A} (s : string) (a : A) : errorOr A :=
  if String.eqb s "" then inl (errorString "empty input") else inr a.

Definition toy_key (b : bytes) : errorOr bytes :=
  match b with
  | [] => inl (errorString "empty key")
  | _ => inr b
  end.

#[export] Instance toy_BtcLib : BtcLib := {|
  PublicKey := bytes;
  PrivateKey := bytes;
  SchnorrSignature := bytes;
  Hash := string;
  MsgTx := toy_tx;
  NetParams := Z;
  Address := string;
  SerializePubKey := fun pk => pk;
  PrivKeyFromBytes := fun b => (b, b);
  ParsePubKey := toy_key;
  TxHash := toy_id;
  HashString := fun h => h;
  TxOutValues := toy_outs;
  DecodeAddress := fun s _ => toy_nonempty s s;
  MainNetParams := 0;
  TestNet3Params := 1;
  RegressionNetParams := 2;
  SimNetParams := 3;
  SigNetParams := 4;
  AppDataDir := fun name _ => "/home/user/." +:+ name;
  Float64 := Z;
  LegacyDec := Z;
  sdkmath_Max := Z.max;
  RelayerEvent := unit;
  BIP340PubKey := bytes;
  BIP340Signature := bytes;
  BTCSlashingTx := string;
  NewBTCTxFromHex := fun s =>
    toy_nonempty s (mkToyTx s (if String.eqb s "no-outputs" then [] else [5000]));
  NewBTCSlashingTxFromHex := fun s => toy_nonempty s s;
  ToMsgTx := fun s => inr (mkToyTx s [1000]);
  ToHexStr := fun s => s;
  ToBTCPK := toy_key;
  MustToBTCPK := fun b => match b with [] => Panic "invalid key" | _ => Ok b end;
  ToBTCSig := toy_key;
  NewBIP340PubKeyFromBTCPK := fun b => b;
  NewBIP340SignatureFromBTCSig := fun b => b;
  BIP340MarshalHex := fun _ => "";
  StakingInfo := Z;
  UnbondingInfo := Z;
  SpendInfo := bytes;
  CheckTransactions := fun slashing _ _ _ _ _ _ _ _ =>
    if String.eqb (toy_id slashing) "evil-slashing" then Some (errorString "rejected") else None;
  BuildStakingInfo := fun _ _ _ _ time _ _ => inr time;
  BuildUnbondingInfo := fun _ _ _ _ time _ _ => inr time;
  StakingSlashingPathSpendInfo := fun _ => inr [Byte.x01];
  StakingUnbondingPathSpendInfo := fun _ => inr [Byte.x02];
  UnbondingSlashingPathSpendInfo := fun _ => inr [Byte.x03];
  GetPkScriptPath := fun b => b;
  SignTxWithOneScriptSpendInputStrict := fun _ _ _ script sk => inr (script ++ sk)%list;
  EncryptionKey := bytes;
  AdaptorSignature := bytes;
  NewEncryptionKeyFromBTCPK := toy_key;
  EncSign := fun _ _ _ script sk enc => inr (script ++ sk ++ enc)%list;
  MustMarshal := fun sig => Ok sig;
|}.
