(* ===== verification/GoLib.v ===== *)
(** * The Go standard library, as far as the daemon uses it

    [encoding/hex], [strings], [path/filepath] (Unix separators) and
    [os.Expand].  Strings are Rocq strings, one character per byte. *)

From S2P Require Import Prelude External.
From Stdlib Require Import ZArith Lia String Ascii Strings.Byte.
From stdpp Require Import base list strings.

#[local] Open Scope string_scope.
#[local] Open Scope list_scope.
#[local] Open Scope nat_scope.

(** ** encoding/hex *)

Definition hextable : string := "0123456789abcdef".

Definition hexchar (n : N) : ascii :=
  match String.get (N.to_nat n) hextable with
  | Some c => c
  | None => "0"%char
  end.

Fixpoint hex_EncodeToString (src : bytes) : string :=
  match src with
  | [] => ""
  | v :: src' =>
      String (hexchar (N.shiftr (Byte.to_N v) 4))
        (String (hexchar (N.land (Byte.to_N v) 15)) (hex_EncodeToString src'))
  end.

(** [fromHexChar]: the value of a digit in either case. *)
Definition fromHexChar (c : ascii) : option N :=
  let n := N_of_ascii c in
  if (48 <=? n)%N && (n <=? 57)%N then Some (n - 48)%N
  else if (97 <=? n)%N && (n <=? 102)%N then Some (n - 87)%N
  else if (65 <=? n)%N && (n <=? 70)%N then Some (n - 55)%N
  else None.

Fixpoint hex_DecodeString (s : string) : option bytes :=
  match s with
  | "" => Some []
  | String a (String b s') =>
      hi ← fromHexChar a;
      lo ← fromHexChar b;
      v ← Byte.of_N (N.lor (N.shiftl hi 4) lo);
      rest ← hex_DecodeString s';
      mret (v :: rest)
  | String _ "" => None
  end.

Lemma hex_byte (v : Byte.byte) :
  fromHexChar (hexchar (N.shiftr (Byte.to_N v) 4)) = Some (N.shiftr (Byte.to_N v) 4) /\
  fromHexChar (hexchar (N.land (Byte.to_N v) 15)) = Some (N.land (Byte.to_N v) 15) /\
  Byte.of_N (N.lor (N.shiftl (N.shiftr (Byte.to_N v) 4) 4) (N.land (Byte.to_N v) 15)) = Some v.
Proof. by destruct v. Qed.

Lemma hex_decode_encode src : hex_DecodeString (hex_EncodeToString src) = Some src.
Proof.
  induction src as [|v src IH]; [done|]. cbn [hex_EncodeToString hex_DecodeString].
  destruct (hex_byte v) as (-> & -> & Hv). cbn. by rewrite Hv, IH.
Qed.

Lemma hex_encode_length src :
  String.length (hex_EncodeToString src) = 2 * length src.
Proof. induction src as [|v src IH]; cbn in *; lia. Qed.

#[export] Instance hex_encode_inj : Inj (=) (=) hex_EncodeToString.
Proof.
  intros a b H. apply (f_equal hex_DecodeString) in H.
  rewrite !hex_decode_encode in H. by simplify_eq.
Qed.

(** ** strings *)

Definition HasPrefix (s pre : string) : bool := String.prefix pre s.

(** [strings.Replace(s, old, new, 1)] for a one-character [old]. *)
Fixpoint Replace1 (s : string) (old : ascii) (new : string) : string :=
  match s with
  | "" => ""
  | String c s' => if Ascii.eqb c old then new +:+ s' else String c (Replace1 s' old new)
  end.

Definition ascii_ToLower (c : ascii) : ascii :=
  let n := N_of_ascii c in
  if (65 <=? n)%N && (n <=? 90)%N then ascii_of_N (n + 32)%N else c.

(** [strings.ToLower] on ASCII. *)
Fixpoint ToLower (s : string) : string :=
  match s with
  | "" => ""
  | String c s' => String (ascii_ToLower c) (ToLower s')
  end.

Lemma HasPrefix_cons c s p : HasPrefix (String c s) (String p "") = Ascii.eqb p c.
Proof.
  unfold HasPrefix. cbn. destruct (ascii_dec p c) as [->|Hne]; [rewrite Ascii.eqb_refl; by destruct s|].
  symmetry. by apply Ascii.eqb_neq.
Qed.

(** ** path/filepath on Unix *)

(** The elements between the separators of a path. *)
Fixpoint split_slash (s : string) : list string :=
  match s with
  | "" => [""]
  | String c s' =>
      if Ascii.eqb c "/" then "" :: split_slash s'
      else match split_slash s' with
           | x :: xs => String c x :: xs
           | [] => [String c ""]
           end
  end.

Definition is_rooted (path : string) : bool := HasPrefix path "/".

(** One element of [filepath.Clean]'s loop; [out] is the output so far, last
    element first. *)
Definition clean_step (rooted : bool) (out : list string) (elem : string) : list string :=
  if String.eqb elem "" then out
  else if String.eqb elem "." then out
  else if String.eqb elem ".." then
    match out with
    | [] => if rooted then [] else [".."]
    | top :: out' => if String.eqb top ".." then ".." :: out else out'
    end
  else elem :: out.

Definition render (rooted : bool) (out : list string) : string :=
  if rooted then "/" +:+ String.concat "/" (rev out)
  else match out with
       | [] => "."
       | _ => String.concat "/" (rev out)
       end.

Definition filepath_Clean (path : string) : string :=
  match path with
  | "" => "."
  | _ => render (is_rooted path)
           (fold_left (clean_step (is_rooted path)) (split_slash path) [])
  end.

Fixpoint filepath_Join (elem : list string) : string :=
  match elem with
  | [] => ""
  | "" :: elem' => filepath_Join elem'
  | _ => filepath_Clean (String.concat "/" elem)
  end.

(** [path.Join]: empty elements are ignored wherever they are. *)
Definition path_Join (elem : list string) : string :=
  match List.filter (fun e => negb (String.eqb e "")) elem with
  | [] => ""
  | elem' => filepath_Clean (String.concat "/" elem')
  end.

(** [filepath.Dir]: all but the last element, cleaned. *)
Definition filepath_Dir (path : string) : string :=
  filepath_Clean (match rev (split_slash path) with
                  | [] | [_] => ""
                  | _ :: front => String.concat "/" (rev front) +:+ "/"
                  end).

(** *** Cleaned paths are fixed points of [Clean] *)

Definition no_slash (e : string) : Prop := split_slash e = [e].

Definition real_elem (e : string) : Prop :=
  no_slash e /\ e <> "" /\ e <> "." /\ e <> "..".

(** The shape of the output of the loop: climbing elements only at the front,
    and none at all under the root. *)
Definition clean_out (rooted : bool) (out : list string) : Prop :=
  exists xs k, out = xs ++ replicate k ".." /\ Forall real_elem xs /\ (rooted = true -> k = 0).

Lemma split_slash_nonempty s : split_slash s <> [].
Proof. destruct s as [|c s]; cbn; [done|]. destruct (Ascii.eqb c "/"), (split_slash s); done. Qed.

Lemma split_slash_char c s :
  c <> "/"%char ->
  split_slash (String c s) =
  match split_slash s with
  | x :: xs => String c x :: xs
  | [] => [String c ""]
  end.
Proof. intros Hc. cbn. by destruct (Ascii.eqb_spec c "/"%char). Qed.

Lemma no_slash_cons c e : no_slash (String c e) <-> c <> "/"%char /\ no_slash e.
Proof.
  unfold no_slash. cbn. destruct (Ascii.eqb_spec c "/"%char) as [->|Hc].
  - split; [by intros [= H]; destruct (split_slash_nonempty e) | by intros [? _]].
  - pose proof (split_slash_nonempty e).
    destruct (split_slash e) as [|x xs]; [done|].
    split; [by intros [= -> ->] | by intros [_ [= -> ->]]].
Qed.

Lemma split_slash_elems s : Forall no_slash (split_slash s).
Proof.
  induction s as [|c s IH]; cbn; [by repeat constructor|].
  destruct (Ascii.eqb_spec c "/"%char) as [->|Hc]; [by constructor|].
  destruct (split_slash s) as [|x xs]; [constructor; [by apply no_slash_cons|done]|].
  inversion IH; subst. constructor; [by apply no_slash_cons|done].
Qed.

Lemma split_slash_app e s : no_slash e -> split_slash (e +:+ "/" +:+ s) = e :: split_slash s.
Proof.
  induction e as [|c e IH]; [done|]. rewrite no_slash_cons. intros [Hc He].
  change (String c e +:+ "/" +:+ s) with (String c (e +:+ "/" +:+ s)).
  by rewrite split_slash_char, IH.
Qed.

Lemma split_slash_concat es :
  es <> [] -> Forall no_slash es -> split_slash (String.concat "/" es) = es.
Proof.
  induction es as [|e es IH]; [done|]. intros _ Hall. inversion Hall as [|? ? He Hes]; subst.
  destruct es as [|e' es]; [done|].
  change (String.concat "/" (e :: e' :: es)) with (e +:+ "/" +:+ String.concat "/" (e' :: es)).
  by rewrite split_slash_app, IH.
Qed.

Lemma clean_step_real rooted out e : real_elem e -> clean_step rooted out e = e :: out.
Proof.
  intros (_ & H1 & H2 & H3). unfold clean_step.
  apply String.eqb_neq in H1, H2, H3. by rewrite H1, H2, H3.
Qed.

Lemma clean_step_out rooted out e :
  no_slash e -> clean_out rooted out -> clean_out rooted (clean_step rooted out e).
Proof.
  intros He (xs & k & -> & Hxs & Hk). unfold clean_step.
  destruct (String.eqb_spec e ""); [by exists xs, k|].
  destruct (String.eqb_spec e "."); [by exists xs, k|].
  destruct (String.eqb_spec e "..") as [->|].
  - destruct xs as [|x xs]; cbn [app].
    + destruct k as [|k]; cbn [replicate].
      * destruct rooted; [by exists [], 0 | by exists [], 1].
      * destruct rooted; [by specialize (Hk eq_refl) | by exists [], (S (S k))].
    + inversion Hxs as [|? ? (_ & _ & _ & Hx) Hxs']; subst.
      apply String.eqb_neq in Hx. rewrite Hx. by exists xs, k.
  - exists (e :: xs), k. split_and!; [done| |done]. by repeat constructor.
Qed.

Lemma clean_fold_out rooted es out :
  Forall no_slash es -> clean_out rooted out ->
  clean_out rooted (fold_left (clean_step rooted) es out).
Proof.
  intros Hes. revert out. induction Hes; cbn; [done|]. auto using clean_step_out.
Qed.

Lemma clean_fold_dotdot k out :
  Forall (eq "..") out ->
  fold_left (clean_step false) (replicate k "..") out = replicate k ".." ++ out.
Proof.
  revert out. induction k as [|k IH]; intros out Hout; [done|]. cbn [replicate fold_left].
  assert (clean_step false out ".." = ".." :: out) as ->.
  { destruct out as [|t out]; [done|]. inversion Hout; subst. done. }
  rewrite IH by (by constructor). by rewrite (replicate_cons_app k "..") , <- app_assoc.
Qed.

Lemma clean_fold_real rooted xs out :
  Forall real_elem xs -> fold_left (clean_step rooted) xs out = rev xs ++ out.
Proof.
  intros Hxs. revert out. induction Hxs as [|x xs Hx Hxs IH]; intros out; [done|].
  cbn [fold_left rev]. by rewrite clean_step_real, IH, <- app_assoc.
Qed.

(** Running the loop over its own output reproduces it. *)
Lemma clean_fold_fixed rooted out :
  clean_out rooted out -> fold_left (clean_step rooted) (rev out) [] = out.
Proof.
  intros (xs & k & -> & Hxs & Hk).
  rewrite rev_app_distr, fold_left_app.
  assert (rev (replicate k "..") = replicate k "..") as ->.
  { rewrite rev_alt. apply reverse_replicate. }
  assert (fold_left (clean_step rooted) (replicate k "..") [] = replicate k "..") as ->.
  { destruct rooted; [by rewrite Hk|]. by rewrite clean_fold_dotdot, app_nil_r. }
  rewrite clean_fold_real by (by apply List.Forall_rev).
  by rewrite rev_involutive.
Qed.

Lemma clean_out_no_slash rooted out : clean_out rooted out -> Forall no_slash (rev out).
Proof.
  intros (xs & k & -> & Hxs & _). apply List.Forall_rev, Forall_app. split.
  - by eapply Forall_impl; [exact Hxs|intros e (? & _)].
  - by apply Forall_replicate.
Qed.

Lemma rooted_head e es :
  no_slash e -> e <> "" -> is_rooted (String.concat "/" (e :: es)) = false.
Proof.
  destruct e as [|c e]; [done|]. rewrite no_slash_cons. intros [Hc _] _.
  assert (exists s, String.concat "/" (String c e :: es) = String c s) as [s ->].
  { destruct es; eexists; reflexivity. }
  unfold is_rooted. rewrite HasPrefix_cons. apply Ascii.eqb_neq. congruence.
Qed.

Lemma clean_out_head rooted out e es :
  clean_out rooted out -> rev out = e :: es -> no_slash e /\ e <> "".
Proof.
  intros (xs & k & -> & Hxs & _) Hrev.
  assert (e ∈ xs ++ replicate k "..") as He.
  { apply list_elem_of_In, in_rev. rewrite Hrev. by left. }
  apply elem_of_app in He as [He|He].
  - rewrite Forall_forall in Hxs. by destruct (Hxs e He) as (? & ? & _).
  - apply elem_of_replicate in He as [-> _]. done.
Qed.

Lemma is_rooted_slash s : is_rooted ("/" +:+ s) = true.
Proof. apply HasPrefix_cons. Qed.

Lemma filepath_Clean_slash s :
  filepath_Clean ("/" +:+ s) = render true (fold_left (clean_step true) (split_slash s) []).
Proof.
  unfold filepath_Clean. rewrite is_rooted_slash. by change ("/" +:+ s) with (String "/" s).
Qed.

Lemma clean_render_fixed rooted out :
  clean_out rooted out -> filepath_Clean (render rooted out) = render rooted out.
Proof.
  intros Hout. pose proof (clean_fold_fixed _ _ Hout) as Hfix.
  pose proof (clean_out_no_slash _ _ Hout) as Hns.
  destruct rooted; cbn [render].
  - rewrite filepath_Clean_slash. destruct (rev out) as [|e es] eqn:Hr.
    + by apply (f_equal (@rev string)) in Hr; rewrite rev_involutive in Hr; subst.
    + rewrite split_slash_concat, Hfix by done. cbn [render]. by rewrite Hr.
  - destruct out as [|t out]; [done|]. unfold render.
    destruct (rev (t :: out)) as [|e es] eqn:Hr.
    { by apply (f_equal (@rev string)) in Hr; rewrite rev_involutive in Hr. }
    destruct (clean_out_head _ _ _ _ Hout Hr) as [He1 He2].
    unfold filepath_Clean. rewrite rooted_head by done.
    rewrite split_slash_concat, Hfix by done. cbn [render]. rewrite Hr.
    destruct (String.concat "/" (e :: es)) eqn:Hc; [|done].
    destruct e; [done|]. by destruct es.
Qed.

Lemma filepath_Clean_fixed path : filepath_Clean (filepath_Clean path) = filepath_Clean path.
Proof.
  destruct path as [|c path]; [done|]. cbn [filepath_Clean].
  apply clean_render_fixed, clean_fold_out; [apply split_slash_elems|].
  by exists [], 0.
Qed.

Lemma filepath_Clean_rooted path :
  is_rooted path = true -> is_rooted (filepath_Clean path) = true.
Proof.
  intros H. destruct path as [|c path]; [done|]. unfold filepath_Clean. rewrite H.
  cbn [render]. apply is_rooted_slash.
Qed.

(** ** os.Expand *)

Definition isShellSpecialVar (c : ascii) : bool :=
  let n := N_of_ascii c in
  existsb (fun d => Ascii.eqb c d) ["*"; "#"; "$"; "@"; "!"; "?"; "-"]%char
  || ((48 <=? n)%N && (n <=? 57)%N).

Definition isAlphaNum (c : ascii) : bool :=
  let n := N_of_ascii c in
  Ascii.eqb c "_" || ((48 <=? n)%N && (n <=? 57)%N)
  || ((97 <=? n)%N && (n <=? 122)%N) || ((65 <=? n)%N && (n <=? 90)%N).

(** The text before the first closing brace, when there is one. *)
Fixpoint scan_brace (s : string) : option string :=
  match s with
  | "" => None
  | String c s' => if Ascii.eqb c "}" then Some "" else String c <$> scan_brace s'
  end.

Fixpoint alnum_prefix (s : string) : string :=
  match s with
  | String c s' => if isAlphaNum c then String c (alnum_prefix s') else ""
  | "" => ""
  end.

(** The variable name at the front of [s] and the number of bytes it takes. *)
Definition getShellName (s : string) : string * nat :=
  match s with
  | "" => ("", 0)
  | String c s' =>
      if Ascii.eqb c "{" then
        let scan :=
          match scan_brace s' with
          | Some "" => ("", 2)
          | Some name => (name, String.length name + 2)
          | None => ("", 1)
          end in
        match s' with
        | String c1 (String c2 _) =>
            if isShellSpecialVar c1 && Ascii.eqb c2 "}" then (String c1 "", 3) else scan
        | _ => scan
        end
      else if isShellSpecialVar c then (String c "", 1)
      else let name := alnum_prefix s in (name, String.length name)
  end.

(** [skip] counts the bytes of a variable reference still to be passed over. *)
Fixpoint expand_from (mapping : string -> string) (skip : nat) (s : string) : string :=
  match s with
  | "" => ""
  | String c s' =>
      match skip with
      | S skip' => expand_from mapping skip' s'
      | 0 =>
          if Ascii.eqb c "$" && negb (String.eqb s' "") then
            let '(name, w) := getShellName s' in
            (if String.eqb name ""
             then (if Nat.ltb 0 w then "" else "$")
             else mapping name) +:+ expand_from mapping w s'
          else String c (expand_from mapping 0 s')
      end
  end.

Definition os_Expand (s : string) (mapping : string -> string) : string :=
  expand_from mapping 0 s.

(** Text without a dollar sign is left alone. *)
Fixpoint no_dollar (s : string) : bool :=
  match s with
  | "" => true
  | String c s' => negb (Ascii.eqb c "$") && no_dollar s'
  end.

Lemma os_Expand_no_dollar s mapping : no_dollar s = true -> os_Expand s mapping = s.
Proof.
  unfold os_Expand. induction s as [|c s IH]; [done|]. cbn [no_dollar expand_from].
  destruct (Ascii.eqb c "$"); [done|]. cbn. intros H. by rewrite IH.
Qed.
