(* ===== verification/Util.v ===== *)
(** * Files and paths: package [util]

    [FileExists], [MakeDirectory] and [CleanAndExpandPath] of
    [src/util/path.go], over an operating system given by its system calls. *)

From S2P Require Import Prelude External GoLib.
From Stdlib Require Import ZArith Lia String Ascii.
From stdpp Require Import base list strings.

#[local] Open Scope string_scope.
#[local] Open Scope Z_scope.

(** An error of package [os]: what [os.IsExist] and [os.IsNotExist] say of it,
    and the path it carries when it is a [*os.PathError]. *)
Record OsError := mkOsError {
  OsError_path : option string;
  IsExist : bool;
  IsNotExist : bool;
  OsError_error : error;
}.

(** The operating system over a world [W]; reading calls leave the world alone. *)
Record OS (W : Type) := mkOS {
  user_Current : W -> errorOr string;
  Getenv : W -> string -> string;
  Getwd : W -> errorOr string;
  UserHomeDir : W -> errorOr string;
  os_Stat : W -> string -> option OsError;
  os_MkdirAll : string -> Z -> W -> option OsError * W;
  os_Readlink : W -> string -> errorOr string;
  (** name, flags and permissions; the result is a file handle *)
  os_OpenFile : string -> Z -> Z -> Go W nat;
}.
Arguments user_Current {W} _ _.
Arguments Getenv {W} _ _ _.
Arguments Getwd {W} _ _.
Arguments UserHomeDir {W} _ _.
Arguments os_Stat {W} _ _ _.
Arguments os_MkdirAll {W} _ _ _ _.
Arguments os_Readlink {W} _ _ _.
Arguments os_OpenFile {W} _ _ _ _.

Section util.
Context {W : Type} (os : OS W).

Definition FileExists (name : string) (w : W) : bool :=
  match os_Stat os w name with
  | Some err => if IsNotExist err then false else true
  | None => true
  end.

Definition MakeDirectory (dir : string) : Go W unit := fun w =>
  match os_MkdirAll os dir 448 (* 0700 *) w with
  | (None, w') => (Ok tt, w')
  | (Some err, w') =>
      let shown :=
        match OsError_path err with
        | Some path =>
            if IsExist err then
              match os_Readlink os w' path with
              | inr link => Errorf "is symlink %s -> %s mounted?" [FStr path; FStr link]
              | inl _ => OsError_error err
              end
            else OsError_error err
        | None => OsError_error err
        end in
      (Err (Errorf "failed to create dir %s: %w" [FStr dir; FErr shown]), w')
  end.

Definition CleanAndExpandPath (path : string) (w : W) : string :=
  if String.eqb path "" then "" else
  let path :=
    if HasPrefix path "~" then
      let homeDir :=
        match user_Current os w with
        | inr homeDir => homeDir
        | inl _ => Getenv os w "HOME"
        end in
      Replace1 path "~" homeDir
    else path in
  filepath_Clean (os_Expand path (Getenv os w)).

(** [filepath.Abs] on Unix. *)
Definition filepath_Abs (path : string) (w : W) : result string :=
  if is_rooted path then Ok (filepath_Clean path) else
  wd ← of_errorOr (Getwd os w);
  Ok (filepath_Join [wd; path]).

End util.

(** ** Facts and properties *)

Section facts.
Context {W : Type} (os : OS W).

Lemma filepath_Join_rooted wd p :
  is_rooted wd = true -> is_rooted (filepath_Join [wd; p]) = true /\
  filepath_Clean (filepath_Join [wd; p]) = filepath_Join [wd; p].
Proof.
  intros H. destruct wd as [|c wd]; [done|].
  change (filepath_Join [String c wd; p]) with
    (filepath_Clean (String c (wd +:+ "/" +:+ p))).
  split; [|apply filepath_Clean_fixed]. apply filepath_Clean_rooted.
  revert H. unfold is_rooted. by rewrite !HasPrefix_cons.
Qed.

Lemma filepath_Abs_rooted p w q wd :
  Getwd os w = inr wd -> is_rooted wd = true -> filepath_Abs os p w = Ok q ->
  is_rooted q = true /\ filepath_Clean q = q.
Proof.
  unfold filepath_Abs. intros Hwd Hr. destruct (is_rooted p) eqn:Hp.
  - intros [= <-]. split; [by apply filepath_Clean_rooted|apply filepath_Clean_fixed].
  - rewrite Hwd. intros [= <-]. by apply filepath_Join_rooted.
Qed.

Lemma rooted_no_tilde q : is_rooted q = true -> HasPrefix q "~" = false.
Proof.
  destruct q as [|c q]; [done|]. unfold is_rooted. rewrite !HasPrefix_cons.
  by intros <-%Ascii.eqb_eq.
Qed.

(** The result of [CleanAndExpandPath] on a non-empty path is in cleaned form:
    cleaning it again changes nothing, whatever the home directory and the
    environment variables expand to. *)
Lemma expanded_path_is_clean path w :
  path <> "" ->
  filepath_Clean (CleanAndExpandPath os path w) = CleanAndExpandPath os path w.
Proof.
  intros Hp. apply String.eqb_neq in Hp. unfold CleanAndExpandPath. rewrite Hp.
  apply filepath_Clean_fixed.
Qed.

(** C36: The commands [init] and [start] call [CleanAndExpandPath] on the result of
    [filepath.Abs].  On such a path (without a dollar sign) the function is the
    identity: a leading tilde is never replaced by the home directory, because
    [Abs] has already put the working directory in front of it. *)
Theorem abs_path_is_never_tilde_expanded path w q wd :
  Getwd os w = inr wd -> is_rooted wd = true ->
  filepath_Abs os path w = Ok q -> no_dollar q = true ->
  CleanAndExpandPath os q w = q.
Proof.
  intros Hwd Hr Habs Hd. destruct (filepath_Abs_rooted _ _ _ _ Hwd Hr Habs) as [Hq Hc].
  unfold CleanAndExpandPath. rewrite rooted_no_tilde, os_Expand_no_dollar by done.
  by destruct q.
Qed.

End facts.

(** *** Runs on a concrete system *)

Definition toy_OS {W} : OS W := {|
  user_Current := fun _ => inr "/home/user";
  Getenv := fun _ name => if String.eqb name "DATA" then "/data" else "";
  Getwd := fun _ => inr "/work";
  UserHomeDir := fun _ => inr "/home/user";
  os_Stat := fun _ _ => None;
  os_MkdirAll := fun _ _ w => (None, w);
  os_Readlink := fun _ _ => inl (errorString "not a link");
  os_OpenFile := fun _ _ _ w => (Ok 3%nat, w);
|}.

Lemma expanded_path_is_clean_witness :
  filepath_Clean (CleanAndExpandPath toy_OS "~/.covd/../$DATA//x/" tt) = "/home/user/data/x".
Proof.
  rewrite expanded_path_is_clean; [reflexivity|done].
Defined.

(** [covd init --home '~/covd'] initialises a directory named tilde. *)
Lemma abs_path_is_never_tilde_expanded_witness :
  filepath_Abs toy_OS "~/covd" tt = Ok "/work/~/covd" /\
  CleanAndExpandPath toy_OS "/work/~/covd" tt = "/work/~/covd".
Proof.
  split; [reflexivity|].
  apply (abs_path_is_never_tilde_expanded toy_OS "~/covd" tt "/work/~/covd" "/work");
    reflexivity.
Defined.
