(* ===== verification/Types.v ===== *)
(** * The data the daemon works on

    Package [types] of the repository: delegations and their undelegations, the
    staking parameters, the signatures the daemon produces, and the small methods
    on them ([HasCovenantQuorum], [GetStakingTime], [MinimumUnbondingTime]).
    A pointer that the code tests against nil, or follows without testing, is an
    [option]; key and signature pointers, which every constructor in the
    repository takes from a successful parse, are the key or signature itself. *)

From S2P Require Import Prelude External ToyLib.
From Stdlib Require Import ZArith Lia String.
From stdpp Require Import base list strings.

#[local] Open Scope Z_scope.

Section types.
Context {L : BtcLib}.

Record CovenantAdaptorSigInfo := mkCovenantAdaptorSigInfo {
  CovenantAdaptorSigInfo_Pk : PublicKey;
  CovenantAdaptorSigInfo_Sigs : list bytes;
}.

Record CovenantSchnorrSigInfo := mkCovenantSchnorrSigInfo {
  CovenantSchnorrSigInfo_Pk : PublicKey;
  CovenantSchnorrSigInfo_Sig : SchnorrSignature;
}.

Record Undelegation := mkUndelegation {
  UnbondingTxHex : string;
  Undelegation_SlashingTxHex : string;
  CovenantSlashingSigs : list (option CovenantAdaptorSigInfo);
  CovenantUnbondingSigs : list (option CovenantSchnorrSigInfo);
  DelegatorUnbondingSig : option BIP340Signature;
}.

Record Delegation := mkDelegation {
  BtcPk : PublicKey;
  FpBtcPks : list PublicKey;
  StartHeight : Z;
  EndHeight : Z;
  TotalSat : Z;
  StakingTxHex : string;
  StakingOutputIdx : Z;
  SlashingTxHex : string;
  UnbondingTime : Z;
  Delegation_CovenantSigs : list (option CovenantAdaptorSigInfo);
  BtcUndelegation : option Undelegation;
}.

Record StakingParams := mkStakingParams {
  ComfirmationTimeBlocks : Z;
  FinalizationTimeoutBlocks : Z;
  MinSlashingTxFeeSat : Z;
  CovenantPks : list PublicKey;
  SlashingAddress : Address;
  CovenantQuorum : Z;
  SlashingRate : LegacyDec;
  MinComissionRate : LegacyDec;
  MinUnbondingTime : Z;
}.

Record CovenantSigs := mkCovenantSigs {
  CovenantSigs_PublicKey : PublicKey;
  StakingTxHash : Hash;
  SlashingSigs : list bytes;
  UnbondingSig : SchnorrSignature;
  SlashingUnbondingSigs : list bytes;
}.

(** A [RelayerEvent] is only passed through. *)
Record TxResponse := mkTxResponse {
  TxResponse_TxHash : string;
  TxResponse_Events : list RelayerEvent;
}.

Record ChainKeyInfo := mkChainKeyInfo {
  ChainKeyInfo_Name : string;
  ChainKeyInfo_Mnemonic : string;
  ChainKeyInfo_PublicKey : PublicKey;
  ChainKeyInfo_PrivateKey : PrivateKey;
}.

(** The Go field types bound the integers of a delegation and of the parameters. *)
Definition wf_Delegation (d : Delegation) : Prop :=
  in_u64 (StartHeight d) /\ in_u64 (EndHeight d) /\ in_u64 (TotalSat d) /\
  in_u32 (StakingOutputIdx d) /\ in_u32 (UnbondingTime d) /\
  slice_ok (Delegation_CovenantSigs d).

Definition wf_StakingParams (p : StakingParams) : Prop :=
  in_u64 (ComfirmationTimeBlocks p) /\ in_u64 (FinalizationTimeoutBlocks p) /\
  in_i64 (MinSlashingTxFeeSat p) /\ in_u32 (CovenantQuorum p) /\ in_u32 (MinUnbondingTime p).

(** ** Quorum tests *)

Definition HasCovenantQuorumOnSlashing (ud : option Undelegation) (quorum : Z) : result bool :=
  ud ← go_deref ud;
  mret (quorum <=? go_len (CovenantUnbondingSigs ud)).

Definition HasCovenantQuorumOnUnbonding (ud : option Undelegation) (quorum : Z) : result bool :=
  ud ← go_deref ud;
  mret (quorum <=? go_len (CovenantUnbondingSigs ud)).

Definition HasAllSignatures (ud : option Undelegation) (covenantQuorum : Z) : result bool :=
  onUnbonding ← HasCovenantQuorumOnUnbonding ud covenantQuorum;
  if (onUnbonding : bool) then HasCovenantQuorumOnSlashing ud covenantQuorum else mret false.

Definition HasCovenantQuorum (d : Delegation) (quorum : Z) : result bool :=
  if quorum <=? u32 (go_len (Delegation_CovenantSigs d))
  then HasAllSignatures (BtcUndelegation d) quorum
  else mret false.

(** ** Timelocks *)

Definition GetStakingTime (d : Delegation) : result Z :=
  let diff := u64 (EndHeight d - StartHeight d) in
  if MaxUint16 <? diff then Panic "invalid delegation in database" else Ok (u16 diff).

Definition MinimumUnbondingTime (p : StakingParams) : Z :=
  sdkmath_Max (MinUnbondingTime p) (FinalizationTimeoutBlocks p).

End types.

(** ** What the methods compute *)

Section facts.
Context {L : BtcLib}.
Implicit Types (d : Delegation) (ud : Undelegation) (p : StakingParams).

Lemma HasAllSignatures_run ud q :
  HasAllSignatures (Some ud) q = Ok (q <=? go_len (CovenantUnbondingSigs ud)).
Proof. cbn. by destruct (q <=? _). Qed.

(** With an undelegation present the quorum test always returns. *)
Lemma HasCovenantQuorum_run d ud q :
  BtcUndelegation d = Some ud ->
  HasCovenantQuorum d q =
  Ok ((q <=? u32 (go_len (Delegation_CovenantSigs d))) &&
      (q <=? go_len (CovenantUnbondingSigs ud))).
Proof.
  intros Hud. unfold HasCovenantQuorum. rewrite Hud, HasAllSignatures_run.
  by destruct (q <=? u32 _).
Qed.

Lemma GetStakingTime_in_range d :
  0 <= EndHeight d - StartHeight d <= MaxUint16 ->
  GetStakingTime d = Ok (EndHeight d - StartHeight d).
Proof.
  unfold MaxUint16. intros H. unfold GetStakingTime.
  rewrite u64_id by (unfold in_u64; lia).
  destruct (Z.ltb_spec MaxUint16 (EndHeight d - StartHeight d)); unfold MaxUint16 in *; [lia|].
  by rewrite u16_id by (unfold in_u16; lia).
Qed.

(** Bitcoin heights are far below [2^63]: there the subtraction that borrows
    lands above [MaxUint16], so a reversed interval is caught. *)
Lemma GetStakingTime_out_of_range d :
  0 <= StartHeight d < 2 ^ 63 -> 0 <= EndHeight d < 2 ^ 63 ->
  ~ (0 <= EndHeight d - StartHeight d <= MaxUint16) ->
  GetStakingTime d = Panic "invalid delegation in database".
Proof.
  unfold MaxUint16. intros Hs He Hr. unfold GetStakingTime.
  destruct (Z.ltb_spec MaxUint16 (u64 (EndHeight d - StartHeight d))) as [|Hle]; [done|].
  exfalso. unfold MaxUint16 in Hle. destruct (Z.lt_ge_cases (EndHeight d) (StartHeight d)).
  - rewrite u64_sub_borrow in Hle; unfold in_u64; lia.
  - rewrite u64_id in Hle; unfold in_u64; lia.
Qed.

Lemma GetStakingTime_range d t : GetStakingTime d = Ok t -> in_u16 t.
Proof.
  unfold GetStakingTime. destruct (_ <? _); [done|]. intros [= <-]. apply u16_range.
Qed.

End facts.

#[export] Hint Resolve GetStakingTime_range : covdb.

(** ** Properties *)

Section properties.
Context {L : BtcLib}.
Implicit Types (d : Delegation) (ud : Undelegation) (p : StakingParams).

(** The undelegation of [d] with other slashing signatures. *)
Definition with_slashing_sigs (d : Delegation) (ud : Undelegation)
    (sigs : list (option CovenantAdaptorSigInfo)) : Delegation :=
  mkDelegation (BtcPk d) (FpBtcPks d) (StartHeight d) (EndHeight d) (TotalSat d)
    (StakingTxHex d) (StakingOutputIdx d) (SlashingTxHex d) (UnbondingTime d)
    (Delegation_CovenantSigs d)
    (Some (mkUndelegation (UnbondingTxHex ud) (Undelegation_SlashingTxHex ud) sigs
             (CovenantUnbondingSigs ud) (DelegatorUnbondingSig ud))).

(** C26: For a delegation with an undelegation, and below [2^32] recorded
    signatures, [HasCovenantQuorum] returns (it does not panic) and answers true
    exactly when both the number of covenant signatures on the slashing
    transaction and the number on the unbonding transaction reach the quorum. *)
Theorem quorum_counts_signatures d ud q :
  BtcUndelegation d = Some ud -> go_len (Delegation_CovenantSigs d) < 2 ^ 32 ->
  exists b, HasCovenantQuorum d q = Ok b /\
    (b = true <-> q <= go_len (Delegation_CovenantSigs d) /\
                  q <= go_len (CovenantUnbondingSigs ud)).
Proof.
  intros Hud Hlen. eexists. split; [by apply HasCovenantQuorum_run|].
  rewrite u32_id by (pose proof (go_len_nonneg (Delegation_CovenantSigs d)); unfold in_u32; lia).
  rewrite andb_true_iff, !Z.leb_le. done.
Qed.

(** The quorum test never looks at the covenant's signatures on the slashing
    transaction of the unbonding output: replacing them by any other list, in
    particular by none, changes no answer.  [HasCovenantQuorumOnSlashing] counts
    [CovenantUnbondingSigs] instead of [CovenantSlashingSigs]. *)
Lemma quorum_ignores_unbonding_slashing_sigs d ud sigs q :
  BtcUndelegation d = Some ud ->
  HasCovenantQuorum (with_slashing_sigs d ud sigs) q = HasCovenantQuorum d q.
Proof.
  intros Hud. rewrite (HasCovenantQuorum_run d ud) by done.
  by erewrite HasCovenantQuorum_run by reflexivity.
Qed.

(** C27: For block heights below [2^63] the staking time is the length of the
    height interval when that is between 0 and 65535, and otherwise, including
    when the unsigned subtraction borrows because the heights are reversed,
    [GetStakingTime] panics. *)
Theorem staking_time_is_interval_or_panic d :
  0 <= StartHeight d < 2 ^ 63 -> 0 <= EndHeight d < 2 ^ 63 ->
  GetStakingTime d =
  (if decide (0 <= EndHeight d - StartHeight d <= MaxUint16)
   then Ok (EndHeight d - StartHeight d)
   else Panic "invalid delegation in database").
Proof.
  intros Hs He. case_decide.
  - by apply GetStakingTime_in_range.
  - by apply GetStakingTime_out_of_range.
Qed.

End properties.

(** *** Runs on concrete values *)

Definition toy_undel (slashingSigs : list (option CovenantAdaptorSigInfo))
    (unbondingSigs : list (option CovenantSchnorrSigInfo)) : Undelegation :=
  mkUndelegation "unbonding" "unbonding-slashing" slashingSigs unbondingSigs None.

Definition toy_del (start stop time : Z) (sigs : list (option CovenantAdaptorSigInfo))
    (u : option Undelegation) : Delegation :=
  mkDelegation [Byte.x11] [[Byte.x21]; [Byte.x22]] start stop 100000 "staking" 0 "slashing" time
    sigs u.

Definition toy_asig (pk : bytes) : option CovenantAdaptorSigInfo :=
  Some (mkCovenantAdaptorSigInfo (pk : PublicKey) []).

Definition toy_ssig (pk : bytes) : option CovenantSchnorrSigInfo :=
  Some (mkCovenantSchnorrSigInfo (pk : PublicKey) ([] : SchnorrSignature)).

Definition toy_complete : Delegation :=
  toy_del 100 200 150 [toy_asig [Byte.x31]; toy_asig [Byte.x32]]
    (Some (toy_undel [] [toy_ssig [Byte.x31]; toy_ssig [Byte.x32]])).

Lemma quorum_counts_signatures_witness :
  exists b, HasCovenantQuorum toy_complete 2 = Ok b /\
    (b = true <-> 2 <= go_len (Delegation_CovenantSigs toy_complete) /\ 2 <= 2).
Proof.
  apply (quorum_counts_signatures toy_complete
           (toy_undel [] [toy_ssig [Byte.x31]; toy_ssig [Byte.x32]]) 2); [reflexivity|].
  reflexivity.
Defined.

(** A delegation without a single signature on its unbonding slashing transaction
    passes for complete. *)
Lemma quorum_ignores_unbonding_slashing_sigs_witness :
  HasCovenantQuorum
    (with_slashing_sigs toy_complete
       (toy_undel [] [toy_ssig [Byte.x31]; toy_ssig [Byte.x32]])
       [toy_asig [Byte.x31]; toy_asig [Byte.x32]]) 2 = HasCovenantQuorum toy_complete 2 /\
  HasCovenantQuorum toy_complete 2 = Ok true.
Proof.
  split; [|reflexivity]. apply quorum_ignores_unbonding_slashing_sigs. reflexivity.
Defined.

Lemma staking_time_is_interval_or_panic_witness :
  GetStakingTime toy_complete = Ok 100 /\
  GetStakingTime (toy_del 200 100 150 [] None) = Panic "invalid delegation in database".
Proof.
  split.
  - rewrite staking_time_is_interval_or_panic by (cbn; lia). reflexivity.
  - rewrite staking_time_is_interval_or_panic by (cbn; lia). reflexivity.
Defined.
