(* ===== verification/Log.v ===== *)
(** * The logger: package [log]

    [NewRootLogger] and [NewRootLoggerWithFile] of [src/log/log.go]: how the
    format and the level named in the configuration become a zap logger.  The
    logger is kept as the three things it is built from; what it writes is not
    modelled.  Of the encoder's configuration the two fields the code sets are kept,
    the others are those of [zap.NewProductionEncoderConfig]. *)

From S2P Require Import Prelude External GoLib Util.
From Stdlib Require Import ZArith Lia String.
From stdpp Require Import base list strings.

#[local] Open Scope string_scope.
#[local] Open Scope list_scope.
#[local] Open Scope Z_scope.

(** [EncodeTime] formats the time in UTC with a layout. *)
Record EncoderConfig := mkEncoderConfig {
  EncodeTime_UTC_layout : string;
  LevelKey : string;
}.

Definition encoder_config : EncoderConfig :=
  {| EncodeTime_UTC_layout := "2006-01-02T15:04:05.000000Z07:00"; LevelKey := "lvl" |}.

Inductive Encoder :=
| JSONEncoder (cfg : EncoderConfig)
| ConsoleEncoder (cfg : EncoderConfig)
| LogfmtEncoder (cfg : EncoderConfig).

Inductive Level := DebugLevel | InfoLevel | WarnLevel | ErrorLevel | PanicLevel | FatalLevel.

Inductive Writer :=
| Stdout
| File (fd : nat)
| MultiWriter (w1 w2 : Writer).

Record Logger := mkLogger {
  logger_enc : Encoder;
  logger_out : Writer;
  logger_lvl : Level;
}.

(** The switch on the format. *)
Definition encoder_of (cfg : EncoderConfig) (format : string) : result Encoder :=
  if String.eqb format "json" then Ok (JSONEncoder cfg)
  else if String.eqb format "auto" then Ok (ConsoleEncoder cfg)
  else if String.eqb format "console" then Ok (ConsoleEncoder cfg)
  else if String.eqb format "logfmt" then Ok (LogfmtEncoder cfg)
  else Err (Errorf "unrecognized log format %q" [FStr format]).

(** The switch on the level. *)
Definition level_of (level : string) : result Level :=
  let lower := ToLower level in
  if String.eqb lower "panic" then Ok PanicLevel
  else if String.eqb lower "fatal" then Ok FatalLevel
  else if String.eqb lower "error" then Ok ErrorLevel
  else if String.eqb lower "warn" then Ok WarnLevel
  else if String.eqb lower "warning" then Ok WarnLevel
  else if String.eqb lower "info" then Ok InfoLevel
  else if String.eqb lower "debug" then Ok DebugLevel
  else Err (Errorf "unsupported log level: %s" [FStr level]).

Definition NewRootLogger (format level : string) (w : Writer) : result Logger :=
  enc ← encoder_of encoder_config format;
  lvl ← level_of level;
  mret {| logger_enc := enc; logger_out := w; logger_lvl := lvl |}.

Definition O_WRONLY : Z := 1.
Definition O_CREATE : Z := 64.
Definition O_APPEND : Z := 1024.

Section file.
Context {W : Type} (os : OS W).

Definition NewRootLoggerWithFile (logFile level : string) : Go W Logger :=
  MakeDirectory os (filepath_Dir logFile);;
  f ← os_OpenFile os logFile (Z.lor O_CREATE (Z.lor O_WRONLY O_APPEND)) 438 (* 0666 *);
  lift (NewRootLogger "console" level (MultiWriter Stdout (File f))).

End file.

(** ** Levels *)

(** The levels the logger knows, by the names it accepts for them. *)
Definition level_table : list (string * Level) :=
  [("panic", PanicLevel); ("fatal", FatalLevel); ("error", ErrorLevel); ("warn", WarnLevel);
   ("warning", WarnLevel); ("info", InfoLevel); ("debug", DebugLevel)].

(** The names the configuration offers as choices for its log level. *)
Definition config_levels : list string := ["trace"; "debug"; "info"; "warn"; "error"; "fatal"].

Lemma level_of_Ok level lvl : level_of level = Ok lvl <-> (ToLower level, lvl) ∈ level_table.
Proof.
  unfold level_of, level_table. rewrite !elem_of_cons, elem_of_nil.
  repeat match goal with
    |- context [String.eqb ?a ?b] => destruct (String.eqb_spec a b) as [->|]
  end; split; intros H; try (injection H as <-); intuition congruence.
Qed.

(** What happens to every choice of the configuration but "trace", which the
    logger does not know. *)
Lemma config_level_accepted level :
  level ∈ config_levels -> level = "trace" \/ exists lvl, level_of level = Ok lvl.
Proof.
  unfold config_levels. rewrite !elem_of_cons, elem_of_nil.
  intros [->|[->|[->|[->|[->|[->|[]]]]]]]; [by left|right; by eexists..].
Qed.
