(* ===== verification/Config.v ===== *)
(** * Configuration: package [config]

    [src/config/config.go] and [src/config/babylon.go]: the configuration
    records, their defaults, validation, loading from the home directory and the
    translation to the Babylon client's own configuration.  The ini parser is
    go-flags; it is given by its two entry points. *)

From S2P Require Import Prelude External ToyLib GoLib Util.
From Stdlib Require Import ZArith Lia String.
From stdpp Require Import base list strings sets.

#[local] Open Scope string_scope.
#[local] Open Scope Z_scope.

(** [time.Duration] is an int64 number of nanoseconds. *)
Definition Millisecond : Z := 1000000.
Definition Second : Z := 1000 * Millisecond.
Definition Minute : Z := 60 * Second.

Definition defaultLogLevel : string := "debug".
Definition defaultLogFilename : string := "covd.log".
Definition defaultConfigFileName : string := "covd.conf".
Definition defaultCovenantKeyName : string := "covenant-key".
Definition defaultQueryInterval : Z := 15 * Second.
Definition defaultDelegationLimit : Z := 100.
Definition defaultSigsBatchSize : Z := 20.
Definition defaultBitcoinNetwork : string := "simnet".
Definition defaultLogDirname : string := "logs".

Section config.
Context {L : BtcLib}.

Definition defaultBTCNetParams : NetParams := SimNetParams.
Definition DefaultCovenantDir : string := AppDataDir "covd" false.

Record BBNConfig := mkBBNConfig {
  Key : string;
  ChainID : string;
  RPCAddr : string;
  GRPCAddr : string;
  AccountPrefix : string;
  KeyringBackend : string;
  GasAdjustment : Float64;
  GasPrices : string;
  KeyDirectory : string;
  Debug : bool;
  Timeout : Z;
  BlockTimeout : Z;
  OutputFormat : string;
  SignModeStr : string;
}.

(** The fields of the Babylon client's [BabylonConfig] the repository uses. *)
Record BabylonConfig := mkBabylonConfig {
  dc_Key : string;
  dc_ChainID : string;
  dc_RPCAddr : string;
  dc_GRPCAddr : string;
  dc_AccountPrefix : string;
  dc_KeyringBackend : string;
  dc_GasAdjustment : Float64;
  dc_GasPrices : string;
  dc_KeyDirectory : string;
  dc_Debug : bool;
  dc_Timeout : Z;
  dc_BlockTimeout : Z;
  dc_OutputFormat : string;
  dc_SignModeStr : string;
  dc_SubmitterAddress : string;
}.

Record Config := mkConfig {
  LogLevel : string;
  QueryInterval : Z;
  DelegationLimit : Z;
  SigsBatchSize : Z;
  BitcoinNetwork : string;
  BTCNetParams : NetParams;
  BabylonConfig_ptr : option BBNConfig;
}.

Definition DefaultBBNConfig (dc : BabylonConfig) : BBNConfig := {|
  Key := dc_Key dc;
  ChainID := dc_ChainID dc;
  RPCAddr := dc_RPCAddr dc;
  GRPCAddr := dc_GRPCAddr dc;
  AccountPrefix := dc_AccountPrefix dc;
  KeyringBackend := dc_KeyringBackend dc;
  GasAdjustment := dc_GasAdjustment dc;
  GasPrices := dc_GasPrices dc;
  KeyDirectory := "";
  Debug := dc_Debug dc;
  Timeout := dc_Timeout dc;
  BlockTimeout := 1 * Minute;
  OutputFormat := dc_OutputFormat dc;
  SignModeStr := dc_SignModeStr dc;
|}.

Definition BBNConfigToBabylonConfig (bc : BBNConfig) : BabylonConfig := {|
  dc_Key := Key bc;
  dc_ChainID := ChainID bc;
  dc_RPCAddr := RPCAddr bc;
  dc_GRPCAddr := "";
  dc_AccountPrefix := AccountPrefix bc;
  dc_KeyringBackend := KeyringBackend bc;
  dc_GasAdjustment := GasAdjustment bc;
  dc_GasPrices := GasPrices bc;
  dc_KeyDirectory := KeyDirectory bc;
  dc_Debug := Debug bc;
  dc_Timeout := Timeout bc;
  dc_BlockTimeout := BlockTimeout bc;
  dc_OutputFormat := OutputFormat bc;
  dc_SignModeStr := SignModeStr bc;
  dc_SubmitterAddress := "";
|}.

Definition with_BTCNetParams (cfg : Config) (p : NetParams) : Config := {|
  LogLevel := LogLevel cfg;
  QueryInterval := QueryInterval cfg;
  DelegationLimit := DelegationLimit cfg;
  SigsBatchSize := SigsBatchSize cfg;
  BitcoinNetwork := BitcoinNetwork cfg;
  BTCNetParams := p;
  BabylonConfig_ptr := BabylonConfig_ptr cfg;
|}.

(** [Validate] writes the network parameters into the receiver: the validated
    configuration is the result. *)
Definition Validate (cfg : Config) : result Config :=
  if String.eqb (BitcoinNetwork cfg) "mainnet" then Ok (with_BTCNetParams cfg MainNetParams)
  else if String.eqb (BitcoinNetwork cfg) "testnet" then Ok (with_BTCNetParams cfg TestNet3Params)
  else if String.eqb (BitcoinNetwork cfg) "regtest"
  then Ok (with_BTCNetParams cfg RegressionNetParams)
  else if String.eqb (BitcoinNetwork cfg) "simnet" then Ok (with_BTCNetParams cfg SimNetParams)
  else if String.eqb (BitcoinNetwork cfg) "signet" then Ok (with_BTCNetParams cfg SigNetParams)
  else Err (Errorf "unsupported Bitcoin network: %s" [FStr (BitcoinNetwork cfg)]).

Definition ConfigFile (homePath : string) : string :=
  filepath_Join [homePath; defaultConfigFileName].

Definition LogDir (homePath : string) : string :=
  filepath_Join [homePath; defaultLogDirname].

Definition LogFile (homePath : string) : string :=
  filepath_Join [LogDir homePath; defaultLogFilename].

Definition DefaultConfigWithHomePath (dc : BabylonConfig) (homePath : string) : result Config :=
  let bbnCfg := DefaultBBNConfig dc in
  let bbnCfg := {|
    Key := defaultCovenantKeyName;
    ChainID := ChainID bbnCfg;
    RPCAddr := RPCAddr bbnCfg;
    GRPCAddr := GRPCAddr bbnCfg;
    AccountPrefix := AccountPrefix bbnCfg;
    KeyringBackend := KeyringBackend bbnCfg;
    GasAdjustment := GasAdjustment bbnCfg;
    GasPrices := GasPrices bbnCfg;
    KeyDirectory := homePath;
    Debug := Debug bbnCfg;
    Timeout := Timeout bbnCfg;
    BlockTimeout := BlockTimeout bbnCfg;
    OutputFormat := OutputFormat bbnCfg;
    SignModeStr := SignModeStr bbnCfg;
  |} in
  let cfg := {|
    LogLevel := defaultLogLevel;
    QueryInterval := defaultQueryInterval;
    DelegationLimit := defaultDelegationLimit;
    SigsBatchSize := defaultSigsBatchSize;
    BitcoinNetwork := defaultBitcoinNetwork;
    BTCNetParams := defaultBTCNetParams;
    BabylonConfig_ptr := Some bbnCfg;
  |} in
  match Validate cfg with
  | Err e => Panic "unsupported Bitcoin network"
  | r => r
  end.

Definition DefaultConfig (dc : BabylonConfig) : result Config :=
  DefaultConfigWithHomePath dc DefaultCovenantDir.

(** ** Loading *)

Context {W : Type} (os : OS W).

(** go-flags' ini parser: [ParseFile] fills in the given configuration from the
    named file, [WriteFile] writes a configuration to it. *)
Record IniParser := mkIniParser {
  ini_ParseFile : Config -> string -> W -> errorOr Config;
  ini_WriteFile : Config -> string -> Go W unit;
}.

(** [var cfg Config]: every field has its zero value, the pointer to the Babylon section
    is nil.  Allocating that section is the parser's business. *)
Definition zeroConfig (zeroParams : NetParams) : Config := {|
  LogLevel := "";
  QueryInterval := 0;
  DelegationLimit := 0;
  SigsBatchSize := 0;
  BitcoinNetwork := "";
  BTCNetParams := zeroParams;
  BabylonConfig_ptr := None;
|}.

Definition LoadConfig (ini : IniParser) (zeroParams : NetParams) (homePath : string) (w : W)
    : result Config :=
  let cfgFile := ConfigFile homePath in
  if negb (FileExists os cfgFile w) then
    Err (Errorf "specified config file does not exist in %s" [FStr cfgFile])
  else
    cfg ← of_errorOr (ini_ParseFile ini (zeroConfig zeroParams) cfgFile w);
    Validate cfg.

End config.

(** ** Properties *)

Section properties.
Context {L : BtcLib} {W : Type} (os : OS W).

(** The parameters of the networks the daemon knows, by name. *)
Definition network_table : list (string * NetParams) :=
  [("mainnet", MainNetParams); ("testnet", TestNet3Params); ("regtest", RegressionNetParams);
   ("simnet", SimNetParams); ("signet", SigNetParams)].

Lemma Validate_Ok cfg cfg' :
  Validate cfg = Ok cfg' ->
  exists p, (BitcoinNetwork cfg, p) ∈ network_table /\ cfg' = with_BTCNetParams cfg p.
Proof.
  unfold Validate. intros H.
  repeat match goal with
  | H : (if String.eqb ?a ?b then _ else _) = _ |- _ =>
      destruct (String.eqb_spec a b) as [->|]; [injection H as <-; eexists; split; [|done]; set_solver|]
  end. done.
Qed.

Lemma Validate_network cfg p :
  (BitcoinNetwork cfg, p) ∈ network_table -> Validate cfg = Ok (with_BTCNetParams cfg p).
Proof.
  unfold Validate, network_table. rewrite !elem_of_cons, elem_of_nil.
  intros [[= -> ->]|[[= -> ->]|[[= -> ->]|[[= -> ->]|[[= -> ->]|[]]]]]]; done.
Qed.

(** C34: A configuration that [LoadConfig] accepts comes from an existing file
    [covd.conf] under the home directory, names one of the five Bitcoin networks
    and carries that network's parameters, whatever the file said about them;
    every other field is as parsed. *)
Theorem loaded_config_matches_network ini zero home w cfg :
  LoadConfig os ini zero home w = Ok cfg ->
  FileExists os (ConfigFile home) w = true /\
  (BitcoinNetwork cfg, BTCNetParams cfg) ∈ network_table /\
  exists parsed, ini_ParseFile ini (zeroConfig zero) (ConfigFile home) w = inr parsed /\
    cfg = with_BTCNetParams parsed (BTCNetParams cfg).
Proof.
  unfold LoadConfig. destruct (FileExists os (ConfigFile home) w); [|done]. cbn [negb].
  intros H. go_inv.
  match goal with H : Validate _ = _ |- _ => apply Validate_Ok in H as (p & Hp & ->) end.
  split_and!; [done|done|]. by eexists.
Qed.

(** The default configuration is valid for every home directory: building it
    never panics, and it has a positive query interval, delegation limit and
    batch size, the simnet parameters, and the home directory as key directory. *)
Lemma default_config_is_valid dc home :
  exists cfg bbn, DefaultConfigWithHomePath dc home = Ok cfg /\
    0 < QueryInterval cfg /\ 0 < DelegationLimit cfg /\ 0 < SigsBatchSize cfg < 2 ^ 64 /\
    BTCNetParams cfg = SimNetParams /\
    BabylonConfig_ptr cfg = Some bbn /\ KeyDirectory bbn = home /\
    Key bbn = defaultCovenantKeyName.
Proof. do 2 eexists. split; [reflexivity|]. by cbn. Qed.

(** The configuration handed to the Babylon client has every field of the
    daemon's Babylon section except the gRPC address: that one is dropped and the
    client gets the empty string. *)
Lemma babylon_config_drops_grpc_address (bc : BBNConfig) :
  dc_GRPCAddr (BBNConfigToBabylonConfig bc) = "" /\
  mkBBNConfig (dc_Key (BBNConfigToBabylonConfig bc)) (dc_ChainID (BBNConfigToBabylonConfig bc))
    (dc_RPCAddr (BBNConfigToBabylonConfig bc)) (GRPCAddr bc)
    (dc_AccountPrefix (BBNConfigToBabylonConfig bc))
    (dc_KeyringBackend (BBNConfigToBabylonConfig bc))
    (dc_GasAdjustment (BBNConfigToBabylonConfig bc))
    (dc_GasPrices (BBNConfigToBabylonConfig bc))
    (dc_KeyDirectory (BBNConfigToBabylonConfig bc)) (dc_Debug (BBNConfigToBabylonConfig bc))
    (dc_Timeout (BBNConfigToBabylonConfig bc)) (dc_BlockTimeout (BBNConfigToBabylonConfig bc))
    (dc_OutputFormat (BBNConfigToBabylonConfig bc))
    (dc_SignModeStr (BBNConfigToBabylonConfig bc)) = bc.
Proof. by destruct bc. Qed.

End properties.

(** *** A run on concrete values *)

(** A parser that knows one file, which sets the network and nothing else. *)
Definition toy_ini (network : string) : IniParser (L := toy_BtcLib) (W := unit) := {|
  ini_ParseFile := fun base file _ =>
    if String.eqb file "/covd/covd.conf" then
      inr (mkConfig (LogLevel base) (QueryInterval base) (DelegationLimit base)
             (SigsBatchSize base) network (BTCNetParams base) (BabylonConfig_ptr base))
    else inl (errorString "no such file");
  ini_WriteFile := fun _ _ w => (Ok tt, w);
|}.

Lemma loaded_config_matches_network_witness :
  exists cfg, LoadConfig toy_OS (toy_ini "signet") SimNetParams "/covd/" tt = Ok cfg /\
    (BitcoinNetwork cfg, BTCNetParams cfg) ∈ network_table (L := toy_BtcLib) /\
    BTCNetParams cfg = 4 /\ SigsBatchSize cfg = 0.
Proof.
  eexists. split; [reflexivity|]. split; [|done].
  apply (loaded_config_matches_network toy_OS (toy_ini "signet") SimNetParams "/covd/" tt).
  reflexivity.
Defined.
