(* ===== verification/ClientController.v ===== *)
(** * The chain client: package [clientcontroller]

    The [ClientController] interface the emulator is written against
    ([src/clientcontroller/interface.go]) and its implementation over a Babylon
    node ([src/clientcontroller/babylon.go], [retry_utils.go]).  The RPC client
    library is given by its calls; the conversion of the node's records into the
    daemon's types, the construction of messages, the error paths and the
    pagination loop are the repository's own code and are translated here. *)

From S2P Require Import Prelude External ToyLib GoLib Types Config.
From Stdlib Require Import ZArith Lia String.
From stdpp Require Import base list strings.

#[local] Open Scope string_scope.
#[local] Open Scope Z_scope.

(** ** The interface *)

Section interface.
Context {L : BtcLib}.

Record ClientController (W : Type) := mkClientController {
  SubmitCovenantSigs : list CovenantSigs -> Go W (option TxResponse);
  QueryPendingDelegations : Z -> Go W (list (option Delegation));
  QueryStakingParams : Go W (option StakingParams);
  Close : Go W unit;
}.

(** A pending delegation as the emulator needs it: neither it nor any of the
    signatures recorded on it is a nil pointer. *)
Definition pending_ok (od : option Delegation) : Prop :=
  exists d, od = Some d /\ Forall is_Some (Delegation_CovenantSigs d).

(** What an implementation promises to the emulator. *)
Class ClientControllerSpec {W} (cc : ClientController W) : Prop := {
  pending_nonnil limit w dels w' :
    QueryPendingDelegations _ cc limit w = (Ok dels, w') -> Forall pending_ok dels;
  params_nonnil w p w' :
    QueryStakingParams _ cc w = (Ok p, w') -> is_Some p;
  submit_nonnil sigs w r w' :
    SubmitCovenantSigs _ cc sigs w = (Ok r, w') -> is_Some r;
}.

End interface.

Arguments SubmitCovenantSigs {L W} _ _.
Arguments QueryPendingDelegations {L W} _ _.
Arguments QueryStakingParams {L W} _.
Arguments Close {L W} _.

(** ** Types of the Babylon node and its RPC client *)

Class BabylonLib := {
  SdkError : Type;
  ErrInvalidCovenantPK : SdkError;
  ErrInvalidCovenantSig : SdkError;
  Secp256k1PubKey : Type;
  ProofOfPossession : Type;
  TransactionInfo : Type;
  Description : Type;
  FinalityProvider : Type;
  BTCHeaderBytes : Type;
  BTCHeaderInfo : Type;
  KeyringRecord : Type;
  GetAddress : KeyringRecord -> errorOr bytes;
  MustBech32ifyAddressBytes : string -> bytes -> result string;
}.

(** Page keys: [None] is nil. *)
Record PageRequest := mkPageRequest {
  PageRequest_Key : option bytes;
  PageRequest_Limit : Z;
}.

Inductive BTCDelegationStatus :=
| BTCDelegationStatus_PENDING
| BTCDelegationStatus_ACTIVE.

Section babylon_types.
Context {L : BtcLib} {B : BabylonLib}.

Record CovenantAdaptorSignatures := mkCovenantAdaptorSignatures {
  CovPk : BIP340PubKey;
  AdaptorSigs : list bytes;
}.

Record SignatureInfo := mkSignatureInfo {
  SignatureInfo_Pk : BIP340PubKey;
  SignatureInfo_Sig : BIP340Signature;
}.

(** A nil byte slice is [None]. *)
Record BTCUndelegation := mkBTCUndelegation {
  undel_UnbondingTx : option bytes;
  undel_SlashingTx : option BTCSlashingTx;
  undel_CovenantSlashingSigs : list CovenantAdaptorSignatures;
  undel_CovenantUnbondingSigList : list SignatureInfo;
  undel_DelegatorUnbondingSig : option BIP340Signature;
}.

(** Of the node's record, the fields the conversion reads; it has others, which the
    code never looks at. *)
Record BTCDelegation := mkBTCDelegation {
  del_BtcPk : BIP340PubKey;
  del_FpBtcPkList : list BIP340PubKey;
  del_StartHeight : Z;
  del_EndHeight : Z;
  del_TotalSat : Z;
  del_StakingTx : option bytes;
  del_SlashingTx : option BTCSlashingTx;
  del_CovenantSigs : list CovenantAdaptorSignatures;
  del_UnbondingTime : Z;
  del_BtcUndelegation : option BTCUndelegation;
}.

Record BTCCheckpointParams := mkBTCCheckpointParams {
  BtcConfirmationDepth : Z;
  CheckpointFinalizationTimeout : Z;
}.

Record BTCStakingParams := mkBTCStakingParams {
  params_CovenantPks : list BIP340PubKey;
  params_SlashingAddress : string;
  params_MinSlashingTxFeeSat : Z;
  params_CovenantQuorum : Z;
  params_SlashingRate : LegacyDec;
  params_MinCommissionRate : LegacyDec;
  params_MinUnbondingTime : Z;
}.

Record RelayerTxResponse := mkRelayerTxResponse {
  RelayerTxResponse_TxHash : string;
  RelayerTxResponse_Events : list RelayerEvent;
}.

Record FinalityProvidersResponse := mkFinalityProvidersResponse {
  res_FinalityProviders : list FinalityProvider;
  (** [res.Pagination]: nil, or the next key *)
  res_Pagination : option (option bytes);
}.

(** The messages the repository builds. *)
Inductive Msg :=
| MsgAddCovenantSigs (Signer : string) (Pk : BIP340PubKey) (StakingTxHash : string)
    (SlashingTxSigs : list bytes) (UnbondingTxSig : BIP340Signature)
    (SlashingUnbondingTxSigs : list bytes)
| MsgCreateBTCDelegation (Signer : string) (BabylonPk : Secp256k1PubKey)
    (Pop : ProofOfPossession) (BtcPk : BIP340PubKey) (FpBtcPkList : list BIP340PubKey)
    (StakingTime : Z) (StakingValue : Z) (StakingTx : TransactionInfo)
    (SlashingTx : BTCSlashingTx) (DelegatorSlashingSig : BIP340Signature)
    (UnbondingTx : bytes) (UnbondingTime : Z) (UnbondingValue : Z)
    (UnbondingSlashingTx : BTCSlashingTx) (DelegatorUnbondingSlashingSig : BIP340Signature)
| MsgCreateFinalityProvider (Signer : string) (Commission : LegacyDec)
    (BabylonPk : Secp256k1PubKey) (BtcPk : BIP340PubKey) (Description : Description)
    (Pop : ProofOfPossession)
| MsgInsertHeaders (Signer : string) (Headers : list BTCHeaderBytes).

(** A context made by [context.WithTimeout] is its deadline. *)
Record QueryContext := mkQueryContext {
  ctx_Deadline : Z;
}.

(** The RPC client [bbnclient.Client], by the calls made on it. *)
Record BbnClient (W : Type) := mkBbnClient {
  q_BTCCheckpointParams : Go W BTCCheckpointParams;
  q_BTCStakingParams : Go W BTCStakingParams;
  q_BTCDelegations : BTCDelegationStatus -> PageRequest -> Go W (list (option BTCDelegation));
  q_FinalityProviders : QueryContext -> PageRequest -> Go W FinalityProvidersResponse;
  q_Tip : QueryContext -> Go W BTCHeaderInfo;
  ReliablySendMsgs : list Msg -> list SdkError -> list SdkError -> Go W (option RelayerTxResponse);
  GetKeyring_Key : string -> Go W KeyringRecord;
  IsRunning : W -> bool;
  bbn_Stop : Go W unit;
}.

End babylon_types.

Arguments q_BTCCheckpointParams {L B W} _.
Arguments q_BTCStakingParams {L B W} _.
Arguments q_BTCDelegations {L B W} _ _ _.
Arguments q_FinalityProviders {L B W} _ _ _.
Arguments q_Tip {L B W} _ _.
Arguments ReliablySendMsgs {L B W} _ _ _ _.
Arguments GetKeyring_Key {L B W} _ _.
Arguments IsRunning {L B W} _ _.
Arguments bbn_Stop {L B W} _.

(** ** Conversion of the node's records *)

Section convert.
Context {L : BtcLib} {B : BabylonLib}.

(** [if err != nil { panic(err) }] *)
Definition panic_on_err {A} (x : errorOr A) : result A :=
  match x with
  | inr a => Ok a
  | inl (Errorf format _) => Panic format
  end.

(** The loop body shared by the two lists of adaptor signatures. *)
Definition convert_adaptor_sigs (s : CovenantAdaptorSignatures)
    : result (option CovenantAdaptorSigInfo) :=
  pk ← MustToBTCPK (CovPk s);
  mret (Some {| CovenantAdaptorSigInfo_Pk := pk;
                CovenantAdaptorSigInfo_Sigs := AdaptorSigs s |}).

Definition convert_unbonding_sig (unbondingSig : SignatureInfo)
    : result (option CovenantSchnorrSigInfo) :=
  sig ← panic_on_err (ToBTCSig (SignatureInfo_Sig unbondingSig));
  pk ← MustToBTCPK (SignatureInfo_Pk unbondingSig);
  mret (Some {| CovenantSchnorrSigInfo_Pk := pk; CovenantSchnorrSigInfo_Sig := sig |}).

Definition ConvertUndelegationType (undel : BTCUndelegation) : result Undelegation :=
  match undel_UnbondingTx undel with
  | None => Panic "staking tx should not be empty in undelegation"
  | Some unbondingTx =>
  match undel_SlashingTx undel with
  | None => Panic "slashing tx should not be empty in undelegation"
  | Some slashingTx =>
      let unbondingTxHex := hex_EncodeToString unbondingTx in
      let slashingTxHex := ToHexStr slashingTx in
      covenantUnbondingSigs ←
        mapM_result convert_unbonding_sig (undel_CovenantUnbondingSigList undel);
      covenantSlashingSigs ←
        mapM_result convert_adaptor_sigs (undel_CovenantSlashingSigs undel);
      mret {| UnbondingTxHex := unbondingTxHex;
              Undelegation_SlashingTxHex := slashingTxHex;
              CovenantSlashingSigs := covenantSlashingSigs;
              CovenantUnbondingSigs := covenantUnbondingSigs;
              DelegatorUnbondingSig := undel_DelegatorUnbondingSig undel |}
  end end.

Definition ConvertDelegationType (del : option BTCDelegation) : result (option Delegation) :=
  del ← go_deref del;
  match del_StakingTx del with
  | None => Panic "staking tx should not be empty in delegation"
  | Some stakingTx =>
  match del_SlashingTx del with
  | None => Panic "slashing tx should not be empty in delegation"
  | Some slashingTx =>
      let stakingTxHex := hex_EncodeToString stakingTx in
      let slashingTxHex := ToHexStr slashingTx in
      covenantSigs ← mapM_result convert_adaptor_sigs (del_CovenantSigs del);
      undelegation ←
        match del_BtcUndelegation del with
        | None => mret None
        | Some undel => u ← ConvertUndelegationType undel; mret (Some u)
        end;
      fpBtcPks ← mapM_result MustToBTCPK (del_FpBtcPkList del);
      btcPk ← MustToBTCPK (del_BtcPk del);
      mret (Some {| BtcPk := btcPk;
                    FpBtcPks := fpBtcPks;
                    TotalSat := del_TotalSat del;
                    StartHeight := del_StartHeight del;
                    EndHeight := del_EndHeight del;
                    StakingTxHex := stakingTxHex;
                    StakingOutputIdx := 0;  (* not set by the literal: zero value *)
                    SlashingTxHex := slashingTxHex;
                    Delegation_CovenantSigs := covenantSigs;
                    UnbondingTime := del_UnbondingTime del;
                    BtcUndelegation := undelegation |})
  end end.

End convert.

(** ** The Babylon controller *)

Section babylon.
Context {L : BtcLib} {B : BabylonLib} {W : Type}.

Record BabylonController := mkBabylonController {
  bbnClient : BbnClient W;
  bc_cfg : BBNConfig;
  bc_btcParams : NetParams;
}.

Implicit Types bc : BabylonController.

Definition unrecoverableErrors : list SdkError :=
  [ErrInvalidCovenantPK; ErrInvalidCovenantSig].

Definition expectedErrors : list SdkError := [].

(** [validate] and [new] are the client library's [BabylonConfig.Validate] and
    [bbnclient.New]. *)
Definition NewBabylonController (validate : BabylonConfig -> option error)
    (new : BabylonConfig -> errorOr (BbnClient W)) (cfg : BBNConfig) (btcParams : NetParams)
    : result BabylonController :=
  let bbnConfig := BBNConfigToBabylonConfig cfg in
  match validate bbnConfig with
  | Some err => Err (Errorf "invalid config for Babylon client: %w" [FErr err])
  | None =>
      bc ← wrap_err (fun err => Errorf "failed to create Babylon client: %w" [FErr err])
             (of_errorOr (new bbnConfig));
      mret {| bbnClient := bc; bc_cfg := cfg; bc_btcParams := btcParams |}
  end.

(** An error of the keyring lookup becomes a panic. *)
Definition GetKeyAddress bc : Go W bytes := fun w =>
  match GetKeyring_Key (bbnClient bc) (Key (bc_cfg bc)) w with
  | (Ok keyRec, w') =>
      match GetAddress keyRec with
      | inr addr => (Ok addr, w')
      | inl _ => (Panic "Failed to get key address", w')
      end
  | (Err _, w') => (Panic "Failed to get key address", w')
  | (Panic p, w') => (Panic p, w')
  | (Hang, w') => (Hang, w')
  end.

Definition mustGetTxSigner bc : Go W string :=
  signer ← GetKeyAddress bc;
  lift (MustBech32ifyAddressBytes (AccountPrefix (bc_cfg bc)) signer).

Definition babylon_QueryStakingParams bc : Go W (option StakingParams) :=
  ckptParamRes ←
    go_wrap (fun err => Errorf "failed to query params of the btccheckpoint module: %v" [FErr err])
      (q_BTCCheckpointParams (bbnClient bc));
  stakingParamRes ←
    go_wrap (fun err => Errorf "failed to query staking params: %v" [FErr err])
      (q_BTCStakingParams (bbnClient bc));
  covenantPks ←
    lift (mapM_result
      (fun pk => wrap_err (fun _ => errorString "invalid covenant public key")
                   (of_errorOr (ToBTCPK pk)))
      (params_CovenantPks stakingParamRes));
  slashingAddress ←
    lift (of_errorOr (DecodeAddress (params_SlashingAddress stakingParamRes) (bc_btcParams bc)));
  mret (Some {|
    ComfirmationTimeBlocks := BtcConfirmationDepth ckptParamRes;
    FinalizationTimeoutBlocks := CheckpointFinalizationTimeout ckptParamRes;
    MinSlashingTxFeeSat := params_MinSlashingTxFeeSat stakingParamRes;
    CovenantPks := covenantPks;
    SlashingAddress := slashingAddress;
    CovenantQuorum := params_CovenantQuorum stakingParamRes;
    SlashingRate := params_SlashingRate stakingParamRes;
    MinComissionRate := params_MinCommissionRate stakingParamRes;
    MinUnbondingTime := params_MinUnbondingTime stakingParamRes;
  |}).

Definition reliablySendMsgs bc (msgs : list Msg) : Go W (option RelayerTxResponse) :=
  ReliablySendMsgs (bbnClient bc) msgs expectedErrors unrecoverableErrors.

Definition reliablySendMsg bc (msg : Msg) : Go W (option RelayerTxResponse) :=
  reliablySendMsgs bc [msg].

(** One turn of the loop of [SubmitCovenantSigs]. *)
Definition covenant_sigs_msg bc (covSig : CovenantSigs) : Go W Msg :=
  let bip340UnbondingSig := NewBIP340SignatureFromBTCSig (UnbondingSig covSig) in
  signer ← mustGetTxSigner bc;
  mret (MsgAddCovenantSigs signer
          (NewBIP340PubKeyFromBTCPK (CovenantSigs_PublicKey covSig))
          (HashString (StakingTxHash covSig))
          (SlashingSigs covSig)
          bip340UnbondingSig
          (SlashingUnbondingSigs covSig)).

Definition babylon_SubmitCovenantSigs bc (covSigs : list CovenantSigs)
    : Go W (option TxResponse) :=
  msgs ← mapM_go (covenant_sigs_msg bc) covSigs;
  res ← reliablySendMsgs bc msgs;
  res ← lift (go_deref res);
  mret (Some {| TxResponse_TxHash := RelayerTxResponse_TxHash res;
                TxResponse_Events := RelayerTxResponse_Events res |}).

Definition queryDelegationsWithStatus bc (status : BTCDelegationStatus) (limit : Z)
    : Go W (list (option Delegation)) :=
  let pagination := {| PageRequest_Key := None; PageRequest_Limit := limit |} in
  res ←
    go_wrap (fun err => Errorf "failed to query BTC delegations: %v" [FErr err])
      (q_BTCDelegations (bbnClient bc) status pagination);
  lift (mapM_result ConvertDelegationType res).

Definition babylon_QueryPendingDelegations bc (limit : Z) : Go W (list (option Delegation)) :=
  queryDelegationsWithStatus bc BTCDelegationStatus_PENDING limit.

Definition QueryActiveDelegations bc (limit : Z) : Go W (list (option Delegation)) :=
  queryDelegationsWithStatus bc BTCDelegationStatus_ACTIVE limit.

Definition babylon_Close bc : Go W unit := fun w =>
  if negb (IsRunning (bbnClient bc) w) then (Ok tt, w) else bbn_Stop (bbnClient bc) w.

Definition babylon_ClientController bc : ClientController W := {|
  SubmitCovenantSigs := babylon_SubmitCovenantSigs bc;
  QueryPendingDelegations := babylon_QueryPendingDelegations bc;
  QueryStakingParams := babylon_QueryStakingParams bc;
  Close := babylon_Close bc;
|}.

Definition babylonConsumerChainName : string := "babylon".

Definition NewClientController (validate : BabylonConfig -> option error)
    (new : BabylonConfig -> errorOr (BbnClient W)) (chainName : string)
    (bbnConfig : BBNConfig) (netParams : NetParams) : result (ClientController W) :=
  if String.eqb chainName babylonConsumerChainName then
    bc ← wrap_err (fun err => Errorf "failed to create Babylon rpc client: %w" [FErr err])
           (NewBabylonController validate new bbnConfig netParams);
    mret (babylon_ClientController bc)
  else Err (errorString "unsupported consumer chain").

(** *** Calls used by the end-to-end tests *)

Definition CreateBTCDelegation bc (delBabylonPk : Secp256k1PubKey) (delBtcPk : BIP340PubKey)
    (fpPks : list PublicKey) (pop : ProofOfPossession) (stakingTime : Z) (stakingValue : Z)
    (stakingTxInfo : TransactionInfo) (slashingTx : BTCSlashingTx)
    (delSlashingSig : BIP340Signature) (unbondingTx : bytes) (unbondingTime : Z)
    (unbondingValue : Z) (unbondingSlashingTx : BTCSlashingTx)
    (delUnbondingSlashingSig : BIP340Signature) : Go W (option TxResponse) :=
  let fpBtcPks := NewBIP340PubKeyFromBTCPK <$> fpPks in
  signer ← mustGetTxSigner bc;
  let msg :=
    MsgCreateBTCDelegation signer delBabylonPk pop delBtcPk fpBtcPks stakingTime stakingValue
      stakingTxInfo slashingTx delSlashingSig unbondingTx unbondingTime unbondingValue
      unbondingSlashingTx delUnbondingSlashingSig in
  res ← reliablySendMsg bc msg;
  res ← lift (go_deref res);
  mret (Some {| TxResponse_TxHash := RelayerTxResponse_TxHash res; TxResponse_Events := [] |}).

Definition RegisterFinalityProvider bc (bbnPubKey : Secp256k1PubKey) (btcPubKey : BIP340PubKey)
    (commission : LegacyDec) (description : Description) (pop : ProofOfPossession)
    : Go W (option RelayerTxResponse) :=
  signer ← mustGetTxSigner bc;
  reliablySendMsgs bc
    [MsgCreateFinalityProvider signer commission bbnPubKey btcPubKey description pop].

Definition InsertBtcBlockHeaders bc (headers : list BTCHeaderBytes)
    : Go W (option RelayerTxResponse) :=
  signer ← mustGetTxSigner bc;
  reliablySendMsg bc (MsgInsertHeaders signer headers).

(** The clock, [time.Now]. *)
Context (time_Now : W -> Z).

(** The deadline is fixed when the context is made; all requests under the context
    share it. *)
Definition getContextWithCancel (timeout : Z) : Go W QueryContext := fun w =>
  (Ok {| ctx_Deadline := time_Now w + timeout |}, w).

(** The pagination loop, from the current page key and the providers collected
    so far; out of fuel it reports that it has not returned. *)
Fixpoint QueryFinalityProviders_loop bc (ctx : QueryContext) (fuel : nat) (pagination : PageRequest)
    (fps : list FinalityProvider) : Go W (list FinalityProvider) :=
  match fuel with
  | O => fun w => (Hang, w)
  | S fuel' =>
      res ←
        go_wrap (fun err => Errorf "failed to query finality providers: %v" [FErr err])
          (q_FinalityProviders (bbnClient bc) ctx pagination);
      let fps := (fps ++ res_FinalityProviders res)%list in
      match res_Pagination res with
      | None => mret fps
      | Some None => mret fps
      | Some (Some nextKey) =>
          QueryFinalityProviders_loop bc ctx fuel'
            {| PageRequest_Key := Some nextKey;
               PageRequest_Limit := PageRequest_Limit pagination |} fps
      end
  end.

Definition QueryFinalityProviders bc (fuel : nat) : Go W (list FinalityProvider) :=
  ctx ← getContextWithCancel (Timeout (bc_cfg bc));
  QueryFinalityProviders_loop bc ctx fuel
    {| PageRequest_Key := None; PageRequest_Limit := 100 |} [].

Definition QueryBtcLightClientTip bc : Go W BTCHeaderInfo :=
  ctx ← getContextWithCancel (Timeout (bc_cfg bc));
  go_wrap (fun err => Errorf "failed to query BTC tip: %v" [FErr err])
    (q_Tip (bbnClient bc) ctx).

End babylon.

(** ** Facts *)

Section convert_facts.
Context {L : BtcLib} {B : BabylonLib}.

Lemma convert_adaptor_sigs_some l sigs :
  mapM_result convert_adaptor_sigs l = Ok sigs -> Forall is_Some sigs.
Proof.
  apply mapM_result_Forall. unfold convert_adaptor_sigs. intros s o Hs. by go_inv.
Qed.

(** Every field of a converted delegation. *)
Lemma ConvertDelegationType_fields del od :
  ConvertDelegationType (Some del) = Ok od ->
  exists d stakingTx slashingTx,
    od = Some d /\
    del_StakingTx del = Some stakingTx /\ del_SlashingTx del = Some slashingTx /\
    StakingTxHex d = hex_EncodeToString stakingTx /\
    SlashingTxHex d = ToHexStr slashingTx /\
    StakingOutputIdx d = 0 /\
    TotalSat d = del_TotalSat del /\ StartHeight d = del_StartHeight del /\
    EndHeight d = del_EndHeight del /\ UnbondingTime d = del_UnbondingTime del /\
    MustToBTCPK (del_BtcPk del) = Ok (BtcPk d) /\
    Forall2 (fun fp pk => MustToBTCPK fp = Ok pk) (del_FpBtcPkList del) (FpBtcPks d) /\
    Forall2 (fun s o => convert_adaptor_sigs s = Ok o)
      (del_CovenantSigs del) (Delegation_CovenantSigs d) /\
    match del_BtcUndelegation del with
    | None => BtcUndelegation d = None
    | Some undel => exists u, BtcUndelegation d = Some u /\ ConvertUndelegationType undel = Ok u
    end.
Proof.
  unfold ConvertDelegationType. intros H. go_inv.
  destruct (del_StakingTx _) as [stakingTx|]; [|done].
  destruct (del_SlashingTx _) as [slashingTx|]; [|done].
  go_inv. do 3 eexists. split_and!; try reflexivity; try done.
  destruct (del_BtcUndelegation _) as [undel|]; go_inv; [|done]. by eexists.
Qed.

(** How a recorded signature of each kind is converted. *)
Definition adaptor_entry (s : CovenantAdaptorSignatures) (o : option CovenantAdaptorSigInfo) : Prop :=
  exists pk, MustToBTCPK (CovPk s) = Ok pk /\ o = Some (mkCovenantAdaptorSigInfo pk (AdaptorSigs s)).

Definition schnorr_entry (s : SignatureInfo) (o : option CovenantSchnorrSigInfo) : Prop :=
  exists pk sig, MustToBTCPK (SignatureInfo_Pk s) = Ok pk /\
    ToBTCSig (SignatureInfo_Sig s) = inr sig /\ o = Some (mkCovenantSchnorrSigInfo pk sig).

Lemma adaptor_entries l sigs :
  Forall2 (fun s o => convert_adaptor_sigs s = Ok o) l sigs -> Forall2 adaptor_entry l sigs.
Proof.
  intros H. apply (Forall2_impl _ _ _ _ H). unfold convert_adaptor_sigs. intros s o Hs. go_inv. by eexists.
Qed.

Lemma schnorr_entries l sigs :
  Forall2 (fun s o => convert_unbonding_sig s = Ok o) l sigs -> Forall2 schnorr_entry l sigs.
Proof.
  intros H. apply (Forall2_impl _ _ _ _ H). unfold convert_unbonding_sig, panic_on_err. intros s o Hs.
  destruct (ToBTCSig (SignatureInfo_Sig s)) as [[]|sig] eqn:E; [done|]. go_inv. by eexists _, _.
Qed.

(** Every field of a converted undelegation. *)
Lemma ConvertUndelegationType_fields undel u :
  ConvertUndelegationType undel = Ok u ->
  hex_DecodeString (UnbondingTxHex u) = undel_UnbondingTx undel /\
  Some (Undelegation_SlashingTxHex u) = ToHexStr <$> undel_SlashingTx undel /\
  Forall2 adaptor_entry (undel_CovenantSlashingSigs undel) (CovenantSlashingSigs u) /\
  Forall2 schnorr_entry (undel_CovenantUnbondingSigList undel) (CovenantUnbondingSigs u) /\
  DelegatorUnbondingSig u = undel_DelegatorUnbondingSig undel.
Proof.
  unfold ConvertUndelegationType. destruct (undel_UnbondingTx undel) as [ub|]; [|done].
  destruct (undel_SlashingTx undel) as [sl|]; [|done]. intros H. go_inv. cbn. split_and!; try done.
  - apply hex_decode_encode.
  - by apply adaptor_entries.
  - by apply schnorr_entries.
Qed.

Lemma ConvertDelegationType_pending_ok del od :
  ConvertDelegationType del = Ok od -> pending_ok od.
Proof.
  intros H. destruct del as [del|]; [|done].
  apply ConvertDelegationType_fields in H
    as (d & ? & ? & -> & _ & _ & _ & _ & _ & _ & _ & _ & _ & _ & _ & Hs & _).
  exists d. split; [done|]. eapply convert_adaptor_sigs_some. by apply mapM_result_Ok.
Qed.

(** The keys and signatures of a record decode. *)
Definition key_decodes (k : BIP340PubKey) : Prop := exists pk, MustToBTCPK k = Ok pk.

Definition undel_decodes (undel : BTCUndelegation) : Prop :=
  Forall (fun s => key_decodes (CovPk s)) (undel_CovenantSlashingSigs undel) /\
  Forall (fun s => key_decodes (SignatureInfo_Pk s) /\
                   exists sig, ToBTCSig (SignatureInfo_Sig s) = inr sig)
    (undel_CovenantUnbondingSigList undel).

Definition record_decodes (del : BTCDelegation) : Prop :=
  key_decodes (del_BtcPk del) /\ Forall key_decodes (del_FpBtcPkList del) /\
  Forall (fun s => key_decodes (CovPk s)) (del_CovenantSigs del) /\
  forall undel, del_BtcUndelegation del = Some undel -> undel_decodes undel.

(** The transactions of a record are there. *)
Definition undel_txs_present (undel : BTCUndelegation) : Prop :=
  is_Some (undel_UnbondingTx undel) /\ is_Some (undel_SlashingTx undel).

Definition txs_present (del : BTCDelegation) : Prop :=
  is_Some (del_StakingTx del) /\ is_Some (del_SlashingTx del) /\
  match del_BtcUndelegation del with
  | None => True
  | Some undel => undel_txs_present undel
  end.

#[export] Instance undel_txs_present_dec undel : Decision (undel_txs_present undel).
Proof. apply _. Defined.

#[export] Instance txs_present_dec del : Decision (txs_present del).
Proof. unfold txs_present. destruct (del_BtcUndelegation del); apply _. Defined.

Lemma convert_adaptor_sigs_total l :
  Forall (fun s => key_decodes (CovPk s)) l ->
  exists sigs, mapM_result convert_adaptor_sigs l = Ok sigs.
Proof.
  rewrite Forall_forall. intros H. apply mapM_result_total. intros s Hs.
  unfold convert_adaptor_sigs. destruct (H s Hs) as [pk ->]. by eexists.
Qed.

Lemma ConvertUndelegationType_total undel :
  undel_decodes undel -> undel_txs_present undel ->
  exists u, ConvertUndelegationType undel = Ok u.
Proof.
  intros [Ha Hs] [[ub Hub] [us Hus]]. unfold ConvertUndelegationType. rewrite Hub, Hus.
  destruct (convert_adaptor_sigs_total _ Ha) as [sl ->].
  assert (exists sigs, mapM_result convert_unbonding_sig (undel_CovenantUnbondingSigList undel)
                       = Ok sigs) as [ss ->]; [|by eexists].
  rewrite Forall_forall in Hs. apply mapM_result_total. intros s Hin.
  destruct (Hs s Hin) as [[pk Hpk] [sig Hsig]]. unfold convert_unbonding_sig.
  rewrite Hsig. cbn. rewrite Hpk. by eexists.
Qed.

Lemma ConvertDelegationType_total del :
  record_decodes del -> txs_present del -> exists d, ConvertDelegationType (Some del) = Ok (Some d).
Proof.
  intros ([pk Hpk] & Hfp & Hcs & Hun) ([stk Hstk] & [sl Hsl] & Hpr).
  unfold ConvertDelegationType. cbn [go_deref mbind result_bind]. rewrite Hstk, Hsl.
  destruct (convert_adaptor_sigs_total _ Hcs) as [cs ->]. cbn [mbind result_bind].
  assert (exists fps, mapM_result MustToBTCPK (del_FpBtcPkList del) = Ok fps) as [fps ->].
  { rewrite Forall_forall in Hfp. by apply mapM_result_total. }
  destruct (del_BtcUndelegation del) as [undel|]; cbn [mbind result_bind mret result_ret].
  - destruct (ConvertUndelegationType_total undel) as [u ->]; [by apply Hun|done|].
    cbn [mbind result_bind]. rewrite Hpk. by eexists.
  - rewrite Hpk. by eexists.
Qed.

Lemma ConvertDelegationType_missing del :
  record_decodes del -> ~ txs_present del ->
  exists msg, ConvertDelegationType (Some del) = Panic msg.
Proof.
  intros (_ & _ & Hcs & Hun) Hp. unfold ConvertDelegationType, txs_present in *.
  cbn [go_deref mbind result_bind].
  destruct (del_StakingTx del) as [stk|]; [|by eexists].
  destruct (del_SlashingTx del) as [sl|]; [|by eexists].
  destruct (convert_adaptor_sigs_total _ Hcs) as [cs ->]. cbn [mbind result_bind].
  destruct (del_BtcUndelegation del) as [undel|]; [|destruct Hp; by split_and!; try eexists].
  unfold ConvertUndelegationType, undel_txs_present in *.
  destruct (undel_UnbondingTx undel); [|by eexists].
  destruct (undel_SlashingTx undel); [|by eexists].
  destruct Hp. by split_and!; eexists.
Qed.

End convert_facts.

Section babylon_facts.
Context {L : BtcLib} {B : BabylonLib} {W : Type}.
Implicit Types bc : BabylonController (W := W).

(** The documented contract of [ReliablySendMsgs]: the response is missing only
    when an expected error was swallowed, so never when no error is expected. *)
Definition send_contract (client : BbnClient W) : Prop :=
  forall msgs unrec w r w', ReliablySendMsgs client msgs [] unrec w = (Ok r, w') -> is_Some r.

Lemma queryDelegations_ok bc status limit w dels w' :
  queryDelegationsWithStatus bc status limit w = (Ok dels, w') -> Forall pending_ok dels.
Proof.
  unfold queryDelegationsWithStatus. rewrite go_bind_Ok. intros (res & w1 & _ & [= H _]).
  revert H. apply mapM_result_Forall, ConvertDelegationType_pending_ok.
Qed.

(** The controller keeps the promises of the interface. *)
#[export] Instance babylon_ClientControllerSpec bc :
  ClientControllerSpec (babylon_ClientController bc).
Proof.
  split; cbn.
  - intros limit w dels w'. apply queryDelegations_ok.
  - unfold babylon_QueryStakingParams. intros w p w' H. go_inv. done.
  - unfold babylon_SubmitCovenantSigs. intros sigs w r w' H. go_inv. done.
Qed.

End babylon_facts.

(** ** Properties *)

Section properties.
Context {L : BtcLib} {B : BabylonLib}.

(** C19: Converting a delegation record keeps its content: the staking and unbonding
    transactions are recovered byte for byte by decoding the hex strings, the slashing
    transactions' hex strings, the heights, the amount, the unbonding time and the
    delegator's signature are the record's, and there is one converted key per finality
    provider and one converted entry per recorded covenant signature, in order.  The
    output index is not taken from anywhere: it is 0 in every converted delegation. *)
Theorem conversion_keeps_delegation del od :
  ConvertDelegationType (Some del) = Ok od ->
  exists d, od = Some d /\
    hex_DecodeString (StakingTxHex d) = del_StakingTx del /\
    Some (SlashingTxHex d) = ToHexStr <$> del_SlashingTx del /\
    (StartHeight d, EndHeight d, TotalSat d, UnbondingTime d, StakingOutputIdx d) =
      (del_StartHeight del, del_EndHeight del, del_TotalSat del, del_UnbondingTime del, 0) /\
    MustToBTCPK (del_BtcPk del) = Ok (BtcPk d) /\
    Forall2 (fun fp pk => MustToBTCPK fp = Ok pk) (del_FpBtcPkList del) (FpBtcPks d) /\
    Forall2 adaptor_entry (del_CovenantSigs del) (Delegation_CovenantSigs d) /\
    match del_BtcUndelegation del, BtcUndelegation d with
    | None, None => True
    | Some undel, Some u =>
        hex_DecodeString (UnbondingTxHex u) = undel_UnbondingTx undel /\
        Some (Undelegation_SlashingTxHex u) = ToHexStr <$> undel_SlashingTx undel /\
        Forall2 adaptor_entry (undel_CovenantSlashingSigs undel) (CovenantSlashingSigs u) /\
        Forall2 schnorr_entry (undel_CovenantUnbondingSigList undel) (CovenantUnbondingSigs u) /\
        DelegatorUnbondingSig u = undel_DelegatorUnbondingSig undel
    | _, _ => False
    end.
Proof.
  intros H. apply ConvertDelegationType_fields in H
    as (d & stk & sl & -> & Hstk & Hsl & Hhex & Hslh & Hi & Hamt & Hst & Hen & Hub & Hpk & Hfp & Hcs & Hun).
  exists d. rewrite Hhex, Hstk, Hslh, Hsl, Hamt, Hst, Hen, Hub, Hi. split_and!; try done.
  - apply hex_decode_encode.
  - by apply adaptor_entries.
  - destruct (del_BtcUndelegation del) as [undel|]; [|by rewrite Hun].
    destruct Hun as (u & -> & Hu). by apply ConvertUndelegationType_fields.
Qed.

(** C20: On a record whose keys and signatures decode, the conversion panics exactly
    when one of its transactions is missing (the staking and the slashing transaction
    and, if there is an undelegation, the unbonding and the unbonding slashing
    transaction), and gives a non-nil delegation otherwise; it has no error result. *)
Theorem conversion_succeeds_iff_txs_present del :
  record_decodes del ->
  match ConvertDelegationType (Some del) with
  | Ok od => is_Some od /\ txs_present del
  | Panic _ => ~ txs_present del
  | Err _ | Hang => False
  end.
Proof.
  intros Hd. destruct (decide (txs_present del)) as [Hp|Hp].
  - destruct (ConvertDelegationType_total del Hd Hp) as [d ->]. by split; [eexists|].
  - destruct (ConvertDelegationType_missing del Hd Hp) as [msg ->]. done.
Qed.

Context {W : Type}.
Implicit Types bc : BabylonController (W := W).

(** Every delegation the Babylon controller returns as pending is non-nil,
    has no nil entry among its covenant signatures, and has staking output
    index 0: the conversion never sets [StakingOutputIdx], so the emulator always
    signs for output 0 of the staking transaction. *)
Lemma pending_delegations_have_output_zero bc limit w dels w' :
  QueryPendingDelegations (babylon_ClientController bc) limit w = (Ok dels, w') ->
  Forall (fun od => exists d, od = Some d /\ Forall is_Some (Delegation_CovenantSigs d) /\
                              StakingOutputIdx d = 0) dels.
Proof.
  cbn. unfold babylon_QueryPendingDelegations, queryDelegationsWithStatus.
  rewrite go_bind_Ok. intros (res & w1 & _ & [= H _]). revert H.
  apply mapM_result_Forall. intros [del|] od Hod; [|done].
  destruct (ConvertDelegationType_pending_ok _ _ Hod) as (d & -> & Hs).
  apply ConvertDelegationType_fields in Hod
    as (d' & ? & ? & [= <-] & _ & _ & _ & _ & Hidx & _). eauto.
Qed.

(** The message that carries one set of covenant signatures. *)
Definition message_of (signer : string) (cs : CovenantSigs) : Msg :=
  MsgAddCovenantSigs signer (NewBIP340PubKeyFromBTCPK (CovenantSigs_PublicKey cs))
    (HashString (StakingTxHash cs)) (SlashingSigs cs)
    (NewBIP340SignatureFromBTCSig (UnbondingSig cs)) (SlashingUnbondingSigs cs).

Lemma covenant_sigs_msgs bc sigs w msgs w' :
  mapM_go (covenant_sigs_msg bc) sigs w = (Ok msgs, w') ->
  Forall2 (fun cs m => exists signer, m = message_of signer cs) sigs msgs.
Proof.
  revert w msgs. induction sigs as [|cs sigs IH]; intros w msgs; cbn [mapM_go].
  { intros [= <- <-]. constructor. }
  rewrite go_bind_Ok. intros (m & w1 & Hm & H). rewrite go_bind_Ok in H.
  destruct H as (ms & w2 & Hms & [= <- <-]). constructor; [|eauto].
  unfold covenant_sigs_msg in Hm. rewrite go_bind_Ok in Hm.
  destruct Hm as (signer & w3 & _ & [= <- <-]). by exists signer.
Qed.

(** A successful [SubmitCovenantSigs] has sent exactly one message per set of
    covenant signatures, in order and in a single call that names no expected
    error, and its response carries the hash and events of that call. *)
Lemma submission_sends_one_message_per_delegation bc sigs w r w' :
  SubmitCovenantSigs (babylon_ClientController bc) sigs w = (Ok r, w') ->
  exists msgs w1 res,
    Forall2 (fun cs m => exists signer, m = message_of signer cs) sigs msgs /\
    ReliablySendMsgs (bbnClient bc) msgs [] [ErrInvalidCovenantPK; ErrInvalidCovenantSig] w1 =
      (Ok (Some res), w') /\
    r = Some (mkTxResponse (RelayerTxResponse_TxHash res) (RelayerTxResponse_Events res)).
Proof.
  cbn. unfold babylon_SubmitCovenantSigs. rewrite go_bind_Ok. intros (msgs & w1 & Hmsgs & H).
  apply covenant_sigs_msgs in Hmsgs. rewrite go_bind_Ok in H.
  destruct H as (res & w2 & Hsend & H). rewrite go_bind_Ok in H.
  destruct H as (res' & w3 & [= Hres <-] & [= <- <-]). apply go_deref_Ok in Hres as ->.
  by exists msgs, w1, res'.
Qed.

Lemma mapM_go_returns {A C} (f : A -> Go W C) l :
  (forall x, go_returns (f x)) -> go_returns (mapM_go f l).
Proof.
  intros Hf. induction l as [|x l IH]; intros w; cbn [mapM_go]; [done|].
  apply go_returns_bind_at; [apply Hf|]. intros y w1 _. apply go_returns_bind_at; [apply IH|done].
Qed.

(** Because no error is expected, the client library always comes back with a
    response or an error, and submitting signatures never dereferences a missing
    response: [SubmitCovenantSigs] returns whenever the signer address can be
    derived and the client call itself returns. *)
Lemma submission_never_crashes bc sigs :
  send_contract (bbnClient bc) -> go_returns (mustGetTxSigner bc) ->
  (forall msgs exp unrec, go_returns (ReliablySendMsgs (bbnClient bc) msgs exp unrec)) ->
  go_returns (SubmitCovenantSigs (babylon_ClientController bc) sigs).
Proof.
  intros Hc Hsig Hsend w. cbn. unfold babylon_SubmitCovenantSigs.
  apply go_returns_bind_at.
  { apply mapM_go_returns. intros cs w1. by apply go_returns_bind_at. }
  intros msgs w1 _. apply go_returns_bind_at; [apply Hsend|]. intros res w2 Hres.
  destruct (Hc _ _ _ _ _ Hres) as [x ->]. done.
Qed.

(** C21: When all its queries and conversions succeed, [QueryStakingParams] returns
    the chain's parameters field by field, with every covenant key and the
    slashing address decoded; and when a query, a covenant key or the address
    fails, it returns an error and no parameters. *)
Theorem staking_params_are_the_chain_s bc w ck w1 st w2 :
  q_BTCCheckpointParams (bbnClient bc) w = (Ok ck, w1) ->
  q_BTCStakingParams (bbnClient bc) w1 = (Ok st, w2) ->
  match QueryStakingParams (babylon_ClientController bc) w with
  | (Ok (Some p), w') =>
      w' = w2 /\
      ComfirmationTimeBlocks p = BtcConfirmationDepth ck /\
      FinalizationTimeoutBlocks p = CheckpointFinalizationTimeout ck /\
      MinSlashingTxFeeSat p = params_MinSlashingTxFeeSat st /\
      CovenantQuorum p = params_CovenantQuorum st /\
      SlashingRate p = params_SlashingRate st /\
      MinComissionRate p = params_MinCommissionRate st /\
      MinUnbondingTime p = params_MinUnbondingTime st /\
      Forall2 (fun k pk => ToBTCPK k = inr pk) (params_CovenantPks st) (CovenantPks p) /\
      DecodeAddress (params_SlashingAddress st) (bc_btcParams bc) = inr (SlashingAddress p)
  | (Ok None, _) => False
  | (Err _, w') =>
      w' = w2 /\ (Exists (fun k => exists e, ToBTCPK k = inl e) (params_CovenantPks st) \/
                  exists e, DecodeAddress (params_SlashingAddress st) (bc_btcParams bc) = inl e)
  | _ => False
  end.
Proof.
  intros H1 H2. cbn. unfold babylon_QueryStakingParams.
  erewrite go_bind_Ok_run by (apply go_wrap_Ok; exact H1).
  erewrite go_bind_Ok_run by (apply go_wrap_Ok; exact H2).
  rewrite go_bind_run, lift_run.
  assert (forall l, returns (mapM_result (fun pk =>
    wrap_err (fun _ => errorString "invalid covenant public key") (of_errorOr (ToBTCPK pk))) l)
    = true) as Hret.
  { intros l. apply returns_mapM. intros k. rewrite returns_wrap. apply returns_errorOr. }
  specialize (Hret (params_CovenantPks st)).
  destruct (mapM_result _ (params_CovenantPks st)) as [pks|e|pn|] eqn:Hpks; try done.
  - rewrite go_bind_run, lift_run.
    destruct (DecodeAddress _ _) as [e|addr] eqn:Ha; cbn; [eauto|]. split_and!; try done.
    apply mapM_result_Ok in Hpks. eapply Forall2_impl; [exact Hpks|]. cbn beta.
    intros k pk Hk. go_inv. done.
  - split; [done|]. left. apply mapM_result_Err in Hpks. eapply Exists_impl; [exact Hpks|].
    cbn beta. intros k Hk. destruct (ToBTCPK k) as [e'|pk]; [eauto|done].
Qed.

(** *** Pagination *)

(** The node serves [pages] from page key [key] on under the context [ctx]: every page
    but the last names the key of the next one. *)
Inductive serves bc (ctx : QueryContext) : option bytes -> W -> list (list FinalityProvider) -> W -> Prop :=
| serves_last key w fps pg w' :
    q_FinalityProviders (bbnClient bc) ctx (mkPageRequest key 100) w =
      (Ok (mkFinalityProvidersResponse fps pg), w') ->
    pg = None \/ pg = Some None ->
    serves bc ctx key w [fps] w'
| serves_next key w fps next w1 pages w' :
    q_FinalityProviders (bbnClient bc) ctx (mkPageRequest key 100) w =
      (Ok (mkFinalityProvidersResponse fps (Some (Some next))), w1) ->
    serves bc ctx (Some next) w1 pages w' ->
    serves bc ctx key w (fps :: pages) w'.

Lemma pagination_loop bc ctx key w pages w' fuel acc :
  serves bc ctx key w pages w' -> (length pages <= fuel)%nat ->
  QueryFinalityProviders_loop bc ctx fuel (mkPageRequest key 100) acc w =
  (Ok (acc ++ concat pages)%list, w').
Proof.
  intros H. revert fuel acc. induction H as [key w fps pg w' Hq Hpg|key w fps next w1 pages w' Hq _ IH];
    intros fuel acc Hf; (destruct fuel as [|fuel]; [cbn in Hf; lia|]);
    cbn [QueryFinalityProviders_loop]; (erewrite go_bind_Ok_run by (apply go_wrap_Ok; exact Hq)); cbn.
  - rewrite app_nil_r. by destruct Hpg as [-> | ->].
  - rewrite IH by (cbn in Hf; lia). by rewrite <- app_assoc.
Qed.

(** [QueryFinalityProviders] follows the page keys to the end: for a node that
    serves finitely many pages the loop terminates, with one request per page,
    and returns the providers of all pages in order. *)
Lemma all_finality_provider_pages_are_read (time_Now : W -> Z) bc w pages w' :
  serves bc (mkQueryContext (time_Now w + Timeout (bc_cfg bc))) None w pages w' ->
  forall fuel, (length pages <= fuel)%nat ->
  QueryFinalityProviders time_Now bc fuel w = (Ok (concat pages), w').
Proof. intros H fuel Hf. by apply (pagination_loop bc _ None w pages w' fuel []). Qed.

End properties.

(** *** Runs on a concrete node *)

#[export] Instance toy_BabylonLib : BabylonLib := {|
  SdkError := nat;
  ErrInvalidCovenantPK := 1%nat;
  ErrInvalidCovenantSig := 2%nat;
  Secp256k1PubKey := bytes;
  ProofOfPossession := bytes;
  TransactionInfo := bytes;
  Description := string;
  FinalityProvider := string;
  BTCHeaderBytes := bytes;
  BTCHeaderInfo := bytes;
  KeyringRecord := bytes;
  GetAddress := fun k => inr k;
  MustBech32ifyAddressBytes := fun prefix _ => Ok (prefix +:+ "1addr");
|}.

Definition toy_BTCDelegation (unbondingTx : option bytes) : BTCDelegation :=
  mkBTCDelegation [Byte.x11] [[Byte.x21]; [Byte.x22]] 100 200 100000 (Some [Byte.xab; Byte.x0c])
    (Some "slashing") [mkCovenantAdaptorSignatures [Byte.x31] [[Byte.x01]]] 150
    (Some (mkBTCUndelegation unbondingTx (Some "unbonding-slashing") [] [] None)).

(** The node's state is the list of message batches it has been sent. *)
Definition toy_bbn : BbnClient (list (list Msg)) := {|
  q_BTCCheckpointParams := fun w => (Ok (mkBTCCheckpointParams 10 100), w);
  q_BTCStakingParams := fun w =>
    (Ok (mkBTCStakingParams [[Byte.x31]; [Byte.x32]] "slashing-address" 1 2 50 3 120), w);
  q_BTCDelegations := fun _ _ w => (Ok [Some (toy_BTCDelegation (Some [Byte.x0d]))], w);
  q_FinalityProviders := fun _ pg w =>
    (Ok (match PageRequest_Key pg with
         | None => mkFinalityProvidersResponse ["fp1"; "fp2"] (Some (Some [Byte.x02]))
         | Some _ => mkFinalityProvidersResponse ["fp3"] (Some None)
         end), w);
  q_Tip := fun _ w => (Ok [], w);
  ReliablySendMsgs := fun msgs _ _ w =>
    (Ok (Some (mkRelayerTxResponse "tx-hash" [])), w ++ [msgs])%list;
  GetKeyring_Key := fun _ w => (Ok [Byte.x41], w);
  IsRunning := fun _ => true;
  bbn_Stop := fun w => (Ok tt, w);
|}.

Definition toy_BBNConfig : BBNConfig :=
  mkBBNConfig "covenant-key" "chain-test" "rpc" "grpc" "bbn" "test" 1 "0.01ubbn" "/covd" false
    (20 * Second) (1 * Minute) "json" "direct".

Definition toy_bc : BabylonController :=
  mkBabylonController toy_bbn toy_BBNConfig SimNetParams.

Definition toy_CovenantSigs : CovenantSigs :=
  mkCovenantSigs [Byte.x31] "staking" [[Byte.x01]] [Byte.x02] [[Byte.x03]].

Lemma conversion_keeps_delegation_witness :
  exists d, ConvertDelegationType (Some (toy_BTCDelegation (Some [Byte.x0d]))) = Ok (Some d) /\
    StakingTxHex d = "ab0c" /\ hex_DecodeString (StakingTxHex d) = Some [Byte.xab; Byte.x0c].
Proof.
  destruct (conversion_keeps_delegation (toy_BTCDelegation (Some [Byte.x0d])) _ eq_refl)
    as (d & Hd & Hhex & _).
  injection Hd as <-. eexists. split; [reflexivity|]. split; [reflexivity|exact Hhex].
Defined.

Lemma toy_record_decodes unbondingTx : record_decodes (toy_BTCDelegation unbondingTx).
Proof.
  split_and!; [by eexists | repeat constructor; by eexists | repeat constructor; by eexists |].
  intros undel [= <-]. split; constructor.
Defined.

Lemma conversion_succeeds_iff_txs_present_witness :
  (exists d, ConvertDelegationType (Some (toy_BTCDelegation (Some [Byte.x0d]))) = Ok (Some d)) /\
  ConvertDelegationType (Some (toy_BTCDelegation None)) =
    Panic "staking tx should not be empty in undelegation" /\
  ~ txs_present (toy_BTCDelegation None).
Proof.
  pose proof (conversion_succeeds_iff_txs_present _ (toy_record_decodes (Some [Byte.x0d]))) as H1.
  pose proof (conversion_succeeds_iff_txs_present _ (toy_record_decodes None)) as H2.
  split; [by eexists|]. split; [reflexivity|exact H2].
Defined.

Lemma pending_delegations_have_output_zero_witness :
  exists dels, QueryPendingDelegations (babylon_ClientController toy_bc) 100 [] = (Ok dels, []) /\
    length dels = 1%nat /\
    Forall (fun od => exists d, od = Some d /\ Forall is_Some (Delegation_CovenantSigs d) /\
                                StakingOutputIdx d = 0) dels.
Proof.
  eexists. split; [reflexivity|]. split; [reflexivity|].
  apply (pending_delegations_have_output_zero toy_bc 100 [] _ []). reflexivity.
Defined.

Lemma submission_sends_one_message_per_delegation_witness :
  exists msgs w1 res,
    Forall2 (fun cs m => exists signer, m = message_of signer cs) [toy_CovenantSigs] msgs /\
    ReliablySendMsgs toy_bbn msgs [] [1%nat; 2%nat] w1 =
      (Ok (Some res), [[message_of "bbn1addr" toy_CovenantSigs]]) /\
    Some (mkTxResponse "tx-hash" []) =
      Some (mkTxResponse (RelayerTxResponse_TxHash res) (RelayerTxResponse_Events res)).
Proof.
  apply (submission_sends_one_message_per_delegation toy_bc [toy_CovenantSigs] []).
  reflexivity.
Defined.

Lemma submission_never_crashes_witness :
  go_returns (SubmitCovenantSigs (babylon_ClientController toy_bc) [toy_CovenantSigs]).
Proof.
  apply submission_never_crashes.
  - intros msgs unrec w r w' [= <- _]. by eexists.
  - intros w. reflexivity.
  - intros msgs exp unrec w. reflexivity.
Defined.

Lemma staking_params_are_the_chain_s_witness :
  exists p, QueryStakingParams (babylon_ClientController toy_bc) [] = (Ok (Some p), []) /\
    CovenantQuorum p = 2 /\ MinUnbondingTime p = 120.
Proof.
  pose proof (staking_params_are_the_chain_s toy_bc [] _ _ _ _ eq_refl eq_refl) as H.
  eexists. split; [reflexivity|].
  destruct H as (_ & _ & _ & _ & Hq & _ & _ & Hu & _). split; [exact Hq|exact Hu].
Defined.

Lemma all_finality_provider_pages_are_read_witness :
  QueryFinalityProviders (fun _ => 7) toy_bc 2 [] = (Ok ["fp1"; "fp2"; "fp3"], []).
Proof.
  apply (all_finality_provider_pages_are_read (fun _ => 7) toy_bc [] [["fp1"; "fp2"]; ["fp3"]] []).
  - apply (serves_next toy_bc _ None [] ["fp1"; "fp2"] [Byte.x02] [] [["fp3"]] []); [reflexivity|].
    apply (serves_last toy_bc _ (Some [Byte.x02]) [] ["fp3"] (Some None) []); [reflexivity|]. by right.
  - cbn. lia.
Defined.
