(* ===== verification/Keyring.v ===== *)
(** * The keyring: package [keyring]

    [src/keyring/keyring.go] and [src/keyring/keyringcontroller.go].  The Cosmos
    keyring asks for its passphrase on an [io.Reader]; the repository gives it a
    [strings.Reader] and keeps a pointer to the same reader, which it resets to
    the passphrase before each access.  That sharing is what makes the keyring
    usable, so readers live in a heap here and are passed by location. *)

From S2P Require Import Prelude External ToyLib GoLib Util Types.
From Stdlib Require Import ZArith Lia String Ascii.
From stdpp Require Import base list strings gmap.

#[local] Open Scope string_scope.
#[local] Open Scope Z_scope.

(** ** The world: the heap of readers and everything outside the process *)

Record World (E : Type) := mkWorld {
  readers : gmap nat string;
  ext : E;
}.
Arguments mkWorld {E} _ _.
Arguments readers {E} _.
Arguments ext {E} _.

Section reader.
Context {E : Type}.

(** [strings.NewReader(s)] *)
Definition NewReader (s : string) : Go (World E) nat := fun w =>
  let l := fresh (dom (readers w)) in
  (Ok l, mkWorld (<[l := s]> (readers w)) (ext w)).

(** [r.Reset(s)] *)
Definition Reset (l : nat) (s : string) : Go (World E) unit := fun w =>
  (Ok tt, mkWorld (<[l := s]> (readers w)) (ext w)).

End reader.

(** ** The Cosmos keyring library *)

(** The cached value of a local record's private key: the type switch of the
    repository tells a secp256k1 key from everything else. *)
Inductive CachedValue :=
| Secp256k1PrivKey (Key : bytes)
| OtherValue.

(** A keyring record is local, or it is a ledger, multisig or offline one
    ([GetLocal] is nil); a local record's [PrivKey] may be nil too. *)
Record KeyRecord := mkKeyRecord {
  GetLocal : option (option CachedValue);
}.

Record KeyringLib (E : Type) := mkKeyringLib {
  Keyring : Type;
  SigningAlgo : Type;
  keyring_New : forall (appName backend rootDir : string) (userInput : nat), Go (World E) Keyring;
  kr_Key : Keyring -> string -> Go (World E) KeyRecord;
  kr_NewAccount : forall (kr : Keyring) (uid mnemonic bip39Passphrase hdPath : string)
    (algo : SigningAlgo), Go (World E) KeyRecord;
  kr_SupportedAlgorithms : Keyring -> list SigningAlgo;
  NewSigningAlgoFromString : string -> list SigningAlgo -> errorOr SigningAlgo;
  bip39_NewEntropy : Z -> Go (World E) bytes;
  bip39_NewMnemonic : bytes -> errorOr string;
  (** [sk.PubKey().Bytes()] of a secp256k1 private key *)
  sdk_PubKeyBytes : bytes -> bytes;
}.
Arguments Keyring {E} _.
Arguments SigningAlgo {E} _.
Arguments keyring_New {E} _ _ _ _ _.
Arguments kr_Key {E} _ _ _.
Arguments kr_NewAccount {E} _ _ _ _ _ _ _.
Arguments kr_SupportedAlgorithms {E} _ _.
Arguments NewSigningAlgoFromString {E} _ _ _.
Arguments bip39_NewEntropy {E} _ _.
Arguments bip39_NewMnemonic {E} _ _.
Arguments sdk_PubKeyBytes {E} _ _.

Section keyring.
Context {L : BtcLib} {E : Type} (os : OS (World E)) (K : KeyringLib E).

(** The fields of [client.Context] the repository sets; the codec is fixed. *)
Record ClientCtx := mkClientCtx {
  ctx_ChainID : string;
  ctx_KeyringDir : string;
}.

Definition CreateClientCtx (keyringDir chainId : string) : Go (World E) ClientCtx := fun w =>
  (keyringDir ←
     (if String.eqb keyringDir "" then
        homeDir ← of_errorOr (UserHomeDir os w);
        mret (path_Join [homeDir; ".covenant-emulator"])
      else mret keyringDir);
   mret {| ctx_ChainID := chainId; ctx_KeyringDir := keyringDir |}, w).

Definition CreateKeyring (keyringDir chainId backend : string) (input : nat)
    : Go (World E) (Keyring K) :=
  ctx ← CreateClientCtx keyringDir chainId;
  if String.eqb backend "" then
    lift (Err (errorString "the keyring backend should not be empty"))
  else
    go_wrap (fun err => Errorf "failed to create keyring: %w" [FErr err])
      (keyring_New K (ctx_ChainID ctx) backend (ctx_KeyringDir ctx) input).

Definition secp256k1Type : string := "secp256k1".
Definition mnemonicEntropySize : Z := 256.

Record ChainKeyringController := mkChainKeyringController {
  kc_kr : Keyring K;
  kc_fpName : string;
  kc_input : nat;
}.

Definition NewChainKeyringController (ctx : ClientCtx) (name keyringBackend : string)
    : Go (World E) ChainKeyringController :=
  if String.eqb name "" then
    lift (Err (errorString "the key name should not be empty"))
  else if String.eqb keyringBackend "" then
    lift (Err (errorString "the keyring backend should not be empty"))
  else
    inputReader ← NewReader "";
    kr ← go_wrap (fun err => Errorf "failed to create keyring: %w" [FErr err])
           (keyring_New K (ctx_ChainID ctx) keyringBackend (ctx_KeyringDir ctx) inputReader);
    mret {| kc_kr := kr; kc_fpName := name; kc_input := inputReader |}.

Definition NewChainKeyringControllerWithKeyring (kr : Keyring K) (name : string) (input : nat)
    : Go (World E) ChainKeyringController :=
  if String.eqb name "" then
    lift (Err (errorString "the key name should not be empty"))
  else mret {| kc_kr := kr; kc_fpName := name; kc_input := input |}.

Definition GetKeyring (kc : ChainKeyringController) : Keyring K := kc_kr kc.

(** [record.GetLocal().PrivKey.GetCachedValue()] and the type switch after it:
    both selections panic on nil. *)
Definition local_privkey (record : KeyRecord) : result bytes :=
  local ← go_deref (GetLocal record);
  cached ← go_deref local;
  match cached with
  | Secp256k1PrivKey key => Ok key
  | OtherValue => Err (errorString "unsupported key type in keyring")
  end.

(** The newline between the two copies of the passphrase. *)
Definition newline : string := String (ascii_of_nat 10) "".

Definition CreateChainKey (kc : ChainKeyringController) (passphrase hdPath : string)
    : Go (World E) ChainKeyInfo :=
  let keyringAlgos := kr_SupportedAlgorithms K (kc_kr kc) in
  algo ← lift (of_errorOr (NewSigningAlgoFromString K secp256k1Type keyringAlgos));
  entropySeed ← bip39_NewEntropy K mnemonicEntropySize;
  mnemonic ← lift (of_errorOr (bip39_NewMnemonic K entropySeed));
  Reset (kc_input kc) (passphrase +:+ newline +:+ passphrase);;
  record ← kr_NewAccount K (kc_kr kc) (kc_fpName kc) mnemonic passphrase hdPath algo;
  key ← lift (local_privkey record);
  let '(sk, pk) := PrivKeyFromBytes key in
  mret {| ChainKeyInfo_Name := kc_fpName kc;
          ChainKeyInfo_PublicKey := pk;
          ChainKeyInfo_PrivateKey := sk;
          ChainKeyInfo_Mnemonic := mnemonic |}.

Definition GetChainPrivKey (kc : ChainKeyringController) (passphrase : string)
    : Go (World E) bytes :=
  Reset (kc_input kc) passphrase;;
  k ← go_wrap (fun err => Errorf "failed to get private key: %w" [FErr err])
        (kr_Key K (kc_kr kc) (kc_fpName kc));
  lift (local_privkey k).

End keyring.

Arguments kc_kr {E K} _.
Arguments kc_fpName {E K} _.
Arguments kc_input {E K} _.

(** ** What the keyring library promises

    A keyring remembers the reader it prompts on; accounts are stored under their
    name and looked up again when the reader offers the keyring's passphrase;
    looking a key up does not change what is stored. *)

Class KeyringSpec {E} (K : KeyringLib E) := {
  kr_input : Keyring K -> nat;
  kr_lookup : Keyring K -> World E -> string -> option KeyRecord;
  kr_accepts : Keyring K -> World E -> string -> bool;
  New_input app backend dir input w kr w' :
    keyring_New K app backend dir input w = (Ok kr, w') -> kr_input kr = input;
  NewAccount_stores kr uid m p hd algo w r w' pass :
    readers w !! kr_input kr = Some (pass +:+ newline +:+ pass) ->
    kr_NewAccount K kr uid m p hd algo w = (Ok r, w') ->
    kr_lookup kr w' uid = Some r /\ kr_accepts kr w' pass = true;
  Key_finds kr uid w r pass :
    kr_lookup kr w uid = Some r -> readers w !! kr_input kr = Some pass ->
    kr_accepts kr w pass = true ->
    exists w', kr_Key K kr uid w = (Ok r, w');
  Key_sound kr uid w r w' :
    kr_Key K kr uid w = (Ok r, w') -> kr_lookup kr w uid = Some r;
  Key_accepted kr uid w r w' pass :
    kr_Key K kr uid w = (Ok r, w') -> readers w !! kr_input kr = Some pass ->
    kr_accepts kr w pass = true;
  Key_keeps kr uid w kr' :
    kr_lookup kr' (kr_Key K kr uid w).2 = kr_lookup kr' w /\
    kr_accepts kr' (kr_Key K kr uid w).2 = kr_accepts kr' w;
  Reset_keeps kr l s w :
    kr_lookup kr (Reset l s w).2 = kr_lookup kr w /\
    kr_accepts kr (Reset l s w).2 = kr_accepts kr w;
}.

Section facts.
Context {L : BtcLib} {E : Type} {os : OS (World E)} {K : KeyringLib E} {S : KeyringSpec K}.
Implicit Types kc : ChainKeyringController K.

(** The controller resets the reader its keyring prompts on. *)
Definition shares_reader kc : Prop := kc_input kc = kr_input (kc_kr kc).

(** The key a controller's account holds, as the keyring would return it. *)
Definition holds_key kc (passphrase : string) (key : bytes) (w : World E) : Prop :=
  kr_accepts (kc_kr kc) w passphrase = true /\
  exists r, kr_lookup (kc_kr kc) w (kc_fpName kc) = Some r /\ local_privkey r = Ok key.

Lemma Reset_reader (l : nat) s (w : World E) : readers (Reset l s w).2 !! l = Some s.
Proof. apply lookup_insert_eq. Qed.

Lemma NewChainKeyringController_shares ctx name backend w kc w' :
  NewChainKeyringController K ctx name backend w = (Ok kc, w') -> shares_reader kc.
Proof.
  unfold NewChainKeyringController. destruct (String.eqb name ""); [done|].
  destruct (String.eqb backend ""); [done|]. intros H. go_inv.
  unfold shares_reader. cbn. symmetry. by eapply New_input.
Qed.

Lemma CreateKeyring_input dir chain backend input w kr w' :
  CreateKeyring os K dir chain backend input w = (Ok kr, w') -> kr_input kr = input.
Proof.
  unfold CreateKeyring. intros H. go_inv.
  destruct (String.eqb backend ""); [done|]. go_inv. by eapply New_input.
Qed.

(** The key of an account some call of [NewAccount] made. *)
Definition made_key (key : bytes) : Prop :=
  exists kr uid m p hd algo w r w', kr_NewAccount K kr uid m p hd algo w = (Ok r, w') /\
    local_privkey r = Ok key.

(** An account just created holds the key that was returned. *)
Lemma CreateChainKey_holds kc pass hd w info w' :
  shares_reader kc ->
  CreateChainKey K kc pass hd w = (Ok info, w') ->
  exists key, holds_key kc pass key w' /\ made_key key /\
    PrivKeyFromBytes key = (ChainKeyInfo_PrivateKey info, ChainKeyInfo_PublicKey info).
Proof.
  unfold shares_reader, CreateChainKey. intros Hsh H. go_inv.
  destruct (PrivKeyFromBytes _) as [sk pk] eqn:Hpk. go_inv.
  match goal with Hr : Reset _ _ ?w0 = (Ok _, ?w1), Hn : kr_NewAccount _ _ _ _ _ _ _ ?w1 = _ |- _ =>
    assert (readers w1 !! kr_input (kc_kr kc) = Some (pass +:+ newline +:+ pass)) as Hrd;
    [rewrite <- Hsh; apply (f_equal snd) in Hr; cbn in Hr; subst w1; apply lookup_insert_eq|];
    destruct (NewAccount_stores _ _ _ _ _ _ _ _ _ _ Hrd Hn) as [Hl Ha]
  end.
  eexists. split_and!; [split; [done|by eexists]| |done]. unfold made_key. eauto 15.
Qed.

(** A controller that holds a key returns it, and still holds it afterwards. *)
Lemma GetChainPrivKey_holds kc pass key w :
  shares_reader kc -> holds_key kc pass key w ->
  exists w', GetChainPrivKey K kc pass w = (Ok key, w') /\ holds_key kc pass key w'.
Proof.
  intros Hsh (Ha & r & Hl & Hk). unfold GetChainPrivKey.
  destruct (Reset_keeps (kc_kr kc) (kc_input kc) pass w) as [Hl1 Ha1].
  pose proof (Reset_reader (kc_input kc) pass w) as Hrd.
  destruct (Reset (kc_input kc) pass w) as [[] w1] eqn:Hreset; try done. destruct a.
  cbn [snd] in *. rewrite (go_bind_Ok_run _ _ _ tt w1) by done.
  destruct (Key_finds (kc_kr kc) (kc_fpName kc) w1 r pass) as [w2 H2].
  { by rewrite Hl1. } { by rewrite <- Hsh. } { by rewrite Ha1. }
  destruct (Key_keeps (kc_kr kc) (kc_fpName kc) w1 (kc_kr kc)) as [Hl2 Ha2].
  rewrite H2 in Hl2, Ha2. cbn [snd] in Hl2, Ha2.
  exists w2. split.
  - erewrite go_bind_Ok_run by (apply go_wrap_Ok; exact H2). by rewrite lift_run, Hk.
  - split; [by rewrite Ha2, Ha1|]. exists r. by rewrite Hl2, Hl1.
Qed.

(** A successful read shows the controller to hold that key. *)
Lemma GetChainPrivKey_sound kc pass key w w' :
  shares_reader kc -> GetChainPrivKey K kc pass w = (Ok key, w') -> holds_key kc pass key w'.
Proof.
  intros Hsh H. unfold GetChainPrivKey in H. rewrite go_bind_Ok in H.
  destruct H as ([] & w1 & Hr & H). rewrite go_bind_Ok in H.
  destruct H as (r & w2 & Hk & H). rewrite go_wrap_Ok in Hk.
  rewrite lift_run in H. apply pair_equal_spec in H as [H <-].
  assert (readers w1 !! kr_input (kc_kr kc) = Some pass) as Hrd.
  { rewrite <- Hsh. pose proof (Reset_reader (kc_input kc) pass w) as Hx. by rewrite Hr in Hx. }
  destruct (Key_keeps (kc_kr kc) (kc_fpName kc) w1 (kc_kr kc)) as [Hl Ha].
  rewrite Hk in Hl, Ha. cbn [snd] in Hl, Ha.
  split; [rewrite Ha; by eapply Key_accepted|]. exists r. split; [|done].
  rewrite Hl. by eapply Key_sound.
Qed.

End facts.

(** ** Properties *)

Section properties.
Context {L : BtcLib} {E : Type} {K : KeyringLib E} {S : KeyringSpec K}.

(** C24: A key created through a controller can be read back with the same
    passphrase: after [NewChainKeyringController] and a successful
    [CreateChainKey], [GetChainPrivKey] succeeds and returns the bytes of exactly
    the key pair that was reported.  The keyring prompts on the very reader the
    controller resets. *)
Theorem created_key_reads_back ctx name backend w0 kc w pass hd info w1 :
  NewChainKeyringController K ctx name backend w0 = (Ok kc, w) ->
  CreateChainKey K kc pass hd w = (Ok info, w1) ->
  exists key w2, GetChainPrivKey K kc pass w1 = (Ok key, w2) /\
    PrivKeyFromBytes key = (ChainKeyInfo_PrivateKey info, ChainKeyInfo_PublicKey info).
Proof.
  intros Hnew Hcreate. apply NewChainKeyringController_shares in Hnew.
  destruct (CreateChainKey_holds _ _ _ _ _ _ Hnew Hcreate) as (key & Hkey & _ & Hpair).
  destruct (GetChainPrivKey_holds _ _ _ _ Hnew Hkey) as (w2 & Hget & _). eauto.
Qed.

(** C25: What [GetChainPrivKey] does with the record the keyring returns: the key
    of a local secp256k1 record, an error for a local record of another type, and
    a nil dereference panic for a record that is not local (ledger, multisig,
    offline) or has no private key. *)
Theorem private_key_by_record_kind (kc : ChainKeyringController K) pass w r w1 :
  kr_Key K (kc_kr kc) (kc_fpName kc) (Reset (kc_input kc) pass w).2 = (Ok r, w1) ->
  match GetLocal r with
  | Some (Some (Secp256k1PrivKey key)) => GetChainPrivKey K kc pass w = (Ok key, w1)
  | Some (Some OtherValue) =>
      GetChainPrivKey K kc pass w = (Err (errorString "unsupported key type in keyring"), w1)
  | _ => exists msg, GetChainPrivKey K kc pass w = (Panic msg, w1)
  end.
Proof.
  intros H. unfold GetChainPrivKey.
  rewrite (go_bind_Ok_run _ _ _ tt (Reset (kc_input kc) pass w).2) by reflexivity.
  erewrite go_bind_Ok_run by (apply go_wrap_Ok; exact H). unfold lift, local_privkey.
  destruct (GetLocal r) as [[[]|]|]; cbn; eauto.
Qed.

End properties.

(** ** An in-memory keyring

    Accounts in a map, one passphrase for the whole keyring, set by the first
    account; reading the passphrase empties the reader.  It meets the
    specification, for any other external state [X]. *)

Record MemStore := mkMemStore {
  ms_keys : gmap string KeyRecord;
  ms_pass : option string;
}.

Section mem.
Context {X : Type}.
Implicit Types w : World (MemStore * X).

Definition drain (l : nat) w : World (MemStore * X) :=
  mkWorld (<[l := ""]> (readers w)) (ext w).

Definition set_store (st : MemStore) w : World (MemStore * X) :=
  mkWorld (readers w) (st, (ext w).2).

Definition mem_accepts w (pass : string) : bool :=
  match ms_pass (ext w).1 with
  | Some p => String.eqb p pass
  | None => true
  end.

(** The first half of a text of the form [p], newline, [p]. *)
Definition half (s : string) : string := String.substring 0 (Nat.div2 (String.length s)) s.

Definition mem_Key (l : nat) (uid : string) : Go (World (MemStore * X)) KeyRecord := fun w =>
  match readers w !! l with
  | None => (Err (errorString "no input"), w)
  | Some pass =>
      if mem_accepts w pass then
        match ms_keys (ext w).1 !! uid with
        | Some r => (Ok r, drain l w)
        | None => (Err (errorString "key not found"), drain l w)
        end
      else (Err (errorString "incorrect passphrase"), drain l w)
  end.

Definition mem_NewAccount (key : bytes) (l : nat) (uid : string)
    : Go (World (MemStore * X)) KeyRecord := fun w =>
  match readers w !! l with
  | None => (Err (errorString "no input"), w)
  | Some s =>
      if String.eqb s (half s +:+ newline +:+ half s) && mem_accepts w (half s) then
        let r := mkKeyRecord (Some (Some (Secp256k1PrivKey key))) in
        (Ok r, drain l (set_store (mkMemStore (<[uid := r]> (ms_keys (ext w).1))
                                     (Some (half s))) w))
      else (Err (errorString "passphrase mismatch"), drain l w)
  end.

Definition mem_keyring (key : bytes) : KeyringLib (MemStore * X) := {|
  Keyring := nat;
  SigningAlgo := string;
  keyring_New := fun _ _ _ input w => (Ok input, w);
  kr_Key := mem_Key;
  kr_NewAccount := fun l uid _ _ _ _ => mem_NewAccount key l uid;
  kr_SupportedAlgorithms := fun _ => ["secp256k1"];
  NewSigningAlgoFromString := fun s algos =>
    if bool_decide (s ∈ algos) then inr s else inl (errorString "provided algorithm is not supported");
  bip39_NewEntropy := fun _ w => (Ok [Byte.x00], w);
  bip39_NewMnemonic := fun _ => inr "abandon ability able";
  sdk_PubKeyBytes := fun key => key;
|}.

Lemma substring_app p s : String.substring 0 (String.length p) (p +:+ s) = p.
Proof.
  induction p as [|c p IH]; [by destruct s|].
  change (String c p +:+ s) with (String c (p +:+ s)). cbn [String.length String.substring].
  by rewrite IH.
Qed.

Lemma length_append p s : String.length (p +:+ s) = (String.length p + String.length s)%nat.
Proof.
  induction p as [|c p IH]; [done|].
  change (String c p +:+ s) with (String c (p +:+ s)). cbn [String.length]. by rewrite IH.
Qed.

Lemma half_twice p : half (p +:+ newline +:+ p) = p.
Proof.
  unfold half. assert (Nat.div2 (String.length (p +:+ newline +:+ p)) = String.length p) as ->.
  { rewrite !length_append. cbn [newline String.length].
    replace (String.length p + (1 + String.length p))%nat with (S (2 * String.length p)) by lia.
    apply Nat.div2_succ_double. }
  apply substring_app.
Qed.

#[export] Instance mem_keyring_spec key : KeyringSpec (mem_keyring key).
Proof.
  refine {| kr_input := fun l : Keyring (mem_keyring key) => l;
            kr_lookup := fun _ w uid => ms_keys (ext w).1 !! uid;
            kr_accepts := fun _ w pass => mem_accepts w pass |}; cbn.
  - by intros app backend dir input w kr w' [= <- _].
  - intros l uid _ _ _ _ w r w' pass Hr. unfold mem_NewAccount. rewrite Hr, half_twice.
    destruct (_ && _); [|done]. intros [= <- <-]. cbn. split; [apply lookup_insert_eq|].
    unfold mem_accepts. cbn. apply String.eqb_refl.
  - intros l uid w r pass Hl Hr Ha. unfold mem_Key. rewrite Hr, Ha, Hl. by eexists.
  - intros l uid w r w'. unfold mem_Key. destruct (readers w !! l); [|done].
    destruct (mem_accepts _ _); [|done].
    destruct (ms_keys (ext w).1 !! uid) eqn:Hk; [|done]. by intros [= <- _].
  - intros l uid w r w' pass. unfold mem_Key. intros H Hr. rewrite Hr in H.
    by destruct (mem_accepts w pass).
  - intros l uid w l'. unfold mem_Key. destruct (readers w !! l); [|done].
    destruct (mem_accepts _ _); [|done]. by destruct (ms_keys (ext w).1 !! uid).
  - done.
Defined.

End mem.

Definition empty_world : World (MemStore * unit) := mkWorld ∅ (mkMemStore ∅ None, tt).

Definition toy_kc : ChainKeyringController (mem_keyring (X := unit) [Byte.x2a]) :=
  mkChainKeyringController (mem_keyring [Byte.x2a]) 0%nat "covenant-key" 0%nat.

(** The world after the controller has been made, and after the key has. *)
Definition world_opened : World (MemStore * unit) :=
  mkWorld {[0%nat := ""]} (mkMemStore ∅ None, tt).

Definition world_created : World (MemStore * unit) :=
  (CreateChainKey (L := toy_BtcLib) (mem_keyring [Byte.x2a]) toy_kc "secret" "" world_opened).2.

Lemma created_key_reads_back_witness :
  exists key w2, GetChainPrivKey (mem_keyring [Byte.x2a]) toy_kc "secret" world_created = (Ok key, w2) /\
    PrivKeyFromBytes (BtcLib := toy_BtcLib) key = ([Byte.x2a], [Byte.x2a]).
Proof.
  apply (created_key_reads_back (L := toy_BtcLib) (mkClientCtx "chain-test" "/covd") "covenant-key" "file"
           empty_world toy_kc world_opened "secret" ""
           (@mkChainKeyInfo toy_BtcLib "covenant-key" "abandon ability able" [Byte.x2a] [Byte.x2a])
           world_created); vm_compute; reflexivity.
Defined.

Definition ledger_kc : ChainKeyringController (mem_keyring (X := unit) []) :=
  mkChainKeyringController (mem_keyring []) 0%nat "ledger-key" 0%nat.

Definition world_ledger : World (MemStore * unit) :=
  mkWorld {[0%nat := ""]} (mkMemStore {["ledger-key" := mkKeyRecord None]} (Some "secret"), tt).

Lemma private_key_by_record_kind_witness :
  exists msg, GetChainPrivKey (mem_keyring []) ledger_kc "secret" world_ledger =
    (Panic msg, drain 0 (Reset 0 "secret" world_ledger).2).
Proof.
  apply (private_key_by_record_kind ledger_kc "secret" world_ledger (mkKeyRecord None)
           (drain 0 (Reset 0 "secret" world_ledger).2)).
  vm_compute. reflexivity.
Defined.
