(* ===== verification/Emulator.v ===== *)
(** * The covenant emulator: [src/covenant/covenant.go]

    The daemon's core.  [NewCovenantEmulator] opens the keyring, [UpdateParams]
    refreshes the staking parameters with retries, [AddCovenantSignatures] checks
    and signs a batch of delegations and submits the signatures,
    [removeAlreadySigned] and [delegationsToBatches] prepare the batches, and
    [submission_tick] is one turn of the submission loop.  Log calls are left
    out: they neither change the state read here nor alter control flow. *)

From S2P Require Import Prelude External GoLib Util Types Config ClientController Keyring.
From Stdlib Require Import ZArith Lia String.
From stdpp Require Import base list strings gmap.

#[local] Open Scope string_scope.
#[local] Open Scope list_scope.
#[local] Open Scope Z_scope.

(** ** Small pieces of Go *)

(** [s[i:j]] *)
Definition go_slice {A} (l : list A) (i j : Z) : result (list A) :=
  if (0 <=? i) && (i <=? j) && (j <=? go_len l)
  then Ok (take (Z.to_nat (j - i)) (drop (Z.to_nat i) l))
  else Panic "runtime error: slice bounds out of range".

(** [if err := check(); err != nil { return f(err) }] *)
Definition check_err (f : error -> error) (err : option error) : result unit :=
  match err with
  | None => Ok tt
  | Some e => Err (f e)
  end.

(** [if err != nil { log; continue }]: an error is absorbed, a panic is not. *)
Definition log_err {W A} (m : Go W A) : Go W (option A) := fun w =>
  match m w with
  | (Ok a, w') => (Ok (Some a), w')
  | (Err _, w') => (Ok None, w')
  | (Panic p, w') => (Panic p, w')
  | (Hang, w') => (Hang, w')
  end.

(** ** Splitting delegations into batches *)

(** The loop of [delegationsToBatches] at index [i]; out of fuel it has not
    returned. *)
Fixpoint batches_loop {A} (dels : list A) (batchSize : Z) (fuel : nat) (i : Z)
    (batches : list (list A)) : result (list (list A)) :=
  match fuel with
  | O => Hang
  | S fuel' =>
      if i <? u64 (go_len dels) then
        let end_ := u64 (i + batchSize) in
        let end_ := if u64 (go_len dels) <? end_ then u64 (go_len dels) else end_ in
        batch ← go_slice dels i end_;
        batches_loop dels batchSize fuel' (u64 (i + batchSize)) (batches ++ [batch])
      else Ok batches
  end.

(** A batch size of at least one advances the index, so one turn per delegation
    and one to leave the loop are enough. *)
Definition batches_fuel {A} (dels : list A) : nat := S (length dels).

Section emulator.
Context {L : BtcLib} {E : Type} (os : OS (World E)) (K : KeyringLib E).

(** [retry.Do] of avast/retry-go with the options the code passes, by its number
    of attempts; the closure runs on its captured variable and the world. *)
Context (retry_Do : Z -> Go (option StakingParams * World E) unit ->
                    Go (option StakingParams * World E) unit).

Definition RtyAttNum : Z := 5.

Record CovenantEmulator := mkCovenantEmulator {
  ce_pk : PublicKey;
  ce_cc : ClientController (World E);
  ce_kc : ChainKeyringController K;
  ce_config : Config;
  ce_params : option StakingParams;
  ce_input : nat;
  ce_passphrase : string;
}.

Implicit Types ce : CovenantEmulator.

Definition NewCovenantEmulator (config : Config) (cc : ClientController (World E))
    (passphrase : string) : Go (World E) CovenantEmulator :=
  input ← NewReader "";
  bbn ← lift (go_deref (BabylonConfig_ptr config));
  kr ← go_wrap (fun err => Errorf "failed to create keyring: %w" [FErr err])
         (CreateKeyring os K (KeyDirectory bbn) (ChainID bbn) (KeyringBackend bbn) input);
  kc ← NewChainKeyringControllerWithKeyring K kr (Key bbn) input;
  sk ← go_wrap (fun err => Errorf "covenant key %s is not found: %w" [FStr (Key bbn); FErr err])
         (GetChainPrivKey K kc passphrase);
  pk ← lift (of_errorOr (ParsePubKey (sdk_PubKeyBytes K sk)));
  mret {| ce_cc := cc; ce_kc := kc; ce_config := config; ce_input := input;
          ce_passphrase := passphrase; ce_pk := pk; ce_params := None |}.

(** ** Staking parameters *)

Definition query_closure ce : Go (option StakingParams * World E) unit := fun s =>
  match QueryStakingParams (ce_cc ce) s.2 with
  | (Ok params, w') => (Ok tt, (params, w'))
  | (Err err, w') => (Err err, (None, w'))
  | (Panic p, w') => (Panic p, (None, w'))
  | (Hang, w') => (Hang, (None, w'))
  end.

Definition getParamsWithRetry ce : Go (World E) (option StakingParams) := fun w =>
  match retry_Do RtyAttNum (query_closure ce) (None, w) with
  | (Ok _, (params, w')) => (Ok params, w')
  | (Err err, (_, w')) => (Err err, w')
  | (Panic p, (_, w')) => (Panic p, w')
  | (Hang, (_, w')) => (Hang, w')
  end.

Definition with_params ce (params : option StakingParams) : CovenantEmulator := {|
  ce_pk := ce_pk ce; ce_cc := ce_cc ce; ce_kc := ce_kc ce; ce_config := ce_config ce;
  ce_params := params; ce_input := ce_input ce; ce_passphrase := ce_passphrase ce |}.

Definition UpdateParams ce : Go (World E) CovenantEmulator :=
  params ← getParamsWithRetry ce;
  mret (with_params ce params).

(** ** Checking and signing one delegation *)

Definition getPrivKey ce : Go (World E) PrivateKey :=
  sdkPrivKey ← GetChainPrivKey K (ce_kc ce) (ce_passphrase ce);
  mret (PrivKeyFromBytes sdkPrivKey).1.

(** What the checks of the loop body leave behind for the signing steps. *)
Record Checked := mkChecked {
  chk_btcDel : Delegation;
  chk_undel : Undelegation;
  chk_params : StakingParams;
  chk_stakingMsgTx : MsgTx;
  chk_slashingTx : BTCSlashingTx;
  chk_unbondingMsgTx : MsgTx;
  chk_unbondingInfo : UnbondingInfo;
}.

(** Steps 0 to 4 of the loop body: nil checks, quorum, unbonding time, staking
    and unbonding transactions.  [None] is the early [return nil, nil]. *)
Definition check_delegation (params : option StakingParams) (net : NetParams)
    (btcDel : option Delegation) : result (option Checked) :=
  match btcDel with
  | None => Err (errorString "empty delegation")
  | Some btcDel =>
  match BtcUndelegation btcDel with
  | None => Err (errorString "empty undelegation")
  | Some undel =>
      params ← go_deref params;
      quorum ← HasCovenantQuorum btcDel (CovenantQuorum params);
      if (quorum : bool) then mret None else
      let unbondingTime := UnbondingTime btcDel in
      let minUnbondingTime := MinUnbondingTime params in
      if unbondingTime <=? minUnbondingTime then
        Err (Errorf "unbonding time %d must be larger than %d"
               [FInt unbondingTime; FInt minUnbondingTime])
      else
      stakingMsgTx ← of_errorOr (NewBTCTxFromHex (StakingTxHex btcDel));
      slashingTx ← of_errorOr (NewBTCSlashingTxFromHex (SlashingTxHex btcDel));
      slashingMsgTx ← of_errorOr (ToMsgTx slashingTx);
      check_err (fun err => Errorf "invalid txs in the delegation: %w" [FErr err])
        (CheckTransactions slashingMsgTx stakingMsgTx (StakingOutputIdx btcDel)
           (MinSlashingTxFeeSat params) (SlashingRate params) (SlashingAddress params)
           (BtcPk btcDel) (u16 unbondingTime) net);;
      unbondingSlashingMsgTx ← of_errorOr (NewBTCTxFromHex (Undelegation_SlashingTxHex undel));
      unbondingMsgTx ← of_errorOr (NewBTCTxFromHex (UnbondingTxHex undel));
      value ← go_index (TxOutValues unbondingMsgTx) 0;
      unbondingInfo ←
        of_errorOr (BuildUnbondingInfo (BtcPk btcDel) (FpBtcPks btcDel) (CovenantPks params)
                      (CovenantQuorum params) (u16 unbondingTime) value net);
      check_err (fun err => Errorf "invalid txs in the undelegation: %w" [FErr err])
        (CheckTransactions unbondingSlashingMsgTx unbondingMsgTx 0
           (MinSlashingTxFeeSat params) (SlashingRate params) (SlashingAddress params)
           (BtcPk btcDel) (u16 unbondingTime) net);;
      mret (Some {| chk_btcDel := btcDel; chk_undel := undel; chk_params := params;
                    chk_stakingMsgTx := stakingMsgTx; chk_slashingTx := slashingTx;
                    chk_unbondingMsgTx := unbondingMsgTx;
                    chk_unbondingInfo := unbondingInfo |})
  end end.

(** The two loops over the finality providers: one adaptor signature each. *)
Definition enc_sign_fps (slashingTx : BTCSlashingTx) (fundingTx : MsgTx) (outputIdx : Z)
    (script : bytes) (covenantPrivKey : PrivateKey) (fps : list PublicKey)
    : result (list bytes) :=
  mapM_result (fun fpPk =>
    encKey ← of_errorOr (NewEncryptionKeyFromBTCPK fpPk);
    covenantSig ← of_errorOr (EncSign slashingTx fundingTx outputIdx script covenantPrivKey encKey);
    MustMarshal covenantSig) fps.

(** Steps 5 to 8 after the private key has been read. *)
Definition sign_checked (pk : PublicKey) (net : NetParams) (c : Checked)
    (covenantPrivKey : PrivateKey) : result CovenantSigs :=
  let btcDel := chk_btcDel c in
  let params := chk_params c in
  stakingTime ← GetStakingTime btcDel;
  stakingInfo ←
    of_errorOr (BuildStakingInfo (BtcPk btcDel) (FpBtcPks btcDel) (CovenantPks params)
                  (CovenantQuorum params) stakingTime (i64 (TotalSat btcDel)) net);
  slashingPathInfo ← of_errorOr (StakingSlashingPathSpendInfo stakingInfo);
  covSigs ←
    enc_sign_fps (chk_slashingTx c) (chk_stakingMsgTx c) (StakingOutputIdx btcDel)
      (GetPkScriptPath slashingPathInfo) covenantPrivKey (FpBtcPks btcDel);
  stakingTxUnbondingPathInfo ← of_errorOr (StakingUnbondingPathSpendInfo stakingInfo);
  covenantUnbondingSignature ←
    wrap_err (fun err => Errorf "failed to sign unbonding tx: %w" [FErr err])
      (of_errorOr (SignTxWithOneScriptSpendInputStrict (chk_unbondingMsgTx c)
         (chk_stakingMsgTx c) (StakingOutputIdx btcDel)
         (GetPkScriptPath stakingTxUnbondingPathInfo) covenantPrivKey));
  slashUnbondingTx ←
    of_errorOr (NewBTCSlashingTxFromHex (Undelegation_SlashingTxHex (chk_undel c)));
  unbondingTxSlashingPath ← of_errorOr (UnbondingSlashingPathSpendInfo (chk_unbondingInfo c));
  covSlashingSigs ←
    enc_sign_fps slashUnbondingTx (chk_unbondingMsgTx c) 0
      (GetPkScriptPath unbondingTxSlashingPath) covenantPrivKey (FpBtcPks btcDel);
  mret {| CovenantSigs_PublicKey := pk;
          StakingTxHash := TxHash (chk_stakingMsgTx c);
          SlashingSigs := covSigs;
          UnbondingSig := covenantUnbondingSignature;
          SlashingUnbondingSigs := covSlashingSigs |}.

(** One turn of the loop of [AddCovenantSignatures]. *)
Definition sign_delegation ce (btcDel : option Delegation) : Go (World E) (option CovenantSigs) :=
  chk ← lift (check_delegation (ce_params ce) (BTCNetParams (ce_config ce)) btcDel);
  match chk with
  | None => mret None
  | Some c =>
      covenantPrivKey ←
        go_wrap (fun err => Errorf "failed to get Covenant private key: %w" [FErr err])
          (getPrivKey ce);
      sigs ← lift (sign_checked (ce_pk ce) (BTCNetParams (ce_config ce)) c covenantPrivKey);
      mret (Some sigs)
  end.

Fixpoint sign_batch ce (btcDels : list (option Delegation)) (covenantSigs : list CovenantSigs)
    : Go (World E) (option (list CovenantSigs)) :=
  match btcDels with
  | [] => mret (Some covenantSigs)
  | btcDel :: btcDels' =>
      r ← sign_delegation ce btcDel;
      match r with
      | None => mret None
      | Some sigs => sign_batch ce btcDels' (covenantSigs ++ [sigs])
      end
  end.

Definition AddCovenantSignatures ce (btcDels : list (option Delegation))
    : Go (World E) (option TxResponse) :=
  if go_len btcDels =? 0 then lift (Err (errorString "no delegations")) else
  signed ← sign_batch ce btcDels [];
  match signed with
  | None => mret None
  | Some covenantSigs => SubmitCovenantSigs (ce_cc ce) covenantSigs
  end.

(** ** Preparing the batches *)

Definition delegationsToBatches ce (dels : list (option Delegation))
    : result (list (list (option Delegation))) :=
  batches_loop dels (SigsBatchSize (ce_config ce)) (batches_fuel dels) 0 [].

(** The inner loop of [removeAlreadySigned], which stops at the first match. *)
Fixpoint alreadySigned (pk : PublicKey) (sigs : list (option CovenantAdaptorSigInfo))
    : result bool :=
  match sigs with
  | [] => Ok false
  | covSig :: sigs' =>
      covSig ← go_deref covSig;
      if bool_decide (SerializePubKey (CovenantAdaptorSigInfo_Pk covSig) = SerializePubKey pk)
      then Ok true
      else alreadySigned pk sigs'
  end.

Fixpoint removeAlreadySigned (pk : PublicKey) (dels : list (option Delegation))
    : result (list (option Delegation)) :=
  match dels with
  | [] => Ok []
  | del :: dels' =>
      d ← go_deref del;
      signed ← alreadySigned pk (Delegation_CovenantSigs d);
      rest ← removeAlreadySigned pk dels';
      mret (if (signed : bool) then rest else del :: rest)
  end.

(** ** One turn of the submission loop *)

Fixpoint submit_batches ce (batches : list (list (option Delegation))) : Go (World E) unit :=
  match batches with
  | [] => mret tt
  | delBatch :: batches' =>
      log_err (AddCovenantSignatures ce delBatch);;
      submit_batches ce batches'
  end.

Definition submission_tick ce : Go (World E) CovenantEmulator :=
  updated ← log_err (UpdateParams ce);
  match updated with
  | None => mret ce
  | Some ce =>
      dels ← log_err (QueryPendingDelegations (ce_cc ce) (DelegationLimit (ce_config ce)));
      match dels with
      | None => mret ce
      | Some dels =>
          sanitizedDels ← lift (removeAlreadySigned (ce_pk ce) dels);
          batches ← lift (delegationsToBatches ce sanitizedDels);
          submit_batches ce batches;;
          mret ce
      end
  end.

(** ** Creating the covenant key *)

Definition CreateCovenantKey (keyringDir chainID keyName backend passphrase hdPath : string)
    : Go (World E) ChainKeyInfo :=
  sdkCtx ← CreateClientCtx os keyringDir chainID;
  krController ← NewChainKeyringController K sdkCtx keyName backend;
  CreateChainKey K krController passphrase hdPath.

End emulator.

Arguments ce_pk {L E K} _.
Arguments ce_cc {L E K} _.
Arguments ce_kc {L E K} _.
Arguments ce_config {L E K} _.
Arguments ce_params {L E K} _.
Arguments ce_input {L E K} _.
Arguments ce_passphrase {L E K} _.
Arguments query_closure {L E K} _ _.
Arguments getParamsWithRetry {L E K} _ _ _.
Arguments with_params {L E K} _ _.
Arguments UpdateParams {L E K} _ _ _.
Arguments getPrivKey {L E K} _ _.
Arguments sign_delegation {L E K} _ _ _.
Arguments sign_batch {L E K} _ _ _ _.
Arguments AddCovenantSignatures {L E K} _ _ _.
Arguments delegationsToBatches {L E K} _ _.
Arguments submit_batches {L E K} _ _ _.
Arguments submission_tick {L E K} _ _ _.
