(* ===== verification/Cmd.v ===== *)
(** * The commands: [covd init], [covd create-key] and [covd start]

    [src/cmd/covd/init.go], [key.go], [start.go] and [flags.go], and the
    construction of the server ([src/covenant/service/server.go]).  The command
    line is urfave/cli's: a command reads its flags by name.  [start] ends by
    calling [RunUntilShutdown], whose steps are in [Lifecycle]; here it is what
    the assembled server is handed to. *)

From S2P Require Import Prelude External ToyLib GoLib Util.
From S2P Require Import Types Log Config ClientController Keyring Emulator.
From Stdlib Require Import ZArith Lia String.
From stdpp Require Import base list strings gmap.

#[local] Open Scope string_scope.
#[local] Open Scope list_scope.
#[local] Open Scope Z_scope.

(** ** Flags *)

Definition homeFlag : string := "home".
Definition forceFlag : string := "force".
Definition keyNameFlag : string := "key-name".
Definition passphraseFlag : string := "passphrase".
Definition hdPathFlag : string := "hd-path".
Definition chainIdFlag : string := "chain-id".
Definition keyringBackendFlag : string := "keyring-backend".

(** [cli.Context]: the value of each flag, its default when it is not given. *)
Record CliContext := mkCliContext {
  c_String : string -> string;
  c_Bool : string -> bool;
}.

(** What [create-key] prints. *)
Record covenantKey := mkcovenantKey {
  covenantKey_Name : string;
  covenantKey_PublicKey : string;
}.

Inductive Printed :=
| PrintedJSON (text : string)
| PrintedFailure (err : error).

Section cmd.
Context {L : BtcLib} {E : Type} (os : OS (World E)) (K : KeyringLib E).
Context (ini : IniParser (W := World E)) (dc : BabylonConfig) (zeroParams : NetParams).

(** ** init *)

Definition home_path (c : CliContext) (w : World E) : result string :=
  homePath ← filepath_Abs os (c_String c homeFlag) w;
  mret (CleanAndExpandPath os homePath w).

Definition initHome (c : CliContext) : Go (World E) unit := fun w =>
  (homePath ← lift (home_path c w);
   let force := c_Bool c forceFlag in
   if FileExists os homePath w && negb force then
     lift (Err (Errorf "home path %s already exists" [FStr homePath]))
   else
   MakeDirectory os homePath;;
   let logDir := LogDir homePath in
   MakeDirectory os logDir;;
   defaultConfig ← lift (DefaultConfigWithHomePath dc homePath);
   ini_WriteFile ini defaultConfig (ConfigFile homePath)) w.

(** ** create-key *)

(** The JSON encoder and the standard output. *)
Context (json_MarshalIndent : covenantKey -> errorOr string).
Context (stdout : Printed -> World E -> World E).

Definition printRespJSON (resp : covenantKey) : Go (World E) unit := fun w =>
  match json_MarshalIndent resp with
  | inl err => (Ok tt, stdout (PrintedFailure err) w)
  | inr jsonBytes => (Ok tt, stdout (PrintedJSON jsonBytes) w)
  end.

(** [cfg.BabylonConfig.Key = keyName; cfg.BabylonConfig.KeyringBackend = keyBackend] *)
Definition with_key (cfg : Config) (keyName keyBackend : string) : result Config :=
  bbn ← go_deref (BabylonConfig_ptr cfg);
  mret {|
    LogLevel := LogLevel cfg;
    QueryInterval := QueryInterval cfg;
    DelegationLimit := DelegationLimit cfg;
    SigsBatchSize := SigsBatchSize cfg;
    BitcoinNetwork := BitcoinNetwork cfg;
    BTCNetParams := BTCNetParams cfg;
    BabylonConfig_ptr := Some {|
      Key := keyName;
      ChainID := ChainID bbn;
      RPCAddr := RPCAddr bbn;
      GRPCAddr := GRPCAddr bbn;
      AccountPrefix := AccountPrefix bbn;
      KeyringBackend := keyBackend;
      GasAdjustment := GasAdjustment bbn;
      GasPrices := GasPrices bbn;
      KeyDirectory := KeyDirectory bbn;
      Debug := Debug bbn;
      Timeout := Timeout bbn;
      BlockTimeout := BlockTimeout bbn;
      OutputFormat := OutputFormat bbn;
      SignModeStr := SignModeStr bbn;
    |};
  |}.

Definition createKey (ctx : CliContext) : Go (World E) unit := fun w =>
  (let homePath := c_String ctx homeFlag in
   let chainID := c_String ctx chainIdFlag in
   let keyName := c_String ctx keyNameFlag in
   let backend := c_String ctx keyringBackendFlag in
   let passphrase := c_String ctx passphraseFlag in
   let hdPath := c_String ctx hdPathFlag in
   let keyBackend := c_String ctx keyringBackendFlag in
   cfg ← lift (wrap_err (fun err => Errorf "failed to load the config from %s: %w"
                                      [FStr (ConfigFile homePath); FErr err])
                 (LoadConfig os ini zeroParams homePath w));
   keyPair ← go_wrap (fun err => Errorf "failed to create covenant key: %w" [FErr err])
     (CreateCovenantKey os K homePath chainID keyName backend passphrase hdPath);
   let bip340Key := NewBIP340PubKeyFromBTCPK (ChainKeyInfo_PublicKey keyPair) in
   printRespJSON {| covenantKey_Name := c_String ctx keyNameFlag;
                    covenantKey_PublicKey := BIP340MarshalHex bip340Key |};;
   cfg ← lift (with_key cfg keyName keyBackend);
   ini_WriteFile ini cfg (ConfigFile homePath)) w.

(** ** start *)

(** lnd's [signal.Interceptor], of which the server only waits on its channel. *)
Context {Interceptor : Type}.

(** A channel that nothing has been sent on: its capacity. *)
Record NewChan := make_chan {
  chan_cap : Z;
}.

Record CovenantServer := mkCovenantServer {
  srv_started : Z;
  srv_ce : CovenantEmulator K;
  srv_logger : Logger;
  srv_interceptor : Interceptor;
  srv_quit : NewChan;
}.

Definition NewCovenantServer (l : Logger) (ce : CovenantEmulator K) (sig : Interceptor)
    : CovenantServer :=
  {| srv_started := 0; srv_logger := l; srv_ce := ce; srv_interceptor := sig;
     srv_quit := make_chan 1 |}.

(** The client library's constructors and lnd's signal interceptor. *)
Context {bbnLib : BabylonLib} (validate : BabylonConfig -> option error)
  (new : BabylonConfig -> errorOr (BbnClient (World E)))
  (signal_Intercept : Go (World E) Interceptor)
  (RunUntilShutdown : CovenantServer -> Go (World E) unit).

Definition start (ctx : CliContext) : Go (World E) unit := fun w =>
  (homePath ← lift (home_path ctx w);
   cfg ← lift (wrap_err (fun err => Errorf "failed to load config at %s: %w"
                                      [FStr homePath; FErr err])
                 (LoadConfig os ini zeroParams homePath w));
   logger ← go_wrap (fun err => Errorf "failed to load the logger: %w" [FErr err])
              (NewRootLoggerWithFile os (LogFile homePath) (LogLevel cfg));
   bbnCfg ← lift (go_deref (BabylonConfig_ptr cfg));
   bbnClient ←
     lift (wrap_err (fun err => Errorf "failed to create rpc client for the consumer chain: %w"
                                  [FErr err])
             (NewBabylonController validate new bbnCfg (BTCNetParams cfg)));
   ce ← go_wrap (fun err => Errorf "failed to start the covenant emulator: %w" [FErr err])
          (NewCovenantEmulator os K cfg (babylon_ClientController bbnClient)
             (c_String ctx passphraseFlag));
   shutdownInterceptor ← signal_Intercept;
   RunUntilShutdown (NewCovenantServer logger ce shutdownInterceptor)) w.

End cmd.
