(* ===== verification/CmdFacts.v ===== *)
(** * What the commands leave behind

    The three commands work on one home directory: [init] writes a configuration
    that the other two can load, [create-key] writes the key's name into it, and
    [start] opens the keyring the configuration names.  The theorems here follow
    a home directory through these steps. *)

From S2P Require Import Prelude External ToyLib GoLib Util Types.
From S2P Require Import Log Config ClientController Keyring Emulator Cmd.
From Stdlib Require Import ZArith Lia String.
From stdpp Require Import base list strings gmap.

#[local] Open Scope string_scope.
#[local] Open Scope list_scope.
#[local] Open Scope Z_scope.

(** ** What the ini parser and the keyring promise *)

(** Every option is set, to one of its choices where it has a [choice] tag: a
    configuration that can be written and read back. *)
Definition choices_ok {L : BtcLib} (cfg : Config) : Prop :=
  LogLevel cfg ∈ config_levels /\
  BitcoinNetwork cfg ∈ ["mainnet"; "regtest"; "testnet"; "simnet"; "signet"] /\
  is_Some (BabylonConfig_ptr cfg).

(** A file written with [IniIncludeDefaults] names every tagged option, so that
    parsing it gives them all back; [BTCNetParams] has no tag. *)
Class IniSpec {L : BtcLib} {W} (os : OS W) (ini : IniParser (W := W)) := {
  ini_roundtrip cfg file w w' base :
    choices_ok cfg -> ini_WriteFile ini cfg file w = (Ok tt, w') ->
    FileExists os file w' = true /\
    ini_ParseFile ini base file w' = inr (with_BTCNetParams cfg (BTCNetParams base));
}.

(** A function on worlds that leaves all keyrings alone. *)
Definition keeps_keyrings {E} {K : KeyringLib E} {S : KeyringSpec K} (w w' : World E) : Prop :=
  forall kr, kr_lookup kr w' = kr_lookup kr w /\ kr_accepts kr w' = kr_accepts kr w.

(** Except in memory, a keyring is determined by its application name, backend and
    directory: opening it again opens the same store. *)
Class PersistentKeyring {E} (K : KeyringLib E) {S : KeyringSpec K} := {
  New_keeps app backend dir input w r w' :
    keyring_New K app backend dir input w = (r, w') -> keeps_keyrings w w';
  New_same app backend dir i1 w1 kr1 w1' i2 w2 kr2 w2' w :
    backend <> "memory" ->
    keyring_New K app backend dir i1 w1 = (Ok kr1, w1') ->
    keyring_New K app backend dir i2 w2 = (Ok kr2, w2') ->
    kr_lookup kr1 w = kr_lookup kr2 w /\ kr_accepts kr1 w = kr_accepts kr2 w;
}.

(** ** Loading what was written *)

Section config_file.
Context {L : BtcLib} {E : Type} (os : OS (World E)) (ini : IniParser (W := World E)).
Context {I : IniSpec os ini}.

Lemma Validate_known cfg :
  BitcoinNetwork cfg ∈ ["mainnet"; "regtest"; "testnet"; "simnet"; "signet"] ->
  exists p, (BitcoinNetwork cfg, p) ∈ network_table /\
    (forall q, Validate (with_BTCNetParams cfg q) = Ok (with_BTCNetParams cfg p)).
Proof.
  unfold Validate, network_table. rewrite !elem_of_cons, elem_of_nil. cbn.
  intros [->|[->|[->|[->|[->|[]]]]]]; eexists; (split; [|by intros; cbn]);
    rewrite !elem_of_cons; tauto.
Qed.

(** A written configuration is loaded back with the parameters of its network. *)
Lemma written_config_loads zero cfg home w w' :
  choices_ok cfg -> ini_WriteFile ini cfg (ConfigFile home) w = (Ok tt, w') ->
  exists p, (BitcoinNetwork cfg, p) ∈ network_table /\
    LoadConfig os ini zero home w' = Ok (with_BTCNetParams cfg p).
Proof.
  intros Hc Hw. destruct (Validate_known cfg (proj1 (proj2 Hc))) as (p & Hp & Hv).
  exists p. split; [done|]. destruct (ini_roundtrip _ _ _ _ (zeroConfig zero) Hc Hw) as [Hf Hparse].
  unfold LoadConfig. rewrite Hf, Hparse. cbn. apply Hv.
Qed.

Lemma network_table_functional n p q :
  (n, p) ∈ network_table -> (n, q) ∈ network_table -> p = q.
Proof.
  unfold network_table. rewrite !elem_of_cons, !elem_of_nil. intuition congruence.
Qed.

Lemma with_BTCNetParams_same cfg : with_BTCNetParams cfg (BTCNetParams cfg) = cfg.
Proof. by destruct cfg. Qed.

Lemma default_config_choices dc home cfg :
  DefaultConfigWithHomePath dc home = Ok cfg ->
  choices_ok cfg /\ (BitcoinNetwork cfg, BTCNetParams cfg) ∈ network_table.
Proof.
  intros [= <-]. split; [split_and!; cbn; [| |by eexists]|]; cbn;
    unfold config_levels, network_table; rewrite !elem_of_cons; tauto.
Qed.

(** A successful [init] has written the default configuration. *)
Lemma initHome_writes dc c w w' :
  initHome os ini dc c w = (Ok tt, w') ->
  exists home cfg w1, home_path os c w = Ok home /\ DefaultConfigWithHomePath dc home = Ok cfg /\
    ini_WriteFile ini cfg (ConfigFile home) w1 = (Ok tt, w').
Proof.
  unfold initHome. rewrite go_bind_Ok. intros (home & w1 & Hh & H).
  rewrite lift_run in Hh. apply pair_equal_spec in Hh as [Hh <-].
  destruct (FileExists os home w && negb (c_Bool c forceFlag)); [done|].
  go_inv. eauto 10.
Qed.

End config_file.

(** ** From the created key to the emulator *)

Section key_flow.
Context {L : BtcLib} {E : Type} (os : OS (World E)) (K : KeyringLib E).
Context {S : KeyringSpec K} {P : PersistentKeyring K}.

Lemma keeps_trans (w1 w2 w3 : World E) :
  keeps_keyrings w1 w2 -> keeps_keyrings w2 w3 -> keeps_keyrings w1 w3.
Proof. intros H1 H2 kr. destruct (H1 kr) as [<- <-]. apply H2. Qed.

Lemma NewReader_keeps (w : World E) : keeps_keyrings w (NewReader "" w).2.
Proof. intros kr. apply (Reset_keeps kr (fresh (dom (readers w))) ""). Qed.

Lemma holds_key_keeps (kc : ChainKeyringController K) pass key w w' :
  keeps_keyrings w w' -> holds_key kc pass key w -> holds_key kc pass key w'.
Proof. intros Hk. unfold holds_key. by destruct (Hk (kc_kr kc)) as [-> ->]. Qed.

Lemma CreateClientCtx_dir dir chain w :
  dir <> "" -> CreateClientCtx os dir chain w = (Ok (mkClientCtx chain dir), w).
Proof. intros H%String.eqb_neq. unfold CreateClientCtx. by rewrite H. Qed.

(** What [CreateCovenantKey] leaves: a controller over a keyring opened with these
    arguments holds the key. *)
Lemma CreateCovenantKey_holds dir chain name backend pass hd w info w' :
  dir <> "" ->
  CreateCovenantKey os K dir chain name backend pass hd w = (Ok info, w') ->
  exists kc key i w1 w2, keyring_New K chain backend dir i w1 = (Ok (kc_kr kc), w2) /\
    kc_fpName kc = name /\ name <> "" /\ backend <> "" /\ holds_key kc pass key w' /\
    made_key (K := K) key /\ PrivKeyFromBytes key = (ChainKeyInfo_PrivateKey info, ChainKeyInfo_PublicKey info).
Proof.
  intros Hd. unfold CreateCovenantKey. rewrite (go_bind_Ok_run _ _ _ _ _ (CreateClientCtx_dir dir chain w Hd)).
  cbn beta iota. rewrite go_bind_Ok. intros (kc & w1 & Hkc & Hc).
  pose proof (NewChainKeyringController_shares _ _ _ _ _ _ Hkc) as Hsh.
  destruct (CreateChainKey_holds _ _ _ _ _ _ Hsh Hc) as (key & Hk & Hmade & Hpair).
  unfold NewChainKeyringController in Hkc.
  destruct (String.eqb_spec name ""); [done|]. destruct (String.eqb_spec backend ""); [done|].
  go_inv. cbn in *. eexists (mkChainKeyringController K _ _ _), key. cbn. eauto 12.
Qed.

(** An emulator whose configuration names a keyring that holds a key gets it. *)
Lemma NewCovenantEmulator_finds config bbn cc pass w kr w1 kc0 key pk i w2 w3 :
  BabylonConfig_ptr config = Some bbn -> KeyDirectory bbn <> "" -> Key bbn <> "" ->
  KeyringBackend bbn <> "memory" -> KeyringBackend bbn <> "" ->
  kc_fpName kc0 = Key bbn -> holds_key kc0 pass key w ->
  keyring_New K (ChainID bbn) (KeyringBackend bbn) (KeyDirectory bbn) i w2 = (Ok (kc_kr kc0), w3) ->
  keyring_New K (ChainID bbn) (KeyringBackend bbn) (KeyDirectory bbn) (fresh (dom (readers w)))
    (NewReader "" w).2 = (Ok kr, w1) ->
  ParsePubKey (sdk_PubKeyBytes K key) = inr pk ->
  exists ce w', NewCovenantEmulator os K config cc pass w = (Ok ce, w') /\ ce_pk ce = pk.
Proof.
  intros Hb Hd Hn Hm Hbe Hname (Ha & r & Hl & Hk) Hold Hnew Hp.
  set (input := fresh (dom (readers w))). set (kc := mkChainKeyringController K kr (Key bbn) input).
  assert (holds_key kc pass key w1) as Hkc.
  { destruct (New_same _ _ _ _ _ _ _ _ _ _ _ w1 Hm Hold Hnew) as [E1 E2].
    destruct (keeps_trans _ _ _ (NewReader_keeps w) (New_keeps _ _ _ _ _ _ _ Hnew) (kc_kr kc0))
      as [E3 E4].
    split; cbn; [by rewrite <- E2, E4|]. exists r. by rewrite <- E1, E3, <- Hname. }
  assert (shares_reader kc) as Hsh by (symmetry; by eapply New_input).
  destruct (GetChainPrivKey_holds _ _ _ _ Hsh Hkc) as (w' & Hget & _).
  do 2 eexists. unfold NewCovenantEmulator. split.
  - rewrite (go_bind_Ok_run _ _ _ input (NewReader "" w).2) by done. cbn beta iota.
    rewrite (go_bind_Ok_run _ _ _ bbn (NewReader "" w).2) by (by rewrite lift_run, Hb).
    cbn beta iota. rewrite (go_bind_Ok_run _ _ _ kr w1).
    2: { apply go_wrap_Ok. unfold CreateKeyring.
         rewrite (go_bind_Ok_run _ _ _ _ _ (CreateClientCtx_dir _ _ _ Hd)). cbn beta iota.
         apply String.eqb_neq in Hbe. rewrite Hbe. by apply go_wrap_Ok. }
    cbn beta iota. rewrite (go_bind_Ok_run _ _ _ kc w1).
    2: { unfold NewChainKeyringControllerWithKeyring. apply String.eqb_neq in Hn. by rewrite Hn. }
    cbn beta iota. rewrite (go_bind_Ok_run _ _ _ key w') by (by apply go_wrap_Ok).
    cbn beta iota. rewrite (go_bind_Ok_run _ _ _ pk w') by (by rewrite lift_run, Hp). reflexivity.
  - reflexivity.
Qed.

End key_flow.

(** ** Properties *)

Section properties.
Context {L : BtcLib} {E : Type} (os : OS (World E)) (ini : IniParser (W := World E)).

(** [covd init] and the loader agree: after a successful [init], loading the
    configuration of that home directory succeeds and gives exactly the default
    configuration [init] built, the network parameters included. *)
Lemma initialised_home_loads_defaults {I : IniSpec os ini} dc zero c w w' home :
  initHome os ini dc c w = (Ok tt, w') -> home_path os c w = Ok home ->
  LoadConfig os ini zero home w' = DefaultConfigWithHomePath dc home.
Proof.
  intros H Hh. apply initHome_writes in H as (home' & cfg & w1 & Hh' & Hd & Hw).
  rewrite Hh in Hh'. injection Hh' as <-.
  destruct (default_config_choices _ _ _ Hd) as [Hc Hn].
  destruct (written_config_loads os ini zero cfg home w1 w' Hc Hw) as (p & Hp & Hl).
  rewrite Hl, Hd. rewrite (network_table_functional _ _ _ Hp Hn). by rewrite with_BTCNetParams_same.
Qed.

(** [covd init] on a home path that exists, without the force flag, returns an
    error and changes nothing. *)
Lemma init_refuses_existing_home dc c w home :
  home_path os c w = Ok home -> FileExists os home w = true -> c_Bool c forceFlag = false ->
  initHome os ini dc c w = (Err (Errorf "home path %s already exists" [FStr home]), w).
Proof.
  intros Hh Hf Hb. unfold initHome. rewrite (go_bind_Ok_run _ _ _ home w) by (by rewrite lift_run, Hh).
  cbn beta iota. by rewrite Hf, Hb.
Qed.

(** C35: The log level "trace", which the configuration offers, is one the logger does
    not know: with it in the configuration file [covd start] always ends in an error
    (or a panic of the file system calls), and never reaches the chain client, the
    keyring or the server. *)
Theorem trace_level_prevents_start {B : BabylonLib} {Interceptor : Type} K zero validate new
    (intercept : Go (World E) Interceptor) run c w home cfg :
  home_path os c w = Ok home -> LoadConfig os ini zero home w = Ok cfg -> LogLevel cfg = "trace" ->
  exists err w', NewRootLoggerWithFile os (LogFile home) (LogLevel cfg) w = (err, w') /\
    (forall l, err <> Ok l) /\
    start os K ini zero validate new intercept run c w =
      (match err with
       | Err e => Err (Errorf "failed to load the logger: %w" [FErr e])
       | Panic p => Panic p
       | _ => Hang
       end, w').
Proof.
  intros Hh Hl Ht. unfold start.
  destruct (NewRootLoggerWithFile os (LogFile home) (LogLevel cfg) w) as [r w'] eqn:Hr.
  assert (forall l, r <> Ok l) as Hno.
  { intros l ->. unfold NewRootLoggerWithFile in Hr. go_inv.
    unfold NewRootLogger in *. go_inv. rewrite Ht in *. done. }
  exists r, w'. split_and!; [done|done|].
  rewrite (go_bind_Ok_run _ _ _ home w) by (by rewrite lift_run, Hh). cbn beta iota.
  rewrite (go_bind_Ok_run _ _ _ cfg w) by (by rewrite lift_run, Hl). cbn beta iota.
  unfold mbind, go_bind at 1, go_wrap. rewrite Hr.
  destruct r as [l| | |]; cbn; [by destruct (Hno l)|done..].
Qed.

End properties.

Section create_key.
Context {L : BtcLib} {E : Type} (os : OS (World E)) (K : KeyringLib E).
Context (ini : IniParser (W := World E)) (zero : NetParams).
Context (json : covenantKey -> errorOr string) (stdout : Printed -> World E -> World E).
Context {S : KeyringSpec K} {P : PersistentKeyring K} {I : IniSpec os ini}.
(** Printing and writing the configuration file leave the keyrings alone. *)
Hypothesis stdout_keeps : forall t w, keeps_keyrings w (stdout t w).
Hypothesis write_keeps : forall cfg file w r w',
  ini_WriteFile ini cfg file w = (r, w') -> keeps_keyrings w w'.
(** The two libraries derive the same public key from a key the keyring made. *)
Hypothesis same_public_key : forall key,
  made_key (K := K) key -> ParsePubKey (sdk_PubKeyBytes K key) = inr (PrivKeyFromBytes key).2.

Lemma printRespJSON_keeps resp w r w' :
  printRespJSON json stdout resp w = (r, w') -> keeps_keyrings w w'.
Proof. unfold printRespJSON. destruct (json resp); intros [= _ <-]; apply stdout_keeps. Qed.

Lemma with_key_Ok cfg name backend cfg' :
  with_key cfg name backend = Ok cfg' -> choices_ok cfg ->
  choices_ok cfg' /\
  exists bbn, BabylonConfig_ptr cfg' = Some bbn /\ Key bbn = name /\ KeyringBackend bbn = backend.
Proof.
  unfold with_key. intros H (Hl & Hn & _). go_inv. split; [split_and!; cbn; [done..|by eexists]|].
  by eexists.
Qed.

(** What a successful [create-key] leaves behind: the configuration it loaded, with
    the key's name and backend written into it, loads again; and a keyring opened with
    the flags holds the new key. *)
Record key_created ctx (w w1 : World E) (cfg0 cfg : Config) (info : ChainKeyInfo)
    (kc : ChainKeyringController K) (key : bytes) : Prop := {
  kcr_before : LoadConfig os ini zero (c_String ctx homeFlag) w = Ok cfg0;
  kcr_info : exists w0,
    CreateCovenantKey os K (c_String ctx homeFlag) (c_String ctx chainIdFlag)
      (c_String ctx keyNameFlag) (c_String ctx keyringBackendFlag) (c_String ctx passphraseFlag)
      (c_String ctx hdPathFlag) w = (Ok info, w0);
  kcr_written :
    with_key cfg0 (c_String ctx keyNameFlag) (c_String ctx keyringBackendFlag) = Ok cfg;
  kcr_after : exists p, LoadConfig os ini zero (c_String ctx homeFlag) w1 =
    Ok (with_BTCNetParams cfg p) /\ (BitcoinNetwork cfg, p) ∈ network_table;
  kcr_opened : exists i v v', keyring_New K (c_String ctx chainIdFlag)
    (c_String ctx keyringBackendFlag) (c_String ctx homeFlag) i v = (Ok (kc_kr kc), v');
  kcr_name : kc_fpName kc = c_String ctx keyNameFlag;
  kcr_nonempty : c_String ctx keyNameFlag <> "" /\ c_String ctx keyringBackendFlag <> "";
  kcr_holds : holds_key kc (c_String ctx passphraseFlag) key w1;
  kcr_public : ParsePubKey (sdk_PubKeyBytes K key) = inr (ChainKeyInfo_PublicKey info);
}.

Lemma createKey_leaves ctx w w1 :
  createKey os K ini zero json stdout ctx w = (Ok tt, w1) -> c_String ctx homeFlag <> "" ->
  (forall cfg, LoadConfig os ini zero (c_String ctx homeFlag) w = Ok cfg -> choices_ok cfg) ->
  exists cfg0 cfg info kc key, key_created ctx w w1 cfg0 cfg info kc key.
Proof using I P same_public_key stdout_keeps write_keeps.
  intros H Hh Hchoices. unfold createKey in H. cbv zeta in H. rewrite go_bind_Ok in H.
  destruct H as (cfg0 & wa & Hload & H). rewrite lift_run in Hload.
  apply pair_equal_spec in Hload as [Hload%wrap_err_Ok <-].
  rewrite go_bind_Ok in H. destruct H as (info & w0 & Hkey & H). rewrite go_wrap_Ok in Hkey.
  rewrite go_bind_Ok in H. destruct H as ([] & wp & Hprint & H).
  rewrite go_bind_Ok in H. destruct H as (cfg & wq & Hwith & Hwrite).
  rewrite lift_run in Hwith. apply pair_equal_spec in Hwith as [Hwith <-].
  destruct (with_key_Ok _ _ _ _ Hwith (Hchoices _ Hload)) as (Hc & _).
  destruct (written_config_loads os ini zero _ _ _ _ Hc Hwrite) as (p & Hp & Hl).
  destruct (CreateCovenantKey_holds _ _ _ _ _ _ _ _ _ _ _ Hh Hkey)
    as (kc & key & i & v1 & v2 & Hopen & Hname & Hn0 & Hb0 & Hholds & Hmade & Hpair).
  assert (keeps_keyrings w0 w1) as Hkeep
    by (eapply keeps_trans; [by eapply printRespJSON_keeps | by eapply write_keeps]).
  exists cfg0, cfg, info, kc, key. split; eauto using holds_key_keeps.
  by rewrite same_public_key, Hpair by done.
Qed.

(** An emulator on the configuration finds the created key, also after other things
    have happened that leave the keyrings alone. *)
Lemma created_key_found ctx w w1 cfg0 cfg info kc key p cc w2 kr w3 bbn :
  key_created ctx w w1 cfg0 cfg info kc key -> c_String ctx homeFlag <> "" ->
  c_String ctx keyringBackendFlag <> "memory" -> BabylonConfig_ptr cfg = Some bbn ->
  ChainID bbn = c_String ctx chainIdFlag -> KeyDirectory bbn = c_String ctx homeFlag ->
  keeps_keyrings w1 w2 ->
  keyring_New K (ChainID bbn) (KeyringBackend bbn) (KeyDirectory bbn)
    (fresh (dom (readers w2))) (NewReader "" w2).2 = (Ok kr, w3) ->
  exists ce w', NewCovenantEmulator os K (with_BTCNetParams cfg p) cc
      (c_String ctx passphraseFlag) w2 = (Ok ce, w') /\
    ce_pk ce = ChainKeyInfo_PublicKey info.
Proof using P.
  intros Hkc Hh Hm Hb Hchain Hdir Hkeep Hnew.
  destruct (kcr_opened _ _ _ _ _ _ _ _ Hkc) as (i & v & v' & Hopen).
  destruct (kcr_nonempty _ _ _ _ _ _ _ _ Hkc) as [Hn0 Hb0].
  assert (Key bbn = c_String ctx keyNameFlag /\ KeyringBackend bbn = c_String ctx keyringBackendFlag)
    as [Hkn Hkb].
  { pose proof (kcr_written _ _ _ _ _ _ _ _ Hkc) as Hw. unfold with_key in Hw. go_inv.
    cbn in Hb. by injection Hb as <-. }
  pose proof (kcr_name _ _ _ _ _ _ _ _ Hkc). pose proof (kcr_public _ _ _ _ _ _ _ _ Hkc).
  pose proof (holds_key_keeps _ _ _ _ _ _ Hkeep (kcr_holds _ _ _ _ _ _ _ _ Hkc)).
  eapply (NewCovenantEmulator_finds os K (with_BTCNetParams cfg p) bbn cc _ w2 kr w3 kc key);
    rewrite ?Hdir, ?Hkn, ?Hkb, ?Hchain in *; done.
Qed.

End create_key.

(** ** A home directory in memory

    Files are configurations by name; the ini parser reads and writes them. *)

Abbreviation Files := (gmap string (Config (L := toy_BtcLib))).
Abbreviation FsW := (World (MemStore * Files)).

#[export] Instance choices_ok_dec (cfg : Config (L := toy_BtcLib)) : Decision (choices_ok cfg).
Proof. unfold choices_ok. apply _. Defined.

Definition fs_OS : OS FsW := {|
  user_Current := fun _ => inr "/home/user";
  Getenv := fun _ _ => "";
  Getwd := fun _ => inr "/work";
  UserHomeDir := fun _ => inr "/home/user";
  os_Stat := fun w name =>
    match (ext w).2 !! name with
    | Some _ => None
    | None => Some (mkOsError (Some name) false true (errorString "no such file"))
    end;
  os_MkdirAll := fun _ _ w => (None, w);
  os_Readlink := fun _ _ => inl (errorString "not a link");
  os_OpenFile := fun _ _ _ w => (Ok 3%nat, w);
|}.

Definition fs_ini : IniParser (L := toy_BtcLib) (W := FsW) := {|
  ini_ParseFile := fun base file w =>
    match (ext w).2 !! file with
    | Some cfg =>
        if decide (choices_ok cfg) then inr (with_BTCNetParams cfg (BTCNetParams base))
        else inl (errorString "invalid value")
    | None => inl (errorString "no such file")
    end;
  ini_WriteFile := fun cfg file w =>
    (Ok tt, mkWorld (readers w) ((ext w).1, <[file := cfg]> (ext w).2));
|}.

#[export] Instance fs_ini_spec : IniSpec fs_OS fs_ini.
Proof.
  split. intros cfg file w w' base Hc [= <-]. unfold FileExists. cbn. rewrite lookup_insert_eq.
  split; [done|]. by rewrite decide_True.
Qed.

#[export] Instance mem_keyring_persistent {X} key : PersistentKeyring (mem_keyring (X := X) key).
Proof.
  split; cbn.
  - by intros app backend dir input w r w' [= _ <-] kr.
  - done.
Qed.

(** The defaults of the Babylon client. *)
Definition toy_dc : BabylonConfig (L := toy_BtcLib) :=
  mkBabylonConfig "node0" "chain-test" "http://localhost:26657" "https://localhost:9090" "bbn"
    "test" 2 "0.01ubbn" "" true 20000000000 60000000000 "json" "direct" "".

Definition fs_empty : FsW := mkWorld ∅ (mkMemStore ∅ None, ∅).

(** Each flag as given on the command line. *)
Definition toy_ctx (force : bool) : CliContext := {|
  c_String := fun flag =>
    if String.eqb flag homeFlag then "/covd"
    else if String.eqb flag chainIdFlag then "chain-test"
    else if String.eqb flag keyNameFlag then "covenant-key"
    else if String.eqb flag keyringBackendFlag then "test"
    else if String.eqb flag passphraseFlag then "secret" else "";
  c_Bool := fun _ => force;
|}.

Definition fs_initialised : FsW := (initHome fs_OS fs_ini toy_dc (toy_ctx false) fs_empty).2.

Lemma initialised_home_loads_defaults_witness :
  LoadConfig fs_OS fs_ini MainNetParams "/covd" fs_initialised =
  DefaultConfigWithHomePath toy_dc "/covd".
Proof.
  apply (initialised_home_loads_defaults fs_OS fs_ini toy_dc MainNetParams (toy_ctx false) fs_empty
           fs_initialised "/covd"); vm_compute; reflexivity.
Defined.

Definition fs_exists : FsW :=
  mkWorld ∅ (mkMemStore ∅ None, {["/covd" := zeroConfig (L := toy_BtcLib) SimNetParams]}).

Lemma init_refuses_existing_home_witness :
  initHome fs_OS fs_ini toy_dc (toy_ctx false) fs_exists =
    (Err (Errorf "home path %s already exists" [FStr "/covd"]), fs_exists).
Proof.
  apply (init_refuses_existing_home fs_OS fs_ini toy_dc (toy_ctx false) fs_exists "/covd");
    vm_compute; reflexivity.
Defined.

(** The default configuration with the log level set to trace. *)
Definition trace_config : Config (L := toy_BtcLib) :=
  mkConfig "trace" defaultQueryInterval defaultDelegationLimit defaultSigsBatchSize "simnet"
    SimNetParams (Some (DefaultBBNConfig toy_dc)).

Definition fs_trace : FsW :=
  mkWorld ∅ (mkMemStore ∅ None, {["/covd/covd.conf" := trace_config]}).

Lemma trace_level_prevents_start_witness :
  exists err, start fs_OS (mem_keyring []) fs_ini SimNetParams (fun _ => None)
    (fun _ => inl (errorString "unreachable")) (mret tt) (fun _ => mret tt) (toy_ctx false) fs_trace =
    (Err err, fs_trace).
Proof.
  destruct (trace_level_prevents_start fs_OS fs_ini (mem_keyring []) SimNetParams (fun _ => None)
              (fun _ => inl (errorString "unreachable")) (mret tt) (fun _ => mret tt) (toy_ctx false)
              fs_trace "/covd" trace_config) as (r & w' & Hr & _ & Hs);
    [vm_compute; reflexivity..|].
  rewrite Hs. vm_compute in Hr. injection Hr as <- <-. eexists. reflexivity.
Defined.

Definition fs_keyed : FsW :=
  (createKey fs_OS (mem_keyring [Byte.x2a]) fs_ini SimNetParams (fun _ => inr "{}") (fun _ w => w)
     (toy_ctx false) fs_initialised).2.
