(* ===== verification/Cli.v ===== *)
(** * The command line: [covd]

    [src/cmd/covd/main.go] and the command declarations of [init.go], [key.go] and
    [start.go].  urfave/cli is not in the repository: it is given by what [app.Run]
    does, and what the code relies on is the class [CliSpec]. *)

From S2P Require Import Prelude External ToyLib GoLib Util Types Log Config.
From S2P Require Import ClientController Keyring Emulator Cmd CmdFacts.
From Stdlib Require Import ZArith Lia String.
From stdpp Require Import base list strings sets.

#[local] Open Scope string_scope.
#[local] Open Scope list_scope.
#[local] Open Scope Z_scope.

(** ** Declarations *)

Inductive Flag :=
| StringFlag (Name Usage Value : string) (Required : bool)
| BoolFlag (Name Usage : string) (Required : bool).

Record Command (W : Type) := mkCommand {
  cmd_Name : string;
  cmd_ShortName : string;
  cmd_Usage : string;
  cmd_Description : string;
  cmd_Flags : list Flag;
  cmd_Action : CliContext -> Go W unit;
}.
Arguments mkCommand {W} _ _ _ _ _ _.
Arguments cmd_Name {W} _.
Arguments cmd_ShortName {W} _.
Arguments cmd_Usage {W} _.
Arguments cmd_Description {W} _.
Arguments cmd_Flags {W} _.
Arguments cmd_Action {W} _ _.

Record App (W : Type) := mkApp {
  app_Name : string;
  app_Usage : string;
  app_Commands : list (Command W);
}.
Arguments mkApp {W} _ _ _.
Arguments app_Name {W} _.
Arguments app_Usage {W} _.
Arguments app_Commands {W} _.

Definition defaultChainID : string := "chain-test".
Definition defaultPassphrase : string := "".
Definition defaultHdPath : string := "".

Section covd.
Context {L : BtcLib} {E : Type} (os : OS (World E)) (K : KeyringLib E).
Context (ini : IniParser (W := World E)) (dc : BabylonConfig) (zeroParams : NetParams).
Context (json_MarshalIndent : covenantKey -> errorOr string)
  (stdout : Printed -> World E -> World E) (stderr : error -> World E -> World E).
Context {bbnLib : BabylonLib} (validate : BabylonConfig -> option error)
  (new : BabylonConfig -> errorOr (BbnClient (World E)))
  {Interceptor : Type} (signal_Intercept : Go (World E) Interceptor)
  (RunUntilShutdown : CovenantServer K (Interceptor := Interceptor) -> Go (World E) unit).
(** [keyring.BackendTest] of the Cosmos SDK, and [cli.App.Run]. *)
Context (BackendTest : string) (app_Run : App (World E) -> list string -> Go (World E) unit).

Definition defaultKeyringBackend : string := BackendTest.

Definition initCommand : Command (World E) := {|
  cmd_Name := "init";
  cmd_ShortName := "";
  cmd_Usage := "Initialize a covenant home directory.";
  cmd_Description := "";
  cmd_Flags :=
    [StringFlag homeFlag "Path to where the home directory will be initialized"
       DefaultCovenantDir false;
     BoolFlag forceFlag "Override existing configuration" false];
  cmd_Action := initHome os ini dc;
|}.

Definition createKeyCommand : Command (World E) := {|
  cmd_Name := "create-key";
  cmd_ShortName := "ck";
  cmd_Usage := "Create a Covenant account in the keyring.";
  cmd_Description := "";
  cmd_Flags :=
    [StringFlag chainIdFlag "The chainID of the consumer chain" defaultChainID false;
     StringFlag keyNameFlag "The unique name of the Covenant key" "" true;
     StringFlag passphraseFlag "The pass phrase used to encrypt the keys" defaultPassphrase false;
     StringFlag hdPathFlag "The hd path used to derive the private key" defaultHdPath false;
     StringFlag keyringBackendFlag "Select keyring's backend" defaultKeyringBackend false;
     StringFlag homeFlag "The home directory for the covenant" DefaultCovenantDir false];
  cmd_Action := createKey os K ini zeroParams json_MarshalIndent stdout;
|}.

Definition startCommand : Command (World E) := {|
  cmd_Name := "start";
  cmd_ShortName := "";
  cmd_Usage := "Start the Covenant Emulator Daemon";
  cmd_Description :=
    "Start the Covenant Emulator Daemon. Note that the Covenant key pair should be created beforehand";
  cmd_Flags :=
    [StringFlag passphraseFlag "The pass phrase used to encrypt the keys" defaultPassphrase false;
     StringFlag homeFlag "The path to the covenant home directory" DefaultCovenantDir false];
  cmd_Action := start os K ini zeroParams validate new signal_Intercept RunUntilShutdown;
|}.

(** The application [main] builds; [cli.NewApp] starts without commands. *)
Definition covd_app : App (World E) := {|
  app_Name := "covd";
  app_Usage := "Covenant Emulator Daemon (covd).";
  app_Commands := [] ++ [startCommand; initCommand; createKeyCommand];
|}.

(** [fatal]: the error goes to the standard error, the process exits with 1. *)
Definition fatal (err : error) : Go (World E) Z := fun w => (Ok 1, stderr err w).

(** [main]: the exit status of the process; a panic is left to the runtime. *)
Definition main (args : list string) : Go (World E) Z := fun w =>
  match app_Run covd_app args w with
  | (Ok _, w') => (Ok 0, w')
  | (Err err, w') => fatal err w'
  | (Panic p, w') => (Panic p, w')
  | (Hang, w') => (Hang, w')
  end.

End covd.

(** ** What urfave/cli promises *)

(** A command answers to its name and to its short name. *)
Definition answers_to {W} (c : Command W) (name : string) : bool :=
  String.eqb (cmd_Name c) name || (negb (String.eqb name "") && String.eqb (cmd_ShortName c) name).

(** [parse] is what becomes of the arguments after the command's name; the first
    command that answers to the name is run on it, and a flag error is returned. *)
Class CliSpec {W} (app_Run : App W -> list string -> Go W unit)
    (parse : list Flag -> list string -> errorOr CliContext) := {
  cli_dispatch app prog name args cmd w :
    List.find (fun c => answers_to c name) (app_Commands app) = Some cmd ->
    app_Run app (prog :: name :: args) w =
      match parse (cmd_Flags cmd) args with
      | inr ctx => cmd_Action cmd ctx w
      | inl err => (Err err, w)
      end;
}.

(** ** Facts *)

(** Finds a declaration in a concrete list, filling in what is not known of it. *)
Ltac declared := repeat first [eapply list_elem_of_here | eapply list_elem_of_further].

Definition flag_name (f : Flag) : string :=
  match f with
  | StringFlag n _ _ _ => n
  | BoolFlag n _ _ => n
  end.

(** Two contexts that agree on the flags a command declares, each at its type. *)
Definition agree_on (flags : list Flag) (c c' : CliContext) : Prop :=
  (forall n u v r, StringFlag n u v r ∈ flags -> c_String c n = c_String c' n) /\
  (forall n u r, BoolFlag n u r ∈ flags -> c_Bool c n = c_Bool c' n).

(** A context in which no optional flag was given. *)
Definition at_defaults (flags : list Flag) (c : CliContext) : Prop :=
  (forall n u v, StringFlag n u v false ∈ flags -> c_String c n = v) /\
  (forall n u, BoolFlag n u false ∈ flags -> c_Bool c n = false).

Section facts.
Context {L : BtcLib} {E : Type} (os : OS (World E)) (K : KeyringLib E).
Context (ini : IniParser (W := World E)) (dc : BabylonConfig) (zeroParams : NetParams).
Context (json_MarshalIndent : covenantKey -> errorOr string)
  (stdout : Printed -> World E -> World E) (stderr : error -> World E -> World E).
Context {bbnLib : BabylonLib} (validate : BabylonConfig -> option error)
  (new : BabylonConfig -> errorOr (BbnClient (World E)))
  {Interceptor : Type} (signal_Intercept : Go (World E) Interceptor)
  (RunUntilShutdown : CovenantServer K (Interceptor := Interceptor) -> Go (World E) unit).
Context (BackendTest : string) (app_Run : App (World E) -> list string -> Go (World E) unit).

#[local] Abbreviation the_app :=
  (covd_app os K ini dc zeroParams json_MarshalIndent stdout validate new signal_Intercept
     RunUntilShutdown BackendTest).
#[local] Abbreviation covd_main :=
  (main os K ini dc zeroParams json_MarshalIndent stdout stderr validate new signal_Intercept
     RunUntilShutdown BackendTest app_Run).

(** C38: Every command is well typed in its flags: the action of each of [covd]'s
    commands depends only on flags the command declares, read at the type they are
    declared with; no flag name is declared twice by a command. *)
Theorem actions_read_only_declared_flags cmd :
  cmd ∈ app_Commands the_app ->
  NoDup (flag_name <$> cmd_Flags cmd) /\
  forall c c' w, agree_on (cmd_Flags cmd) c c' -> cmd_Action cmd c w = cmd_Action cmd c' w.
Proof.
  unfold covd_app; cbn [app_Commands app]. rewrite !elem_of_cons, elem_of_nil.
  intros [->|[->|[->|[]]]]; cbn [cmd_Flags cmd_Action startCommand initCommand createKeyCommand];
    (split; [apply (bool_decide_unpack _); vm_compute; done|]); intros c c' w [Hs Hb].
  - assert (c_String c homeFlag = c_String c' homeFlag) as Hh by (eapply Hs; declared).
    assert (c_String c passphraseFlag = c_String c' passphraseFlag) as Hp by (eapply Hs; declared).
    unfold start, home_path. by rewrite Hh, Hp.
  - assert (c_String c homeFlag = c_String c' homeFlag) as Hh by (eapply Hs; declared).
    assert (c_Bool c forceFlag = c_Bool c' forceFlag) as Hf by (eapply Hb; declared).
    unfold initHome, home_path. by rewrite Hh, Hf.
  - unfold createKey. cbv zeta.
    rewrite (Hs homeFlag _ _ _ ltac:(declared)), (Hs chainIdFlag _ _ _ ltac:(declared)),
      (Hs keyNameFlag _ _ _ ltac:(declared)), (Hs keyringBackendFlag _ _ _ ltac:(declared)),
      (Hs passphraseFlag _ _ _ ltac:(declared)), (Hs hdPathFlag _ _ _ ltac:(declared)).
    done.
Qed.

(** The commands by the names a user types. *)
Definition command_table : list (string * Command (World E)) :=
  let create_key := createKeyCommand os K ini zeroParams json_MarshalIndent stdout BackendTest in
  [("start", startCommand os K ini zeroParams validate new signal_Intercept RunUntilShutdown);
   ("init", initCommand os ini dc); ("create-key", create_key); ("ck", create_key)].

Lemma command_found name cmd :
  (name, cmd) ∈ command_table ->
  List.find (fun c => answers_to c name) (app_Commands the_app) = Some cmd.
Proof.
  unfold command_table. rewrite !elem_of_cons, elem_of_nil.
  by intros [[= -> ->]|[[= -> ->]|[[= -> ->]|[[= -> ->]|[]]]]].
Qed.

(** [covd <name> <args>] runs the action of the command of that name, or short
    name, on the parsed flags and reports it in its exit status: 0 when the action
    succeeds, and 1 with the error on the standard error when the action fails or the
    flags do not parse; in the latter case nothing else has happened. *)
Lemma exit_status_reports_command {parse} {C : CliSpec app_Run parse} prog name cmd args w :
  (name, cmd) ∈ command_table ->
  covd_main (prog :: name :: args) w =
  match parse (cmd_Flags cmd) args with
  | inl err => (Ok 1, stderr err w)
  | inr ctx =>
      match cmd_Action cmd ctx w with
      | (Ok _, w') => (Ok 0, w')
      | (Err err, w') => (Ok 1, stderr err w')
      | (Panic p, w') => (Panic p, w')
      | (Hang, w') => (Hang, w')
      end
  end.
Proof.
  intros Hin%command_found. unfold main. rewrite (cli_dispatch _ _ _ _ _ _ Hin).
  by destruct (parse (cmd_Flags cmd) args).
Qed.

(** The three commands, run without optional flags, agree on the home directory, the
    passphrase and the chain id, provided the default home directory is an absolute,
    cleaned path without a dollar sign. *)
Lemma defaults_agree ci ck cs w w' :
  at_defaults (cmd_Flags (initCommand os ini dc)) ci ->
  at_defaults (cmd_Flags (createKeyCommand os K ini zeroParams json_MarshalIndent stdout BackendTest)) ck ->
  at_defaults (cmd_Flags (startCommand os K ini zeroParams validate new signal_Intercept
                            RunUntilShutdown)) cs ->
  is_rooted DefaultCovenantDir = true -> filepath_Clean DefaultCovenantDir = DefaultCovenantDir ->
  no_dollar DefaultCovenantDir = true ->
  home_path os ci w = Ok DefaultCovenantDir /\ home_path os cs w' = Ok DefaultCovenantDir /\
  c_String ck homeFlag = DefaultCovenantDir /\ c_String ck chainIdFlag = defaultChainID /\
  c_String ck passphraseFlag = c_String cs passphraseFlag /\
  c_String ck keyringBackendFlag = BackendTest.
Proof.
  intros [Hi _] [Hk _] [Hs _] Hr Hc Hd.
  assert (forall c v, c_String c homeFlag = DefaultCovenantDir ->
    home_path os c v = Ok DefaultCovenantDir) as Hhome.
  { intros c v H. unfold home_path, filepath_Abs. rewrite H, Hr, Hc. cbn [mbind result_bind mret result_ret].
    unfold CleanAndExpandPath. rewrite rooted_no_tilde, os_Expand_no_dollar, Hc by done.
    by destruct DefaultCovenantDir. }
  split_and!.
  - apply Hhome. eapply Hi. declared.
  - apply Hhome. eapply Hs. declared.
  - eapply Hk. declared.
  - eapply Hk. declared.
  - transitivity defaultPassphrase; [eapply Hk | symmetry; eapply Hs]; declared.
  - eapply Hk. declared.
Qed.

End facts.

(** *** A small command line parser

    Options are written [--name value]; a command whose required options are missing
    is an error; an unknown command prints a help text and succeeds. *)

Fixpoint toy_option (name : string) (args : list string) : option string :=
  match args with
  | a :: v :: rest => if String.eqb a ("--" +:+ name) then Some v else toy_option name rest
  | _ => None
  end.

Definition toy_default (flags : list Flag) (name : string) : string :=
  match List.find (fun f => String.eqb (flag_name f) name) flags with
  | Some (StringFlag _ _ v _) => v
  | _ => ""
  end.

Definition toy_missing (args : list string) (f : Flag) : bool :=
  match f with
  | StringFlag n _ _ true => match toy_option n args with None => true | Some _ => false end
  | _ => false
  end.

Definition toy_parse (flags : list Flag) (args : list string) : errorOr CliContext :=
  if List.existsb (toy_missing args) flags then inl (errorString "Required flag not set")
  else inr {|
    c_String := fun n => match toy_option n args with Some v => v | None => toy_default flags n end;
    c_Bool := fun n => List.existsb (String.eqb ("--" +:+ n)) args;
  |}.

Definition toy_Run {W} (app : App W) (args : list string) : Go W unit := fun w =>
  match args with
  | _ :: name :: rest =>
      match List.find (fun c => answers_to c name) (app_Commands app) with
      | Some cmd =>
          match toy_parse (cmd_Flags cmd) rest with
          | inr ctx => cmd_Action cmd ctx w
          | inl err => (Err err, w)
          end
      | None => (Ok tt, w)
      end
  | _ => (Ok tt, w)
  end.

#[export] Instance toy_cli_spec {W} : CliSpec (@toy_Run W) toy_parse.
Proof. split. intros app prog name args cmd w Hf. unfold toy_Run. by rewrite Hf. Qed.

Abbreviation toy_start_server := (fun _ => mret tt).

(** [covd create-key] without a key name: nothing happens, the exit status is 1. *)
Lemma exit_status_reports_command_witness :
  main fs_OS (mem_keyring []) fs_ini toy_dc SimNetParams (fun _ => inr "{}") (fun _ w => w)
    (fun _ w => w) (fun _ => None) (fun _ => inl (errorString "unreachable")) (mret tt)
    toy_start_server "test" toy_Run ["covd"; "ck"; "--home"; "/covd"] fs_empty = (Ok 1, fs_empty).
Proof.
  rewrite (exit_status_reports_command (parse := toy_parse) fs_OS (mem_keyring []) fs_ini toy_dc
             SimNetParams (fun _ => inr "{}") (fun _ w => w) (fun _ w => w) (fun _ => None)
             (fun _ => inl (errorString "unreachable")) (mret tt) toy_start_server "test" toy_Run
             "covd" "ck"
             (createKeyCommand fs_OS (mem_keyring []) fs_ini SimNetParams (fun _ => inr "{}")
                (fun _ w => w) "test")).
  - vm_compute. reflexivity.
  - unfold command_table. declared.
Defined.

(** [init] does not look at the key name. *)
Lemma actions_read_only_declared_flags_witness :
  initHome fs_OS fs_ini toy_dc (toy_ctx false) fs_empty =
  initHome fs_OS fs_ini toy_dc
    {| c_String := fun n => if String.eqb n homeFlag then "/covd" else "x"; c_Bool := fun _ => false |}
    fs_empty.
Proof.
  apply (actions_read_only_declared_flags fs_OS (mem_keyring []) fs_ini toy_dc SimNetParams
           (fun _ => inr "{}") (fun _ w => w) (fun _ => None)
           (fun _ => inl (errorString "unreachable")) (mret tt) toy_start_server "test"
           (initCommand fs_OS fs_ini toy_dc)).
  - unfold covd_app. cbn. declared.
  - split.
    + intros n u v r Hin. cbn in Hin. rewrite !elem_of_cons, elem_of_nil in Hin.
      destruct Hin as [[= -> _ _ _]|[[=]|[]]]. reflexivity.
    + intros n u r Hin. reflexivity.
Defined.
