(* ===== verification/SetupFacts.v ===== *)
(** * From an empty home directory to a running daemon

    The three commands in the order the documentation gives: [covd init], [covd
    create-key], [covd start].  Each theorem of [CmdFacts] is about one of them; here
    they are run one after the other on the same world, and the last one is shown to
    hand an emulator with the created key to [RunUntilShutdown]. *)

From S2P Require Import Prelude External ToyLib GoLib Util Types Log Config.
From S2P Require Import ClientController Keyring Emulator Cmd CmdFacts Cli.
From Stdlib Require Import ZArith Lia String.
From stdpp Require Import base list strings gmap.

#[local] Open Scope string_scope.
#[local] Open Scope list_scope.
#[local] Open Scope Z_scope.

Section setup.
Context {L : BtcLib} {E : Type} (os : OS (World E)) (K : KeyringLib E).
Context (ini : IniParser (W := World E)) (dc : BabylonConfig) (zero : NetParams).
Context (json : covenantKey -> errorOr string) (stdout : Printed -> World E -> World E).
Context {B : BabylonLib} (validate : BabylonConfig -> option error)
  (new : BabylonConfig -> errorOr (BbnClient (World E)))
  {Interceptor : Type} (intercept : Go (World E) Interceptor)
  (run : CovenantServer K (Interceptor := Interceptor) -> Go (World E) unit).
Context {S : KeyringSpec K} {P : PersistentKeyring K} {I : IniSpec os ini}.
Hypothesis stdout_keeps : forall t w, keeps_keyrings w (stdout t w).
Hypothesis write_keeps : forall cfg file w r w',
  ini_WriteFile ini cfg file w = (r, w') -> keeps_keyrings w w'.
Hypothesis same_public_key : forall key,
  made_key (K := K) key -> ParsePubKey (sdk_PubKeyBytes K key) = inr (PrivKeyFromBytes key).2.

(** The configuration the three commands end up with. *)
Definition setup_bbn (home keyName backend : string) : BBNConfig := {|
  Key := keyName;
  ChainID := dc_ChainID dc;
  RPCAddr := dc_RPCAddr dc;
  GRPCAddr := dc_GRPCAddr dc;
  AccountPrefix := dc_AccountPrefix dc;
  KeyringBackend := backend;
  GasAdjustment := dc_GasAdjustment dc;
  GasPrices := dc_GasPrices dc;
  KeyDirectory := home;
  Debug := dc_Debug dc;
  Timeout := dc_Timeout dc;
  BlockTimeout := 1 * Minute;
  OutputFormat := dc_OutputFormat dc;
  SignModeStr := dc_SignModeStr dc;
|}.

Definition setup_config (home keyName backend : string) : Config := {|
  LogLevel := "debug";
  QueryInterval := 15 * Second;
  DelegationLimit := 100;
  SigsBatchSize := 20;
  BitcoinNetwork := "simnet";
  BTCNetParams := SimNetParams;
  BabylonConfig_ptr := Some (setup_bbn home keyName backend);
|}.

Lemma NewCovenantEmulator_fields config cc pass w ce w' :
  NewCovenantEmulator os K config cc pass w = (Ok ce, w') ->
  ce_config ce = config /\ ce_cc ce = cc /\ ce_params ce = None /\ ce_passphrase ce = pass.
Proof. unfold NewCovenantEmulator. intros H. by go_inv. Qed.

(** [init] and [create-key] on one home directory leave that configuration. *)
Lemma setup_config_loads ci ck w0 w1 w2 home cfg0 cfg info kc key :
  initHome os ini dc ci w0 = (Ok tt, w1) -> home_path os ci w0 = Ok home ->
  c_String ck homeFlag = home ->
  key_created os K ini zero ck w1 w2 cfg0 cfg info kc key ->
  let final := setup_config home (c_String ck keyNameFlag) (c_String ck keyringBackendFlag) in
  cfg = final /\ LoadConfig os ini zero home w2 = Ok final.
Proof using I.
  intros Hi Hp Hh Hk final.
  pose proof (initialised_home_loads_defaults os ini dc zero ci w0 w1 home Hi Hp) as Hl.
  pose proof (kcr_before _ _ _ _ _ _ _ _ _ _ _ _ Hk) as Hb. rewrite Hh, Hl in Hb.
  injection Hb as <-. pose proof (kcr_written _ _ _ _ _ _ _ _ _ _ _ _ Hk) as [= <-].
  split; [done|]. destruct (kcr_after _ _ _ _ _ _ _ _ _ _ _ _ Hk) as (p & Ha & Hn).
  rewrite Hh in Ha. rewrite Ha. f_equal.
  rewrite (network_table_functional _ p SimNetParams Hn); [done|].
  cbn. unfold network_table. declared.
Qed.

(** C14: [covd init], [covd create-key] and [covd start], run one after the other on the
    same home directory, start the daemon with the created key.  When the first two
    succeed, the flags agree (home directory, passphrase, and the chain id with the
    client library's default), the backend is not "memory", and the log file, the
    chain client, the keyring and the signal handler can be opened, then [start] hands
    to [RunUntilShutdown] an emulator that has exactly the public key [create-key]
    made, the Babylon client on simnet, no parameters yet, and the default
    configuration with the new key in it. *)
Theorem setup_then_start_runs_created_key ci ck cs w0 w1 w2 home wl fd w3 client kr w4 sig w6 :
  let name := c_String ck keyNameFlag in
  let backend := c_String ck keyringBackendFlag in
  initHome os ini dc ci w0 = (Ok tt, w1) ->
  createKey os K ini zero json stdout ck w1 = (Ok tt, w2) ->
  home_path os ci w0 = Ok home -> c_String ck homeFlag = home -> home_path os cs w2 = Ok home ->
  home <> "" -> backend <> "memory" -> c_String ck chainIdFlag = dc_ChainID dc ->
  c_String cs passphraseFlag = c_String ck passphraseFlag ->
  MakeDirectory os (filepath_Dir (LogFile home)) w2 = (Ok tt, wl) ->
  os_OpenFile os (LogFile home) (Z.lor O_CREATE (Z.lor O_WRONLY O_APPEND)) 438 wl = (Ok fd, w3) ->
  keeps_keyrings w2 w3 ->
  validate (BBNConfigToBabylonConfig (setup_bbn home name backend)) = None ->
  new (BBNConfigToBabylonConfig (setup_bbn home name backend)) = inr client ->
  keyring_New K (dc_ChainID dc) backend home (fresh (dom (readers w3))) (NewReader "" w3).2 =
    (Ok kr, w4) ->
  (forall w, intercept w = (Ok sig, w6 w)) ->
  exists info wi ce w5,
    CreateCovenantKey os K home (c_String ck chainIdFlag) name backend
      (c_String ck passphraseFlag) (c_String ck hdPathFlag) w1 = (Ok info, wi) /\
    ce_pk ce = ChainKeyInfo_PublicKey info /\
    ce_config ce = setup_config home name backend /\ ce_params ce = None /\
    ce_cc ce = babylon_ClientController
      (mkBabylonController client (setup_bbn home name backend) SimNetParams) /\
    start os K ini zero validate new intercept run cs w2 =
      run (NewCovenantServer K (mkLogger (ConsoleEncoder encoder_config) (MultiWriter Stdout (File fd)) DebugLevel)
             ce sig) w5.
Proof using P I stdout_keeps write_keeps same_public_key.
  intros name backend Hi Hck Hp Hh Hps Hne Hm Hchain Hpass Hdir Hopen Hkeep Hval Hnew Hkr Hint.
  subst home.
  pose proof (initialised_home_loads_defaults os ini dc zero ci w0 w1 _ Hi Hp) as Hdef.
  destruct (createKey_leaves os K ini zero json stdout stdout_keeps write_keeps same_public_key
              _ _ _ Hck Hne) as (cfg0 & cfg & info & kc & key & Hk).
  { intros cfg Hcfg. rewrite Hdef in Hcfg. by apply default_config_choices in Hcfg as [? _]. }
  destruct (setup_config_loads _ _ _ _ _ _ _ _ _ _ _ Hi Hp eq_refl Hk) as [-> Hload].
  destruct (kcr_info _ _ _ _ _ _ _ _ _ _ _ _ Hk) as [wi Hinfo].
  destruct (created_key_found os K ini zero _ _ _ _ _ _ _ _ SimNetParams
              (babylon_ClientController (mkBabylonController client
                 (setup_bbn (c_String ck homeFlag) name backend) SimNetParams))
              w3 kr w4 _ Hk Hne Hm eq_refl (eq_sym Hchain) eq_refl Hkeep Hkr)
    as (ce & w5 & Hce & Hpk).
  destruct (NewCovenantEmulator_fields _ _ _ _ _ _ Hce) as (Hcfg & Hcc & Hpar & _).
  exists info, wi, ce, (w6 w5). split_and!; try done. unfold start.
  rewrite (go_bind_Ok_run _ _ _ _ w2) by (by rewrite lift_run, Hps). cbn beta iota.
  rewrite (go_bind_Ok_run _ _ _ _ w2) by (by rewrite lift_run, Hload). cbn beta iota.
  erewrite go_bind_Ok_run.
  2: { apply go_wrap_Ok. unfold NewRootLoggerWithFile. rewrite (go_bind_Ok_run _ _ _ _ _ Hdir).
       cbn beta iota. rewrite (go_bind_Ok_run _ _ _ _ _ Hopen). reflexivity. }
  cbn beta iota. rewrite (go_bind_Ok_run _ _ _ _ w3) by reflexivity. cbn beta iota.
  erewrite go_bind_Ok_run.
  2: { rewrite lift_run. unfold NewBabylonController. cbn [setup_config BTCNetParams].
       fold name backend. rewrite Hval, Hnew. reflexivity. }
  cbn beta iota. rewrite Hpass. erewrite go_bind_Ok_run by (apply go_wrap_Ok; exact Hce).
  cbn beta iota. by rewrite (go_bind_Ok_run _ _ _ _ _ (Hint w5)).
Qed.

End setup.

(** *** A run on the home directory in memory *)

Definition fs_client : BbnClient (L := toy_BtcLib) FsW := {|
  q_BTCCheckpointParams := lift (Err (errorString "offline"));
  q_BTCStakingParams := lift (Err (errorString "offline"));
  q_BTCDelegations := fun _ _ => lift (Err (errorString "offline"));
  q_FinalityProviders := fun _ _ => lift (Err (errorString "offline"));
  q_Tip := fun _ => lift (Err (errorString "offline"));
  ReliablySendMsgs := fun _ _ _ => lift (Err (errorString "offline"));
  GetKeyring_Key := fun _ => lift (Err (errorString "offline"));
  IsRunning := fun _ => true;
  bbn_Stop := mret tt;
|}.

Lemma mem_same_public_key (key : bytes) :
  made_key (K := mem_keyring (X := Files) [Byte.x2a]) key ->
  ParsePubKey (BtcLib := toy_BtcLib) (sdk_PubKeyBytes (mem_keyring (X := Files) [Byte.x2a]) key) =
    inr (PrivKeyFromBytes key).2.
Proof.
  intros (kr & uid & m & p & hd & algo & w & r & w' & Ha & Hk). revert Ha.
  cbn. unfold mem_NewAccount. intros Ha. repeat case_match; try done.
  injection Ha as <- _. injection Hk as <-. reflexivity.
Qed.

Lemma setup_then_start_runs_created_key_witness :
  exists (ce : CovenantEmulator (L := toy_BtcLib) (mem_keyring (X := Files) [Byte.x2a])) w5,
    ce_pk ce = [Byte.x2a] /\ ce_params ce = None /\
    start fs_OS (mem_keyring [Byte.x2a]) fs_ini SimNetParams (fun _ => None) (fun _ => inr fs_client)
      (mret tt) (fun _ w => (Ok tt, w)) (toy_ctx false) fs_keyed = (Ok tt, w5).
Proof.
  destruct (setup_then_start_runs_created_key fs_OS (mem_keyring [Byte.x2a]) fs_ini toy_dc SimNetParams
              (fun _ => inr "{}") (fun _ w => w) (fun _ => None) (fun _ => inr fs_client)
              (mret tt) (fun _ w => (Ok tt, w))) with
    (ci := toy_ctx false) (ck := toy_ctx false) (cs := toy_ctx false) (w0 := fs_empty)
    (w1 := fs_initialised) (w2 := fs_keyed) (home := "/covd") (wl := fs_keyed) (fd := 3%nat)
    (w3 := fs_keyed) (client := fs_client) (kr := fresh (dom (readers fs_keyed)))
    (w4 := (NewReader "" fs_keyed).2) (sig := tt) (w6 := fun w : FsW => w)
    as (info & wi & ce & w5 & Hi & Hpk & _ & Hpar & _ & Hst).
  - done.
  - intros cfg file w r w' [= _ <-] kr. split; reflexivity.
  - exact mem_same_public_key.
  - vm_compute. reflexivity.
  - vm_compute. reflexivity.
  - vm_compute. reflexivity.
  - reflexivity.
  - vm_compute. reflexivity.
  - done.
  - done.
  - reflexivity.
  - reflexivity.
  - reflexivity.
  - reflexivity.
  - done.
  - reflexivity.
  - reflexivity.
  - reflexivity.
  - reflexivity.
  - exists ce, w5. vm_compute in Hi. injection Hi as <- _. split_and!; done.
Defined.
