(* ===== verification/ToyWorld.v ===== *)
(** * A concrete chain and a concrete emulator

    A chain client whose state is the answers it still has for parameter queries,
    the pending delegations and the submissions it has accepted; and an emulator
    on it, with the in-memory keyring.  The examples of the following files run
    on them. *)

From S2P Require Import Prelude External ToyLib Types Config ClientController Keyring Emulator.
From Stdlib Require Import ZArith String Strings.Byte.
From stdpp Require Import base list strings gmap.

#[local] Open Scope string_scope.
#[local] Open Scope list_scope.
#[local] Open Scope Z_scope.

Record ToyChain := mkToyChain {
  tc_params : list (errorOr StakingParams);
  tc_pending : list (option Delegation);
  tc_submitted : list (list CovenantSigs);
}.

Abbreviation ToyW := (World (MemStore * ToyChain)).

Definition chain (w : ToyW) : ToyChain := (ext w).2.

Definition set_chain (c : ToyChain) (w : ToyW) : ToyW := mkWorld (readers w) ((ext w).1, c).

Definition toy_QueryStakingParams : Go ToyW (option StakingParams) := fun w =>
  let c := chain w in
  match tc_params c with
  | [] => (Err (errorString "node unreachable"), w)
  | a :: rest =>
      let w' := set_chain (mkToyChain rest (tc_pending c) (tc_submitted c)) w in
      match a with
      | inr p => (Ok (Some p), w')
      | inl e => (Err e, w')
      end
  end.

Definition toy_SubmitCovenantSigs (sigs : list CovenantSigs) : Go ToyW (option TxResponse) := fun w =>
  let c := chain w in
  (Ok (Some (mkTxResponse "tx-hash" [])),
   set_chain (mkToyChain (tc_params c) (tc_pending c) (tc_submitted c ++ [sigs])) w).

Definition toy_cc : ClientController ToyW := {|
  SubmitCovenantSigs := toy_SubmitCovenantSigs;
  QueryPendingDelegations := fun limit w =>
    (Ok (take (Z.to_nat limit) (tc_pending (chain w))), w);
  QueryStakingParams := toy_QueryStakingParams;
  Close := fun w => (Ok tt, w);
|}.

(** The covenant's own key. *)
Definition toy_sk : bytes := [Byte.x2a].

Definition toy_K : KeyringLib (MemStore * ToyChain) := mem_keyring toy_sk.

Definition toy_params : StakingParams :=
  mkStakingParams 10 200 1 [[Byte.x2a]; [Byte.x31]; [Byte.x32]] "slashing-address" 2 50 3 120.

Definition toy_config (batchSize : Z) : Config :=
  mkConfig "debug" defaultQueryInterval 100 batchSize "simnet" SimNetParams (Some toy_BBNConfig).

Definition toy_ce (batchSize : Z) (params : option StakingParams) : CovenantEmulator toy_K :=
  mkCovenantEmulator toy_K toy_sk toy_cc
    (mkChainKeyringController toy_K 0%nat "covenant-key" 0%nat)
    (toy_config batchSize) params 0%nat "secret".

(** The keyring holds the covenant key under the passphrase "secret". *)
Definition toy_store : MemStore :=
  mkMemStore {["covenant-key" := mkKeyRecord (Some (Some (Secp256k1PrivKey toy_sk)))]}
    (Some "secret").

Definition toy_world (c : ToyChain) : ToyW := mkWorld {[0%nat := ""]} (toy_store, c).

Definition toy_chain (pending : list (option Delegation)) : ToyChain :=
  mkToyChain [inr toy_params] pending [].

(** A delegation without signatures, and the same one for other transactions. *)
Definition toy_fresh (time : Z) : Delegation :=
  toy_del 100 200 time [] (Some (toy_undel [] [])).

Definition toy_other (slashing unbonding : string) (stop : Z) : Delegation :=
  mkDelegation [Byte.x11] [[Byte.x21]] 100 stop 100000 "staking" 0 slashing 150 []
    (Some (mkUndelegation unbonding "unbonding-slashing" [] [] None)).

(** The signatures the covenant produces for [toy_fresh]. *)
Definition toy_fresh_sigs : CovenantSigs :=
  mkCovenantSigs toy_sk "staking"
    [[Byte.x01; Byte.x2a; Byte.x21]; [Byte.x01; Byte.x2a; Byte.x22]]
    [Byte.x02; Byte.x2a]
    [[Byte.x03; Byte.x2a; Byte.x21]; [Byte.x03; Byte.x2a; Byte.x22]].

(** A keyring that answers every request with one key, and the same emulator on it. *)
Definition one_key {E : Type} : KeyringLib E := {|
  Keyring := unit;
  SigningAlgo := unit;
  keyring_New := fun _ _ _ _ w => (Ok tt, w);
  kr_Key := fun _ _ w => (Ok (mkKeyRecord (Some (Some (Secp256k1PrivKey toy_sk)))), w);
  kr_NewAccount := fun _ _ _ _ _ _ w =>
    (Ok (mkKeyRecord (Some (Some (Secp256k1PrivKey toy_sk)))), w);
  kr_SupportedAlgorithms := fun _ => [];
  NewSigningAlgoFromString := fun _ _ => inr tt;
  bip39_NewEntropy := fun _ w => (Ok [], w);
  bip39_NewMnemonic := fun _ => inr "";
  sdk_PubKeyBytes := fun key => key;
|}.

Definition const_K : KeyringLib (MemStore * ToyChain) := one_key.

Definition const_ce (batchSize : Z) (cc : ClientController ToyW) (params : option StakingParams)
    : CovenantEmulator const_K :=
  mkCovenantEmulator const_K toy_sk cc (mkChainKeyringController const_K tt "covenant-key" 0%nat)
    (toy_config batchSize) params 0%nat "secret".
