(* ===== verification/BatchFacts.v ===== *)
(** * Batching and filtering of delegations

    [delegationsToBatches] and [removeAlreadySigned] of
    [src/covenant/covenant.go]: the batches partition the delegations in order,
    the index arithmetic never overflows, the loop terminates exactly when the
    configured batch size is not zero, and the filter keeps exactly the
    delegations the covenant has not signed. *)

From S2P Require Import Prelude External ToyLib Util Types.
From S2P Require Import Config ClientController Keyring Emulator ToyWorld.
From Stdlib Require Import ZArith Lia String Strings.Byte.
From stdpp Require Import base list strings gmap.

#[local] Open Scope list_scope.
#[local] Open Scope Z_scope.

(** ** The reference: cutting a list into pieces of [n] *)

Fixpoint chunks_fuel {A} (fuel : nat) (n : nat) (l : list A) : list (list A) :=
  match fuel, l with
  | _, [] => []
  | O, _ => []
  | S fuel', _ => take n l :: chunks_fuel fuel' n (drop n l)
  end.

Definition chunks {A} (n : nat) (l : list A) : list (list A) := chunks_fuel (length l) n l.

Section chunks.
Context {A : Type}.
Implicit Types l : list A.

Lemma chunks_fuel_concat fuel n l :
  (0 < n)%nat -> (length l <= fuel)%nat -> concat (chunks_fuel fuel n l) = l.
Proof.
  intros Hn. revert l. induction fuel as [|fuel IH]; intros l Hl.
  { destruct l; [done|cbn in Hl; lia]. }
  destruct l as [|x l]; [done|]. cbn [chunks_fuel concat].
  rewrite IH, take_drop; [done|]. rewrite length_drop. cbn in *. lia.
Qed.

Lemma chunks_fuel_sizes fuel n l :
  (0 < n)%nat -> Forall (fun b => b <> [] /\ (length b <= n)%nat) (chunks_fuel fuel n l).
Proof.
  intros Hn. revert l. induction fuel as [|fuel IH]; intros [|x l]; cbn [chunks_fuel]; auto.
  constructor; [|apply IH]. destruct n; [lia|]. split; [done|].
  rewrite length_take. lia.
Qed.

Lemma chunks_fuel_full fuel n l bs b b' :
  chunks_fuel fuel n l = bs ++ [b'] -> b ∈ bs -> length b = n.
Proof.
  revert l bs. induction fuel as [|fuel IH]; intros [|x l] bs; cbn [chunks_fuel];
    try by destruct bs.
  destruct bs as [|b0 bs]; intros Heq; [set_solver|]. cbn [app] in Heq. injection Heq as <- Heq.
  intros [->|Hb]%elem_of_cons; [|by eapply IH].
  assert (exists y l', drop n (x :: l) = y :: l') as (y & l' & Hd).
  { destruct (drop n (x :: l)) as [|y l']; [|by eexists _, _]. by destruct fuel, bs. }
  rewrite length_take. apply (f_equal length) in Hd. rewrite length_drop in Hd.
  cbn [length] in *. lia.
Qed.

End chunks.

(** ** The loop computes the reference *)

Section loop.
Context {A : Type} (dels : list A) (b : Z).
Hypothesis Hlen : slice_ok dels.
Hypothesis Hb : in_u64 b.

Lemma len_u64 : u64 (go_len dels) = go_len dels.
Proof using Hlen. apply u64_id. unfold in_u64, slice_ok in *. pose proof (go_len_nonneg dels). lia. Qed.

(** With a zero batch size the index stays where it is. *)
Lemma batches_loop_stuck fuel acc :
  b = 0 -> dels <> [] -> batches_loop dels b fuel 0 acc = Hang.
Proof using Hlen Hb.
  intros -> Hne. revert acc. induction fuel as [|fuel IH]; intros acc; [done|].
  cbn [batches_loop]. rewrite len_u64.
  assert (0 < go_len dels) by (pose proof (go_len_nonneg dels);
    assert (go_len dels <> 0) by (by rewrite go_len_zero); lia).
  destruct (Z.ltb_spec 0 (go_len dels)); [|lia]. change (u64 (0 + 0)) with 0.
  destruct (Z.ltb_spec (go_len dels) 0); [lia|].
  unfold go_slice. destruct (Z.leb_spec 0 (go_len dels)); [|lia]. cbn. apply IH.
Qed.

(** The index is still zero, or the batch size is below [2^63], or the loop is
    over: no addition in the loop wraps around. *)
Definition loop_index (i : Z) : Prop := 0 <= i /\ (i = 0 \/ b < 2 ^ 63 \/ go_len dels <= i).

Lemma batches_loop_chunks fuel i acc :
  0 < b -> loop_index i -> i < go_len dels + b -> go_len dels - i < Z.of_nat fuel ->
  (0 < fuel)%nat ->
  batches_loop dels b fuel i acc =
  Ok (acc ++ chunks_fuel (Nat.pred fuel) (Z.to_nat b) (drop (Z.to_nat i) dels)).
Proof using Hlen Hb.
  intros Hpos. revert i acc. induction fuel as [|fuel IH]; intros i acc (Hi & Hidx) Hib Hf H0; [lia|].
  cbn [batches_loop Nat.pred]. rewrite len_u64. unfold slice_ok, in_u64 in *.
  destruct (Z.ltb_spec i (go_len dels)) as [Hlt|Hge].
  2:{ rewrite drop_ge by (unfold go_len in *; lia). destruct fuel; cbn; by rewrite app_nil_r. }
  assert (u64 (i + b) = i + b) as Hsum by (apply u64_id; unfold in_u64; lia).
  rewrite Hsum.
  set (e := if go_len dels <? i + b then go_len dels else i + b).
  assert (i <= e <= go_len dels /\ e - i <= b /\ (e < go_len dels -> e = i + b)) as (He & Heb & Hee).
  { subst e. destruct (Z.ltb_spec (go_len dels) (i + b)); lia. }
  assert (go_slice dels i e = Ok (take (Z.to_nat b) (drop (Z.to_nat i) dels))) as ->.
  { unfold go_slice. destruct (Z.leb_spec 0 i); [|lia]. destruct (Z.leb_spec i e); [|lia].
    destruct (Z.leb_spec e (go_len dels)); [|lia]. cbn [andb]. f_equal.
    destruct (Z.lt_ge_cases e (go_len dels)) as [Hl|Hl]; [f_equal; lia|].
    rewrite !take_ge; rewrite ?length_drop; unfold go_len in *; try done; lia. }
  destruct fuel as [|fuel]; [lia|]. cbn [mbind result_bind]. rewrite IH; try lia; [|split; lia].
  cbn [Nat.pred]. rewrite <- app_assoc. cbn [app].
  rewrite Z2Nat.inj_add, <- drop_drop by lia.
  assert (exists x l, drop (Z.to_nat i) dels = x :: l) as (x & l & Hd).
  { destruct (drop (Z.to_nat i) dels) as [|x l] eqn:Hd; [|by eexists _, _].
    apply (f_equal length) in Hd. rewrite length_drop in Hd. unfold go_len in *. cbn in Hd. lia. }
  rewrite Hd. cbn [chunks_fuel]. done.
Qed.

Lemma batches_loop_run :
  0 < b -> batches_loop dels b (batches_fuel dels) 0 [] = Ok (chunks (Z.to_nat b) dels).
Proof using Hlen Hb.
  intros Hpos. unfold batches_fuel. rewrite batches_loop_chunks; try lia.
  - done.
  - split; lia.
  - pose proof (go_len_nonneg dels). lia.
  - unfold go_len. lia.
Qed.

End loop.

(** ** The filter computes the reference *)

Section filter.
Context {L : BtcLib}.

Definition same_key (pk : PublicKey) (s : option CovenantAdaptorSigInfo) : bool :=
  match s with
  | Some s => bool_decide (SerializePubKey (CovenantAdaptorSigInfo_Pk s) = SerializePubKey pk)
  | None => false
  end.

(** The delegation carries a signature of the key [pk]. *)
Definition signed_by (pk : PublicKey) (od : option Delegation) : bool :=
  match od with
  | Some d => existsb (same_key pk) (Delegation_CovenantSigs d)
  | None => false
  end.

Lemma alreadySigned_run pk sigs :
  Forall is_Some sigs -> alreadySigned pk sigs = Ok (existsb (same_key pk) sigs).
Proof.
  induction 1 as [|o sigs [s ->] _ IH]; [done|]. cbn. by case_bool_decide.
Qed.

Lemma removeAlreadySigned_run pk dels :
  Forall pending_ok dels ->
  removeAlreadySigned pk dels = Ok (List.filter (fun od => negb (signed_by pk od)) dels).
Proof.
  induction 1 as [|od dels (d & -> & Hs) _ IH]; [done|].
  cbn [removeAlreadySigned go_deref mbind result_bind List.filter signed_by].
  rewrite alreadySigned_run, IH by done. cbn. by destruct (existsb _ _).
Qed.

End filter.

(** ** Properties *)

Section properties.
Context {L : BtcLib} {E : Type} {K : KeyringLib E}.
Implicit Types ce : CovenantEmulator K.

(** C8: With a batch size between 1 and [2^64 - 1], [delegationsToBatches]
    terminates without an index or slice out of range, for every number of
    delegations: its batches are non-empty, no larger than the batch size, all of
    exactly that size but the last, and put together they are the delegations in
    their order, each exactly once. *)
Theorem batches_partition_delegations ce dels :
  let size := SigsBatchSize (ce_config ce) in
  0 < size < 2 ^ 64 -> slice_ok dels ->
  exists batches, delegationsToBatches ce dels = Ok batches /\
    concat batches = dels /\
    Forall (fun b => b <> [] /\ go_len b <= size) batches /\
    forall bs b last, batches = bs ++ [last] -> b ∈ bs -> go_len b = size.
Proof.
  cbn. intros Hs Hlen. set (size := SigsBatchSize (ce_config ce)) in *.
  assert (0 < Z.to_nat size)%nat as Hpos by lia.
  exists (chunks (Z.to_nat size) dels). split_and!.
  - apply batches_loop_run; [done|unfold in_u64; lia|lia].
  - by apply chunks_fuel_concat.
  - eapply Forall_impl; [by apply chunks_fuel_sizes|]. intros b [Hne Hle].
    split; [done|unfold go_len; lia].
  - intros bs b last Heq Hb. unfold go_len. erewrite chunks_fuel_full by eassumption. lia.
Qed.

(** C31: A configuration file that does not set the batch size is accepted and hangs the
    emulator.  [LoadConfig] starts from the zero value and not from the defaults, and
    validation looks at the network only: when the file exists, parses, leaves the batch
    size as it was and names a known network, loading succeeds with batch size zero.  An
    emulator with that configuration never leaves [delegationsToBatches] on a non-empty
    list: however many iterations the loop is given, it is still running. *)
Theorem unset_batch_size_hangs_emulator {W} (os : OS W) ini zero home w parsed np :
  FileExists os (ConfigFile home) w = true ->
  ini_ParseFile ini (zeroConfig zero) (ConfigFile home) w = inr parsed ->
  SigsBatchSize parsed = SigsBatchSize (zeroConfig zero) ->
  (BitcoinNetwork parsed, np) ∈ network_table ->
  exists cfg, LoadConfig os ini zero home w = Ok cfg /\ SigsBatchSize cfg = 0 /\
    forall ce dels, ce_config ce = cfg -> slice_ok dels -> dels <> [] ->
      delegationsToBatches ce dels = Hang /\
      forall fuel, batches_loop dels (SigsBatchSize (ce_config ce)) fuel 0 [] = Hang.
Proof.
  intros Hf Hp Hz Hn. exists (with_BTCNetParams parsed np). split_and!; [|exact Hz|].
  - unfold LoadConfig. rewrite Hf, Hp. cbn. by apply Validate_network.
  - intros ce dels Hc Hlen Hne. unfold delegationsToBatches. rewrite Hc.
    change (SigsBatchSize (with_BTCNetParams parsed np)) with (SigsBatchSize parsed). rewrite Hz.
    split; [|intros fuel]; by apply batches_loop_stuck.
Qed.

(** C15: On pending delegations as a chain client returns them (no nil pointers),
    [removeAlreadySigned] never panics and keeps exactly the delegations that carry
    no signature of the covenant's key, in their order. *)
Theorem filter_keeps_exactly_unsigned ce dels :
  Forall pending_ok dels ->
  removeAlreadySigned (ce_pk ce) dels =
    Ok (List.filter (fun od => negb (signed_by (ce_pk ce) od)) dels).
Proof. apply removeAlreadySigned_run. Qed.

End properties.

(** *** Runs on concrete values *)

Lemma batches_partition_delegations_witness :
  exists batches, delegationsToBatches (toy_ce 2 None) [None; None; None] = Ok batches /\
    concat batches = [None; None; None] /\ length batches = 2%nat.
Proof.
  destruct (batches_partition_delegations (toy_ce 2 None) [None; None; None])
    as (batches & Hb & Hc & _); [cbn; lia|reflexivity|].
  exists batches. split; [exact Hb|]. split; [exact Hc|].
  vm_compute in Hb. injection Hb as <-. reflexivity.
Defined.

Lemma unset_batch_size_hangs_emulator_witness :
  LoadConfig toy_OS (toy_ini "signet") SimNetParams "/covd" tt =
    Ok (mkConfig "" 0 0 0 "signet" SigNetParams None) /\
  delegationsToBatches
    (mkCovenantEmulator toy_K toy_sk toy_cc (mkChainKeyringController toy_K 0%nat "k" 0%nat)
       (mkConfig "" 0 0 0 "signet" SigNetParams None) None 0%nat "")
    [Some (toy_fresh 150)] = Hang.
Proof.
  destruct (unset_batch_size_hangs_emulator (E := MemStore * ToyChain) (K := toy_K) toy_OS
    (toy_ini "signet") SimNetParams "/covd" tt
    (mkConfig "" 0 0 0 "signet" SimNetParams None) SigNetParams) as (cfg & Hl & _ & Hang).
  - reflexivity.
  - reflexivity.
  - reflexivity.
  - unfold network_table. repeat (apply list_elem_of_here || apply list_elem_of_further).
  - assert (cfg = mkConfig "" 0 0 0 "signet" SigNetParams None) as ->
      by (vm_compute in Hl; injection Hl as <-; reflexivity).
    split; [exact Hl|]. apply Hang; [reflexivity|reflexivity|done].
Defined.

Lemma filter_keeps_exactly_unsigned_witness :
  removeAlreadySigned toy_sk
    [Some (toy_fresh 150); Some (toy_del 1 2 150 [toy_asig [Byte.x31]; toy_asig toy_sk] None)] =
    Ok [Some (toy_fresh 150)].
Proof.
  pose proof (filter_keeps_exactly_unsigned (toy_ce 2 None)
    [Some (toy_fresh 150); Some (toy_del 1 2 150 [toy_asig [Byte.x31]; toy_asig toy_sk] None)]) as H.
  apply H. repeat constructor; eexists; (split; [reflexivity|]); repeat constructor; by eexists.
Defined.
