(* ===== verification/SigningFacts.v ===== *)
(** * What a signed delegation is

    The specification of [AddCovenantSignatures] ([src/covenant/covenant.go]): a
    delegation is approved when it passes the covenant's rules under the current
    staking parameters, and its signatures are determined by the delegation, the
    parameters and the covenant key.  The lemmas here say that the loop body
    succeeds exactly on approved delegations and produces exactly those
    signatures, and that a batch is submitted as a whole or not at all. *)

From S2P Require Import Prelude External ToyLib Util Types.
From S2P Require Import Config ClientController Keyring Emulator ToyWorld.
From Stdlib Require Import ZArith Lia String Strings.Byte.
From stdpp Require Import base list strings gmap.

#[local] Open Scope list_scope.
#[local] Open Scope Z_scope.

(** ** The specification *)

Section spec.
Context {L : BtcLib}.

(** The transactions a delegation carries, parsed. *)
Record DelegationTxs := mkDelegationTxs {
  stakingTx : MsgTx;
  slashingTx : BTCSlashingTx;
  slashingTxMsg : MsgTx;
  unbondingTx : MsgTx;
  unbondingSlashingTxMsg : MsgTx;
}.

Definition carries (d : Delegation) (u : Undelegation) (t : DelegationTxs) : Prop :=
  BtcUndelegation d = Some u /\
  NewBTCTxFromHex (StakingTxHex d) = inr (stakingTx t) /\
  NewBTCSlashingTxFromHex (SlashingTxHex d) = inr (slashingTx t) /\
  ToMsgTx (slashingTx t) = inr (slashingTxMsg t) /\
  NewBTCTxFromHex (UnbondingTxHex u) = inr (unbondingTx t) /\
  NewBTCTxFromHex (Undelegation_SlashingTxHex u) = inr (unbondingSlashingTxMsg t).

(** Slashing [funding] respects the protocol: the staking library accepts the
    slashing transaction for the protocol's fee, rate and address, and for the
    delegation's unbonding time as the timelock of the change. *)
Definition slashing_accepted (p : StakingParams) (net : NetParams) (d : Delegation)
    (slashing funding : MsgTx) (idx : Z) : Prop :=
  CheckTransactions slashing funding idx (MinSlashingTxFeeSat p) (SlashingRate p)
    (SlashingAddress p) (BtcPk d) (u16 (UnbondingTime d)) net = None.

(** The covenant's rules for one delegation. *)
Record approved (p : StakingParams) (net : NetParams) (d : Delegation) (u : Undelegation)
    (t : DelegationTxs) : Prop := {
  approved_txs : carries d u t;
  approved_quorum : HasCovenantQuorum d (CovenantQuorum p) = Ok false;
  approved_unbonding : MinUnbondingTime p < UnbondingTime d;
  approved_slashing : slashing_accepted p net d (slashingTxMsg t) (stakingTx t) (StakingOutputIdx d);
  approved_unbonding_slashing :
    slashing_accepted p net d (unbondingSlashingTxMsg t) (unbondingTx t) 0;
}.

(** One adaptor signature, encrypted to one finality provider. *)
Definition adaptor_sig_for (stx : BTCSlashingTx) (funding : MsgTx) (idx : Z) (script : bytes)
    (sk : PrivateKey) (fp : PublicKey) (sig : bytes) : Prop :=
  exists enc asig,
    NewEncryptionKeyFromBTCPK fp = inr enc /\
    EncSign stx funding idx script sk enc = inr asig /\
    MustMarshal asig = Ok sig.

(** The signatures of covenant key [sk] on an approved delegation: one adaptor
    signature per finality provider over the slashing path of the staking output,
    a Schnorr signature over its unbonding path, and one adaptor signature per
    finality provider over the slashing path of the unbonding output. *)
Record signatures_of (p : StakingParams) (net : NetParams) (pk : PublicKey) (sk : PrivateKey)
    (d : Delegation) (u : Undelegation) (t : DelegationTxs) (cs : CovenantSigs) : Prop := {
  sigs_pk : CovenantSigs_PublicKey cs = pk;
  sigs_hash : StakingTxHash cs = TxHash (stakingTx t);
  sigs_staking : exists time info slashPath unbondPath,
    GetStakingTime d = Ok time /\
    BuildStakingInfo (BtcPk d) (FpBtcPks d) (CovenantPks p) (CovenantQuorum p) time
      (i64 (TotalSat d)) net = inr info /\
    StakingSlashingPathSpendInfo info = inr slashPath /\
    Forall2 (adaptor_sig_for (slashingTx t) (stakingTx t) (StakingOutputIdx d)
               (GetPkScriptPath slashPath) sk) (FpBtcPks d) (SlashingSigs cs) /\
    StakingUnbondingPathSpendInfo info = inr unbondPath /\
    SignTxWithOneScriptSpendInputStrict (unbondingTx t) (stakingTx t) (StakingOutputIdx d)
      (GetPkScriptPath unbondPath) sk = inr (UnbondingSig cs);
  sigs_unbonding : exists value info slashPath stx,
    TxOutValues (unbondingTx t) !! 0%nat = Some value /\
    BuildUnbondingInfo (BtcPk d) (FpBtcPks d) (CovenantPks p) (CovenantQuorum p)
      (u16 (UnbondingTime d)) value net = inr info /\
    UnbondingSlashingPathSpendInfo info = inr slashPath /\
    NewBTCSlashingTxFromHex (Undelegation_SlashingTxHex u) = inr stx /\
    Forall2 (adaptor_sig_for stx (unbondingTx t) 0 (GetPkScriptPath slashPath) sk)
      (FpBtcPks d) (SlashingUnbondingSigs cs);
}.

(** [cs] is what the covenant may send for the delegation [od]. *)
Definition covenant_signed (p : StakingParams) (net : NetParams) (pk : PublicKey)
    (sk : PrivateKey) (od : option Delegation) (cs : CovenantSigs) : Prop :=
  exists d u t, od = Some d /\ approved p net d u t /\ signatures_of p net pk sk d u t cs.

End spec.

(** ** The loop body meets the specification *)

Section body.
Context {L : BtcLib}.
Implicit Types (p : StakingParams) (net : NetParams) (d : Delegation) (u : Undelegation).

Lemma check_err_Ok f err x : check_err f err = Ok x <-> err = None.
Proof. destruct err, x; cbn; naive_solver. Qed.

Definition txs_of (c : Checked) (sm us : MsgTx) : DelegationTxs :=
  mkDelegationTxs (chk_stakingMsgTx c) (chk_slashingTx c) sm (chk_unbondingMsgTx c) us.

(** Everything the checks establish when they let a delegation through. *)
Definition check_passed params net od (c : Checked) : Prop :=
  exists sm us value,
    params = Some (chk_params c) /\ od = Some (chk_btcDel c) /\
    approved (chk_params c) net (chk_btcDel c) (chk_undel c) (txs_of c sm us) /\
    TxOutValues (chk_unbondingMsgTx c) !! 0%nat = Some value /\
    BuildUnbondingInfo (BtcPk (chk_btcDel c)) (FpBtcPks (chk_btcDel c))
      (CovenantPks (chk_params c)) (CovenantQuorum (chk_params c))
      (u16 (UnbondingTime (chk_btcDel c))) value net = inr (chk_unbondingInfo c).

Lemma check_delegation_sound params net od c :
  check_delegation params net od = Ok (Some c) -> check_passed params net od c.
Proof.
  unfold check_delegation. intros H. destruct od as [d|]; [|done].
  destruct (BtcUndelegation d) as [u|] eqn:Hu; [|done]. go_inv.
  match goal with H : (if ?q then _ else _) = _ |- _ => destruct q; [done|] end.
  destruct (Z.leb_spec (UnbondingTime d) (MinUnbondingTime a)); [done|]. go_inv.
  repeat match goal with H : check_err _ _ = Ok _ |- _ =>
    apply (proj1 (check_err_Ok _ _ _)) in H end.
  do 3 eexists. split_and!; [done|done| |eassumption|eassumption].
  split; unfold carries, txs_of; cbn; [split_and!; eassumption|done|lia|done|done].
Qed.

Lemma check_delegation_complete net c :
  forall params od, check_passed params net od c -> check_delegation params net od = Ok (Some c).
Proof.
  intros params od (sm & us & value & -> & -> & [Htx Hq Hub Hs Hus] & Hv & Hi).
  destruct Htx as (Hu & H1 & H2 & H3 & H4 & H5). unfold slashing_accepted in Hs, Hus.
  cbn in H1, H2, H3, H4, H5, Hs, Hus. unfold check_delegation. rewrite Hu. cbn. rewrite Hq. cbn.
  destruct (Z.leb_spec (UnbondingTime (chk_btcDel c)) (MinUnbondingTime (chk_params c))); [lia|].
  rewrite H1. cbn. rewrite H2. cbn. rewrite H3. cbn. rewrite Hs. cbn. rewrite H5. cbn.
  rewrite H4. cbn. unfold go_index. rewrite Hv. cbn. rewrite Hi. cbn. rewrite Hus. cbn.
  by destruct c.
Qed.

Lemma enc_sign_fps_Ok stx funding idx script sk fps sigs :
  enc_sign_fps stx funding idx script sk fps = Ok sigs <->
  Forall2 (adaptor_sig_for stx funding idx script sk) fps sigs.
Proof.
  unfold enc_sign_fps. rewrite mapM_result_Ok.
  split; intros H; (eapply Forall2_impl; [exact H|]); cbn beta; intros fp sig.
  - intros Hs. go_inv. do 2 eexists. split_and!; eassumption.
  - intros (enc & asig & He & Hs & Hm). by rewrite He; cbn; rewrite Hs.
Qed.

Lemma sign_checked_Ok pk net c sk cs sm us value :
  TxOutValues (chk_unbondingMsgTx c) !! 0%nat = Some value ->
  BuildUnbondingInfo (BtcPk (chk_btcDel c)) (FpBtcPks (chk_btcDel c))
      (CovenantPks (chk_params c)) (CovenantQuorum (chk_params c))
      (u16 (UnbondingTime (chk_btcDel c))) value net = inr (chk_unbondingInfo c) ->
  sign_checked pk net c sk = Ok cs <->
  signatures_of (chk_params c) net pk sk (chk_btcDel c) (chk_undel c) (txs_of c sm us) cs.
Proof.
  intros Hv Hi. unfold sign_checked. split.
  - intros H. go_inv. repeat match goal with H : enc_sign_fps _ _ _ _ _ _ = Ok _ |- _ =>
      apply (proj1 (enc_sign_fps_Ok _ _ _ _ _ _ _)) in H end.
    split; cbn; try done.
    + do 4 eexists. split_and!; eassumption.
    + do 4 eexists. split_and!; eassumption.
  - intros [Hpk Hh (time & info & sp & up & H1 & H2 & H3 & H4 & H5 & H6)
              (value' & info' & sp' & stx & H7 & H8 & H9 & H10 & H11)].
    cbn in *. assert (value' = value) as -> by congruence.
    assert (info' = chk_unbondingInfo c) as -> by congruence. subst pk.
    apply (proj2 (enc_sign_fps_Ok _ _ _ _ _ _ _)) in H4, H11.
    rewrite H1. cbn. rewrite H2. cbn. rewrite H3. cbn. rewrite H4. cbn. rewrite H5. cbn.
    rewrite H6. cbn. rewrite H10. cbn. rewrite H9. cbn. rewrite H11. cbn.
    rewrite <- Hh. by destruct cs.
Qed.

End body.

(** ** Delegations, batches and submissions *)

Section batch.
Context {L : BtcLib} {E : Type} {K : KeyringLib E}.
Implicit Types (ce : CovenantEmulator K) (w : World E).

#[local] Abbreviation net_of ce := (BTCNetParams (ce_config ce)).

(** The loop body returns signatures exactly when the parameters are known, the
    private key can be read, and the signatures are those of an approved
    delegation. *)
Lemma sign_delegation_Ok ce od w cs w' :
  sign_delegation ce od w = (Ok (Some cs), w') <->
  exists p sk, ce_params ce = Some p /\ getPrivKey ce w = (Ok sk, w') /\
    covenant_signed p (net_of ce) (ce_pk ce) sk od cs.
Proof.
  unfold sign_delegation. split.
  - intros H. go_inv. destruct a as [c|]; [|done]. go_inv.
    match goal with H : check_delegation _ _ _ = _ |- _ =>
      apply check_delegation_sound in H as (sm & us & value & Hp & -> & Happ & Hv & Hi) end.
    match goal with H : sign_checked _ _ _ _ = _ |- _ =>
      apply (proj1 (sign_checked_Ok _ _ _ _ _ sm us value Hv Hi)) in H end.
    do 2 eexists. split_and!; [done|eassumption|]. by do 3 eexists.
  - intros (p & sk & Hp & Hsk & d & u & [stk slt sm ubt us] & -> & Happ & Hsig).
    destruct (sigs_unbonding _ _ _ _ _ _ _ _ Hsig) as (value & info & ? & ? & Hv & Hi & _).
    set (c := mkChecked d u p stk slt ubt info). rewrite Hp.
    rewrite (check_delegation_complete (net_of ce) c) by (by exists sm, us, value).
    erewrite go_bind_Ok_run by reflexivity. cbn beta iota.
    erewrite go_bind_Ok_run by (apply go_wrap_Ok; exact Hsk).
    by rewrite (proj2 (sign_checked_Ok (ce_pk ce) (net_of ce) c sk cs sm us value Hv Hi) Hsig).
Qed.

(** The run of the loop over a batch in which every delegation is signed. *)
Inductive signed_run ce : World E -> list (option Delegation) -> list CovenantSigs ->
    World E -> Prop :=
| signed_nil w : signed_run ce w [] [] w
| signed_cons w od cs w1 dels sigs w2 :
    sign_delegation ce od w = (Ok (Some cs), w1) ->
    signed_run ce w1 dels sigs w2 ->
    signed_run ce w (od :: dels) (cs :: sigs) w2.

Lemma sign_batch_Ok ce dels acc w sigs w' :
  sign_batch ce dels acc w = (Ok (Some sigs), w') <->
  exists new, sigs = acc ++ new /\ signed_run ce w dels new w'.
Proof.
  revert acc w. induction dels as [|od dels IH]; intros acc w; cbn [sign_batch].
  - rewrite go_ret_run. split.
    + intros [= -> ->]. exists []. rewrite app_nil_r. split; [done|constructor].
    + intros (new & -> & H). inversion H; subst. by rewrite app_nil_r.
  - rewrite go_bind_Ok. split.
    + intros ([cs|] & w1 & H1 & H2); [|done].
      apply IH in H2 as (new & -> & Hrun). exists (cs :: new).
      rewrite <- app_assoc. split; [done|by econstructor].
    + intros (new & -> & H). inversion H; subst. eexists (Some _), _. split; [eassumption|].
      apply IH. eexists. by rewrite <- app_assoc.
Qed.

(** Signatures made with the private key the emulator's keyring gave it. *)
Definition keyring_signed ce (p : StakingParams) (od : option Delegation) (cs : CovenantSigs)
    : Prop :=
  exists sk v v', getPrivKey ce v = (Ok sk, v') /\
    covenant_signed p (net_of ce) (ce_pk ce) sk od cs.

(** Every delegation of a signed batch was approved under the parameters. *)
Lemma signed_run_covenant ce w dels sigs w' :
  signed_run ce w dels sigs w' -> dels <> [] ->
  exists p, ce_params ce = Some p /\
    Forall2 (keyring_signed ce p) dels sigs.
Proof.
  intros Hrun Hne. destruct (ce_params ce) as [p|] eqn:Hp.
  - exists p. split; [done|]. clear Hne.
    induction Hrun as [|w od cs w1 dels sigs w2 H _ IH]; constructor; [|done].
    apply sign_delegation_Ok in H as (p' & sk & Hp' & Hsk & H). simplify_eq. by exists sk, w, w1.
  - destruct Hrun as [|w od cs w1 dels sigs w2 H _]; [done|].
    apply sign_delegation_Ok in H as (p & sk & Hp' & _). congruence.
Qed.

(** The emulator with another chain client. *)
Definition with_cc ce (cc : ClientController (World E)) : CovenantEmulator K :=
  mkCovenantEmulator K (ce_pk ce) cc (ce_kc ce) (ce_config ce) (ce_params ce) (ce_input ce)
    (ce_passphrase ce).

Lemma sign_batch_with_cc ce cc dels acc w :
  sign_batch (with_cc ce cc) dels acc w = sign_batch ce dels acc w.
Proof.
  revert acc w. induction dels as [|od dels IH]; intros acc w; [done|]. cbn [sign_batch].
  rewrite !go_bind_run.
  change (sign_delegation (with_cc ce cc) od) with (sign_delegation ce od).
  destruct (sign_delegation ce od w) as [[[cs|]|e|pn|] w']; try done.
Qed.

Lemma signed_run_with_cc ce cc w dels sigs w' :
  signed_run ce w dels sigs w' -> signed_run (with_cc ce cc) w dels sigs w'.
Proof. induction 1 as [|w od cs w1 dels sigs w2 H _ IH]; econstructor; [exact H | exact IH]. Qed.

Lemma AddCovenantSignatures_submits ce w dels sigs w1 :
  dels <> [] -> signed_run ce w dels sigs w1 ->
  AddCovenantSignatures ce dels w = SubmitCovenantSigs (ce_cc ce) sigs w1.
Proof.
  intros Hne Hrun. unfold AddCovenantSignatures.
  destruct (Z.eqb_spec (go_len dels) 0) as [H0|_]; [by apply go_len_zero in H0|].
  rewrite (go_bind_Ok_run _ _ _ (Some sigs) w1); [done|].
  apply sign_batch_Ok. by exists sigs.
Qed.

(** The call made no use of the chain client: it behaves the same whatever the
    client is, and reports no response. *)
Definition submits_nothing ce dels w : Prop :=
  exists r w', (forall cc, AddCovenantSignatures (with_cc ce cc) dels w = (r, w')) /\
    forall resp, r <> Ok (Some resp).

(** A batch is signed and submitted whole, or nothing of it is submitted. *)
Lemma AddCovenantSignatures_cases ce dels w :
  (dels <> [] /\ exists sigs w1, signed_run ce w dels sigs w1 /\
     AddCovenantSignatures ce dels w = SubmitCovenantSigs (ce_cc ce) sigs w1) \/
  submits_nothing ce dels w.
Proof.
  destruct (Z.eqb_spec (go_len dels) 0) as [H0|H0].
  { right. apply go_len_zero in H0 as ->. by eexists _, _. }
  assert (dels <> []) as Hne by (by rewrite <- go_len_zero).
  destruct (sign_batch ce dels [] w) as [r w'] eqn:Hb.
  destruct r as [[sigs|]|e|pn|].
  1:{ left. split; [done|]. pose proof Hb as Hrun.
      apply sign_batch_Ok in Hrun as (new & -> & Hrun). exists new, w'.
      split; [done|]. by apply AddCovenantSignatures_submits. }
  all: right; eexists _, w'; split;
    [intros cc; unfold AddCovenantSignatures; apply Z.eqb_neq in H0; rewrite H0;
     rewrite go_bind_run, sign_batch_with_cc, Hb; reflexivity|done].
Qed.

(** A signed prefix is passed over. *)
Lemma sign_batch_app ce pre post acc w sigs w1 :
  signed_run ce w pre sigs w1 ->
  sign_batch ce (pre ++ post) acc w = sign_batch ce post (acc ++ sigs) w1.
Proof.
  intros Hrun. revert acc. induction Hrun as [|w od cs w1 dels sigs w2 H _ IH]; intros acc.
  - by rewrite app_nil_r.
  - cbn [app sign_batch]. erewrite go_bind_Ok_run by exact H. cbn beta iota. rewrite IH.
    by rewrite <- app_assoc.
Qed.

Lemma with_cc_id ce : with_cc ce (ce_cc ce) = ce.
Proof. by destruct ce. Qed.

(** The first delegation that is not signed decides the whole call, whatever the
    chain client. *)
Lemma AddCovenantSignatures_stops ce cc pre od post w sigs w1 r w2 :
  signed_run ce w pre sigs w1 -> sign_delegation ce od w1 = (r, w2) ->
  (forall cs, r <> Ok (Some cs)) ->
  AddCovenantSignatures (with_cc ce cc) (pre ++ od :: post) w =
  (match r with
   | Ok _ => Ok None
   | Err e => Err e
   | Panic p => Panic p
   | Hang => Hang
   end, w2).
Proof.
  intros Hrun Hod Hr. unfold AddCovenantSignatures.
  destruct (Z.eqb_spec (go_len (pre ++ od :: post)) 0) as [H0|_].
  { apply go_len_zero in H0. by destruct pre. }
  rewrite go_bind_run, sign_batch_with_cc, (sign_batch_app _ _ _ _ _ _ _ Hrun). cbn [app sign_batch].
  rewrite go_bind_run, Hod. destruct r as [[cs|]|e|p|]; try done. by destruct (Hr cs).
Qed.

Lemma AddCovenantSignatures_first ce od post w r w2 :
  sign_delegation ce od w = (r, w2) -> (forall cs, r <> Ok (Some cs)) ->
  AddCovenantSignatures ce (od :: post) w =
  (match r with
   | Ok _ => Ok None
   | Err e => Err e
   | Panic p => Panic p
   | Hang => Hang
   end, w2).
Proof.
  intros Hod Hr.
  pose proof (AddCovenantSignatures_stops ce (ce_cc ce) [] od post w [] w r w2
                (signed_nil ce w) Hod Hr) as H.
  by rewrite with_cc_id in H.
Qed.

(** A delegation whose quorum is reached ends the body without signatures. *)
Lemma sign_delegation_quorum ce d u p w :
  ce_params ce = Some p -> BtcUndelegation d = Some u ->
  HasCovenantQuorum d (CovenantQuorum p) = Ok true ->
  sign_delegation ce (Some d) w = (Ok None, w).
Proof.
  intros Hp Hu Hq. unfold sign_delegation. rewrite Hp. rewrite go_bind_run. unfold check_delegation.
  rewrite Hu. cbn [go_deref mbind result_bind lift]. by rewrite Hq.
Qed.

End batch.

(** ** When the loop body returns *)

Section returns.
Context {L : BtcLib} {E : Type} {K : KeyringLib E}.
Implicit Types ce : CovenantEmulator K.

(** What the code takes for granted of a delegation: its heights form an interval
    of at most [MaxUint16] blocks, and its unbonding transaction, when it parses,
    has an output. *)
Definition safe_delegation (d : Delegation) : Prop :=
  0 <= EndHeight d - StartHeight d <= MaxUint16 /\
  forall u tx, BtcUndelegation d = Some u -> NewBTCTxFromHex (UnbondingTxHex u) = inr tx ->
    TxOutValues tx <> [].

Lemma check_err_returns f err : returns (check_err f err) = true.
Proof. by destruct err. Qed.

Lemma check_delegation_returns p net od :
  (forall d, od = Some d -> safe_delegation d) ->
  returns (check_delegation (Some p) net od) = true.
Proof.
  intros Hsafe. destruct od as [d|]; [|done]. destruct (Hsafe d eq_refl) as [_ Hout].
  cbn [check_delegation]. destruct (BtcUndelegation d) as [u|] eqn:Hu; [|done].
  cbn [go_deref mbind result_bind]. rewrite (HasCovenantQuorum_run _ _ _ Hu).
  cbn [mbind result_bind].
  destruct (_ && _); [done|]. destruct (_ <=? _); [done|].
  repeat (apply returns_bind; [first [apply returns_errorOr | apply check_err_returns | idtac]
                              |intros ? ?]); [|done].
  match goal with H : of_errorOr (NewBTCTxFromHex (UnbondingTxHex u)) = Ok _ |- _ =>
    apply of_errorOr_Ok in H; specialize (Hout _ _ eq_refl H) end.
  unfold go_index. by destruct (TxOutValues _).
Qed.

Lemma enc_sign_fps_returns stx funding idx script sk fps :
  (forall sig, returns (MustMarshal sig) = true) ->
  returns (enc_sign_fps stx funding idx script sk fps) = true.
Proof.
  intros Hm. apply returns_mapM. intros fp.
  apply returns_bind; [apply returns_errorOr|intros enc _].
  apply returns_bind; [apply returns_errorOr|intros sig _]. apply Hm.
Qed.

Lemma sign_checked_returns pk net c sk :
  (forall sig, returns (MustMarshal sig) = true) -> safe_delegation (chk_btcDel c) ->
  returns (sign_checked pk net c sk) = true.
Proof.
  intros Hm [Hh _]. unfold sign_checked. rewrite GetStakingTime_in_range by done.
  repeat (apply returns_bind;
    [first [done | by apply enc_sign_fps_returns | apply returns_errorOr
           | rewrite returns_wrap; apply returns_errorOr] | intros ? _]). done.
Qed.

Lemma sign_delegation_returns ce p od w :
  ce_params ce = Some p -> (forall sig, returns (MustMarshal sig) = true) ->
  (forall w, returns (GetChainPrivKey K (ce_kc ce) (ce_passphrase ce) w).1 = true) ->
  (forall d, od = Some d -> safe_delegation d) ->
  returns (sign_delegation ce od w).1 = true.
Proof.
  intros Hp Hm Hk Hsafe. unfold sign_delegation. rewrite Hp.
  apply go_returns_bind_at; [by apply check_delegation_returns|].
  intros [c|] w1; [|done]. intros [= Hc <-].
  apply check_delegation_sound in Hc as (sm & us & value & _ & Hod & _).
  apply go_returns_bind_at.
  { rewrite go_returns_wrap_at. unfold getPrivKey. by apply go_returns_bind_at. }
  intros sk w2 _. apply go_returns_bind_at; [|done].
  apply sign_checked_returns; auto.
Qed.

Lemma sign_batch_returns ce p dels acc w :
  ce_params ce = Some p -> (forall sig, returns (MustMarshal sig) = true) ->
  (forall w, returns (GetChainPrivKey K (ce_kc ce) (ce_passphrase ce) w).1 = true) ->
  (forall d, Some d ∈ dels -> safe_delegation d) ->
  returns (sign_batch ce dels acc w).1 = true.
Proof.
  intros Hp Hm Hk. revert acc w. induction dels as [|od dels IH]; intros acc w Hsafe; [done|].
  cbn [sign_batch]. apply go_returns_bind_at.
  - eapply sign_delegation_returns; eauto. intros d ->. apply Hsafe. set_solver.
  - intros [cs|] w1 _; [|done]. apply IH. intros d Hd. apply Hsafe. set_solver.
Qed.

Lemma AddCovenantSignatures_returns ce p dels w :
  ce_params ce = Some p -> (forall sig, returns (MustMarshal sig) = true) ->
  (forall w, returns (GetChainPrivKey K (ce_kc ce) (ce_passphrase ce) w).1 = true) ->
  (forall d, Some d ∈ dels -> safe_delegation d) ->
  (forall sigs, go_returns (SubmitCovenantSigs (ce_cc ce) sigs)) ->
  returns (AddCovenantSignatures ce dels w).1 = true.
Proof.
  intros Hp Hm Hk Hsafe Hsub. unfold AddCovenantSignatures. destruct (_ =? _); [done|].
  apply go_returns_bind_at; [by eapply sign_batch_returns|].
  intros [sigs|] w1 _; [apply Hsub|done].
Qed.

End returns.

(** ** The emulator's own key *)

Section own_key.
Context {L : BtcLib} {E : Type} {os : OS (World E)} {K : KeyringLib E} {S : KeyringSpec K}.
Implicit Types ce : CovenantEmulator K.

(** The emulator holds the private key of its public key. *)
Definition owns_key ce (key : bytes) (w : World E) : Prop :=
  shares_reader (ce_kc ce) /\ holds_key (ce_kc ce) (ce_passphrase ce) key w /\
  ParsePubKey (sdk_PubKeyBytes K key) = inr (ce_pk ce).

Lemma NewCovenantEmulator_owns config cc pass w ce w' :
  NewCovenantEmulator os K config cc pass w = (Ok ce, w') -> exists key, owns_key ce key w'.
Proof.
  unfold NewCovenantEmulator. intros H. go_inv.
  match goal with H : CreateKeyring _ _ _ _ _ _ _ = _ |- _ => apply CreateKeyring_input in H end.
  match goal with H : NewChainKeyringControllerWithKeyring _ _ _ _ _ = _ |- _ =>
    unfold NewChainKeyringControllerWithKeyring in H; destruct (String.eqb _ _); [done|] end.
  go_inv. eexists. unfold owns_key, shares_reader. cbn. split; [done|]. split; [|done].
  eapply GetChainPrivKey_sound; [|eassumption]. by unfold shares_reader.
Qed.

Lemma getPrivKey_owns ce key w :
  owns_key ce key w ->
  exists w', getPrivKey ce w = (Ok (PrivKeyFromBytes key).1, w') /\ owns_key ce key w'.
Proof.
  intros (Hsh & Hk & Hp). destruct (GetChainPrivKey_holds _ _ _ _ Hsh Hk) as (w' & Hg & Hk').
  exists w'. split; [|by split_and!]. unfold getPrivKey. by rewrite (go_bind_Ok_run _ _ _ _ _ Hg).
Qed.

End own_key.

(** ** Properties *)

(** The same parameters with another finalization timeout. *)
Definition with_finalization_timeout {L : BtcLib} (p : StakingParams) (timeout : Z) : StakingParams :=
  mkStakingParams (ComfirmationTimeBlocks p) timeout (MinSlashingTxFeeSat p) (CovenantPks p)
    (SlashingAddress p) (CovenantQuorum p) (SlashingRate p) (MinComissionRate p) (MinUnbondingTime p).

Section properties.
Context {L : BtcLib} {E : Type} {K : KeyringLib E}.
Implicit Types (ce : CovenantEmulator K) (w : World E) (d : Delegation).

(** C1: Whatever delegations [AddCovenantSignatures] is called with, either it
    submits nothing (its behaviour does not depend on the chain client and it
    reports no response), or it makes exactly one submission, as its last action:
    there are signatures and a world, the same for every chain client, such that with
    any client in place the whole call is one call of that client's
    [SubmitCovenantSigs] on those signatures in that world.  The submission carries one set of signatures per delegation of the batch, in order,
    each of an approved delegation: both slashing transactions were accepted by
    the staking library for the protocol's slashing rate, address and fee, the
    unbonding time exceeds the protocol's minimum, the quorum was not reached, and
    the signatures are made with the private key read from the emulator's keyring on
    the parsed transactions. *)
Theorem only_approved_batches_are_submitted ce dels w :
  submits_nothing ce dels w \/
  dels <> [] /\ exists p sigs w1, ce_params ce = Some p /\
    Forall2 (keyring_signed ce p) dels sigs /\
    forall cc, AddCovenantSignatures (with_cc ce cc) dels w = SubmitCovenantSigs cc sigs w1.
Proof.
  destruct (AddCovenantSignatures_cases ce dels w) as [(Hne & sigs & w1 & Hrun & Heq)|H];
    [right|by left]. split; [done|].
  destruct (signed_run_covenant _ _ _ _ _ Hrun Hne) as (p & Hp & Hall). exists p, sigs, w1.
  split_and!; try done. intros cc.
  by apply (AddCovenantSignatures_submits (with_cc ce cc)), signed_run_with_cc.
Qed.

(** C29: One delegation whose quorum is already reached silently drops the whole
    batch: [AddCovenantSignatures] returns no response and no error, and submits
    nothing for the delegations before it, although they were approved and signed,
    nor for those after it. *)
Theorem reached_quorum_drops_whole_batch ce p pre sigs d u post w w1 :
  ce_params ce = Some p -> signed_run ce w pre sigs w1 ->
  BtcUndelegation d = Some u -> HasCovenantQuorum d (CovenantQuorum p) = Ok true ->
  forall cc, AddCovenantSignatures (with_cc ce cc) (pre ++ Some d :: post) w = (Ok None, w1).
Proof.
  intros Hp Hrun Hu Hq cc.
  by erewrite AddCovenantSignatures_stops by (eauto using sign_delegation_quorum).
Qed.

(** C28: One delegation that fails a check or cannot be signed fails the whole
    batch: [AddCovenantSignatures] returns that delegation's error, and the chain
    client is not used, so no delegation of the batch is submitted, whether it
    comes before or after the failing one. *)
Theorem failing_delegation_fails_whole_batch ce pre sigs od post e w w1 w2 :
  signed_run ce w pre sigs w1 -> sign_delegation ce od w1 = (Err e, w2) ->
  forall cc, AddCovenantSignatures (with_cc ce cc) (pre ++ od :: post) w = (Err e, w2).
Proof. intros Hrun Hod cc. by erewrite AddCovenantSignatures_stops by eauto. Qed.

(** C9: The rules are enforced by errors: a nil delegation, a missing undelegation,
    an unbonding time at or below the minimum, and a slashing transaction the
    staking library rejects, of the staking or of the unbonding transaction, each
    make the loop body return an error before the private key is read. *)
Theorem rule_violations_are_errors ce p w :
  ce_params ce = Some p ->
  sign_delegation ce None w = (Err (errorString "empty delegation"), w) /\
  (forall d, BtcUndelegation d = None ->
     sign_delegation ce (Some d) w = (Err (errorString "empty undelegation"), w)) /\
  (forall d u, BtcUndelegation d = Some u -> HasCovenantQuorum d (CovenantQuorum p) = Ok false ->
     UnbondingTime d <= MinUnbondingTime p ->
     sign_delegation ce (Some d) w =
       (Err (Errorf "unbonding time %d must be larger than %d"
               [FInt (UnbondingTime d); FInt (MinUnbondingTime p)]), w)) /\
  (forall d u stk sl slm err, BtcUndelegation d = Some u ->
     HasCovenantQuorum d (CovenantQuorum p) = Ok false -> MinUnbondingTime p < UnbondingTime d ->
     NewBTCTxFromHex (StakingTxHex d) = inr stk ->
     NewBTCSlashingTxFromHex (SlashingTxHex d) = inr sl -> ToMsgTx sl = inr slm ->
     CheckTransactions slm stk (StakingOutputIdx d) (MinSlashingTxFeeSat p) (SlashingRate p)
       (SlashingAddress p) (BtcPk d) (u16 (UnbondingTime d)) (BTCNetParams (ce_config ce)) = Some err ->
     sign_delegation ce (Some d) w =
       (Err (Errorf "invalid txs in the delegation: %w" [FErr err]), w)) /\
  (forall d u t value info err, carries d u t ->
     HasCovenantQuorum d (CovenantQuorum p) = Ok false -> MinUnbondingTime p < UnbondingTime d ->
     slashing_accepted p (BTCNetParams (ce_config ce)) d (slashingTxMsg t) (stakingTx t)
       (StakingOutputIdx d) ->
     TxOutValues (unbondingTx t) !! 0%nat = Some value ->
     BuildUnbondingInfo (BtcPk d) (FpBtcPks d) (CovenantPks p) (CovenantQuorum p)
       (u16 (UnbondingTime d)) value (BTCNetParams (ce_config ce)) = inr info ->
     CheckTransactions (unbondingSlashingTxMsg t) (unbondingTx t) 0 (MinSlashingTxFeeSat p)
       (SlashingRate p) (SlashingAddress p) (BtcPk d) (u16 (UnbondingTime d))
       (BTCNetParams (ce_config ce)) = Some err ->
     sign_delegation ce (Some d) w =
       (Err (Errorf "invalid txs in the undelegation: %w" [FErr err]), w)).
Proof.
  intros Hp. unfold sign_delegation, check_delegation. rewrite Hp.
  split_and!; [done| | | |]; intros d; rewrite !go_bind_run.
  - by intros ->.
  - intros u -> Hq Hub. cbn. rewrite Hq. cbn. by destruct (Z.leb_spec (UnbondingTime d) (MinUnbondingTime p)); [|lia].
  - intros u stk sl slm err -> Hq Hub H1 H2 H3 H4. cbn. rewrite Hq. cbn.
    destruct (Z.leb_spec (UnbondingTime d) (MinUnbondingTime p)); [lia|].
    rewrite H1. cbn. rewrite H2. cbn. rewrite H3. cbn. by rewrite H4.
  - intros u t value info err (-> & H1 & H2 & H3 & H4 & H5) Hq Hub H6 H7 H8 H9. cbn. rewrite Hq. cbn.
    destruct (Z.leb_spec (UnbondingTime d) (MinUnbondingTime p)); [lia|].
    rewrite H1. cbn. rewrite H2. cbn. rewrite H3. cbn. unfold slashing_accepted in H6. rewrite H6. cbn.
    rewrite H5. cbn. rewrite H4. cbn. unfold go_index. rewrite H7. cbn. rewrite H8. cbn. by rewrite H9.
Qed.

(** The signatures produced for a delegation are, for each finality provider in
    the delegation's order, one adaptor signature on the slashing transaction and
    one on the unbonding slashing transaction, encrypted to that provider's key;
    they name the emulator's public key and the hash of the staking
    transaction. *)
Lemma one_signature_per_finality_provider ce d w cs w' :
  sign_delegation ce (Some d) w = (Ok (Some cs), w') ->
  CovenantSigs_PublicKey cs = ce_pk ce /\
  (exists stk, NewBTCTxFromHex (StakingTxHex d) = inr stk /\ StakingTxHash cs = TxHash stk) /\
  length (SlashingSigs cs) = length (FpBtcPks d) /\
  length (SlashingUnbondingSigs cs) = length (FpBtcPks d) /\
  forall i fp, FpBtcPks d !! i = Some fp ->
    exists enc a1 a2 s1 s2, NewEncryptionKeyFromBTCPK fp = inr enc /\
      SlashingSigs cs !! i = Some s1 /\ SlashingUnbondingSigs cs !! i = Some s2 /\
      MustMarshal a1 = Ok s1 /\ MustMarshal a2 = Ok s2 /\
      (exists stx stk script sk,
         NewBTCSlashingTxFromHex (SlashingTxHex d) = inr stx /\
         NewBTCTxFromHex (StakingTxHex d) = inr stk /\
         EncSign stx stk (StakingOutputIdx d) script sk enc = inr a1) /\
      (exists u stx ub script sk,
         BtcUndelegation d = Some u /\
         NewBTCSlashingTxFromHex (Undelegation_SlashingTxHex u) = inr stx /\
         NewBTCTxFromHex (UnbondingTxHex u) = inr ub /\
         EncSign stx ub 0 script sk enc = inr a2).
Proof.
  intros H. apply sign_delegation_Ok in H as (p & sk & _ & _ & d' & u & t & [= <-] & Happ & Hs).
  destruct Hs as [Hpk Hh (time & info & sp & up & _ & _ & _ & H1 & _) (v & inf & sp' & stx & _ & _ & _ & Hstx & H2)].
  destruct (approved_txs _ _ _ _ _ Happ) as (Hu & Hstk & Hsl & _ & Hub & _).
  split_and!; [done|by eexists|symmetry; by eapply Forall2_length|symmetry; by eapply Forall2_length|].
  intros i fp Hi.
  destruct (Forall2_lookup_l _ _ _ _ _ H1 Hi) as (s1 & Hs1 & enc & a1 & Henc & Ha1 & Hm1).
  destruct (Forall2_lookup_l _ _ _ _ _ H2 Hi) as (s2 & Hs2 & enc' & a2 & Henc' & Ha2 & Hm2).
  rewrite Henc in Henc'. injection Henc' as <-.
  exists enc, a1, a2, s1, s2. split_and!; try done; [by eexists _, _, _, _|by eexists _, _, _, _, _].
Qed.

(** C17: For an unbonding time that fits in 16 bits, a signed delegation's slashing
    transactions were both checked against a change timelock equal to the
    unbonding time, which is strictly above the protocol's minimum; and the signatures
    on the unbonding slashing transaction spend the slashing path of the unbonding
    output built with that same timelock. *)
Theorem enforced_timelock_exceeds_minimum ce p d w cs w' :
  ce_params ce = Some p -> 0 <= UnbondingTime d < 2 ^ 16 ->
  sign_delegation ce (Some d) w = (Ok (Some cs), w') ->
  MinUnbondingTime p < UnbondingTime d /\
  exists u t, carries d u t /\
    CheckTransactions (slashingTxMsg t) (stakingTx t) (StakingOutputIdx d) (MinSlashingTxFeeSat p)
      (SlashingRate p) (SlashingAddress p) (BtcPk d) (UnbondingTime d)
      (BTCNetParams (ce_config ce)) = None /\
    CheckTransactions (unbondingSlashingTxMsg t) (unbondingTx t) 0 (MinSlashingTxFeeSat p)
      (SlashingRate p) (SlashingAddress p) (BtcPk d) (UnbondingTime d)
      (BTCNetParams (ce_config ce)) = None /\
    exists value info slashPath stx sk,
      TxOutValues (unbondingTx t) !! 0%nat = Some value /\
      BuildUnbondingInfo (BtcPk d) (FpBtcPks d) (CovenantPks p) (CovenantQuorum p)
        (UnbondingTime d) value (BTCNetParams (ce_config ce)) = inr info /\
      UnbondingSlashingPathSpendInfo info = inr slashPath /\
      NewBTCSlashingTxFromHex (Undelegation_SlashingTxHex u) = inr stx /\
      getPrivKey ce w = (Ok sk, w') /\
      Forall2 (adaptor_sig_for stx (unbondingTx t) 0 (GetPkScriptPath slashPath) sk)
        (FpBtcPks d) (SlashingUnbondingSigs cs).
Proof.
  intros Hp Hr H. apply sign_delegation_Ok in H as (p' & sk & Hp' & Hsk & d' & u & t & [= <-] & Happ & Hsig).
  rewrite Hp in Hp'. injection Hp' as <-. destruct Happ as [Htx _ Hub Hs Hus].
  unfold slashing_accepted in Hs, Hus. rewrite u16_id in Hs, Hus by done.
  destruct (sigs_unbonding _ _ _ _ _ _ _ _ Hsig) as (value & info & path & stx & H1 & H2 & H3 & H4 & H5).
  rewrite u16_id in H2 by done.
  split; [done|]. exists u, t. split_and!; try done. by exists value, info, path, stx, sk.
Qed.

(** C18: For an unbonding time of [2^16] or more the timelock is truncated: a
    delegation whose 32-bit unbonding time passes the minimum is signed although
    both slashing transactions were checked against a timelock [2^16] blocks
    shorter, which need not exceed the minimum at all. *)
Theorem long_unbonding_time_is_truncated ce p d w cs w' :
  ce_params ce = Some p -> 2 ^ 16 <= UnbondingTime d <= 2 ^ 16 + MinUnbondingTime p ->
  MinUnbondingTime p < 2 ^ 16 ->
  sign_delegation ce (Some d) w = (Ok (Some cs), w') ->
  exists u t lock, carries d u t /\ lock = UnbondingTime d - 2 ^ 16 /\ lock <= MinUnbondingTime p /\
    CheckTransactions (slashingTxMsg t) (stakingTx t) (StakingOutputIdx d) (MinSlashingTxFeeSat p)
      (SlashingRate p) (SlashingAddress p) (BtcPk d) lock (BTCNetParams (ce_config ce)) = None /\
    CheckTransactions (unbondingSlashingTxMsg t) (unbondingTx t) 0 (MinSlashingTxFeeSat p)
      (SlashingRate p) (SlashingAddress p) (BtcPk d) lock (BTCNetParams (ce_config ce)) = None.
Proof.
  intros Hp Hr Hm H.
  apply sign_delegation_Ok in H as (p' & sk & Hp' & _ & d' & u & t & [= <-] & Happ & _).
  rewrite Hp in Hp'. injection Hp' as <-. destruct Happ as [Htx _ Hub Hs Hus].
  assert (u16 (UnbondingTime d) = UnbondingTime d - 2 ^ 16) as Hu.
  { unfold u16. symmetry. apply Z.mod_unique with 1; lia. }
  unfold slashing_accepted in Hs, Hus. rewrite Hu in Hs, Hus.
  exists u, t, (UnbondingTime d - 2 ^ 16). split_and!; try done. lia.
Qed.

(** C33: The finalization timeout is not enforced.  Replacing it by any other value in
    the parameters changes nothing about what the emulator signs: a delegation gets the
    same signatures under both.  So a delegation that is signed at all is also signed
    when the timeout exceeds its unbonding time, that is when the unbonding time is
    below what [MinimumUnbondingTime] asks for, the larger of the minimum unbonding time
    and the finalization timeout. *)
Theorem finalization_timeout_is_not_enforced ce p timeout d w :
  (forall a b, sdkmath_Max a b = Z.max a b) -> ce_params ce = Some p ->
  (forall cs w',
     sign_delegation (with_params ce (Some (with_finalization_timeout p timeout))) (Some d) w =
       (Ok (Some cs), w') <->
     sign_delegation ce (Some d) w = (Ok (Some cs), w')) /\
  (UnbondingTime d < timeout ->
   UnbondingTime d < MinimumUnbondingTime (with_finalization_timeout p timeout)).
Proof.
  intros Hmax Hp. split.
  - intros cs w'. rewrite !sign_delegation_Ok, Hp. cbn. split.
    + intros (p' & sk & [= <-] & Hk & d' & u & t & Hd & [] & []). exists p, sk.
      split_and!; [done|exact Hk|]. by exists d', u, t.
    + intros (p' & sk & [= <-] & Hk & d' & u & t & Hd & [] & []). eexists _, sk.
      split_and!; [done|exact Hk|]. by exists d', u, t.
  - intros H. unfold MinimumUnbondingTime. rewrite Hmax. cbn. lia.
Qed.

(** Signing does not crash on well-formed input: with parameters loaded and a
    keyring and chain client that return, [AddCovenantSignatures] returns a
    response or an error, provided each delegation's heights form an interval of at
    most 65535 blocks and its unbonding transaction has an output. *)
Lemma signing_returns_on_safe_delegations ce p dels w :
  ce_params ce = Some p -> (forall sig, returns (MustMarshal sig) = true) ->
  go_returns (GetChainPrivKey K (ce_kc ce) (ce_passphrase ce)) ->
  (forall d, Some d ∈ dels -> safe_delegation d) ->
  (forall sigs, go_returns (SubmitCovenantSigs (ce_cc ce) sigs)) ->
  returns (AddCovenantSignatures ce dels w).1 = true.
Proof. intros. by eapply AddCovenantSignatures_returns. Qed.

(** C30: An unbonding transaction without outputs crashes the daemon instead of being
    rejected: its first output is read before the transaction is checked, so a
    delegation that passes all earlier checks makes [AddCovenantSignatures]
    panic with an index out of range. *)
Theorem unbonding_tx_without_outputs_panics ce p d u stk sl slm us ub post w :
  ce_params ce = Some p -> BtcUndelegation d = Some u ->
  HasCovenantQuorum d (CovenantQuorum p) = Ok false -> MinUnbondingTime p < UnbondingTime d ->
  NewBTCTxFromHex (StakingTxHex d) = inr stk ->
  NewBTCSlashingTxFromHex (SlashingTxHex d) = inr sl -> ToMsgTx sl = inr slm ->
  CheckTransactions slm stk (StakingOutputIdx d) (MinSlashingTxFeeSat p) (SlashingRate p)
    (SlashingAddress p) (BtcPk d) (u16 (UnbondingTime d)) (BTCNetParams (ce_config ce)) = None ->
  NewBTCTxFromHex (Undelegation_SlashingTxHex u) = inr us ->
  NewBTCTxFromHex (UnbondingTxHex u) = inr ub -> TxOutValues ub = [] ->
  AddCovenantSignatures ce (Some d :: post) w =
    (Panic "runtime error: index out of range", w).
Proof.
  intros Hp Hu Hq Hub H1 H2 H3 H4 H5 H6 H7.
  assert (sign_delegation ce (Some d) w = (Panic "runtime error: index out of range", w)) as Hod.
  { unfold sign_delegation, check_delegation. rewrite Hp, go_bind_run, Hu. cbn. rewrite Hq. cbn.
    destruct (Z.leb_spec (UnbondingTime d) (MinUnbondingTime p)); [lia|].
    rewrite H1. cbn. rewrite H2. cbn. rewrite H3. cbn. rewrite H4. cbn. rewrite H5. cbn.
    rewrite H6. cbn. by rewrite H7. }
  by rewrite (AddCovenantSignatures_first ce (Some d) post w _ _ Hod).
Qed.

(** Before the first [UpdateParams] the emulator has no parameters, and
    [AddCovenantSignatures] on a delegation with an undelegation dereferences a
    nil pointer. *)
Lemma signing_before_params_panics ce d u post w :
  ce_params ce = None -> BtcUndelegation d = Some u ->
  exists msg, AddCovenantSignatures ce (Some d :: post) w = (Panic msg, w).
Proof.
  intros Hp Hu.
  assert (exists msg, sign_delegation ce (Some d) w = (Panic msg, w)) as [msg Hod].
  { unfold sign_delegation, check_delegation. rewrite Hp, go_bind_run, Hu. by eexists. }
  exists msg. by rewrite (AddCovenantSignatures_first ce (Some d) post w _ _ Hod).
Qed.

End properties.

Section own_key_properties.
Context {L : BtcLib} {E : Type} (os : OS (World E)) {K : KeyringLib E} {S : KeyringSpec K}.

Lemma signed_run_owns (ce : CovenantEmulator K) p key dels sigs w :
  ce_params ce = Some p -> owns_key ce key w ->
  Forall2 (covenant_signed p (BTCNetParams (ce_config ce)) (ce_pk ce) (PrivKeyFromBytes key).1)
    dels sigs ->
  exists w1, signed_run ce w dels sigs w1.
Proof.
  intros Hp Hk Hall. revert w Hk. induction Hall as [|od cs dels sigs H _ IH]; intros w Hk.
  { eexists. constructor. }
  destruct (getPrivKey_owns _ _ _ Hk) as (w1 & Hg & Hk1). destruct (IH w1 Hk1) as [w2 Hw2].
  exists w2. econstructor; [|exact Hw2]. apply sign_delegation_Ok. eauto.
Qed.

(** C4: A non-empty batch in which every delegation is approved and can be signed
    with the emulator's own key is submitted: with the parameters loaded,
    [AddCovenantSignatures] reads the key once per delegation and then submits
    exactly the specified signatures. *)
Theorem approved_batch_is_submitted (ce : CovenantEmulator K) p key dels sigs w :
  ce_params ce = Some p -> owns_key ce key w -> dels <> [] ->
  Forall2 (covenant_signed p (BTCNetParams (ce_config ce)) (ce_pk ce) (PrivKeyFromBytes key).1)
    dels sigs ->
  exists w1, AddCovenantSignatures ce dels w = SubmitCovenantSigs (ce_cc ce) sigs w1.
Proof.
  intros Hp Hk Hne Hall. destruct (signed_run_owns _ _ _ _ _ _ Hp Hk Hall) as [w1 Hrun].
  exists w1. by apply AddCovenantSignatures_submits.
Qed.

(** C10: The public key under which a freshly created emulator submits its
    signatures belongs to the private key it signs with: after
    [NewCovenantEmulator], reading the private key succeeds, and again after each
    reading, always with the key whose public key is [ce.pk]. *)
Theorem emulator_signs_with_its_own_key config cc pass w ce w' :
  NewCovenantEmulator os K config cc pass w = (Ok ce, w') ->
  exists key, ParsePubKey (sdk_PubKeyBytes K key) = inr (ce_pk ce) /\
    exists w1 w2, getPrivKey ce w' = (Ok (PrivKeyFromBytes key).1, w1) /\
      getPrivKey ce w1 = (Ok (PrivKeyFromBytes key).1, w2).
Proof.
  intros H. destruct (NewCovenantEmulator_owns _ _ _ _ _ _ H) as [key Hk]. exists key.
  split; [apply Hk|].
  destruct (getPrivKey_owns _ _ _ Hk) as (w1 & Hg1 & Hk1).
  destruct (getPrivKey_owns _ _ _ Hk1) as (w2 & Hg2 & _). eauto.
Qed.

End own_key_properties.

(** *** Runs on concrete values *)

Definition toy_before : ToyW := toy_world (toy_chain []).

Lemma toy_fresh_signed time :
  120 < time -> covenant_signed toy_params SimNetParams toy_sk toy_sk (Some (toy_fresh time))
    toy_fresh_sigs.
Proof.
  intros Ht. exists (toy_fresh time), (toy_undel [] []),
    (@mkDelegationTxs toy_BtcLib (mkToyTx "staking" [5000]) "slashing" (mkToyTx "slashing" [1000])
       (mkToyTx "unbonding" [5000]) (mkToyTx "unbonding-slashing" [5000])).
  split; [done|]. split; [by split|]. split; [done|done| |].
  - exists 100, 100, [Byte.x01], [Byte.x02]. split_and!; try reflexivity.
    repeat constructor; by do 2 eexists.
  - eexists 5000, _, [Byte.x03], "unbonding-slashing". split_and!; try reflexivity.
    repeat constructor; by do 2 eexists.
Qed.

Lemma toy_key_reads params n w :
  readers w = {[0%nat := ""]} -> (ext w).1 = toy_store ->
  getPrivKey (toy_ce n params) w = (Ok toy_sk, w).
Proof.
  intros Hr Hs. destruct w as [rd [st c]]. cbn in Hr, Hs. subst rd st.
  unfold getPrivKey, GetChainPrivKey. cbn. unfold mem_Key, mem_accepts, drain. by vm_compute.
Qed.

Lemma toy_fresh_run n time c :
  120 < time ->
  sign_delegation (toy_ce n (Some toy_params)) (Some (toy_fresh time)) (toy_world c) =
    (Ok (Some toy_fresh_sigs), toy_world c).
Proof.
  intros Ht. apply sign_delegation_Ok. exists toy_params, toy_sk. split; [done|].
  split; [by apply toy_key_reads|by apply toy_fresh_signed].
Qed.

Lemma toy_owns n params c : owns_key (toy_ce n params) toy_sk (toy_world c).
Proof.
  split; [done|]. split; [|done]. split; [done|].
  exists (mkKeyRecord (Some (Some (Secp256k1PrivKey toy_sk)))). by split.
Qed.

Lemma approved_batch_is_submitted_witness :
  exists w1, AddCovenantSignatures (toy_ce 2 (Some toy_params))
      [Some (toy_fresh 150); Some (toy_fresh 151)] toy_before =
    SubmitCovenantSigs toy_cc [toy_fresh_sigs; toy_fresh_sigs] w1.
Proof.
  apply (approved_batch_is_submitted (toy_ce 2 (Some toy_params)) toy_params toy_sk).
  - reflexivity.
  - apply toy_owns.
  - done.
  - constructor; [apply toy_fresh_signed; lia|].
    constructor; [apply toy_fresh_signed; lia|constructor].
Defined.

Lemma reached_quorum_drops_whole_batch_witness :
  AddCovenantSignatures (toy_ce 2 (Some toy_params))
    [Some (toy_fresh 150); Some toy_complete; Some (toy_fresh 150)] toy_before =
  (Ok None, toy_before).
Proof.
  apply (reached_quorum_drops_whole_batch (toy_ce 2 (Some toy_params)) toy_params
    [Some (toy_fresh 150)] [toy_fresh_sigs] toy_complete
    (toy_undel [] [toy_ssig [Byte.x31]; toy_ssig [Byte.x32]]) [Some (toy_fresh 150)]
    toy_before toy_before) with (cc := toy_cc).
  - reflexivity.
  - apply (signed_cons _ _ _ _ toy_before); [apply toy_fresh_run; lia|constructor].
  - reflexivity.
  - reflexivity.
Defined.

Lemma failing_delegation_fails_whole_batch_witness :
  AddCovenantSignatures (toy_ce 2 (Some toy_params))
    [Some (toy_fresh 150); Some (toy_other "evil-slashing" "unbonding" 200)] toy_before =
  (Err (Errorf "invalid txs in the delegation: %w" [FErr (errorString "rejected")]), toy_before).
Proof.
  apply (failing_delegation_fails_whole_batch (toy_ce 2 (Some toy_params))
    [Some (toy_fresh 150)] [toy_fresh_sigs] (Some (toy_other "evil-slashing" "unbonding" 200)) []
    _ toy_before toy_before toy_before) with (cc := toy_cc).
  - apply (signed_cons _ _ _ _ toy_before); [apply toy_fresh_run; lia|constructor].
  - reflexivity.
Defined.

Lemma rule_violations_are_errors_witness :
  sign_delegation (toy_ce 2 (Some toy_params)) (Some (toy_fresh 120)) toy_before =
  (Err (Errorf "unbonding time %d must be larger than %d" [FInt 120; FInt 120]), toy_before).
Proof.
  destruct (rule_violations_are_errors (toy_ce 2 (Some toy_params)) toy_params toy_before eq_refl)
    as (_ & _ & H & _).
  apply (H (toy_fresh 120) (toy_undel [] [])); [reflexivity|reflexivity|cbn; lia].
Defined.

Lemma one_signature_per_finality_provider_witness :
  length (SlashingSigs toy_fresh_sigs) = length (FpBtcPks (toy_fresh 150)) /\
  length (SlashingUnbondingSigs toy_fresh_sigs) = length (FpBtcPks (toy_fresh 150)).
Proof.
  destruct (one_signature_per_finality_provider (toy_ce 2 (Some toy_params)) (toy_fresh 150)
    toy_before toy_fresh_sigs toy_before) as (_ & _ & H1 & H2 & _).
  - apply toy_fresh_run. lia.
  - split; [exact H1|exact H2].
Defined.

Lemma enforced_timelock_exceeds_minimum_witness :
  MinUnbondingTime toy_params < UnbondingTime (toy_fresh 150).
Proof.
  apply (enforced_timelock_exceeds_minimum (toy_ce 2 (Some toy_params)) toy_params (toy_fresh 150)
    toy_before toy_fresh_sigs toy_before).
  - reflexivity.
  - cbn. lia.
  - apply toy_fresh_run. lia.
Defined.

(** An unbonding time of 65541 blocks is signed with a timelock of 5. *)
Lemma long_unbonding_time_is_truncated_witness :
  exists u t lock, carries (toy_fresh 65541) u t /\ lock = 65541 - 2 ^ 16 /\ lock <= 120 /\
    CheckTransactions (slashingTxMsg t) (stakingTx t) 0 1 50 "slashing-address" [Byte.x11] lock
      SimNetParams = None /\
    CheckTransactions (unbondingSlashingTxMsg t) (unbondingTx t) 0 1 50 "slashing-address"
      [Byte.x11] lock SimNetParams = None.
Proof.
  apply (long_unbonding_time_is_truncated (toy_ce 2 (Some toy_params)) toy_params (toy_fresh 65541)
    toy_before toy_fresh_sigs toy_before).
  - reflexivity.
  - cbn. lia.
  - cbn. lia.
  - apply toy_fresh_run. lia.
Defined.

Lemma toy_fresh_safe time : safe_delegation (toy_fresh time).
Proof.
  split; [unfold MaxUint16; cbn; lia|]. intros u tx [= <-] [= <-]. done.
Qed.

Lemma const_key_returns n cc params :
  go_returns (GetChainPrivKey const_K (ce_kc (const_ce n cc params)) "secret").
Proof. intros w. reflexivity. Qed.

Lemma signing_returns_on_safe_delegations_witness :
  returns (AddCovenantSignatures (const_ce 2 toy_cc (Some toy_params))
             [Some (toy_fresh 150); None] toy_before).1 = true.
Proof.
  apply (signing_returns_on_safe_delegations (const_ce 2 toy_cc (Some toy_params)) toy_params).
  - reflexivity.
  - intros sig. reflexivity.
  - apply const_key_returns.
  - intros d Hd. apply list_elem_of_In in Hd as [[= <-]|[|[]]]; [apply toy_fresh_safe|done].
  - intros sigs w. reflexivity.
Defined.

Lemma unbonding_tx_without_outputs_panics_witness :
  AddCovenantSignatures (toy_ce 2 (Some toy_params))
    [Some (toy_other "slashing" "no-outputs" 200)] toy_before =
  (Panic "runtime error: index out of range", toy_before).
Proof.
  eapply (unbonding_tx_without_outputs_panics (toy_ce 2 (Some toy_params)) toy_params
    (toy_other "slashing" "no-outputs" 200));
    [reflexivity|reflexivity|reflexivity|cbn; lia|reflexivity|reflexivity|reflexivity
    |reflexivity|reflexivity|reflexivity|reflexivity].
Defined.

Lemma signing_before_params_panics_witness :
  exists msg, AddCovenantSignatures (toy_ce 2 None) [Some (toy_fresh 150)] toy_before =
    (Panic msg, toy_before).
Proof.
  eapply (signing_before_params_panics (toy_ce 2 None) (toy_fresh 150)); reflexivity.
Defined.

(** The world in which the keyring still has to be opened. *)
Definition toy_closed : ToyW := mkWorld ∅ (toy_store, toy_chain []).

Lemma emulator_signs_with_its_own_key_witness :
  exists key, key = toy_sk /\
    exists w1 w2,
      getPrivKey (toy_ce 2 None) toy_before = (Ok key, w1) /\
      getPrivKey (toy_ce 2 None) w1 = (Ok key, w2).
Proof.
  destruct (emulator_signs_with_its_own_key toy_OS (toy_config 2) toy_cc "secret"
    toy_closed (toy_ce 2 None) toy_before) as (key & Hk & Hr); [vm_compute; reflexivity|].
  exists key. split; [|exact Hr]. destruct key; [done|]. cbn in Hk. congruence.
Defined.

Lemma finalization_timeout_is_not_enforced_witness :
  UnbondingTime (toy_fresh 150) < MinimumUnbondingTime (with_finalization_timeout toy_params 2016) /\
  sign_delegation (with_params (toy_ce 2 (Some toy_params))
      (Some (with_finalization_timeout toy_params 2016))) (Some (toy_fresh 150)) toy_before =
    (Ok (Some toy_fresh_sigs), toy_before).
Proof.
  destruct (finalization_timeout_is_not_enforced (toy_ce 2 (Some toy_params)) toy_params 2016
              (toy_fresh 150) toy_before) as [Hs Hm].
  - intros a b. reflexivity.
  - reflexivity.
  - split; [apply Hm; cbn; lia|]. apply Hs. apply toy_fresh_run. lia.
Defined.
