(* ===== verification/TickFacts.v ===== *)
(** * Staking parameters and the submission tick

    [getParamsWithRetry], [UpdateParams] and one turn of
    [covenantSigSubmissionLoop] ([src/covenant/covenant.go]): when the retries
    succeed and fail, what a tick may send to the chain, and that it neither
    crashes nor stops early. *)

From S2P Require Import Prelude External ToyLib Types Config.
From S2P Require Import ClientController Keyring Emulator ToyWorld BatchFacts SigningFacts.
From Stdlib Require Import ZArith Lia String Strings.Byte.
From stdpp Require Import base list strings gmap.

#[local] Open Scope list_scope.
#[local] Open Scope Z_scope.

(** ** The retry library

    What avast/retry-go documents of [Do] under the options the daemon passes
    (attempts, delay, last error only): the function is called until it
    succeeds, at most the given number of times, waiting between the calls; the
    result is nil after a success and the last error otherwise.  [elapse] is
    what happens to the world while it waits. *)

Class RetrySpec {L : BtcLib} {E : Type}
    (retry_Do : Z -> Go (option StakingParams * World E) unit ->
                Go (option StakingParams * World E) unit)
    (elapse : Z -> World E -> World E) (recoverable : error -> bool) : Prop := {
  retry_first_ok n f s s' :
    0 < n -> f s = (Ok tt, s') -> retry_Do n f s = (Ok tt, s');
  retry_again n f s e q w :
    1 < n -> f s = (Err e, (q, w)) -> recoverable e = true ->
    retry_Do n f s = retry_Do (n - 1) f (q, elapse n w);
  retry_last f s e s' :
    f s = (Err e, s') -> recoverable e = true -> retry_Do 1 f s = (Err e, s');
  retry_success n f s s' :
    0 < n -> retry_Do n f s = (Ok tt, s') -> exists s0, f s0 = (Ok tt, s');
  retry_preserves n f (J : World E -> Prop) :
    (forall k w, J w -> J (elapse k w)) ->
    preserves (fun s => J s.2) f -> preserves (fun s => J s.2) (retry_Do n f);
  retry_returns n f : 0 < n -> go_returns f -> go_returns (retry_Do n f);
}.

Section tick.
Context {L : BtcLib} {E : Type} {K : KeyringLib E}.
Context {retry_Do : Z -> Go (option StakingParams * World E) unit ->
                    Go (option StakingParams * World E) unit}
        {elapse : Z -> World E -> World E} {recoverable : error -> bool}
        {R : RetrySpec retry_Do elapse recoverable}.
Implicit Types (ce : CovenantEmulator K) (w : World E).

(** [failing ce n k w w']: of [n] attempts left, the next [k] queries fail with
    errors worth retrying, and the query after them is made in world [w']. *)
Inductive failing ce : Z -> nat -> World E -> World E -> Prop :=
| failing_none n w : failing ce n 0 w w
| failing_more n k w e w1 w' :
    QueryStakingParams (ce_cc ce) w = (Err e, w1) -> recoverable e = true ->
    failing ce (n - 1) k (elapse n w1) w' -> failing ce n (S k) w w'.

Lemma query_closure_Ok ce q w p w' :
  QueryStakingParams (ce_cc ce) w = (Ok p, w') -> query_closure ce (q, w) = (Ok tt, (p, w')).
Proof. intros H. unfold query_closure. cbn. by rewrite H. Qed.

Lemma query_closure_Err ce q w e w' :
  QueryStakingParams (ce_cc ce) w = (Err e, w') -> query_closure ce (q, w) = (Err e, (None, w')).
Proof. intros H. unfold query_closure. cbn. by rewrite H. Qed.

(** Failing attempts are skipped while attempts are left. *)
Lemma retry_skips ce n k w w' q :
  failing ce n k w w' -> Z.of_nat k < n ->
  exists q', retry_Do n (query_closure ce) (q, w) =
             retry_Do (n - Z.of_nat k) (query_closure ce) (q', w').
Proof using R.
  intros H. revert q. induction H as [n w|n k w e w1 w' H He _ IH]; intros q Hk.
  - exists q. f_equal. lia.
  - destruct (IH None) as [q' Hq']; [lia|]. exists q'.
    erewrite retry_again by (try apply query_closure_Err; eauto; lia).
    rewrite Hq'. f_equal. lia.
Qed.

Lemma getParams_succeeds ce k w w1 p w2 :
  failing ce RtyAttNum k w w1 -> Z.of_nat k < RtyAttNum ->
  QueryStakingParams (ce_cc ce) w1 = (Ok p, w2) ->
  getParamsWithRetry retry_Do ce w = (Ok p, w2).
Proof using R.
  intros Hf Hk Hq. unfold getParamsWithRetry.
  destruct (retry_skips _ _ _ _ _ None Hf Hk) as [q ->].
  by erewrite retry_first_ok by (first [lia | by apply query_closure_Ok]).
Qed.

Lemma getParams_gives_up ce w w1 e w2 :
  failing ce RtyAttNum 4 w w1 -> QueryStakingParams (ce_cc ce) w1 = (Err e, w2) ->
  recoverable e = true -> getParamsWithRetry retry_Do ce w = (Err e, w2).
Proof using R.
  intros Hf Hq He. unfold getParamsWithRetry.
  destruct (retry_skips _ _ _ _ _ None Hf ltac:(done)) as [q ->].
  by rewrite (retry_last _ _ _ _ (query_closure_Err _ _ _ _ _ Hq) He).
Qed.

(** Parameters are only ever those of a successful query. *)
Lemma getParams_sound ce w p w' :
  getParamsWithRetry retry_Do ce w = (Ok p, w') ->
  exists w0, QueryStakingParams (ce_cc ce) w0 = (Ok p, w').
Proof using R.
  unfold getParamsWithRetry. intros H.
  destruct (retry_Do _ _ _) as [[[]|e|pn|] [q w1]] eqn:Hr; try done. simplify_eq.
  apply retry_success in Hr as [[q0 w0] Hr]; [|done]. exists w0.
  unfold query_closure in Hr. cbn in Hr.
  by destruct (QueryStakingParams (ce_cc ce) w0) as [[] ?]; simplify_eq.
Qed.

Lemma getParams_preserves ce (I : World E -> Prop) :
  (forall k w, I w -> I (elapse k w)) -> preserves I (QueryStakingParams (ce_cc ce)) ->
  preserves I (getParamsWithRetry retry_Do ce).
Proof using R.
  intros He Hq w Hw. unfold getParamsWithRetry.
  assert (preserves (fun s => I s.2) (query_closure ce)) as Hc.
  { intros [q w0] Hw0. specialize (Hq w0 Hw0). unfold query_closure. cbn in *.
    by destruct (QueryStakingParams _ w0) as [[] ?]. }
  pose proof (retry_preserves RtyAttNum _ I He Hc (None, w) Hw) as Hp.
  by destruct (retry_Do _ _ _) as [[] [q w1]].
Qed.

Lemma getParams_returns ce :
  go_returns (QueryStakingParams (ce_cc ce)) -> go_returns (getParamsWithRetry retry_Do ce).
Proof using R.
  intros Hq w. unfold getParamsWithRetry.
  assert (go_returns (query_closure ce)) as Hc.
  { intros [q w0]. specialize (Hq w0). unfold query_closure. cbn in *.
    by destruct (QueryStakingParams _ w0) as [[] ?]. }
  pose proof (retry_returns RtyAttNum _ ltac:(done) Hc (None, w)) as Hr.
  by destruct (retry_Do _ _ _) as [[] [q w1]].
Qed.

(** ** Absorbed errors *)

Lemma log_err_preserves {A} (I : World E -> Prop) (m : Go (World E) A) :
  preserves I m -> preserves I (log_err m).
Proof. intros Hm w Hw. specialize (Hm w Hw). unfold log_err. by destruct (m w) as [[] ?]. Qed.

Lemma log_err_returns_at {A} (m : Go (World E) A) w :
  returns (log_err m w).1 = returns (m w).1.
Proof. unfold log_err. by destruct (m w) as [[] ?]. Qed.

Lemma log_err_Some {A} (m : Go (World E) A) w a w' :
  log_err m w = (Ok (Some a), w') -> m w = (Ok a, w').
Proof. unfold log_err. by destruct (m w) as [[] ?]; intros; simplify_eq. Qed.

(** ** What a tick may submit *)

(** The delegation carries no signature of key [pk]. *)
Definition unsigned_by (pk : PublicKey) (od : option Delegation) : Prop :=
  exists d, od = Some d /\ alreadySigned pk (Delegation_CovenantSigs d) = Ok false.

(** [sigs] may be sent by a tick of [ce]: they are the signatures on a non-empty
    batch, no larger than configured, of pending delegations the covenant has not
    signed, each approved under the parameters the chain returned just before it
    returned the delegations. *)
Definition tick_submission ce (sigs : list CovenantSigs) : Prop :=
  exists p batch dels w0 w1 w2,
    QueryStakingParams (ce_cc ce) w0 = (Ok (Some p), w1) /\
    QueryPendingDelegations (ce_cc ce) (DelegationLimit (ce_config ce)) w1 = (Ok dels, w2) /\
    batch <> [] /\ batch ⊆ dels /\ go_len batch <= SigsBatchSize (ce_config ce) /\
    Forall (unsigned_by (ce_pk ce)) batch /\
    Forall2 (keyring_signed ce p) batch sigs.

Lemma removeAlreadySigned_filter pk dels kept :
  removeAlreadySigned pk dels = Ok kept ->
  kept ⊆ dels /\ Forall (unsigned_by pk) kept.
Proof.
  revert kept. induction dels as [|del dels IH]; intros kept; cbn [removeAlreadySigned].
  { intros [= <-]. split; [done|constructor]. }
  intros H. go_inv. destruct (IH _ ltac:(eassumption)) as [Hsub Hall]. clear IH.
  match goal with H : alreadySigned _ _ = Ok ?b |- _ => destruct b end.
  - split; [by apply list_subseteq_cons|done].
  - split; [by apply list_subseteq_skip|]. constructor; [by eexists|done].
Qed.

(** [delegationsToBatches] only regroups, in groups of the configured size. *)
Lemma delegationsToBatches_members ce dels batches :
  in_u64 (SigsBatchSize (ce_config ce)) -> slice_ok dels ->
  delegationsToBatches ce dels = Ok batches ->
  Forall (fun b => b <> [] /\ b ⊆ dels /\ go_len b <= SigsBatchSize (ce_config ce)) batches.
Proof.
  intros Hb Hlen H. unfold delegationsToBatches in H.
  destruct (Z.eq_dec (SigsBatchSize (ce_config ce)) 0) as [H0|H0].
  { destruct dels as [|x dels].
    - injection H as <-. constructor.
    - by rewrite batches_loop_stuck in H. }
  rewrite batches_loop_run in H by (try done; unfold in_u64 in Hb; lia).
  injection H as <-. unfold in_u64 in Hb.
  assert (0 < Z.to_nat (SigsBatchSize (ce_config ce)))%nat as Hpos by lia.
  pose proof (chunks_fuel_sizes (length dels) _ dels Hpos) as Hsz.
  pose proof (chunks_fuel_concat (length dels) _ dels Hpos ltac:(lia)) as Hcat.
  rewrite Forall_forall in Hsz |- *. intros b Hin. destruct (Hsz b Hin) as [Hne Hle].
  split_and!; [done| |unfold go_len; lia].
  intros x Hx. rewrite <- Hcat. apply list_elem_of_In, in_concat.
  exists b. by split; apply list_elem_of_In.
Qed.

Lemma removeAlreadySigned_length pk dels kept :
  removeAlreadySigned pk dels = Ok kept -> (length kept <= length dels)%nat.
Proof.
  revert kept. induction dels as [|del dels IH]; intros kept; cbn [removeAlreadySigned].
  { by intros [= <-]. }
  intros H. go_inv. specialize (IH _ ltac:(eassumption)).
  match goal with H : alreadySigned _ _ = Ok ?b |- _ => destruct b end; cbn; lia.
Qed.

(** ** Safety of the tick

    [I] is any invariant of the world that reading keys, querying the chain and
    waiting preserve, and that a submission preserves when its signatures are
    ones a tick may send. *)

Section safety.
Context (ce : CovenantEmulator K) (I : World E -> Prop).
Hypothesis Ielapse : forall k w, I w -> I (elapse k w).
Hypothesis Ikeys : preserves I (GetChainPrivKey K (ce_kc ce) (ce_passphrase ce)).
Hypothesis Iparams : preserves I (QueryStakingParams (ce_cc ce)).
Hypothesis Ipending :
  preserves I (QueryPendingDelegations (ce_cc ce) (DelegationLimit (ce_config ce))).
Hypothesis Isubmit :
  forall sigs, tick_submission ce sigs -> preserves I (SubmitCovenantSigs (ce_cc ce) sigs).

Lemma sign_batch_preserves p dels acc :
  preserves I (sign_batch (with_params ce p) dels acc).
Proof using Ikeys.
  revert acc. induction dels as [|od dels IH]; intros acc; cbn [sign_batch].
  { apply preserves_ret. }
  apply preserves_bind; [|intros [cs|]; [apply IH|apply preserves_ret]].
  unfold sign_delegation. apply preserves_bind; [apply preserves_lift|]. intros [c|].
  - apply preserves_bind.
    + apply preserves_wrap, preserves_bind; [exact Ikeys|]. intros. apply preserves_ret.
    + intros sk. apply preserves_bind; [apply preserves_lift|]. intros. apply preserves_ret.
  - apply preserves_ret.
Qed.

Lemma submit_batches_preserves p w0 w1 dels w2 batches :
  QueryStakingParams (ce_cc ce) w0 = (Ok (Some p), w1) ->
  QueryPendingDelegations (ce_cc ce) (DelegationLimit (ce_config ce)) w1 = (Ok dels, w2) ->
  Forall (fun b => b <> [] /\ b ⊆ dels /\ go_len b <= SigsBatchSize (ce_config ce) /\
                   Forall (unsigned_by (ce_pk ce)) b) batches ->
  preserves I (submit_batches (with_params ce (Some p)) batches).
Proof using Ikeys Isubmit.
  intros Hq Hd Hb. induction Hb as [|b batches (Hne & Hsub & Hsz & Huns) _ IH];
    cbn [submit_batches]; [apply preserves_ret|].
  apply preserves_bind; [|intros; apply IH]. apply log_err_preserves. intros w Hw.
  pose proof (sign_batch_preserves (Some p) b [] w Hw) as Hsig.
  unfold AddCovenantSignatures. destruct (_ =? _); [done|]. rewrite go_bind_run.
  destruct (sign_batch (with_params ce (Some p)) b [] w) as [[[sigs|]|e|pn|] w3] eqn:Hs; try done.
  apply sign_batch_Ok in Hs as (new & -> & Hrun).
  destruct (signed_run_covenant _ _ _ _ _ Hrun Hne) as (p' & Hp' & Hall).
  cbn in Hp', Hall. simplify_eq. apply Isubmit; [|done].
  exists p', b, dels, w0, w1, w2. by split_and!.
Qed.

Lemma tick_preserves :
  in_u64 (SigsBatchSize (ce_config ce)) ->
  (forall limit w dels w', QueryPendingDelegations (ce_cc ce) limit w = (Ok dels, w') ->
     slice_ok dels) ->
  (forall w p w', QueryStakingParams (ce_cc ce) w = (Ok p, w') -> is_Some p) ->
  preserves I (submission_tick retry_Do ce).
Proof using R Ielapse Ikeys Iparams Ipending Isubmit.
  intros Hbs Hlen Hpn w Hw. unfold submission_tick. rewrite go_bind_run.
  assert (preserves I (UpdateParams retry_Do ce)) as HU.
  { apply preserves_bind; [by apply getParams_preserves|]. intros. apply preserves_ret. }
  pose proof (log_err_preserves I _ HU w Hw) as Hw1.
  destruct (log_err (UpdateParams retry_Do ce) w) as [[[ce1|]|e|pn|] w1] eqn:HU1; try done.
  apply log_err_Some in HU1. unfold UpdateParams in HU1. go_inv.
  match goal with H : getParamsWithRetry _ _ _ = _ |- _ =>
    apply getParams_sound in H as [w0 Hq] end.
  destruct (Hpn _ _ _ Hq) as [p ->]. cbn beta iota. rewrite go_bind_run. cbn [with_params ce_cc ce_config].
  pose proof (log_err_preserves I _ Ipending _ Hw1) as Hw2.
  cbn [snd] in Hw2. revert Hw2.
  match goal with |- context [log_err ?m ?w1] =>
    destruct (log_err m w1) as [[[dels|]|e|pn|] w2] eqn:HQ end; intros Hw2; try done.
  apply log_err_Some in HQ. cbn [snd] in Hw2. cbn beta iota.
  rewrite go_bind_run, lift_run. cbn [with_params ce_pk].
  destruct (removeAlreadySigned (ce_pk ce) dels) as [kept|e|pn|] eqn:Hk; try done.
  cbn beta iota. rewrite go_bind_run, lift_run.
  destruct (delegationsToBatches _ kept) as [batches|e|pn|] eqn:Hb; try done.
  destruct (removeAlreadySigned_filter _ _ _ Hk) as [Hsub Huns].
  apply preserves_bind; [|intros; apply preserves_ret|done].
  eapply submit_batches_preserves; [done|done|].
  apply delegationsToBatches_members in Hb; cbn [with_params ce_config] in *; [|done|].
  - eapply Forall_impl; [exact Hb|]. intros b (Hne & Hbs' & Hsz).
    split_and!; [done|by etrans|done|]. rewrite Forall_forall in Huns |- *. auto.
  - apply removeAlreadySigned_length in Hk. specialize (Hlen _ _ _ _ HQ).
    unfold slice_ok, go_len in *. lia.
Qed.

End safety.

(** ** The tick runs to its end *)

(** Every batch is attempted, whatever became of the batches before it. *)
Lemma submit_batches_fold ce batches w :
  (forall b, b ∈ batches -> go_returns (AddCovenantSignatures ce b)) ->
  submit_batches ce batches w =
  (Ok tt, fold_left (fun w b => (AddCovenantSignatures ce b w).2) batches w).
Proof.
  revert w. induction batches as [|b batches IH]; intros w Hret; [done|].
  cbn [submit_batches fold_left]. rewrite go_bind_run. unfold log_err.
  pose proof (Hret b ltac:(set_solver) w) as Hb.
  destruct (AddCovenantSignatures ce b w) as [[r|e|pn|] w1]; try done;
    (apply IH; intros b' Hb'; apply Hret; set_solver).
Qed.

Lemma alreadySigned_total pk sigs :
  Forall is_Some sigs -> exists b, alreadySigned pk sigs = Ok b.
Proof.
  induction 1 as [|o sigs [s ->] _ IH]; cbn; [by eexists|].
  case_bool_decide; [by eexists|done].
Qed.

Lemma removeAlreadySigned_total pk dels :
  Forall pending_ok dels -> exists kept, removeAlreadySigned pk dels = Ok kept.
Proof.
  induction 1 as [|od dels (d & -> & Hs) _ [kept IH]]; cbn [removeAlreadySigned]; [by eexists|].
  destruct (alreadySigned_total pk _ Hs) as [b Hb]. cbn. rewrite Hb. cbn. rewrite IH. by eexists.
Qed.

Lemma delegationsToBatches_total ce dels :
  in_u64 (SigsBatchSize (ce_config ce)) -> 0 < SigsBatchSize (ce_config ce) -> slice_ok dels ->
  delegationsToBatches ce dels = Ok (chunks (Z.to_nat (SigsBatchSize (ce_config ce))) dels).
Proof. intros. by apply batches_loop_run. Qed.

Lemma tick_returns ce :
  ClientControllerSpec (ce_cc ce) ->
  in_u64 (SigsBatchSize (ce_config ce)) -> 0 < SigsBatchSize (ce_config ce) ->
  (forall sig, returns (MustMarshal sig) = true) ->
  go_returns (GetChainPrivKey K (ce_kc ce) (ce_passphrase ce)) ->
  go_returns (QueryStakingParams (ce_cc ce)) ->
  go_returns (QueryPendingDelegations (ce_cc ce) (DelegationLimit (ce_config ce))) ->
  (forall sigs, go_returns (SubmitCovenantSigs (ce_cc ce) sigs)) ->
  (forall limit w dels w', QueryPendingDelegations (ce_cc ce) limit w = (Ok dels, w') ->
     slice_ok dels /\ forall d, Some d ∈ dels -> safe_delegation d) ->
  go_returns (submission_tick retry_Do ce).
Proof using R.
  intros HS Hbs Hpos Hm Hk HP HQ HSub Hsafe w. unfold submission_tick.
  apply go_returns_bind_at.
  { rewrite log_err_returns_at. apply go_returns_bind_at; [|done]. by apply getParams_returns. }
  intros [ce1|] w1 HU; [|done]. apply log_err_Some in HU. unfold UpdateParams in HU. go_inv.
  match goal with H : getParamsWithRetry _ _ _ = _ |- _ =>
    apply getParams_sound in H as [w0 Hq] end.
  destruct (params_nonnil _ _ _ Hq) as [p ->].
  apply go_returns_bind_at; [by rewrite log_err_returns_at|].
  intros [dels|] w2 Hd; [|done]. apply log_err_Some in Hd. cbn [with_params ce_cc ce_config] in Hd.
  destruct (Hsafe _ _ _ _ Hd) as [Hlen Hsd]. apply pending_nonnil in Hd.
  destruct (removeAlreadySigned_total (ce_pk ce) _ Hd) as [kept Hkept].
  apply go_returns_bind_at; [cbn; by rewrite Hkept|]. intros kept' w3 Hk3.
  rewrite lift_run in Hk3. cbn [with_params ce_pk] in Hk3. rewrite Hkept in Hk3.
  injection Hk3 as <- <-.
  destruct (removeAlreadySigned_filter _ _ _ Hkept) as [Hsub _].
  assert (slice_ok kept) as Hlen'.
  { apply removeAlreadySigned_length in Hkept. unfold slice_ok, go_len in *. lia. }
  apply go_returns_bind_at; [rewrite lift_run; by rewrite delegationsToBatches_total|].
  intros batches w4 Hb. rewrite lift_run in Hb. apply pair_equal_spec in Hb as [Hb <-].
  apply delegationsToBatches_members in Hb; [|done|done].
  apply go_returns_bind_at; [|done]. rewrite submit_batches_fold; [done|].
  intros b Hin w5. rewrite Forall_forall in Hb. destruct (Hb b Hin) as (_ & Hbk & _).
  eapply AddCovenantSignatures_returns; cbn; eauto.
Qed.

(** ** Properties *)

(** C22: Up to four failing parameter queries are survived: if the next [k < 5]
    queries fail with recoverable errors and the one after them succeeds,
    [UpdateParams] installs exactly the parameters of that query and leaves the
    rest of the emulator as it was. *)
Theorem parameters_survive_failing_queries ce k w w1 p w2 :
  failing ce RtyAttNum k w w1 -> Z.of_nat k < RtyAttNum ->
  QueryStakingParams (ce_cc ce) w1 = (Ok p, w2) ->
  UpdateParams retry_Do ce w = (Ok (with_params ce p), w2).
Proof using R.
  intros Hf Hk Hq. unfold UpdateParams.
  by rewrite (go_bind_Ok_run _ _ _ _ _ (getParams_succeeds _ _ _ _ _ _ Hf Hk Hq)).
Qed.

(** C23: After five failing queries [UpdateParams] gives up with the last error, and
    the tick ends there: the emulator keeps its old parameters, no delegation is
    queried and nothing is submitted. *)
Theorem tick_stops_without_parameters ce w w1 e w2 :
  failing ce RtyAttNum 4 w w1 -> QueryStakingParams (ce_cc ce) w1 = (Err e, w2) ->
  recoverable e = true ->
  UpdateParams retry_Do ce w = (Err e, w2) /\ submission_tick retry_Do ce w = (Ok ce, w2).
Proof using R.
  intros Hf Hq He.
  assert (UpdateParams retry_Do ce w = (Err e, w2)) as HU.
  { unfold UpdateParams. by rewrite go_bind_run, (getParams_gives_up _ _ _ _ _ Hf Hq He). }
  split; [done|]. unfold submission_tick. rewrite go_bind_run. unfold log_err. by rewrite HU.
Qed.

(** A tick sends nothing but what the rules allow.  Take any invariant of the
    world that waiting, reading keys and querying the chain preserve, and that a
    submission preserves whenever its signatures are those on a non-empty batch,
    no larger than configured, of delegations that this tick's query returned as
    pending, that carry no signature of the covenant, and that are approved under
    the parameters this tick's query returned: then every tick preserves the
    invariant, on every outcome. *)
Lemma tick_submits_only_approved_pending_delegations ce (I : World E -> Prop) :
  (forall k w, I w -> I (elapse k w)) ->
  preserves I (GetChainPrivKey K (ce_kc ce) (ce_passphrase ce)) ->
  preserves I (QueryStakingParams (ce_cc ce)) ->
  preserves I (QueryPendingDelegations (ce_cc ce) (DelegationLimit (ce_config ce))) ->
  (forall sigs, tick_submission ce sigs -> preserves I (SubmitCovenantSigs (ce_cc ce) sigs)) ->
  ClientControllerSpec (ce_cc ce) -> in_u64 (SigsBatchSize (ce_config ce)) ->
  (forall limit w dels w', QueryPendingDelegations (ce_cc ce) limit w = (Ok dels, w') ->
     slice_ok dels) ->
  preserves I (submission_tick retry_Do ce).
Proof using R.
  intros. apply tick_preserves; try done. intros w0 p w1. apply params_nonnil.
Qed.

(** C7: A tick never crashes and never hangs: over a chain client that keeps the
    promises of its interface and whose calls return, with a positive batch size
    and a keyring that returns, one turn of the submission loop always comes back
    to its select, provided the pending delegations have height intervals of at
    most 65535 blocks and unbonding transactions with an output. *)
Theorem tick_always_returns ce :
  ClientControllerSpec (ce_cc ce) ->
  0 < SigsBatchSize (ce_config ce) < 2 ^ 64 ->
  (forall sig, returns (MustMarshal sig) = true) ->
  go_returns (GetChainPrivKey K (ce_kc ce) (ce_passphrase ce)) ->
  go_returns (QueryStakingParams (ce_cc ce)) ->
  go_returns (QueryPendingDelegations (ce_cc ce) (DelegationLimit (ce_config ce))) ->
  (forall sigs, go_returns (SubmitCovenantSigs (ce_cc ce) sigs)) ->
  (forall limit w dels w', QueryPendingDelegations (ce_cc ce) limit w = (Ok dels, w') ->
     slice_ok dels /\ forall d, Some d ∈ dels -> safe_delegation d) ->
  go_returns (submission_tick retry_Do ce).
Proof using R. intros HS [Hpos Hlt]. apply tick_returns; [done|unfold in_u64; lia|lia]. Qed.

(** C16: A batch that fails does not keep the others from being submitted: once the
    parameters and the pending delegations are there, the tick calls
    [AddCovenantSignatures] on every batch of the unsigned delegations in order,
    each in the world the previous call left, whatever those calls returned. *)
Theorem every_batch_is_attempted ce w ce1 w1 dels w2 kept batches :
  UpdateParams retry_Do ce w = (Ok ce1, w1) ->
  QueryPendingDelegations (ce_cc ce1) (DelegationLimit (ce_config ce1)) w1 = (Ok dels, w2) ->
  removeAlreadySigned (ce_pk ce1) dels = Ok kept ->
  delegationsToBatches ce1 kept = Ok batches ->
  (forall b, b ∈ batches -> go_returns (AddCovenantSignatures ce1 b)) ->
  submission_tick retry_Do ce w =
  (Ok ce1, fold_left (fun w b => (AddCovenantSignatures ce1 b w).2) batches w2).
Proof.
  intros HU HQ Hk Hb Hret. unfold submission_tick.
  rewrite (go_bind_Ok_run _ _ _ (Some ce1) w1) by (unfold log_err; by rewrite HU). cbn beta iota.
  rewrite (go_bind_Ok_run _ _ _ (Some dels) w2) by (unfold log_err; by rewrite HQ). cbn beta iota.
  rewrite (go_bind_Ok_run _ _ _ kept w2) by (by rewrite lift_run, Hk).
  rewrite (go_bind_Ok_run _ _ _ batches w2) by (by rewrite lift_run, Hb).
  by rewrite (go_bind_Ok_run _ _ _ _ _ (submit_batches_fold _ _ _ Hret)).
Qed.

End tick.

(** ** A concrete retry loop *)

Section retry_loop.
Context {S : Type}.

Fixpoint retry_loop (attempts : nat) (f : Go S unit) : Go S unit := fun s =>
  match attempts with
  | O => (Hang, s)
  | Datatypes.S n =>
      match f s with
      | (Err e, s') => match n with
                       | O => (Err e, s')
                       | _ => retry_loop n f s'
                       end
      | r => r
      end
  end.

Lemma retry_loop_success n f s s' :
  retry_loop n f s = (Ok tt, s') -> exists s0, f s0 = (Ok tt, s').
Proof.
  revert s. induction n as [|n IH]; intros s; [done|]. cbn [retry_loop].
  destruct (f s) as [[[]|e|p|] s1] eqn:Hf; try done.
  - intros [= <-]. eauto.
  - destruct n; [done|]. apply IH.
Qed.

Lemma retry_loop_preserves n f (J : S -> Prop) : preserves J f -> preserves J (retry_loop n f).
Proof.
  intros Hf. induction n as [|n IH]; intros s Hs; [done|]. cbn [retry_loop].
  specialize (Hf s Hs). destruct (f s) as [[[]|e|p|] s1]; try done.
  destruct n; [done|]. by apply IH.
Qed.

Lemma retry_loop_returns n f : (0 < n)%nat -> go_returns f -> go_returns (retry_loop n f).
Proof.
  intros Hn Hf. induction n as [|n IH]; intros s; [lia|]. cbn [retry_loop].
  specialize (Hf s). destruct (f s) as [[[]|e|p|] s1]; try done.
  destruct n; [done|]. apply IH. lia.
Qed.

End retry_loop.

Definition toy_retry {L : BtcLib} {E : Type} (n : Z)
    (f : Go (option StakingParams * World E) unit) : Go (option StakingParams * World E) unit :=
  retry_loop (Z.to_nat n) f.

#[export] Instance toy_retry_spec {L : BtcLib} {E : Type} :
  RetrySpec (@toy_retry L E) (fun _ w => w) (fun _ => true).
Proof.
  unfold toy_retry. split.
  - intros n f s s' Hn Hf. destruct (Z.to_nat n) eqn:Hm; [lia|]. cbn. by rewrite Hf.
  - intros n f s e q w Hn Hf _. destruct (Z.to_nat n) as [|[|m]] eqn:Hm; [lia|lia|].
    replace (Z.to_nat (n - 1)) with (Datatypes.S m) by lia. cbn [retry_loop]. by rewrite Hf.
  - intros f s e s' Hf _. change (Z.to_nat 1) with 1%nat. cbn [retry_loop]. by rewrite Hf.
  - intros n f s s' _. apply retry_loop_success.
  - intros n f J _. apply retry_loop_preserves.
  - intros n f Hn. apply retry_loop_returns. lia.
Qed.

(** *** Runs on concrete values *)

Lemma toy_cc_nonnil_params w p w' :
  QueryStakingParams toy_cc w = (Ok p, w') -> is_Some p.
Proof.
  cbn. unfold toy_QueryStakingParams.
  destruct (tc_params (chain w)) as [|[]]; intros; simplify_eq; by eexists.
Qed.

(** A chain whose pending delegations are the given ones, whatever its state. *)
Definition fixed_cc (pending : list (option Delegation)) : ClientController ToyW := {|
  SubmitCovenantSigs := toy_SubmitCovenantSigs;
  QueryPendingDelegations := fun _ w => (Ok pending, w);
  QueryStakingParams := toy_QueryStakingParams;
  Close := fun w => (Ok tt, w);
|}.

Lemma fixed_cc_spec pending : Forall pending_ok pending -> ClientControllerSpec (fixed_cc pending).
Proof.
  intros H. split; cbn.
  - by intros limit w dels w' [= <- _].
  - intros w p w'. apply toy_cc_nonnil_params.
  - intros sigs w r w' [= <- _]. by eexists.
Qed.

Definition toy_pending : list (option Delegation) :=
  [Some (toy_fresh 150); Some (toy_del 100 200 150 [toy_asig toy_sk] (Some (toy_undel [] [])));
   Some (toy_fresh 151)].

Lemma toy_pending_ok : Forall pending_ok toy_pending.
Proof. repeat constructor; eexists; (split; [reflexivity|]); repeat constructor; by eexists. Qed.

(** Two failures, then the parameters. *)
Definition toy_flaky : ToyW :=
  toy_world (mkToyChain [inl (errorString "timeout"); inl (errorString "timeout"); inr toy_params] [] []).

Lemma parameters_survive_failing_queries_witness :
  UpdateParams toy_retry (toy_ce 2 None) toy_flaky =
    (Ok (toy_ce 2 (Some toy_params)), toy_world (mkToyChain [] [] [])).
Proof.
  apply (parameters_survive_failing_queries (toy_ce 2 None) 2 toy_flaky
    (toy_world (mkToyChain [inr toy_params] [] []))).
  - eapply failing_more; [reflexivity|reflexivity|].
    eapply failing_more; [reflexivity|reflexivity|]. constructor.
  - reflexivity.
  - reflexivity.
Defined.

Definition toy_down : ToyW := toy_world (mkToyChain [] toy_pending []).

Lemma tick_stops_without_parameters_witness :
  submission_tick toy_retry (toy_ce 2 (Some toy_params)) toy_down =
    (Ok (toy_ce 2 (Some toy_params)), toy_down).
Proof.
  apply (tick_stops_without_parameters (toy_ce 2 (Some toy_params)) toy_down toy_down
    (errorString "node unreachable") toy_down).
  - do 4 (eapply failing_more; [reflexivity|reflexivity|]). constructor.
  - reflexivity.
  - reflexivity.
Defined.

Definition tick_ce : CovenantEmulator const_K := const_ce 2 (fixed_cc toy_pending) None.

(** Every submission the chain has recorded is one a tick may send. *)
Definition all_allowed (w : ToyW) : Prop := Forall (tick_submission tick_ce) (tc_submitted (chain w)).

Lemma tick_submits_only_approved_pending_delegations_witness :
  all_allowed (submission_tick toy_retry tick_ce (toy_world (toy_chain []))).2 /\
  tc_submitted (chain (submission_tick toy_retry tick_ce (toy_world (toy_chain []))).2) =
    [[toy_fresh_sigs; toy_fresh_sigs]].
Proof.
  split; [|vm_compute; reflexivity].
  apply (tick_submits_only_approved_pending_delegations tick_ce all_allowed).
  - intros _ w Hw. exact Hw.
  - intros w Hw. exact Hw.
  - intros w Hw. unfold all_allowed in *. cbn. unfold toy_QueryStakingParams.
    destruct (tc_params (chain w)) as [|[]]; exact Hw.
  - intros w Hw. exact Hw.
  - intros sigs Hs w Hw. unfold all_allowed in *. cbn. apply Forall_app. split; [exact Hw|].
    by constructor.
  - apply fixed_cc_spec, toy_pending_ok.
  - split; [done|reflexivity].
  - intros limit w dels w' [= <- _]. reflexivity.
  - constructor.
Defined.

Lemma tick_always_returns_witness :
  go_returns (submission_tick toy_retry tick_ce).
Proof.
  apply (tick_always_returns tick_ce).
  - apply fixed_cc_spec, toy_pending_ok.
  - cbn. lia.
  - intros sig. reflexivity.
  - intros w. reflexivity.
  - intros w. cbn. unfold toy_QueryStakingParams. by destruct (tc_params (chain w)) as [|[]].
  - intros w. reflexivity.
  - intros sigs w. reflexivity.
  - intros limit w dels w' [= <- _]. split; [reflexivity|]. intros d Hd.
    apply list_elem_of_In in Hd as [[= <-]|[[= <-]|[[= <-]|[]]]];
      (split; [unfold MaxUint16; cbn; lia|]; intros u tx [= <-] [= <-]; done).
Defined.

(** The first batch is rejected, the second is submitted all the same. *)
Definition toy_mixed : list (option Delegation) :=
  [Some (toy_other "evil-slashing" "unbonding" 200); Some (toy_fresh 150)].

Definition mixed_ce (p : option StakingParams) : CovenantEmulator const_K :=
  const_ce 1 (fixed_cc toy_mixed) p.

Lemma every_batch_is_attempted_witness :
  exists w', submission_tick toy_retry (mixed_ce None) (toy_world (toy_chain [])) =
    (Ok (mixed_ce (Some toy_params)), w') /\ tc_submitted (chain w') = [[toy_fresh_sigs]].
Proof.
  eexists. split.
  - eapply (every_batch_is_attempted (mixed_ce None) (toy_world (toy_chain []))
      (mixed_ce (Some toy_params)) (toy_world (mkToyChain [] [] [])) toy_mixed
      (toy_world (mkToyChain [] [] [])) toy_mixed
      [[Some (toy_other "evil-slashing" "unbonding" 200)]; [Some (toy_fresh 150)]]).
    + reflexivity.
    + reflexivity.
    + reflexivity.
    + reflexivity.
    + intros b Hb w. apply list_elem_of_In in Hb as [<-|[<-|[]]]; reflexivity.
  - vm_compute. reflexivity.
Defined.
