(* ===== verification/Lifecycle.v ===== *)
(** * Starting and stopping: the goroutines of the daemon

    [Start], [Stop] and the select of [covenantSigSubmissionLoop]
    ([src/covenant/covenant.go]) and [RunUntilShutdown]
    ([src/covenant/service/server.go]) as a step relation.  Any number of
    goroutines may call the three methods at the same time; the steps of the
    callers, of the submission loop and of the operating system's shutdown signal
    interleave arbitrarily.  [sync.Once], [sync.WaitGroup] and the closed channel
    are modelled by what the Go documentation says of them. *)

From S2P Require Import Prelude.
From Stdlib Require Import ZArith Lia.
From stdpp Require Import base list relations.

#[local] Open Scope list_scope.
#[local] Open Scope Z_scope.

(** ** State *)

(** [sync.Once]: not used, its function running (others block), done. *)
Inductive once := OnceNew | OnceBusy | OnceDone.

(** Who called [Start] or [Stop]: the top of a goroutine, or [RunUntilShutdown]. *)
Inductive caller := Top | Server.

#[global] Instance once_eq_dec : EqDecision once.
Proof. solve_decision. Defined.

(** Where a calling goroutine is. *)
Inductive pc :=
| StartCall (k : caller)    (** about to call [startOnce.Do] *)
| StartAdd (k : caller)     (** in it: [wg.Add(1)] *)
| StartGo (k : caller)      (** in it: [go covenantSigSubmissionLoop()] *)
| StartEnd (k : caller)     (** leaving [startOnce.Do] *)
| StopCall (k : caller)     (** about to call [stopOnce.Do] *)
| StopClose (k : caller)    (** in it: [close(ce.quit)] *)
| StopWait (k : caller)     (** in it: [ce.wg.Wait()] *)
| StopEnd (k : caller)      (** leaving [stopOnce.Do] *)
| RunCall                   (** about to increment [started] *)
| RunWait                   (** [<-interceptor.ShutdownChannel()] *)
| Returned.

#[global] Instance caller_eq_dec : EqDecision caller.
Proof. solve_decision. Defined.
#[global] Instance pc_eq_dec : EqDecision pc.
Proof. solve_decision. Defined.

(** Where the submission loop is. *)
Inductive lpc :=
| LoopNew                   (** before [time.NewTicker] *)
| LoopSelect
| LoopTick                  (** processing a tick *)
| LoopExit                  (** returning: the deferred [wg.Done()] is next *)
| LoopGone.

Record Sys := mkSys {
  startOnce : once;
  stopOnce : once;
  wg : Z;
  quit_closed : bool;
  started : Z;
  shutdown : bool;
  threads : list pc;
  loops : list lpc;
  ticks : nat;              (** ticks begun so far *)
  crashed : bool;
}.

(** After [Start] and [Stop] return to their caller. *)
Definition after_start (k : caller) : pc :=
  match k with
  | Top => Returned
  | Server => RunWait
  end.

Definition after_stop (k : caller) : pc := Returned.

Definition i32 (z : Z) : Z := (z + 2 ^ 31) mod 2 ^ 32 - 2 ^ 31.

(** ** Steps *)

Section step.
(** The configured query interval, and whether processing a tick can panic. *)
Context (interval : Z) (tick_can_panic : Prop).

Inductive step : Sys -> Sys -> Prop :=
(* Start *)
| start_first i k so w q st sd ts ls n :
    ts !! i = Some (StartCall k) ->
    step (mkSys OnceNew so w q st sd ts ls n false)
         (mkSys OnceBusy so w q st sd (<[i := StartAdd k]> ts) ls n false)
| start_again i k so w q st sd ts ls n :
    ts !! i = Some (StartCall k) ->
    step (mkSys OnceDone so w q st sd ts ls n false)
         (mkSys OnceDone so w q st sd (<[i := after_start k]> ts) ls n false)
| start_add i k sa so w q st sd ts ls n :
    ts !! i = Some (StartAdd k) ->
    step (mkSys sa so w q st sd ts ls n false)
         (mkSys sa so (w + 1) q st sd (<[i := StartGo k]> ts) ls n false)
| start_go i k sa so w q st sd ts ls n :
    ts !! i = Some (StartGo k) ->
    step (mkSys sa so w q st sd ts ls n false)
         (mkSys sa so w q st sd (<[i := StartEnd k]> ts) (ls ++ [LoopNew]) n false)
| start_end i k sa so w q st sd ts ls n :
    ts !! i = Some (StartEnd k) ->
    step (mkSys sa so w q st sd ts ls n false)
         (mkSys OnceDone so w q st sd (<[i := after_start k]> ts) ls n false)
(* Stop *)
| stop_first i k sa w q st sd ts ls n :
    ts !! i = Some (StopCall k) ->
    step (mkSys sa OnceNew w q st sd ts ls n false)
         (mkSys sa OnceBusy w q st sd (<[i := StopClose k]> ts) ls n false)
| stop_again i k sa w q st sd ts ls n :
    ts !! i = Some (StopCall k) ->
    step (mkSys sa OnceDone w q st sd ts ls n false)
         (mkSys sa OnceDone w q st sd (<[i := after_stop k]> ts) ls n false)
| stop_close i k sa so w st sd ts ls n :
    ts !! i = Some (StopClose k) ->
    step (mkSys sa so w false st sd ts ls n false)
         (mkSys sa so w true st sd (<[i := StopWait k]> ts) ls n false)
| stop_close_closed i k sa so w st sd ts ls n :
    (* panic: close of closed channel *)
    ts !! i = Some (StopClose k) ->
    step (mkSys sa so w true st sd ts ls n false) (mkSys sa so w true st sd ts ls n true)
| stop_wait i k sa so q st sd ts ls n :
    ts !! i = Some (StopWait k) ->
    step (mkSys sa so 0 q st sd ts ls n false)
         (mkSys sa so 0 q st sd (<[i := StopEnd k]> ts) ls n false)
| stop_end i k sa so w q st sd ts ls n :
    ts !! i = Some (StopEnd k) ->
    step (mkSys sa so w q st sd ts ls n false)
         (mkSys sa OnceDone w q st sd (<[i := after_stop k]> ts) ls n false)
(* RunUntilShutdown *)
| run_first i sa so w q st sd ts ls n :
    ts !! i = Some RunCall -> i32 (st + 1) = 1 ->
    step (mkSys sa so w q st sd ts ls n false)
         (mkSys sa so w q (i32 (st + 1)) sd (<[i := StartCall Server]> ts) ls n false)
| run_again i sa so w q st sd ts ls n :
    ts !! i = Some RunCall -> i32 (st + 1) <> 1 ->
    step (mkSys sa so w q st sd ts ls n false)
         (mkSys sa so w q (i32 (st + 1)) sd (<[i := Returned]> ts) ls n false)
| run_shutdown i sa so w q st ts ls n :
    ts !! i = Some RunWait ->
    step (mkSys sa so w q st true ts ls n false)
         (mkSys sa so w q st true (<[i := StopCall Server]> ts) ls n false)
| shutdown_signal sa so w q st sd ts ls n :
    step (mkSys sa so w q st sd ts ls n false) (mkSys sa so w q st true ts ls n false)
(* the submission loop *)
| loop_ticker j sa so w q st sd ts ls n :
    ls !! j = Some LoopNew -> 0 < interval ->
    step (mkSys sa so w q st sd ts ls n false)
         (mkSys sa so w q st sd ts (<[j := LoopSelect]> ls) n false)
| loop_bad_ticker j sa so w q st sd ts ls n :
    (* panic: non-positive interval for NewTicker *)
    ls !! j = Some LoopNew -> interval <= 0 ->
    step (mkSys sa so w q st sd ts ls n false) (mkSys sa so w q st sd ts ls n true)
| loop_tick j sa so w q st sd ts ls n :
    ls !! j = Some LoopSelect ->
    step (mkSys sa so w q st sd ts ls n false)
         (mkSys sa so w q st sd ts (<[j := LoopTick]> ls) (S n) false)
| loop_tick_done j sa so w q st sd ts ls n :
    ls !! j = Some LoopTick ->
    step (mkSys sa so w q st sd ts ls n false)
         (mkSys sa so w q st sd ts (<[j := LoopSelect]> ls) n false)
| loop_tick_panic j sa so w q st sd ts ls n :
    ls !! j = Some LoopTick -> tick_can_panic ->
    step (mkSys sa so w q st sd ts ls n false) (mkSys sa so w q st sd ts ls n true)
| loop_quit j sa so w st sd ts ls n :
    ls !! j = Some LoopSelect ->
    step (mkSys sa so w true st sd ts ls n false)
         (mkSys sa so w true st sd ts (<[j := LoopExit]> ls) n false)
| loop_done j sa so w q st sd ts ls n :
    ls !! j = Some LoopExit -> 0 < w ->
    step (mkSys sa so w q st sd ts ls n false)
         (mkSys sa so (w - 1) q st sd ts (<[j := LoopGone]> ls) n false)
| loop_done_negative j sa so w q st sd ts ls n :
    (* panic: negative WaitGroup counter *)
    ls !! j = Some LoopExit -> w <= 0 ->
    step (mkSys sa so w q st sd ts ls n false) (mkSys sa so w q st sd ts ls n true).

End step.

(** The calls a goroutine may begin with. *)
Definition entry (p : pc) : bool :=
  match p with
  | StartCall Top | StopCall Top | RunCall => true
  | _ => false
  end.

Definition initial (ts : list pc) : Sys :=
  mkSys OnceNew OnceNew 0 false 0 false ts [] 0 false.

(** ** Counting goroutines *)

(** How many elements of a list satisfy a predicate. *)
Fixpoint count {A} (f : A -> bool) (l : list A) : Z :=
  match l with
  | [] => 0
  | x :: l => Z.b2z (f x) + count f l
  end.

Section count.
Context {A : Type} (f : A -> bool).

Lemma count_nonneg l : 0 <= count f l.
Proof. induction l as [|x l IH]; simpl; [lia | destruct (f x); simpl; lia]. Qed.

Lemma count_app l1 l2 : count f (l1 ++ l2) = count f l1 + count f l2.
Proof. induction l1 as [|x l IH]; simpl; lia. Qed.

Lemma count_insert l i x y :
  l !! i = Some x -> count f (<[i := y]> l) = count f l - Z.b2z (f x) + Z.b2z (f y).
Proof.
  revert i. induction l as [|z l IH]; intros [|i] E; simplify_eq/=; [lia|].
  rewrite (IH _ E). lia.
Qed.

Lemma count_lookup l i x : l !! i = Some x -> Z.b2z (f x) <= count f l.
Proof.
  intros E. pose proof (count_nonneg (<[i := x]> l)) as P.
  revert i E P. induction l as [|z l IH]; intros [|i] E P; simplify_eq/=.
  - pose proof (count_nonneg l). lia.
  - assert (Z.b2z (f x) <= count f l) by (eapply IH; [exact E | apply count_nonneg]).
    destruct (f z); simpl; lia.
Qed.

Lemma count_witness l : 0 < count f l -> exists i x, l !! i = Some x /\ f x = true.
Proof.
  induction l as [|x l IH]; simpl; [lia|]. destruct (f x) eqn:E; intros H.
  - exists 0%nat, x. done.
  - destruct (IH ltac:(simpl in H; lia)) as (i & y & ? & ?). exists (S i), y. done.
Qed.

Lemma count_zero l : count f l = 0 -> Forall (fun x => f x = false) l.
Proof.
  induction l as [|x l IH]; simpl; intros H; constructor;
    pose proof (count_nonneg l); destruct (f x); simpl in *; try done; try lia.
  apply IH. lia.
Qed.

Lemma count_none l : Forall (fun x => f x = false) l -> count f l = 0.
Proof. induction 1 as [|x l E _ IH]; simpl; [done | rewrite E, IH; done]. Qed.

End count.

(** ** The invariant of [Start], [Stop] and the loop *)

Definition in_start (p : pc) : bool :=
  match p with StartAdd _ | StartGo _ | StartEnd _ => true | _ => false end.
Definition at_StartGo (p : pc) : bool := match p with StartGo _ => true | _ => false end.
Definition at_StartEnd (p : pc) : bool := match p with StartEnd _ => true | _ => false end.
Definition at_StopClose (p : pc) : bool := match p with StopClose _ => true | _ => false end.
Definition has_closed (p : pc) : bool :=
  match p with StopWait _ | StopEnd _ => true | _ => false end.
Definition live (l : lpc) : bool := match l with LoopGone => false | _ => true end.
Definition leaving (l : lpc) : bool :=
  match l with LoopExit | LoopGone => true | _ => false end.

Definition is_busy (o : once) : Z := match o with OnceBusy => 1 | _ => 0 end.
Definition is_done (o : once) : Z := match o with OnceDone => 1 | _ => 0 end.

(** What the two [sync.Once], the [WaitGroup] and the channel guarantee together,
    whoever calls [Start] and [Stop]. *)
Record lifecycle_inv (s : Sys) : Prop := {
  li_start : count in_start (threads s) = is_busy (startOnce s);
  li_stop : count at_StopClose (threads s) + count has_closed (threads s) = is_busy (stopOnce s);
  li_quit : Z.b2z (quit_closed s) = count has_closed (threads s) + is_done (stopOnce s);
  li_loops : count (fun _ => true) (loops s) = count at_StartEnd (threads s) + is_done (startOnce s);
  li_wg : wg s = count at_StartGo (threads s) + count live (loops s);
  li_leaving : quit_closed s = false -> count leaving (loops s) = 0;
  li_sound : crashed s = false;
}.

(** Turns every lookup into what it says of the counts, and computes the counts
    after an update. *)
Ltac count_fact f H := pose proof (count_lookup f _ _ _ H).
Ltac count_facts :=
  repeat match goal with
    | H : ?l !! _ = Some _ |- _ =>
        first [ count_fact in_start H; count_fact at_StopClose H; count_fact has_closed H;
                count_fact at_StartGo H; count_fact at_StartEnd H
              | count_fact live H; count_fact leaving H ];
        repeat (erewrite count_insert by exact H); revert H
    end; intros; rewrite ?count_app.

Ltac count_pos f l := pose proof (count_nonneg f l).
Ltac counts_pos ts ls :=
  count_pos in_start ts; count_pos at_StopClose ts; count_pos has_closed ts;
  count_pos at_StartGo ts; count_pos at_StartEnd ts; count_pos live ls; count_pos leaving ls.

Lemma initial_inv ts : Forall (fun p => entry p = true) ts -> lifecycle_inv (initial ts).
Proof.
  intros H.
  assert (Hz : forall f : pc -> bool, (forall p, entry p = true -> f p = false) -> count f ts = 0).
  { intros f Hf. apply count_none. eapply Forall_impl; [exact H | exact Hf]. }
  constructor; simpl; try done; rewrite ?Hz; try done;
    try (intros [| | | [] | | | | | | |]; done); intros [[]|[]|[]|[]|[]|[]|[]|[]| | |]; done.
Qed.

Section invariants.
Context (interval : Z) (tick_can_panic : Prop).
Hypothesis interval_pos : 0 < interval.
Hypothesis ticks_safe : ~ tick_can_panic.

#[local] Abbreviation step := (step interval tick_can_panic).

Lemma step_inv s s' : step s s' -> lifecycle_inv s -> lifecycle_inv s'.
Proof.
  intros St [I1 I2 I3 I4 I5 I6 I7].
  destruct St; counts_pos ts ls; constructor; simpl in *; try done; try contradiction;
    try (exfalso; lia); try destruct k; try destruct q; try destruct sa; try destruct so;
    count_facts; simpl in *; try done; try lia.
Qed.

Lemma steps_inv s s' : rtc step s s' -> lifecycle_inv s -> lifecycle_inv s'.
Proof. induction 1; eauto using step_inv. Qed.

Lemma reachable_inv ts s :
  Forall (fun p => entry p = true) ts -> rtc step (initial ts) s -> lifecycle_inv s.
Proof. intros Ht R. eapply steps_inv; [exact R | by apply initial_inv]. Qed.

(** ** The daemon: every goroutine enters by [RunUntilShutdown] *)

Definition past_start (p : pc) : bool :=
  match p with
  | RunWait | StopCall _ | StopClose _ | StopWait _ | StopEnd _ => true
  | _ => false
  end.
Definition at_StopEnd (p : pc) : bool := match p with StopEnd _ => true | _ => false end.

(** [Stop] is called after [Start] has returned, so what it waits for is there. *)
Record daemon_inv (s : Sys) : Prop := {
  di_order : 0 < count past_start (threads s) -> is_done (startOnce s) = 1;
  di_stop : 0 < is_busy (stopOnce s) + is_done (stopOnce s) -> is_done (startOnce s) = 1;
  di_end : 0 < count at_StopEnd (threads s) -> is_done (startOnce s) = 1 /\ wg s = 0;
  di_waited : is_done (stopOnce s) = 1 -> wg s = 0;
}.

Lemma step_daemon_inv s s' :
  step s s' -> lifecycle_inv s -> daemon_inv s -> daemon_inv s'.
Proof.
  intros St [I1 I2 I3 I4 I5 I6 I7] [D1 D2 D3 D4].
  destruct St; counts_pos ts ls; constructor; simpl in *; clear I6 I7;
    try destruct sa; try destruct so; try destruct k; count_facts;
    repeat match goal with
      | H : _ !! _ = Some _ |- _ =>
        try (count_fact past_start H; count_fact at_StopEnd H); clear H
    end; simpl in *; lia.
Qed.

Lemma daemon_reachable n s :
  rtc step (initial (replicate n RunCall)) s -> lifecycle_inv s /\ daemon_inv s.
Proof.
  assert (Hz : forall f, f RunCall = false -> count f (replicate n RunCall) = 0).
  { intros f Hf. apply count_none, Forall_replicate, Hf. }
  assert (I0 : lifecycle_inv (initial (replicate n RunCall)) /\
               daemon_inv (initial (replicate n RunCall))).
  { split; [apply initial_inv, Forall_replicate; done | constructor; simpl; rewrite ?Hz by done; lia]. }
  revert I0. generalize (initial (replicate n RunCall)). intros s0 I0 R. revert I0.
  induction R as [|x y z St R IH]; [done|]. intros [I D]. apply IH.
  split; eauto using step_inv, step_daemon_inv.
Qed.

(** A stopped daemon has no submission loop left. *)
Lemma stopped_loops s :
  lifecycle_inv s -> daemon_inv s -> stopOnce s = OnceDone -> count live (loops s) = 0.
Proof.
  intros I D E. pose proof (li_wg s I). pose proof (di_waited s D). rewrite E in *. simpl in *.
  pose proof (count_nonneg at_StartGo (threads s)). pose proof (count_nonneg live (loops s)). lia.
Qed.

Lemma stopped_step s s' :
  step s s' -> lifecycle_inv s -> daemon_inv s -> stopOnce s = OnceDone ->
  stopOnce s' = OnceDone /\ ticks s' = ticks s.
Proof.
  intros St I D E. pose proof (stopped_loops s I D E) as L.
  destruct St; simpl in *; try done.
  count_fact live H. simpl in *. lia.
Qed.

Lemma stopped_steps s s' :
  rtc step s s' -> lifecycle_inv s -> daemon_inv s -> stopOnce s = OnceDone ->
  ticks s' = ticks s.
Proof.
  induction 1 as [|x y z St R IH]; [done|]. intros I D E.
  destruct (stopped_step x y St I D E) as [E' T].
  rewrite <- T. apply IH; eauto using step_inv, step_daemon_inv.
Qed.

(** One call of [RunUntilShutdown]: it returns through [Stop]. *)
Definition served (p : pc) : bool :=
  match p with
  | StartCall Top | StartAdd Top | StartGo Top | StartEnd Top
  | StopCall Top | StopClose Top | StopWait Top | StopEnd Top => false
  | _ => true
  end.

Definition single_inv (s : Sys) : Prop :=
  exists p, threads s = [p] /\ served p = true /\
    (p = RunCall -> started s = 0) /\ (p = Returned -> stopOnce s = OnceDone).

Lemma single_lookup {A} i (p q : A) : [p] !! i = Some q -> i = 0%nat /\ p = q.
Proof. destruct i as [|[|]]; intros; simplify_eq/=; done. Qed.

Lemma step_single_inv s s' : step s s' -> single_inv s -> single_inv s'.
Proof.
  intros St (p & E & V & P1 & P2).
  destruct St; simpl in *; subst;
    try match goal with H : [_] !! _ = Some _ |- _ => apply single_lookup in H as [-> ->] end;
    try destruct k; try done;
    try (eexists; split; [reflexivity|]; simpl; done).
  rewrite (P1 eq_refl) in *. done.
Qed.

Lemma single_reachable s : rtc step (initial [RunCall]) s -> single_inv s.
Proof.
  assert (I0 : single_inv (initial [RunCall])) by (eexists; done).
  revert I0. generalize (initial [RunCall]). intros s0 I0 R. revert I0.
  induction R; eauto using step_single_inv.
Qed.

(** ** Before the shutdown *)

Definition looping (l : lpc) : bool :=
  match l with LoopNew | LoopSelect | LoopTick => true | _ => false end.

(** The states of a daemon that has not been told to shut down: on its way into [Start],
    or waiting with the loop running. *)
Inductive running : Sys -> Prop :=
| running_call : running (mkSys OnceNew OnceNew 0 false 0 false [RunCall] [] 0 false)
| running_start : running (mkSys OnceNew OnceNew 0 false 1 false [StartCall Server] [] 0 false)
| running_add : running (mkSys OnceBusy OnceNew 0 false 1 false [StartAdd Server] [] 0 false)
| running_go : running (mkSys OnceBusy OnceNew 1 false 1 false [StartGo Server] [] 0 false)
| running_end l n : looping l = true ->
    running (mkSys OnceBusy OnceNew 1 false 1 false [StartEnd Server] [l] n false)
| running_wait l n : looping l = true ->
    running (mkSys OnceDone OnceNew 1 false 1 false [RunWait] [l] n false).

Lemma step_running s s' : step s s' -> running s -> running s' \/ shutdown s' = true.
Proof.
  intros St Hr. destruct Hr; inversion St; subst; simpl in *; try (by right); try done; try lia;
    repeat match goal with H : [_] !! _ = Some _ |- _ => apply single_lookup in H as [-> ?] end;
    simplify_eq/=; try done; try contradiction;
    try match goal with H : i32 _ = 1 |- _ => rewrite H end; left; by constructor.
Qed.

Lemma shutdown_stays s s' : rtc step s s' -> shutdown s = true -> shutdown s' = true.
Proof. induction 1 as [|x y z St R IH]; [done|]. intros Hx. apply IH. by destruct St. Qed.

Lemma running_reachable s :
  rtc step (initial [RunCall]) s -> shutdown s = false -> running s.
Proof.
  intros R Hs. assert (H0 : running (initial [RunCall])) by constructor. revert R H0.
  generalize (initial [RunCall]). intros s0 R. induction R as [|s1 s2 s3 St R IH]; [done|].
  intros Hr. destruct (step_running _ _ St Hr) as [Hr2|Hd]; [by apply IH|].
  apply shutdown_stays in R; [congruence|done].
Qed.

(** From there the loop can be brought to its next tick. *)
Lemma running_ticks s :
  running s -> exists s', rtc step s s' /\ running s' /\ ticks s' = S (ticks s) /\
    loops s' !! 0%nat = Some LoopTick.
Proof.
  assert (Hw : forall l n, looping l = true -> exists s',
    rtc step (mkSys OnceDone OnceNew 1 false 1 false [RunWait] [l] n false) s' /\ running s' /\
    ticks s' = S n /\ loops s' !! 0%nat = Some LoopTick).
  { intros l n Hl. exists (mkSys OnceDone OnceNew 1 false 1 false [RunWait] [LoopTick] (S n) false).
    split; [|by split_and!; [constructor|..]]. destruct l; try done.
    - eapply rtc_l; [by apply (loop_ticker _ _ 0)|]. eapply rtc_l; [by apply (loop_tick _ _ 0)|]. done.
    - eapply rtc_l; [by apply (loop_tick _ _ 0)|]. done.
    - eapply rtc_l; [by apply (loop_tick_done _ _ 0)|]. eapply rtc_l; [by apply (loop_tick _ _ 0)|]. done. }
  assert (He : forall l n, looping l = true -> exists s',
    rtc step (mkSys OnceBusy OnceNew 1 false 1 false [StartEnd Server] [l] n false) s' /\ running s' /\
    ticks s' = S n /\ loops s' !! 0%nat = Some LoopTick).
  { intros l n Hl. destruct (Hw l n Hl) as (s' & R & H). exists s'. split; [|done].
    eapply rtc_l; [by apply (start_end _ _ 0 Server)|]. exact R. }
  destruct (He LoopNew 0%nat eq_refl) as (s1 & R1 & H1).
  assert (Hg : rtc step (mkSys OnceBusy OnceNew 1 false 1 false [StartGo Server] [] 0 false) s1).
  { eapply rtc_l; [by apply (start_go _ _ 0 Server)|]. exact R1. }
  assert (Ha : rtc step (mkSys OnceBusy OnceNew 0 false 1 false [StartAdd Server] [] 0 false) s1).
  { eapply rtc_l; [by apply (start_add _ _ 0 Server)|]. exact Hg. }
  assert (Hs : rtc step (mkSys OnceNew OnceNew 0 false 1 false [StartCall Server] [] 0 false) s1).
  { eapply rtc_l; [by apply (start_first _ _ 0 Server)|]. exact Ha. }
  destruct 1; simpl; [|by exists s1..|by apply He|by apply Hw].
  exists s1. split; [|done]. eapply rtc_l; [by apply (run_first _ _ 0)|]. exact Hs.
Qed.

(** ** Progress *)

Fixpoint total {A} (f : A -> Z) (l : list A) : Z :=
  match l with
  | [] => 0
  | x :: l => f x + total f l
  end.

Lemma total_insert {A} (f : A -> Z) l i x y :
  l !! i = Some x -> total f (<[i := y]> l) = total f l - f x + f y.
Proof.
  revert i. induction l as [|z l IH]; intros [|i] E; simplify_eq/=; [lia|].
  rewrite (IH _ E). lia.
Qed.

Lemma total_app {A} (f : A -> Z) l1 l2 : total f (l1 ++ l2) = total f l1 + total f l2.
Proof. induction l1 as [|x l IH]; simpl; lia. Qed.

Lemma total_nonneg {A} (f : A -> Z) l : (forall x, 0 <= f x) -> 0 <= total f l.
Proof. intros H. induction l as [|x l IH]; simpl; [lia | specialize (H x); lia]. Qed.

(** The steps a goroutine still has before it, ticks not counted. *)
Definition pc_work (p : pc) : Z :=
  match p with
  | RunCall => 14 | StartCall _ => 13 | StartAdd _ => 12 | StartGo _ => 11 | StartEnd _ => 7
  | RunWait => 6 | StopCall _ => 5 | StopClose _ => 4 | StopWait _ => 3 | StopEnd _ => 2
  | Returned => 0
  end.

Definition lpc_work (l : lpc) : Z :=
  match l with
  | LoopNew | LoopTick => 3 | LoopSelect => 2 | LoopExit => 1 | LoopGone => 0
  end.

Definition work (s : Sys) : Z := total pc_work (threads s) + total lpc_work (loops s).

Lemma work_nonneg s : 0 <= work s.
Proof.
  unfold work. pose proof (total_nonneg pc_work (threads s)) as A.
  pose proof (total_nonneg lpc_work (loops s)) as B.
  assert (0 <= total pc_work (threads s)) by (apply A; intros []; simpl; lia).
  assert (0 <= total lpc_work (loops s)) by (apply B; intros []; simpl; lia). lia.
Qed.

(** A step that is no tick and brings the shutdown nearer. *)
Definition advances (s : Sys) : Prop :=
  exists s', step s s' /\ shutdown s' = true /\ ticks s' = ticks s /\ work s' < work s.

Ltac advance con H :=
  eexists; split; [eapply con; first [exact H | exact interval_pos | lia] |];
  unfold work; simpl; rewrite ?total_app; erewrite ?total_insert by exact H; simpl;
  split_and!; [done | done | lia].

Lemma start_body_advances s i p :
  lifecycle_inv s -> shutdown s = true -> threads s !! i = Some p -> in_start p = true ->
  advances s.
Proof.
  intros I Sd E B. pose proof (li_sound s I).
  destruct s; simpl in *; subst. destruct p as [k|k|k|k| | | | | | |]; try done.
  - advance start_add E.
  - advance start_go E.
  - destruct k; advance start_end E.
Qed.

Lemma live_loop_advances s j l :
  lifecycle_inv s -> shutdown s = true -> quit_closed s = true ->
  loops s !! j = Some l -> live l = true -> advances s.
Proof.
  intros I Sd Q E B. pose proof (li_sound s I). pose proof (li_wg s I) as W.
  pose proof (count_nonneg at_StartGo (threads s)). pose proof (count_lookup live _ _ _ E) as L.
  rewrite B in L. destruct s; simpl in *; subst. destruct l; try done.
  - advance loop_ticker E.
  - advance loop_quit E.
  - advance loop_tick_done E.
  - advance loop_done E.
Qed.

Lemma stop_body_advances s i p :
  lifecycle_inv s -> shutdown s = true -> threads s !! i = Some p ->
  at_StopClose p || has_closed p = true -> advances s.
Proof.
  intros I Sd E B. pose proof (li_sound s I) as Hc. pose proof (li_wg s I) as W.
  pose proof (li_stop s I) as S1. pose proof (li_quit s I) as S2.
  pose proof (count_lookup at_StopClose _ _ _ E) as L1.
  pose proof (count_lookup has_closed _ _ _ E) as L2.
  pose proof (count_nonneg at_StopClose (threads s)). pose proof (count_nonneg has_closed (threads s)).
  destruct p as [| | | |k|k|k|k| | |]; try done; simpl in L1, L2.
  - destruct s as [sa so w q]; simpl in *; subst.
    destruct q, so; simpl in *; try lia. advance stop_close E.
  - destruct (decide (wg s = 0)) as [Ew|Nw].
    + destruct s; simpl in *; subst. rewrite Ew. advance stop_wait E.
    + assert (Q : quit_closed s = true) by (destruct (quit_closed s), (stopOnce s); simpl in *; done || lia).
      pose proof (count_nonneg live (loops s)).
      destruct (decide (0 < count live (loops s))) as [Hl|Hl].
      * destruct (count_witness _ _ Hl) as (j & l & El & Bl). eauto using live_loop_advances.
      * destruct (count_witness at_StartGo (threads s)) as (j & p & Ep & Bp);
          [pose proof (count_nonneg at_StartGo (threads s)); lia|].
        eapply start_body_advances; [done..|]. by destruct p.
  - destruct s; simpl in *; subst. destruct k; advance stop_end E.
Qed.

Lemma busy_advances s :
  lifecycle_inv s -> shutdown s = true ->
  startOnce s = OnceBusy \/ stopOnce s = OnceBusy -> advances s.
Proof.
  intros I Sd [B|B].
  - pose proof (li_start s I) as C. rewrite B in C.
    destruct (count_witness in_start (threads s)) as (i & p & E & Hp); [rewrite C; done|].
    eauto using start_body_advances.
  - pose proof (li_stop s I) as C. rewrite B in C. simpl in C.
    destruct (decide (0 < count has_closed (threads s))) as [P|P].
    + destruct (count_witness _ _ P) as (i & p & E & Hp).
      eapply stop_body_advances; [done..|]. by rewrite Hp, orb_true_r.
    + pose proof (count_nonneg has_closed (threads s)).
      destruct (count_witness at_StopClose (threads s)) as (i & p & E & Hp); [lia|].
      eapply stop_body_advances; [done..|]. by rewrite Hp.
Qed.

Lemma caller_advances s i p :
  lifecycle_inv s -> shutdown s = true -> threads s !! i = Some p -> p <> Returned -> advances s.
Proof.
  intros I Sd E N.
  destruct (decide (in_start p = true)); [eauto using start_body_advances|].
  destruct (decide (at_StopClose p || has_closed p = true)); [eauto using stop_body_advances|].
  destruct (decide (startOnce s = OnceBusy \/ stopOnce s = OnceBusy)) as [B|B];
    [eauto using busy_advances|].
  pose proof (li_sound s I) as Hc.
  destruct p as [k| | | |k| | | | | |]; try done; destruct s as [sa so w q st]; simpl in *; subst.
  - destruct sa; [advance start_first E | naive_solver | destruct k; advance start_again E].
  - destruct so; [advance stop_first E | naive_solver | destruct k; advance stop_again E].
  - destruct (decide (i32 (st + 1) = 1)) as [F|F].
    + eexists; split; [by eapply run_first|]. unfold work; simpl.
      erewrite total_insert by exact E; simpl. split_and!; [done | done | lia].
    + eexists; split; [by eapply run_again|]. unfold work; simpl.
      erewrite total_insert by exact E; simpl. split_and!; [done | done | lia].
  - advance run_shutdown E.
Qed.

Lemma shutdown_completes_from s :
  lifecycle_inv s -> shutdown s = true ->
  exists s', rtc step s s' /\ Forall (fun p => p = Returned) (threads s') /\ ticks s' = ticks s.
Proof.
  intros I Sd. pose proof (work_nonneg s) as W. remember (work s) as m eqn:Em.
  revert s Em I Sd. pattern m. apply Zlt_0_ind; [|exact W]. clear m W.
  intros m IH _ s -> I Sd.
  destruct (decide (Forall (fun p => p = Returned) (threads s))) as [F|F]; [by exists s|].
  pose proof (not_Forall_Exists _ _ F) as Ex. apply Exists_exists in Ex as (p & Ep & Np).
  apply list_elem_of_lookup in Ep as [i E].
  destruct (caller_advances s i p I Sd E Np) as (s1 & St & Sd1 & T1 & W1).
  destruct (IH (work s1) (conj (work_nonneg s1) W1) s1 eq_refl (step_inv _ _ St I) Sd1)
    as (s' & R & F' & T').
  exists s'. split_and!; [by eapply rtc_l | done | congruence].
Qed.

End invariants.

(** ** A whole run *)

(** The daemon is started, processes one tick, is asked to shut down and returns. *)
Definition daemon_done : Sys :=
  mkSys OnceDone OnceDone 0 true 1 true [Returned] [LoopGone] 1 false.

Ltac go_step con := eapply rtc_l; [eapply con with (i := 0%nat); reflexivity |]; simpl.
Ltac loop_step con := eapply rtc_l; [eapply con with (j := 0%nat); first [reflexivity | lia] |]; simpl.

Lemma daemon_run interval panics :
  0 < interval -> rtc (step interval panics) (initial [RunCall]) daemon_done.
Proof.
  intros Hi. unfold initial.
  go_step run_first. go_step start_first. go_step start_add. go_step start_go. go_step start_end.
  loop_step loop_ticker. loop_step loop_tick. loop_step loop_tick_done.
  eapply rtc_l; [apply shutdown_signal|].
  go_step run_shutdown. go_step stop_first. go_step stop_close.
  loop_step loop_quit. loop_step loop_done.
  go_step stop_wait. go_step stop_end. apply rtc_refl.
Qed.

(** With a bad interval no loop gets past the ticker. *)
Lemma stuck_loops interval panics s s' :
  interval <= 0 -> step interval panics s s' ->
  Forall (fun l => l = LoopNew) (loops s) /\ ticks s = 0%nat ->
  Forall (fun l => l = LoopNew) (loops s') /\ ticks s' = 0%nat.
Proof.
  intros Hi St [L T].
  destruct St; simpl in *; try lia; try (split; [done | exact T]).
  - split; [by apply Forall_app; repeat constructor | done].
  - by pose proof (Forall_lookup_1 _ _ _ _ L H).
  - by pose proof (Forall_lookup_1 _ _ _ _ L H).
  - by pose proof (Forall_lookup_1 _ _ _ _ L H).
  - by pose proof (Forall_lookup_1 _ _ _ _ L H).
Qed.

Section stuck.
Context (interval : Z) (panics : Prop) (Hi : interval <= 0).

Lemma stuck_reachable ts s : rtc (step interval panics) (initial ts) s -> ticks s = 0%nat.
Proof.
  assert (I0 : Forall (fun l => l = LoopNew) (loops (initial ts)) /\ ticks (initial ts) = 0%nat)
    by done.
  revert I0. generalize (initial ts). intros s0 I0 R. revert I0.
  induction R; [by intros [] | eauto using stuck_loops].
Qed.

Lemma stuck_crash :
  exists s, rtc (step interval panics) (initial [RunCall]) s /\ crashed s = true.
Proof.
  eexists. split.
  - unfold initial.
    go_step run_first. go_step start_first. go_step start_add. go_step start_go.
    loop_step loop_bad_ticker. apply rtc_refl.
  - done.
Qed.
End stuck.

(** ** Properties *)

(** C11: Whichever goroutines call [Start], [Stop] and [RunUntilShutdown], in whatever
    order and however their steps interleave, with a positive query interval and
    ticks that do not panic: the quit channel is closed once and the wait group never
    becomes negative, so the process does not panic; at most one submission loop is
    ever started, and a loop that leaves does so after the quit channel is closed. *)
Theorem start_and_stop_never_panic interval panics ts s :
  0 < interval -> ~ panics -> Forall (fun p => entry p = true) ts ->
  rtc (step interval panics) (initial ts) s ->
  crashed s = false /\ count (fun _ => true) (loops s) <= 1 /\
  (forall j l, loops s !! j = Some l -> leaving l = true -> quit_closed s = true).
Proof.
  intros Hi Hp Ht R. pose proof (reachable_inv _ _ Hi Hp _ _ Ht R) as I.
  split_and!; [apply li_sound, I | |].
  - pose proof (li_loops s I). pose proof (li_start s I) as B.
    pose proof (count_nonneg at_StartEnd (threads s)).
    assert (count at_StartEnd (threads s) <= count in_start (threads s)).
    { clear. induction (threads s) as [|p l IH]; simpl; [done | destruct p; simpl; lia]. }
    destruct (startOnce s); simpl in *; lia.
  - intros j l E L. destruct (quit_closed s) eqn:Q; [done|].
    pose proof (li_leaving s I Q). pose proof (count_lookup leaving _ _ _ E) as C.
    rewrite L in C. simpl in C. lia.
Qed.

Lemma start_and_stop_never_panic_witness :
  crashed daemon_done = false /\ count (fun _ => true) (loops daemon_done) <= 1 /\
  (forall j l, loops daemon_done !! j = Some l -> leaving l = true -> quit_closed daemon_done = true).
Proof.
  apply (start_and_stop_never_panic 1 False [RunCall]).
  - lia.
  - intros [].
  - repeat constructor.
  - apply daemon_run. lia.
Defined.

(** Once the daemon's [RunUntilShutdown] has returned, the submission loop is
    gone and, whatever still runs in the process, no further tick is begun: nothing
    is signed after the shutdown. *)
Lemma returned_daemon_signs_no_more interval panics s s' :
  0 < interval -> ~ panics ->
  rtc (step interval panics) (initial [RunCall]) s -> threads s = [Returned] ->
  rtc (step interval panics) s s' ->
  count live (loops s) = 0 /\ ticks s' = ticks s /\ crashed s' = false.
Proof.
  intros Hi Hp R E R'.
  destruct (daemon_reachable _ _ Hi Hp 1 s R) as [I D].
  destruct (single_reachable interval panics Hp s R) as (p & Ep & _ & _ & Q).
  rewrite E in Ep. injection Ep as <-. specialize (Q eq_refl).
  split_and!.
  - by apply stopped_loops.
  - by eapply stopped_steps.
  - eapply li_sound, steps_inv; eauto.
Qed.

Lemma returned_daemon_signs_no_more_witness :
  count live (loops daemon_done) = 0 /\ ticks daemon_done = 1%nat /\ crashed daemon_done = false.
Proof.
  apply (returned_daemon_signs_no_more 1 False daemon_done daemon_done).
  - lia.
  - intros [].
  - apply daemon_run. lia.
  - reflexivity.
  - apply rtc_refl.
Defined.

(** The shutdown cannot deadlock: in every state the callers of [Start], [Stop]
    and [RunUntilShutdown] can reach, once the shutdown signal has come all of them
    can return, and no further tick is needed for it. *)
Lemma shutdown_can_always_complete interval panics ts s :
  0 < interval -> ~ panics -> Forall (fun p => entry p = true) ts ->
  rtc (step interval panics) (initial ts) s -> shutdown s = true ->
  exists s', rtc (step interval panics) s s' /\
    Forall (fun p => p = Returned) (threads s') /\ ticks s' = ticks s.
Proof.
  intros Hi Hp Ht R Sd. apply shutdown_completes_from; [done | done | | done].
  by eapply reachable_inv.
Qed.

(** Two goroutines in the daemon and a third that stops it, signalled at once. *)
Lemma shutdown_can_always_complete_witness :
  exists s', rtc (step 1 False) (mkSys OnceNew OnceNew 0 false 0 true [RunCall; RunCall; StopCall Top] [] 0 false) s' /\
    Forall (fun p => p = Returned) (threads s') /\ ticks s' = 0%nat.
Proof.
  apply (shutdown_can_always_complete 1 False [RunCall; RunCall; StopCall Top]
           (mkSys OnceNew OnceNew 0 false 0 true [RunCall; RunCall; StopCall Top] [] 0 false)).
  - lia.
  - intros [].
  - repeat constructor.
  - eapply rtc_l; [apply shutdown_signal | apply rtc_refl].
  - reflexivity.
Defined.

(** C32: With a query interval that is not positive, which the configuration accepts,
    the daemon never processes a tick: no tick is begun in any reachable state, and
    starting the daemon reaches the panic of [time.NewTicker]. *)
Theorem nonpositive_interval_crashes_daemon interval panics :
  interval <= 0 ->
  (exists s, rtc (step interval panics) (initial [RunCall]) s /\ crashed s = true) /\
  (forall s, rtc (step interval panics) (initial [RunCall]) s -> ticks s = 0%nat).
Proof.
  intros Hi. split; [by apply stuck_crash | intros s; by apply stuck_reachable].
Qed.

Lemma nonpositive_interval_crashes_daemon_witness :
  (exists s, rtc (step 0 False) (initial [RunCall]) s /\ crashed s = true) /\
  (forall s, rtc (step 0 False) (initial [RunCall]) s -> ticks s = 0%nat).
Proof. apply (nonpositive_interval_crashes_daemon 0 False). lia. Defined.
