(* ===== verification/Daemon.v ===== *)
(** * The running daemon

    [Lifecycle] has the goroutines without what they do, [Emulator] has what a turn of
    the submission loop does without the goroutines.  Here the two are put together:
    a state of the daemon is a state of the goroutines, the emulator they share and
    the world; a tick in progress ends by running [submission_tick] on the emulator and
    the world, and between the steps of the process the world changes as it pleases
    (what happens outside during a tick is part of the calls of that tick).

    When ticks return, the daemon's goroutines go through exactly the states of
    [Lifecycle], so everything proved there holds of the whole daemon; and what is
    proved of one tick holds of every execution. *)

From S2P Require Import Prelude External ToyLib Types Config ClientController Keyring.
From S2P Require Import Emulator ToyWorld BatchFacts SigningFacts TickFacts Lifecycle.
From Stdlib Require Import ZArith Lia String.
From stdpp Require Import base list relations.

#[local] Open Scope list_scope.
#[local] Open Scope Z_scope.

(** [UpdateParams] may replace the parameters; nothing else of the emulator changes. *)
Definition same_emulator {L : BtcLib} {E} {K : KeyringLib E} (ce ce' : CovenantEmulator K) : Prop :=
  exists p, ce' = with_params ce p.

Section daemon.
Context {L : BtcLib} {E : Type} {K : KeyringLib E}.
Context (retry_Do : Z -> Go (option StakingParams * World E) unit ->
                    Go (option StakingParams * World E) unit).
Context (environment : World E -> World E -> Prop).
Implicit Types (ce : CovenantEmulator K) (w : World E) (s : Sys).

Record Daemon := mkDaemon {
  d_sys : Sys;
  d_ce : CovenantEmulator K;
  d_world : World E;
}.

(** The loop comes back to its select. *)
Definition end_tick (j : nat) s : Sys :=
  mkSys (startOnce s) (stopOnce s) (wg s) (quit_closed s) (started s) (shutdown s) (threads s)
    (<[j := LoopSelect]> (loops s)) (ticks s) (crashed s).

Definition crash s : Sys :=
  mkSys (startOnce s) (stopOnce s) (wg s) (quit_closed s) (started s) (shutdown s) (threads s)
    (loops s) (ticks s) true.

Definition interval ce : Z := QueryInterval (ce_config ce).

Inductive dstep : Daemon -> Daemon -> Prop :=
| d_sched s s' ce w :
    (* any step of the goroutines that does not end a tick *)
    step (interval ce) False s s' ->
    (forall j, loops s !! j = Some LoopTick -> loops s' !! j = Some LoopTick) ->
    dstep (mkDaemon s ce w) (mkDaemon s' ce w)
| d_environment s ce w w' :
    environment w w' -> dstep (mkDaemon s ce w) (mkDaemon s ce w')
| d_tick j s ce w ce' w' :
    crashed s = false -> loops s !! j = Some LoopTick ->
    submission_tick retry_Do ce w = (Ok ce', w') ->
    dstep (mkDaemon s ce w) (mkDaemon (end_tick j s) ce' w')
| d_tick_panic j s ce w msg w' :
    crashed s = false -> loops s !! j = Some LoopTick ->
    submission_tick retry_Do ce w = (Panic msg, w') ->
    dstep (mkDaemon s ce w) (mkDaemon (crash s) ce w').

(** The goroutines [ts] on a new emulator. *)
Definition boot (ts : list pc) ce w : Daemon := mkDaemon (initial ts) ce w.

(** ** What a tick does to the emulator *)

Lemma same_refl ce : same_emulator ce ce.
Proof. exists (ce_params ce). by destruct ce. Qed.

Lemma same_trans ce1 ce2 ce3 :
  same_emulator ce1 ce2 -> same_emulator ce2 ce3 -> same_emulator ce1 ce3.
Proof. intros [p ->] [q ->]. by exists q. Qed.

Lemma log_err_no_Err {W A} (m : Go W A) (x : W) e x' : log_err m x <> (Err e, x').
Proof. unfold log_err. by destruct (m x) as [[]]. Qed.

Lemma alreadySigned_no_Err pk sigs e : alreadySigned pk sigs <> Err e.
Proof. induction sigs as [|[s|] sigs IH]; cbn; try done. by case_bool_decide. Qed.

Lemma removeAlreadySigned_no_Err pk dels e : removeAlreadySigned pk dels <> Err e.
Proof.
  revert e. induction dels as [|[d|] dels IH]; intros e; cbn [removeAlreadySigned]; try done.
  cbn. destruct (alreadySigned pk _) eqn:Ha; cbn; try done; [|by apply alreadySigned_no_Err in Ha].
  destruct (removeAlreadySigned pk dels); cbn; done.
Qed.

Lemma batches_loop_no_Err {A} (dels : list A) size fuel i acc e :
  batches_loop dels size fuel i acc <> Err e.
Proof.
  revert i acc. induction fuel as [|fuel IH]; intros i acc; cbn [batches_loop]; [done|].
  destruct (_ <? _); [|done]. unfold go_slice. destruct (_ && _); [apply IH|done].
Qed.

Lemma submit_batches_no_Err ce batches w e w' : submit_batches ce batches w <> (Err e, w').
Proof.
  revert w. induction batches as [|b batches IH]; intros w; cbn [submit_batches]; [done|].
  rewrite go_bind_run. destruct (log_err _ w) as [[r|e'|p|] w1] eqn:H; try done.
  by apply log_err_no_Err in H.
Qed.

(** A tick has no error to return, and leaves the emulator as it was but for the
    parameters. *)
Lemma tick_outcome ce w r w' :
  submission_tick retry_Do ce w = (r, w') ->
  match r with
  | Ok ce' => same_emulator ce ce'
  | Err _ => False
  | _ => True
  end.
Proof.
  unfold submission_tick. rewrite go_bind_run.
  destruct (log_err (UpdateParams retry_Do ce) w) as [[[ce1|]|e|p|] w1] eqn:HU;
    try (intros [= <- <-]; try done; apply same_refl || by apply log_err_no_Err in HU).
  assert (same_emulator ce ce1) as Hs.
  { apply log_err_Some in HU. unfold UpdateParams in HU. go_inv. by eexists. }
  rewrite go_bind_run. destruct (log_err _ w1) as [[[dels|]|e|p|] w2] eqn:HQ;
    try (intros [= <- <-]; try done; by apply log_err_no_Err in HQ).
  rewrite go_bind_run, lift_run. destruct (removeAlreadySigned _ dels) as [kept|e|p|] eqn:Hk;
    try (intros [= <- <-]; try done; by apply removeAlreadySigned_no_Err in Hk).
  rewrite go_bind_run, lift_run. destruct (delegationsToBatches ce1 kept) as [bs|e|p|] eqn:Hb;
    try (intros [= <- <-]; try done; by apply batches_loop_no_Err in Hb).
  rewrite go_bind_run. destruct (submit_batches ce1 bs w2) as [[u|e|p|] w3] eqn:HS;
    intros [= <- <-]; try done. by apply submit_batches_no_Err in HS.
Qed.

(** No step replaces the emulator by another one, ready or not. *)
Lemma dstep_same d d' : dstep d d' -> same_emulator (d_ce d) (d_ce d').
Proof.
  destruct 1 as [| |j s ce w ce' w' _ _ Ht|]; try apply same_refl. by apply tick_outcome in Ht.
Qed.

(** ** The two directions of the simulation *)


Lemma end_tick_step i j s :
  crashed s = false -> loops s !! j = Some LoopTick -> step i False s (end_tick j s).
Proof. destruct s; cbn. intros -> H. by apply loop_tick_done. Qed.


Context {elapse : Z -> World E -> World E} {recoverable : error -> bool}
        {R : RetrySpec retry_Do elapse recoverable}.

(** Everything [tick_returns] asks of an emulator; it does not mention the
    parameters, so it stays true while the daemon runs. *)
Record ready ce : Prop := {
  ready_client : ClientControllerSpec (ce_cc ce);
  ready_batch : 0 < SigsBatchSize (ce_config ce) < 2 ^ 64;
  ready_marshal : forall sig, returns (MustMarshal sig) = true;
  ready_key : go_returns (GetChainPrivKey K (ce_kc ce) (ce_passphrase ce));
  ready_params : go_returns (QueryStakingParams (ce_cc ce));
  ready_pending : go_returns (QueryPendingDelegations (ce_cc ce) (DelegationLimit (ce_config ce)));
  ready_submit : forall sigs, go_returns (SubmitCovenantSigs (ce_cc ce) sigs);
  ready_delegations : forall limit w dels w',
    QueryPendingDelegations (ce_cc ce) limit w = (Ok dels, w') ->
    slice_ok dels /\ forall d, Some d ∈ dels -> safe_delegation d;
}.

Lemma ready_same ce ce' : same_emulator ce ce' -> ready ce -> ready ce'.
Proof. intros [p ->] []. by constructor. Qed.

Lemma ready_tick ce w : ready ce -> exists ce' w', submission_tick retry_Do ce w = (Ok ce', w').
Proof using R.
  intros [H1 H2 H3 H4 H5 H6 H7 H8].
  assert (go_returns (submission_tick retry_Do ce)) as Hr.
  { apply tick_returns; try done; [unfold in_u64|]; lia. }
  specialize (Hr w). destruct (submission_tick retry_Do ce w) as [r w'] eqn:H.
  pose proof (tick_outcome ce w r w' H) as Ho. destruct r; try done. by eexists _, _.
Qed.

Lemma dstep_forward d d' :
  dstep d d' -> ready (d_ce d) ->
  same_emulator (d_ce d) (d_ce d') /\
  (d_sys d' = d_sys d \/ step (interval (d_ce d)) False (d_sys d) (d_sys d')).
Proof using R.
  intros St Hr. destruct St as [s s' ce w St _|s ce w w' _|j s ce w ce' w' Hc Hj Ht|j s ce w m w' Hc Hj Ht];
    cbn in *.
  - split; [apply same_refl | by right].
  - split; [apply same_refl | by left].
  - split; [by apply tick_outcome in Ht | right; by apply end_tick_step].
  - destruct (ready_tick ce w Hr) as (? & ? & ?). congruence.
Qed.


Lemma interval_same ce ce' : same_emulator ce ce' -> interval ce' = interval ce.
Proof. by intros [p ->]. Qed.

(** Whole executions, from any state. *)
Lemma dsteps_forward d d' :
  rtc dstep d d' -> ready (d_ce d) ->
  same_emulator (d_ce d) (d_ce d') /\
  rtc (step (interval (d_ce d)) False) (d_sys d) (d_sys d').
Proof using R.
  induction 1 as [d|d1 d2 d3 St _ IH]; intros Hr; [split; [apply same_refl | apply rtc_refl]|].
  destruct (dstep_forward _ _ St Hr) as [Hs Hsys].
  destruct (IH (ready_same _ _ Hs Hr)) as [Hs' Hsys'].
  rewrite (interval_same _ _ Hs) in Hsys'. split; [by eapply same_trans|].
  destruct Hsys as [<-|Hsys]; [done | by eapply rtc_l].
Qed.


(** ** Invariants of the world *)

Section invariant.
Context (ce : CovenantEmulator K) (I : World E -> Prop).
Hypothesis Hclient : ClientControllerSpec (ce_cc ce).
Hypothesis Hbatch : in_u64 (SigsBatchSize (ce_config ce)).
Hypothesis Hslices : forall limit w dels w',
  QueryPendingDelegations (ce_cc ce) limit w = (Ok dels, w') -> slice_ok dels.
Hypothesis Ienv : forall w w', environment w w' -> I w -> I w'.
Hypothesis Ielapse : forall k w, I w -> I (elapse k w).
Hypothesis Ikeys : preserves I (GetChainPrivKey K (ce_kc ce) (ce_passphrase ce)).
Hypothesis Iparams : preserves I (QueryStakingParams (ce_cc ce)).
Hypothesis Ipending :
  preserves I (QueryPendingDelegations (ce_cc ce) (DelegationLimit (ce_config ce))).
Hypothesis Isubmit :
  forall sigs, tick_submission ce sigs -> preserves I (SubmitCovenantSigs (ce_cc ce) sigs).

Lemma dstep_invariant d d' :
  dstep d d' -> same_emulator ce (d_ce d) -> I (d_world d) -> I (d_world d').
Proof using R Hclient Hbatch Hslices Ienv Ielapse Ikeys Iparams Ipending Isubmit.
  intros St Hs Hw.
  assert (preserves I (submission_tick retry_Do (d_ce d))) as Ht.
  { destruct Hs as [p ->]. eapply tick_preserves; eauto. intros w0 q w'. apply params_nonnil. }
  destruct St as [s s' ce1 w _ _|s ce1 w w' He|j s ce1 w ce' w' _ _ H|j s ce1 w m w' _ _ H]; cbn in *;
    try done; [by eapply Ienv | |]; specialize (Ht w Hw); by rewrite H in Ht.
Qed.

Lemma dsteps_invariant d d' :
  rtc dstep d d' -> same_emulator ce (d_ce d) -> I (d_world d) -> I (d_world d').
Proof using R Hclient Hbatch Hslices Ienv Ielapse Ikeys Iparams Ipending Isubmit.
  induction 1 as [d|d1 d2 d3 St _ IH]; intros Hs Hw; [done|].
  apply IH; [by eapply same_trans, dstep_same | by eapply dstep_invariant].
Qed.

End invariant.

(** ** After the shutdown *)

Lemma stopped_dstep d d' :
  dstep d d' -> lifecycle_inv (d_sys d) -> daemon_inv (d_sys d) ->
  stopOnce (d_sys d) = OnceDone ->
  d_ce d' = d_ce d /\ (d_world d' = d_world d \/ environment (d_world d) (d_world d')).
Proof.
  intros St I D Es. pose proof (stopped_loops _ I D Es) as Hl.
  destruct St as [s s' ce w _ _|s ce w w' He|j s ce w ce' w' _ Hj _|j s ce w m w' _ Hj _]; cbn in *;
    [by auto | by auto | |]; count_fact live Hj; simpl in *; lia.
Qed.

Lemma stopped_dsteps d d' :
  0 < interval (d_ce d) -> rtc dstep d d' -> ready (d_ce d) ->
  lifecycle_inv (d_sys d) -> daemon_inv (d_sys d) -> stopOnce (d_sys d) = OnceDone ->
  d_ce d' = d_ce d /\ rtc environment (d_world d) (d_world d').
Proof using R.
  intros Hi Rd. revert Hi. induction Rd as [d|d1 d2 d3 St _ IH]; intros Hi Hr I D Es; [done|].
  destruct (stopped_dstep _ _ St I D Es) as [Hce Hw].
  assert (lifecycle_inv (d_sys d2) /\ daemon_inv (d_sys d2) /\ stopOnce (d_sys d2) = OnceDone)
    as (I2 & D2 & E2).
  { destruct (dstep_forward _ _ St Hr) as [_ [->|Hs]]; [done|]. split_and!.
    - by apply (step_inv _ _ Hi id _ _ Hs).
    - by apply (step_daemon_inv _ _ Hi _ _ Hs).
    - by apply (stopped_step _ _ id _ _ Hs I D Es). }
  rewrite Hce in IH. destruct (IH Hi Hr I2 D2 E2) as [Hce3 Hw3]. split; [congruence|].
  destruct Hw as [<-|Hw]; [done | by eapply rtc_l].
Qed.

End daemon.

(** ** Properties *)

Section properties.
Context {L : BtcLib} {E : Type} {K : KeyringLib E}.
Context {retry_Do : Z -> Go (option StakingParams * World E) unit ->
                    Go (option StakingParams * World E) unit}
        {elapse : Z -> World E -> World E} {recoverable : error -> bool}
        {R : RetrySpec retry_Do elapse recoverable}.
Context (environment : World E -> World E -> Prop).
Implicit Types (ce : CovenantEmulator K) (w : World E).

#[local] Abbreviation dsteps := (rtc (dstep retry_Do environment)).

(** C2: In every execution of the daemon, at every moment, the chain has been sent
    nothing but what the rules allow.  Precisely: any invariant of the world that the
    environment, waiting, reading keys and querying the chain preserve, and that a
    submission preserves whenever it is one a tick may send (the signatures on a
    non-empty batch of pending, unsigned delegations, approved under the parameters
    queried just before), holds of the world in every reachable state, also of
    executions in which a tick panics. *)
Theorem every_execution_submits_only_approved ce ts w (I : World E -> Prop) :
  ClientControllerSpec (ce_cc ce) -> in_u64 (SigsBatchSize (ce_config ce)) ->
  (forall limit w dels w', QueryPendingDelegations (ce_cc ce) limit w = (Ok dels, w') ->
     slice_ok dels) ->
  (forall w w', environment w w' -> I w -> I w') ->
  (forall k w, I w -> I (elapse k w)) ->
  preserves I (GetChainPrivKey K (ce_kc ce) (ce_passphrase ce)) ->
  preserves I (QueryStakingParams (ce_cc ce)) ->
  preserves I (QueryPendingDelegations (ce_cc ce) (DelegationLimit (ce_config ce))) ->
  (forall sigs, tick_submission ce sigs -> preserves I (SubmitCovenantSigs (ce_cc ce) sigs)) ->
  I w ->
  forall d, dsteps (boot ts ce w) d -> I (d_world d).
Proof using R.
  intros Hc Hb Hsl Ienv Iel Ik Ipa Ipe Isub Hw d Hd.
  eapply (dsteps_invariant retry_Do environment ce I); eauto. apply same_refl.
Qed.

(** C12: Once [RunUntilShutdown] has returned, the daemon is quiet: whatever happens
    from then on, the emulator does not change, and the world changes by the
    environment alone.  No delegation is queried, no key is read and nothing is
    submitted any more. *)
Theorem returned_daemon_leaves_world_alone ce w d d' :
  ready ce -> 0 < interval ce ->
  dsteps (boot [RunCall] ce w) d -> threads (d_sys d) = [Returned] -> dsteps d d' ->
  d_ce d' = d_ce d /\ rtc environment (d_world d) (d_world d').
Proof using R.
  intros Hr Hi Hd Et Hd'. destruct (dsteps_forward retry_Do environment _ _ Hd Hr) as [Hs Hsys].
  destruct (daemon_reachable _ _ Hi id 1 _ Hsys) as [I D].
  destruct (single_reachable _ _ id _ Hsys) as (p & Ep & _ & _ & Q).
  rewrite Et in Ep. injection Ep as <-.
  eapply stopped_dsteps; eauto; [by rewrite (interval_same _ _ Hs) | by eapply ready_same].
Qed.



End properties.

(** *** A run of the whole daemon *)

Lemma tick_ce_ready : ready tick_ce.
Proof.
  constructor.
  - apply fixed_cc_spec, toy_pending_ok.
  - cbn. lia.
  - done.
  - done.
  - intros w. cbn. unfold toy_QueryStakingParams. by destruct (tc_params (chain w)) as [|[]].
  - done.
  - done.
  - intros limit w dels w' [= <- _]. split; [reflexivity|]. intros d Hd.
    apply list_elem_of_In in Hd as [[= <-]|[[= <-]|[[= <-]|[]]]];
      (split; [unfold MaxUint16; cbn; lia|]; intros u tx [= <-] [= <-]; done).
Qed.

(** The chain has one answer to a parameter query and three pending delegations. *)
Definition run_before : ToyW := toy_world (toy_chain []).
Definition run_after : ToyW := (submission_tick toy_retry tick_ce run_before).2.

(** Outside the process nothing happens. *)
Definition calm (w w' : ToyW) : Prop := w' = w.

Definition run_end : Daemon (K := const_K) :=
  mkDaemon daemon_done (with_params tick_ce (Some toy_params)) run_after.

Ltac sched con i0 :=
  eapply rtc_l; [eapply d_sched; [first [eapply con with (i := i0); reflexivity
                                        |eapply con with (j := i0); first [reflexivity|done]]
                                 |cbn; intros [|] ?; done]|]; simpl.

(** The daemon starts, submits the batch of the two unsigned delegations in its first
    tick, is told to shut down and returns. *)
Lemma daemon_whole_run :
  rtc (dstep toy_retry calm) (boot [RunCall] tick_ce run_before) run_end.
Proof.
  unfold boot, initial.
  sched run_first 0%nat. sched start_first 0%nat. sched start_add 0%nat. sched start_go 0%nat.
  sched start_end 0%nat. sched loop_ticker 0%nat. sched loop_tick 0%nat.
  eapply rtc_l; [eapply (d_tick _ _ 0) with (ce' := with_params tick_ce (Some toy_params))
                        (w' := run_after); vm_compute; reflexivity|].
  unfold end_tick; simpl.
  eapply rtc_l; [eapply d_sched; [apply shutdown_signal|by intros [|]]|].
  sched run_shutdown 0%nat. sched stop_first 0%nat. sched stop_close 0%nat.
  sched loop_quit 0%nat. sched loop_done 0%nat. sched stop_wait 0%nat. sched stop_end 0%nat.
  apply rtc_refl.
Qed.

Lemma every_execution_submits_only_approved_witness :
  all_allowed run_after /\ tc_submitted (chain run_after) = [[toy_fresh_sigs; toy_fresh_sigs]].
Proof.
  split; [|vm_compute; reflexivity].
  apply (every_execution_submits_only_approved calm tick_ce [RunCall] run_before all_allowed)
    with (d := run_end).
  - apply fixed_cc_spec, toy_pending_ok.
  - split; [done|reflexivity].
  - intros limit w dels w' [= <- _]. reflexivity.
  - intros w w' -> Hw. exact Hw.
  - intros _ w Hw. exact Hw.
  - intros w Hw. exact Hw.
  - intros w Hw. unfold all_allowed in *. cbn. unfold toy_QueryStakingParams.
    destruct (tc_params (chain w)) as [|[]]; exact Hw.
  - intros w Hw. exact Hw.
  - intros sigs Hs w Hw. unfold all_allowed in *. cbn. apply Forall_app. split; [exact Hw|].
    by constructor.
  - constructor.
  - exact daemon_whole_run.
Defined.

Lemma returned_daemon_leaves_world_alone_witness :
  d_ce run_end = with_params tick_ce (Some toy_params) /\ rtc calm run_after run_after.
Proof.
  apply (returned_daemon_leaves_world_alone calm tick_ce run_before run_end run_end).
  - exact tick_ce_ready.
  - reflexivity.
  - exact daemon_whole_run.
  - reflexivity.
  - apply rtc_refl.
Defined.





