(* ===== verification/BabylonDaemon.v ===== *)
(** * The daemon on a Babylon node

    [Daemon] is proved against the interface [ClientController].  Here the client is the
    repository's own, [BabylonController], and the contract moves to the other side of
    the RPC client: what the node and the client library have to keep for the daemon
    to run, and which messages the node can ever receive from it. *)

From S2P Require Import Prelude External ToyLib GoLib Types Config ClientController Keyring.
From S2P Require Import Emulator ToyWorld BatchFacts SigningFacts TickFacts Lifecycle Daemon.
From Stdlib Require Import ZArith Lia String Strings.Byte.
From stdpp Require Import base list relations.

#[local] Open Scope list_scope.
#[local] Open Scope Z_scope.

Section babylon_daemon.
Context {L : BtcLib} {B : BabylonLib} {E : Type} {K : KeyringLib E}.
Context {retry_Do : Z -> Go (option StakingParams * World E) unit ->
                    Go (option StakingParams * World E) unit}
        {elapse : Z -> World E -> World E} {recoverable : error -> bool}
        {R : RetrySpec retry_Do elapse recoverable}.
Context (environment : World E -> World E -> Prop).
Implicit Types (bc : BabylonController (W := World E)) (ce : CovenantEmulator K) (w : World E).

#[local] Abbreviation dsteps := (rtc (dstep retry_Do environment)).

(** ** What the node has to keep *)

(** A delegation record as the chain's own validation leaves it: its keys decode, its
    transactions are there, its blocks span at most 65535, and its unbonding
    transaction, when it parses, has an output. *)
Definition served (od : option BTCDelegation) : Prop :=
  exists r, od = Some r /\ record_decodes r /\ txs_present r /\
    0 <= del_EndHeight r - del_StartHeight r <= MaxUint16 /\
    forall undel tx msgTx, del_BtcUndelegation r = Some undel ->
      undel_UnbondingTx undel = Some tx ->
      NewBTCTxFromHex (hex_EncodeToString tx) = inr msgTx -> TxOutValues msgTx <> [].

(** The calls of the client return, a send without expected errors has a response, the
    signer's key is in the client's keyring, and pending records are [served]. *)
Record node_contract bc : Prop := {
  node_checkpoint : go_returns (q_BTCCheckpointParams (bbnClient bc));
  node_staking : go_returns (q_BTCStakingParams (bbnClient bc));
  node_delegations : forall status page, go_returns (q_BTCDelegations (bbnClient bc) status page);
  node_send : forall msgs expected unrecoverable,
    go_returns (ReliablySendMsgs (bbnClient bc) msgs expected unrecoverable);
  node_response : send_contract (bbnClient bc);
  node_signer : forall w, exists key addr acc w',
    GetKeyring_Key (bbnClient bc) (Key (bc_cfg bc)) w = (Ok key, w') /\ GetAddress key = inr addr /\
    MustBech32ifyAddressBytes (AccountPrefix (bc_cfg bc)) addr = Ok acc;
  node_records : forall page w dels w',
    q_BTCDelegations (bbnClient bc) BTCDelegationStatus_PENDING page w = (Ok dels, w') ->
    slice_ok dels /\ Forall served dels;
}.

Lemma signer_returns bc : node_contract bc -> go_returns (mustGetTxSigner bc).
Proof.
  intros N w. destruct (node_signer bc N w) as (key & addr & acc & w' & Hk & Ha & Hb).
  unfold mustGetTxSigner, GetKeyAddress. rewrite go_bind_run, Hk, Ha, lift_run. by rewrite Hb.
Qed.

Lemma params_query_returns bc : node_contract bc -> go_returns (babylon_QueryStakingParams bc).
Proof.
  intros N w. unfold babylon_QueryStakingParams.
  apply go_returns_bind_at; [rewrite go_returns_wrap_at; by apply node_checkpoint|]. intros ck w1 _.
  apply go_returns_bind_at; [rewrite go_returns_wrap_at; by apply node_staking|]. intros st w2 _.
  apply go_returns_bind_at.
  { rewrite lift_run. apply returns_mapM. intros k. rewrite returns_wrap. apply returns_errorOr. }
  intros pks w3 _. apply go_returns_bind_at; [rewrite lift_run; apply returns_errorOr|done].
Qed.

Lemma converted_exists dels :
  Forall served dels -> exists ds, mapM_result ConvertDelegationType dels = Ok ds.
Proof.
  rewrite Forall_forall. intros Hs. apply mapM_result_total. intros od Hod.
  destruct (Hs od Hod) as (r & -> & Hd & Hp & _).
  destruct (ConvertDelegationType_total r Hd Hp) as [d Hc]. by eexists.
Qed.

Lemma pending_query_returns bc limit :
  node_contract bc -> go_returns (babylon_QueryPendingDelegations bc limit).
Proof.
  intros N w. unfold babylon_QueryPendingDelegations, queryDelegationsWithStatus.
  apply go_returns_bind_at; [rewrite go_returns_wrap_at; by apply node_delegations|].
  intros dels w1 H. apply go_wrap_Ok in H. apply (node_records bc N) in H as [_ H].
  destruct (converted_exists dels H) as [ds Hds]. rewrite lift_run. by rewrite Hds.
Qed.

Lemma converted_safe r d :
  served (Some r) -> ConvertDelegationType (Some r) = Ok (Some d) -> safe_delegation d.
Proof.
  intros (r' & [= <-] & _ & _ & Hh & Ho) Hc. apply ConvertDelegationType_fields in Hc
    as (d' & ? & ? & [= <-] & _ & _ & _ & _ & _ & _ & Hst & Hen & _ & _ & _ & _ & Hun).
  split; [by rewrite Hst, Hen|]. intros u tx Hu. destruct (del_BtcUndelegation r) as [undel|].
  - destruct Hun as (u' & Hu' & Hconv). rewrite Hu in Hu'. injection Hu' as <-.
    unfold ConvertUndelegationType in Hconv.
    destruct (undel_UnbondingTx undel) as [ub|] eqn:Hub; [|done].
    destruct (undel_SlashingTx undel); [|done]. go_inv. cbn. by apply (Ho undel ub).
  - by rewrite Hu in Hun.
Qed.

Lemma pending_query_safe bc limit w dels w' :
  node_contract bc -> babylon_QueryPendingDelegations bc limit w = (Ok dels, w') ->
  slice_ok dels /\ forall d, Some d ∈ dels -> safe_delegation d.
Proof.
  intros N. unfold babylon_QueryPendingDelegations, queryDelegationsWithStatus. intros H. go_inv.
  match goal with H : q_BTCDelegations _ _ _ _ = _ |- _ => apply (node_records bc N) in H as [Hl Hs] end.
  match goal with H : Forall2 _ ?rs dels |- _ => rename H into Hc; rename rs into recs end.
  split; [unfold slice_ok, go_len in *; by rewrite <- (Forall2_length _ _ _ Hc)|].
  intros d Hd. apply list_elem_of_lookup in Hd as [i Hi].
  destruct (Forall2_lookup_r _ _ _ _ _ Hc Hi) as (od & Hod & Hconv).
  pose proof (Forall_lookup_1 _ _ _ _ Hs Hod) as Hsv. destruct od as [r|]; [|done].
  by eapply converted_safe.
Qed.

(** An emulator on such a node is ready to tick. *)
Lemma babylon_ready ce bc :
  ce_cc ce = babylon_ClientController bc -> node_contract bc ->
  0 < SigsBatchSize (ce_config ce) < 2 ^ 64 ->
  (forall sig, returns (MustMarshal sig) = true) ->
  go_returns (GetChainPrivKey K (ce_kc ce) (ce_passphrase ce)) ->
  ready ce.
Proof.
  intros Hcc N Hb Hm Hk. constructor; rewrite ?Hcc; try done.
  - apply _.
  - by apply params_query_returns.
  - by apply pending_query_returns.
  - intros sigs. apply submission_never_crashes; [apply N|by apply signer_returns|apply N].
  - intros limit w dels w'. by apply pending_query_safe.
Qed.

(** ** What the node is sent *)

(** The messages for the signatures of one batch: the batch is one a tick may submit,
    and there is one message per delegation, in order, that carries its signatures. *)
Definition covenant_messages ce (msgs : list Msg) : Prop :=
  exists sigs, tick_submission ce sigs /\
    Forall2 (fun cs m => exists signer, m = message_of signer cs) sigs msgs.

Section sends.
Context (ce : CovenantEmulator K) (bc : BabylonController (W := World E)) (I : World E -> Prop).
Hypothesis Ikey : preserves I (GetKeyring_Key (bbnClient bc) (Key (bc_cfg bc))).
Hypothesis Isend : forall msgs, covenant_messages ce msgs ->
  preserves I (ReliablySendMsgs (bbnClient bc) msgs [] [ErrInvalidCovenantPK; ErrInvalidCovenantSig]).

Lemma signer_preserves : preserves I (mustGetTxSigner bc).
Proof using Ikey.
  apply preserves_bind; [|intros; apply preserves_lift]. intros w Hw. specialize (Ikey w Hw).
  unfold GetKeyAddress. destruct (GetKeyring_Key _ _ w) as [[key|e|p|] w']; try done.
  cbn in *. by destruct (GetAddress key).
Qed.

Lemma submit_preserves sigs :
  tick_submission ce sigs -> preserves I (babylon_SubmitCovenantSigs bc sigs).
Proof using Ikey Isend.
  intros Hs w Hw. unfold babylon_SubmitCovenantSigs. rewrite go_bind_run.
  assert (preserves I (mapM_go (covenant_sigs_msg bc) sigs)) as Hm.
  { apply preserves_mapM. intros cs _. apply preserves_bind; [apply signer_preserves|].
    intros. apply preserves_ret. }
  specialize (Hm w Hw). destruct (mapM_go _ _ w) as [[msgs|e|p|] w1] eqn:Hmsgs; try done.
  apply covenant_sigs_msgs in Hmsgs. cbn in Hm. revert Hm. revert w1.
  apply (preserves_bind I); [by apply Isend; exists sigs|]. intros res.
  apply preserves_bind; [apply preserves_lift|intros; apply preserves_ret].
Qed.

End sends.

Lemma babylon_queries_preserve bc (I : World E -> Prop) :
  preserves I (q_BTCCheckpointParams (bbnClient bc)) ->
  preserves I (q_BTCStakingParams (bbnClient bc)) ->
  (forall page, preserves I (q_BTCDelegations (bbnClient bc) BTCDelegationStatus_PENDING page)) ->
  preserves I (babylon_QueryStakingParams bc) /\
  forall limit, preserves I (babylon_QueryPendingDelegations bc limit).
Proof. intros H1 H2 H3. split; [|intros limit]; eauto 12 with covdb. Qed.

(** ** Properties *)

(** C6: The daemon on a Babylon node does not crash.  When the node keeps its contract
    (its calls return, it serves records its own validation accepts, the signer's key
    is in the client's keyring), the keyring answers, and the interval and the batch
    size are positive, then however the calls of [Start], [Stop] and [RunUntilShutdown]
    interleave with ticks and with whatever happens outside, no goroutine ever panics,
    every tick that is due can complete, and the emulator keeps its key, client and
    configuration. *)
Theorem babylon_daemon_never_crashes ce bc ts w d :
  ce_cc ce = babylon_ClientController bc -> node_contract bc ->
  0 < SigsBatchSize (ce_config ce) < 2 ^ 64 -> 0 < interval ce ->
  (forall sig, returns (MustMarshal sig) = true) ->
  go_returns (GetChainPrivKey K (ce_kc ce) (ce_passphrase ce)) ->
  Forall (fun p => entry p = true) ts ->
  dsteps (boot ts ce w) d ->
  crashed (d_sys d) = false /\ same_emulator ce (d_ce d) /\
  exists ce' w', submission_tick retry_Do (d_ce d) (d_world d) = (Ok ce', w').
Proof using R.
  intros Hcc N Hb Hi Hm Hk Hts Hd.
  assert (ready ce) as Hr by by eapply babylon_ready.
  destruct (dsteps_forward retry_Do environment _ _ Hd Hr) as [Hs Hsys]. split_and!.
  - by apply (reachable_inv _ _ Hi id _ _ Hts Hsys).
  - done.
  - apply (ready_tick retry_Do (R := R)). by eapply ready_same.
Qed.

(** C3: A Babylon node receives nothing from the daemon but covenant signatures on
    batches that the rules allow: any invariant of the world that the environment,
    waiting, reading keys and the three queries preserve, and that sending preserves
    when the messages are, one for one and in order, the signatures of a batch a tick
    may submit (with no expected errors and the two unrecoverable ones of the covenant
    module), holds in every state of every execution, also when a tick panics. *)
Theorem babylon_daemon_sends_only_covenant_messages ce bc ts w (I : World E -> Prop) :
  ce_cc ce = babylon_ClientController bc -> in_u64 (SigsBatchSize (ce_config ce)) ->
  (forall limit w dels w', QueryPendingDelegations (ce_cc ce) limit w = (Ok dels, w') ->
     slice_ok dels) ->
  (forall w w', environment w w' -> I w -> I w') ->
  (forall k w, I w -> I (elapse k w)) ->
  preserves I (GetChainPrivKey K (ce_kc ce) (ce_passphrase ce)) ->
  preserves I (GetKeyring_Key (bbnClient bc) (Key (bc_cfg bc))) ->
  preserves I (q_BTCCheckpointParams (bbnClient bc)) ->
  preserves I (q_BTCStakingParams (bbnClient bc)) ->
  (forall page, preserves I (q_BTCDelegations (bbnClient bc) BTCDelegationStatus_PENDING page)) ->
  (forall msgs, covenant_messages ce msgs ->
     preserves I (ReliablySendMsgs (bbnClient bc) msgs [] [ErrInvalidCovenantPK; ErrInvalidCovenantSig])) ->
  I w ->
  forall d, dsteps (boot ts ce w) d -> I (d_world d).
Proof using R.
  intros Hcc Hb Hsl Ienv Iel Ik Ikey I1 I2 I3 Isend Hw d Hd.
  destruct (babylon_queries_preserve bc I I1 I2 I3) as [Ip Iq].
  apply (dsteps_invariant retry_Do environment (R := R) ce I) with (d := boot ts ce w);
    try done; rewrite ?Hcc; try done.
  - apply _.
  - apply Iq.
  - intros sigs Hs. by apply (submit_preserves ce).
  - apply same_refl.
Qed.

End babylon_daemon.

(** *** The daemon on a concrete node *)

(** The node's state is the list of message batches it has been sent. *)
Abbreviation NodeW := (World (list (list Msg))).

Definition node_client : BbnClient NodeW := {|
  q_BTCCheckpointParams := fun w => (Ok (mkBTCCheckpointParams 10 100), w);
  q_BTCStakingParams := fun w =>
    (Ok (mkBTCStakingParams [[Byte.x2a]; [Byte.x32]] "slashing-address" 1 2 50 3 120), w);
  q_BTCDelegations := fun _ _ w => (Ok [Some (toy_BTCDelegation (Some [Byte.x0d]))], w);
  q_FinalityProviders := fun _ _ w => (Ok (mkFinalityProvidersResponse [] None), w);
  q_Tip := fun _ w => (Ok [], w);
  ReliablySendMsgs := fun msgs _ _ w =>
    (Ok (Some (mkRelayerTxResponse "tx-hash" [])), mkWorld (readers w) (ext w ++ [msgs]));
  GetKeyring_Key := fun _ w => (Ok [Byte.x41], w);
  IsRunning := fun _ => true;
  bbn_Stop := fun w => (Ok tt, w);
|}.

Definition node_bc : BabylonController (W := NodeW) :=
  mkBabylonController node_client toy_BBNConfig SimNetParams.

Definition node_ce : CovenantEmulator one_key :=
  mkCovenantEmulator one_key toy_sk (babylon_ClientController node_bc)
    (mkChainKeyringController one_key tt "covenant-key" 0%nat) (toy_config 2) None 0%nat "secret".

Lemma node_bc_contract : node_contract node_bc.
Proof.
  constructor; try done.
  - intros msgs unrec w r w' [= <- _]. by eexists.
  - intros w. by do 4 eexists.
  - intros page w dels w' [= <- _]. split; [reflexivity|]. repeat constructor. eexists.
    split_and!; [reflexivity|apply toy_record_decodes|split_and!; try (split; by eexists); by eexists|done|done|].
    by intros undel tx msgTx [= <-] [= <-] [= <-].
Qed.

Definition node_before : NodeW := mkWorld ∅ [].

(** The batch of the one pending delegation is sent in the first tick. *)
Definition node_end : Daemon (K := one_key) :=
  let '(r, w) := submission_tick toy_retry node_ce node_before in
  mkDaemon (mkSys OnceDone OnceNew 1 false 1 false [RunWait] [LoopSelect] 1 false)
    match r with Ok ce => ce | _ => node_ce end w.

Definition no_change (w w' : NodeW) : Prop := w' = w.

Lemma node_run : rtc (dstep toy_retry no_change) (boot [RunCall] node_ce node_before) node_end.
Proof.
  unfold boot, initial.
  sched run_first 0%nat. sched start_first 0%nat. sched start_add 0%nat. sched start_go 0%nat.
  sched start_end 0%nat. sched loop_ticker 0%nat. sched loop_tick 0%nat.
  eapply rtc_l; [eapply (d_tick _ _ 0) with (ce' := d_ce node_end) (w' := d_world node_end);
                 vm_compute; reflexivity|].
  apply rtc_refl.
Qed.

Lemma babylon_daemon_never_crashes_witness :
  crashed (d_sys node_end) = false /\ same_emulator node_ce (d_ce node_end) /\
  exists ce' w', submission_tick toy_retry (d_ce node_end) (d_world node_end) = (Ok ce', w').
Proof.
  apply (babylon_daemon_never_crashes no_change node_ce node_bc [RunCall] node_before node_end).
  - reflexivity.
  - exact node_bc_contract.
  - cbn. lia.
  - reflexivity.
  - intros sig. reflexivity.
  - intros w. reflexivity.
  - repeat constructor.
  - exact node_run.
Defined.

Definition only_covenant_messages (w : NodeW) : Prop := Forall (covenant_messages node_ce) (ext w).

Lemma babylon_daemon_sends_only_covenant_messages_witness :
  only_covenant_messages (d_world node_end) /\ length (ext (d_world node_end)) = 1%nat.
Proof.
  split; [|vm_compute; reflexivity].
  apply (babylon_daemon_sends_only_covenant_messages no_change node_ce node_bc [RunCall] node_before
           only_covenant_messages) with (d := node_end).
  - reflexivity.
  - split; [done|reflexivity].
  - intros limit w dels w' H. by apply (pending_query_safe node_bc limit w dels w' node_bc_contract) in H as [H _].
  - intros w w' -> Hw. exact Hw.
  - intros _ w Hw. exact Hw.
  - intros w Hw. exact Hw.
  - intros w Hw. exact Hw.
  - intros w Hw. exact Hw.
  - intros w Hw. exact Hw.
  - intros page w Hw. exact Hw.
  - intros msgs Hm w Hw. apply Forall_app. split; [exact Hw|]. by constructor.
  - constructor.
  - exact node_run.
Defined.
