(* ===== verification/NodeHandler.v ===== *)
(** * The node of the end-to-end tests: [itest/babylon_node_handler.go]

    The end-to-end harness runs the daemon against a [babylond] process of its own:
    [BabylonNodeHandler] makes a directory for it, initialises a chain there, starts the
    process, stops it and cleans up.  The kernel is a parameter, reached by the calls of
    [syscall]; every call the harness makes is recorded with its outcome, and the
    properties are about that record. *)

From S2P Require Import Prelude External ToyLib GoLib.
From Stdlib Require Import ZArith Lia String Ascii.
From stdpp Require Import base list sets relations strings pretty.

#[local] Open Scope string_scope.
#[local] Open Scope list_scope.
#[local] Open Scope Z_scope.

Inductive OsSignal := os_Kill | os_Interrupt.

(** The calls on the operating system, by the type of what they give on success.
    [WaitProcess] gives the error of an unsuccessful exit, if it was one. *)
Inductive syscall : Type -> Type :=
| StartProcess (argv : list string) (stdout : option nat) : syscall Z
| WaitProcess (pid : Z) : syscall (option error)
| SignalProcess (pid : Z) (sig : OsSignal) : syscall unit
| CreateFile (name : string) : syscall nat
| WriteFile (fd : nat) (data : string) : syscall unit
| CloseFile (fd : nat) : syscall unit
| Remove (name : string) : syscall unit
| RemoveAll (path : string) : syscall unit
| MkdirTemp (dir pattern : string) : syscall string
| Chmod (name : string) (mode : Z) : syscall unit.

(** A call that was made, and its outcome. *)
Inductive event :=
| Event (A : Type) (c : syscall A) (r : result A).

Arguments Event {A} c r.

Section handler.
Context {L : BtcLib} {W : Type}.
(** the kernel, the platform and the directory for temporary files *)
Context (kernel : forall A, syscall A -> Go W A) (GOOS TempDir : string).

(** The world with the record of the calls, oldest first. *)
Definition TW : Type := list event * W.

Definition sys {A} (c : syscall A) : Go TW A := fun tw =>
  let '(r, w') := kernel A c tw.2 in (r, (tw.1 ++ [Event c r], w')).

(** ** [os/exec]: a command and its process

    [Process_done]: the process has been waited for, which sets both the state of the
    process and [cmd.ProcessState]. *)
Record Process := mkProcess {
  Pid : Z;
  Process_done : bool;
}.

Record Cmd := mkCmd {
  Args : list string;
  Stdout : option nat;
  Cmd_Process : option Process;
}.

Definition exec_Command (argv : list string) : Cmd := mkCmd argv None None.

Definition Cmd_Start : Go (Cmd * TW) unit := fun '(c, tw) =>
  match Cmd_Process c with
  | Some _ => (Err (errorString "exec: already started"), (c, tw))
  | None =>
      match sys (StartProcess (Args c) (Stdout c)) tw with
      | (Ok pid, tw') => (Ok tt, (mkCmd (Args c) (Stdout c) (Some (mkProcess pid false)), tw'))
      | (Err e, tw') => (Err e, (c, tw'))
      | (Panic p, tw') => (Panic p, (c, tw'))
      | (Hang, tw') => (Hang, (c, tw'))
      end
  end.

Definition Cmd_Wait : Go (Cmd * TW) unit := fun '(c, tw) =>
  match Cmd_Process c with
  | None => (Err (errorString "exec: not started"), (c, tw))
  | Some p =>
      if Process_done p then (Err (errorString "exec: Wait was already called"), (c, tw)) else
      match sys (WaitProcess (Pid p)) tw with
      | (Ok exit, tw') =>
          (match exit with None => Ok tt | Some e => Err e end,
           (mkCmd (Args c) (Stdout c) (Some (mkProcess (Pid p) true)), tw'))
      | (Err e, tw') => (Err e, (c, tw'))
      | (Panic m, tw') => (Panic m, (c, tw'))
      | (Hang, tw') => (Hang, (c, tw'))
      end
  end.

Definition Cmd_Run : Go (Cmd * TW) unit := Cmd_Start ≫= fun _ => Cmd_Wait.

Definition Process_Signal (p : Process) (sig : OsSignal) : Go TW unit :=
  if Process_done p then lift (Err (errorString "os: process already finished"))
  else sys (SignalProcess (Pid p) sig).

(** ** [babylonNode] *)

Record babylonNode := mkBabylonNode {
  cmd : option Cmd;
  pidFile : string;
  dataDir : string;
  chainID : string;
  slashingAddr : string;
  covenantPk : BIP340PubKey;
}.

Definition newBabylonNode (dataDir : string) (cmd : option Cmd) (chainID slashingAddr : string)
    (covenantPk : BIP340PubKey) : babylonNode :=
  {| dataDir := dataDir; cmd := cmd; chainID := chainID; slashingAddr := slashingAddr;
     covenantPk := covenantPk; pidFile := "" |}.

Definition with_cmd (c : Cmd) (n : babylonNode) : babylonNode :=
  mkBabylonNode (Some c) (pidFile n) (dataDir n) (chainID n) (slashingAddr n) (covenantPk n).

Definition with_pidFile (f : string) (n : babylonNode) : babylonNode :=
  mkBabylonNode (cmd n) f (dataDir n) (chainID n) (slashingAddr n) (covenantPk n).

(** A method of [n] runs on the node and the world. *)
Definition on_world {A} (m : Go TW A) : Go (babylonNode * TW) A := fun '(n, tw) =>
  let '(r, tw') := m tw in (r, (n, tw')).

(** A method of [n.cmd]. *)
Definition on_cmd {A} (m : Go (Cmd * TW) A) : Go (babylonNode * TW) A := fun '(n, tw) =>
  match cmd n with
  | None => (Panic "runtime error: invalid memory address or nil pointer dereference", (n, tw))
  | Some c => let '(r, (c', tw')) := m (c, tw) in (r, (with_cmd c' n, tw'))
  end.

Definition pid_path (n : babylonNode) : string := filepath_Join [dataDir n; "config.pid"].

(** The part of [start] after the process has been started. *)
Definition write_pid : Go (babylonNode * TW) unit :=
  pid ← (fun s => on_world (sys (CreateFile (pid_path s.1))) s);
  _ ← (fun '(n, tw) => (Ok tt, (with_pidFile (pid_path n) n, tw)));
  _ ← (fun s => match cmd s.1 ≫= Cmd_Process with
                | Some p => on_world (sys (WriteFile pid (pretty (Pid p) +:+ String "010"%char ""))) s
                | None => (Panic "runtime error: invalid memory address or nil pointer dereference", s)
                end);
  on_world (sys (CloseFile pid)).

Definition node_start : Go (babylonNode * TW) unit := _ ← on_cmd Cmd_Start; write_pid.

(** The deferred [Wait] runs after the signal and replaces its result. *)
Definition node_stop : Go (babylonNode * TW) unit := fun s =>
  match cmd s.1 ≫= Cmd_Process with
  | None => (Ok tt, s)
  | Some p =>
      let sig := if String.eqb GOOS "windows" then os_Kill else os_Interrupt in
      match on_world (Process_Signal p sig) s with
      | (Hang, s') => (Hang, s')
      | (Panic m, s') =>
          match on_cmd Cmd_Wait s' with
          | (Hang, s'') => (Hang, s'')
          | (_, s'') => (Panic m, s'')
          end
      | (_, s') => on_cmd Cmd_Wait s'
      end
  end.

(** Errors of the two removals are logged. *)
Definition log_only (m : Go TW unit) : Go TW unit := fun tw =>
  match m tw with
  | (Err _, tw') => (Ok tt, tw')
  | x => x
  end.

Definition cleanup : Go (babylonNode * TW) unit := fun s =>
  (_ ← (if String.eqb (pidFile s.1) "" then mret tt else on_world (log_only (sys (Remove (pidFile s.1)))));
   on_world (log_only (sys (RemoveAll (dataDir s.1))))) s.

Definition node_shutdown : Go (babylonNode * TW) unit := _ ← node_stop; cleanup.

(** ** [BabylonNodeHandler] *)

Definition Start : Go (babylonNode * TW) unit := fun s =>
  match node_start s with
  | (Err err, s') =>
      match cleanup s' with
      | (Ok _, s'') | (Err _, s'') => (Err err, s'')
      | (Panic p, s'') => (Panic p, s'')
      | (Hang, s'') => (Hang, s'')
      end
  | x => x
  end.

Definition Stop : Go (babylonNode * TW) unit := node_shutdown.

Definition GetNodeDataDir (n : babylonNode) : string :=
  filepath_Join [dataDir n; "node0"; "babylond"].

Definition GetCovenantPk (n : babylonNode) : BIP340PubKey := covenantPk n.

(** ** Construction *)

Definition baseDir (pattern : string) : Go TW string :=
  tempName ← sys (MkdirTemp TempDir pattern);
  _ ← sys (Chmod tempName 493 (* 0755 *));
  mret tempName.

(** The deferred closure of the constructor: when the body ended with its variable
    [err] set, the directory is removed before the test is left. *)
Definition remove_on_error {A} (testDir : string) (m : Go TW A) : Go TW A := fun tw =>
  match m tw with
  | (Err _, tw') =>
      match require_NoError (sys (RemoveAll testDir)) tw' with
      | (Hang, tw'') => (Hang, tw'')
      | (Panic p, tw'') => (Panic p, tw'')
      | (_, tw'') => (Panic FailNow, tw'')
      end
  | x => x
  end.

Definition test_slashingAddr : string := "SZtRT4BySL3o4efdGLh3k7Kny8GAnsBrSW".
Definition test_chainID : string := "chain-test".

Definition initTestnetCmd (testDir : string) (covenantPk : BIP340PubKey) : Cmd :=
  exec_Command
    ["babylond"; "testnet"; "--v=1"; "--output-dir=" +:+ testDir;
     "--starting-ip-address=192.168.10.2"; "--keyring-backend=test"; "--chain-id=chain-test";
     "--additional-sender-account"; "--slashing-address=" +:+ test_slashingAddr;
     "--covenant-pks=" +:+ BIP340MarshalHex covenantPk; "--covenant-quorum=1"].

Definition startCmd (nodeDataDir : string) (f : nat) : Cmd :=
  mkCmd ["babylond"; "start"; "--home=" +:+ nodeDataDir; "--log_level=debug"] (Some f) None.

Definition run_cmd (c : Cmd) : Go TW unit := fun tw =>
  let '(r, (_, tw')) := Cmd_Run (c, tw) in (r, tw').

Definition NewBabylonNodeHandler (covenantPk : BIP340PubKey) : Go TW babylonNode :=
  testDir ← require_NoError (baseDir "zBabylonTest");
  remove_on_error testDir
    (let nodeDataDir := filepath_Join [testDir; "node0"; "babylond"] in
     _ ← run_cmd (initTestnetCmd testDir covenantPk);
     f ← sys (CreateFile (filepath_Join [testDir; "babylon.log"]));
     mret (newBabylonNode testDir (Some (startCmd nodeDataDir f)) test_chainID test_slashingAddr
             covenantPk)).

End handler.

(** ** What a record of calls says *)

(** The processes started, the processes waited for, the files created. *)
Definition started_pid (e : event) : option Z :=
  match e with
  | @Event A c r =>
      match c in syscall A return result A -> option Z with
      | StartProcess _ _ => fun r => match r with Ok pid => Some pid | _ => None end
      | _ => fun _ => None
      end r
  end.

Definition reaped_pid (e : event) : option Z :=
  match e with
  | @Event A c r =>
      match c in syscall A return result A -> option Z with
      | WaitProcess pid => fun r => match r with Ok _ => Some pid | _ => None end
      | _ => fun _ => None
      end r
  end.

Definition created_fd (e : event) : option nat :=
  match e with
  | @Event A c r =>
      match c in syscall A return result A -> option nat with
      | CreateFile _ => fun r => match r with Ok fd => Some fd | _ => None end
      | _ => fun _ => None
      end r
  end.

Definition on_process (e : event) : bool :=
  match e with
  | Event (SignalProcess _ _) _ | Event (WaitProcess _) _ => true
  | _ => false
  end.

Definition removes (e : event) : bool :=
  match e with
  | Event (Remove _) _ | Event (RemoveAll _) _ => true
  | _ => false
  end.

Section discipline.
Context {L : BtcLib}.

Definition node_argv (n : babylonNode) : list string :=
  ["babylond"; "start"; "--home=" +:+ GetNodeDataDir n; "--log_level=debug"].

(** What the handler of [n] may do after the calls [evs] of its own: start its command,
    signal and wait for a process it has started and not yet waited for, create and
    remove its pid file, write and close a file it has created, and remove its
    directory. *)
Definition allowed (n : babylonNode) (evs : list event) (e : event) : Prop :=
  match e with
  | Event (StartProcess argv _) _ =>
      omap started_pid evs = [] /\
      argv = node_argv n
  | Event (SignalProcess pid _) _ | Event (WaitProcess pid) _ =>
      pid ∈ omap started_pid evs /\ pid ∉ omap reaped_pid evs
  | Event (CreateFile name) _ | Event (Remove name) _ => name = pid_path n
  | Event (WriteFile fd _) _ | Event (CloseFile fd) _ => fd ∈ omap created_fd evs
  | Event (RemoveAll path) _ => path = dataDir n
  | Event (MkdirTemp _ _) _ | Event (Chmod _ _) _ => False
  end.

Inductive disciplined (n : babylonNode) : list event -> Prop :=
| disciplined_nil : disciplined n []
| disciplined_snoc evs e : disciplined n evs -> allowed n evs e -> disciplined n (evs ++ [e]).

End discipline.

Section facts.
Context {L : BtcLib} {W : Type}.
Context (kernel : forall A, syscall A -> Go W A) (GOOS TempDir : string).
Implicit Types (n : babylonNode) (tw : TW (W := W)) (evs : list event).


(** The fields of [n] that say what its process is agree with the calls made. *)
Definition tracks_process (p : option Process) evs : Prop :=
  match p with
  | None => omap started_pid evs = [] /\ omap reaped_pid evs = []
  | Some p => omap started_pid evs = [Pid p] /\
              omap reaped_pid evs = if Process_done p then [Pid p] else []
  end.

(** A node made as [n0], after the calls [evs]. *)
Record tracks (n0 n : babylonNode) evs : Prop := {
  tr_cmd : exists out p, cmd n = Some (mkCmd (node_argv n0) out p) /\ tracks_process p evs;
  tr_pidFile : pidFile n = "" \/ pidFile n = pid_path n0;
  tr_dataDir : dataDir n = dataDir n0;
  tr_calls : disciplined n0 evs;
}.

Definition handler_inv (n0 : babylonNode) (tr0 : list event) (s : babylonNode * TW (W := W)) : Prop :=
  exists evs, s.2.1 = tr0 ++ evs /\ tracks n0 s.1 evs.

Lemma sys_run {A} (c : syscall A) tw :
  exists r w', sys kernel c tw = (r, (tw.1 ++ [Event c r], w')).
Proof. unfold sys. destruct (kernel A c tw.2) as [r w']. by exists r, w'. Qed.

(** A call that neither starts a process nor waits for one. *)
Lemma tracks_snoc n0 n evs e :
  tracks n0 n evs -> allowed n0 evs e -> started_pid e = None -> reaped_pid e = None ->
  tracks n0 n (evs ++ [e]).
Proof.
  intros [(out & p & Hc & Hp) Hf Hd Hcalls] Ha Hs Hr. constructor; try done; [|by constructor].
  exists out, p. split; [done|]. unfold tracks_process in *.
  rewrite !omap_app. cbn. rewrite Hs, Hr, !app_nil_r. done.
Qed.

Lemma tracks_pidFile n0 n evs : tracks n0 n evs -> tracks n0 (with_pidFile (pid_path n) n) evs.
Proof. intros [Hc _ Hd Hcalls]. constructor; try done. right. cbn. unfold pid_path. by rewrite Hd. Qed.

(** *** [Start] *)

(** Starting the command adds one call and, when it succeeds, the process. *)
Lemma start_tracks n0 n evs tr0 w r s' :
  tracks n0 n evs -> on_cmd (Cmd_Start kernel) (n, (tr0 ++ evs, w)) = (r, s') ->
  handler_inv n0 tr0 s' /\ (r = Ok tt -> is_Some (cmd s'.1 ≫= Cmd_Process)).
Proof.
  intros [(out & p & Hc & Hp) Hf Hd Hcalls]. unfold on_cmd. rewrite Hc.
  unfold Cmd_Start. cbn [Cmd_Process Args Stdout]. destruct p as [p|].
  { intros [= <- <-]. split; [|done]. exists evs. split; [done|]. constructor; try done.
    by exists out, (Some p). }
  destruct Hp as [Hp1 Hp2], (sys_run (StartProcess (node_argv n0) out) (tr0 ++ evs, w)) as (r0 & w' & ->).
  set (e := Event _ r0). cbn [fst].
  assert (forall p, tracks_process p (evs ++ [e]) -> handler_inv n0 tr0
            (with_cmd (mkCmd (node_argv n0) out p) n, ((tr0 ++ evs) ++ [e], w'))) as Hinv.
  { intros p Hp. exists (evs ++ [e]). split; [cbn; by rewrite <- app_assoc|]. constructor; try done.
    - by exists out, p.
    - by constructor. }
  destruct r0; intros [= <- <-]; (split; [apply Hinv; cbn; rewrite !omap_app, Hp1, Hp2; done|]);
    intros; simplify_eq; by eexists.
Qed.

(** A call that is allowed and concerns no process. *)
Definition plain {A} n0 evs (c : syscall A) : Prop :=
  forall r, allowed n0 evs (Event c r) /\ started_pid (Event c r) = None /\ reaped_pid (Event c r) = None.

(** Any other call leaves the node as it is. *)
Lemma call_tracks {A} n0 n evs tr0 w (c : syscall A) r s' :
  on_world (sys kernel c) (n, (tr0 ++ evs, w)) = (r, s') -> tracks n0 n evs -> plain n0 evs c ->
  exists w', s' = (n, (tr0 ++ (evs ++ [Event c r]), w')) /\ tracks n0 n (evs ++ [Event c r]).
Proof.
  unfold on_world. destruct (sys_run c (tr0 ++ evs, w)) as (r0 & w' & ->).
  intros [= <- <-] T H. exists w'. cbn. rewrite <- app_assoc. split; [done|].
  destruct (H r0) as (Ha & Hs & Hr). by apply tracks_snoc.
Qed.

Lemma inv_intro n0 n tr0 evs w : tracks n0 n evs -> handler_inv n0 tr0 (n, (tr0 ++ evs, w)).
Proof. intros T. by exists evs. Qed.

Lemma node_start_inv n0 tr0 : preserves (handler_inv n0 tr0) (node_start kernel).
Proof.
  intros [n [tr w]] (evs & Htr & T). cbn in Htr. subst tr. unfold node_start. rewrite go_bind_run.
  destruct (on_cmd _ _) as [[[]|e|p|] [n1 [tr1 w1]]] eqn:H0; cbn in T;
    destruct (start_tracks _ _ _ _ _ _ _ T H0) as [Hinv Hp]; try done.
  destruct Hinv as (evs1 & Htr1 & T1). destruct (Hp eq_refl) as [p Ep]. cbn in Htr1, T1, Ep. subst tr1.
  clear H0 T Hp. unfold write_pid. rewrite go_bind_run. cbn [fst].
  assert (pid_path n1 = pid_path n0) as Epath by (unfold pid_path; by rewrite (tr_dataDir _ _ _ T1)).
  destruct (on_world _ _) as [r2 s2] eqn:H2.
  destruct (call_tracks _ _ _ _ _ _ _ _ H2 T1) as (w2 & -> & T2); [by intros ?; split_and!|]. clear H2.
  apply tracks_pidFile in T2 as T2'. destruct r2 as [fd|e|m|]; try by apply inv_intro.
  rewrite go_bind_run. cbn [fst]. rewrite go_bind_run. cbn [fst cmd with_pidFile]. rewrite Ep.
  set (evs2 := evs1 ++ _) in *. assert (fd ∈ omap created_fd evs2) as Hfd.
  { unfold evs2. rewrite omap_app. cbn. set_solver. }
  destruct (on_world _ _) as [r3 s3] eqn:H3.
  destruct (call_tracks _ _ _ _ _ _ _ _ H3 T2') as (w3 & -> & T3); [by intros ?; split_and!|]. clear H3.
  destruct r3 as [[]|e|m|]; try by apply inv_intro.
  set (evs3 := evs2 ++ _) in *. assert (fd ∈ omap created_fd evs3) as Hfd3.
  { unfold evs3. rewrite omap_app. set_solver. }
  destruct (on_world _ _) as [r4 s4] eqn:H4.
  destruct (call_tracks _ _ _ _ _ _ _ _ H4 T3) as (w4 & -> & T4); [by intros ?; split_and!|]. clear H4.
  by apply inv_intro.
Qed.

(** *** [cleanup] *)

Lemma log_only_run (c : syscall unit) n tw :
  (on_world (log_only (sys kernel c)) (n, tw)).2 = (on_world (sys kernel c) (n, tw)).2 /\
  ((on_world (log_only (sys kernel c)) (n, tw)).1 =
   match (on_world (sys kernel c) (n, tw)).1 with Err _ => Ok tt | r => r end).
Proof. unfold on_world, log_only. by destruct (sys kernel c tw) as [[] ?]. Qed.

Lemma removal_inv n0 tr0 (c : syscall unit) s :
  (forall evs, plain n0 evs c) -> handler_inv n0 tr0 s ->
  handler_inv n0 tr0 (on_world (log_only (sys kernel c)) s).2 /\
  (on_world (log_only (sys kernel c)) s).2.1 = s.1.
Proof.
  intros Hc. destruct s as [n [tr w]]. intros (evs & Htr & T). cbn in Htr, T. subst tr.
  rewrite (proj1 (log_only_run c n _)). destruct (on_world _ _) as [r s'] eqn:H.
  destruct (call_tracks _ _ _ _ _ _ _ _ H T (Hc evs)) as (w' & -> & T').
  split; [by apply inv_intro|done].
Qed.

Lemma cleanup_inv n0 tr0 : preserves (handler_inv n0 tr0) (cleanup kernel).
Proof.
  intros s Hs. assert (dataDir s.1 = dataDir n0) as Hd by (destruct Hs as (? & _ & T); apply T).
  assert (pidFile s.1 = "" \/ pidFile s.1 = pid_path n0) as Hf by (destruct Hs as (? & _ & T); apply T).
  unfold cleanup. rewrite go_bind_run. destruct (String.eqb_spec (pidFile s.1) "") as [_|Hne].
  - rewrite go_ret_run. apply removal_inv; [|done]. by intros evs r; split_and!.
  - destruct Hf as [|Hf]; [done|]. pose proof (removal_inv n0 tr0 (Remove (pidFile s.1)) s
      ltac:(by intros evs r; split_and!) Hs) as [H1 H2].
    destruct (on_world _ s) as [[[]|e|p|] s1]; try done. cbn in H1, H2.
    apply removal_inv; [|done]. by intros evs r; split_and!.
Qed.

(** *** [Stop] *)

Lemma wait_inv n0 tr0 : preserves (handler_inv n0 tr0) (on_cmd (Cmd_Wait kernel)).
Proof.
  intros [n [tr w]] (evs & Htr & [(out & p & Hc & Hp) Hf Hd Hcalls]). cbn in Htr, Hc. subst tr.
  assert (tracks n0 n evs) as T by (constructor; eauto).
  unfold on_cmd. rewrite Hc. unfold Cmd_Wait. cbn [Cmd_Process Args Stdout].
  assert (n = with_cmd (mkCmd (node_argv n0) out p) n) as Hn by (destruct n; cbn in Hc |- *; by rewrite Hc).
  destruct p as [[pid d]|]; [|cbn; rewrite <- Hn; by apply inv_intro].
  cbn [Process_done Pid]. destruct d; [cbn; rewrite <- Hn; by apply inv_intro|].
  destruct Hp as [Hs Hr]. cbn in Hs, Hr.
  destruct (sys_run (WaitProcess pid) (tr0 ++ evs, w)) as (r & w' & ->). cbn [fst].
  assert (disciplined n0 (evs ++ [Event (WaitProcess pid) r])) as Hdis.
  { constructor; [done|]. cbn. rewrite Hs, Hr. split; [by left|by intros ?%elem_of_nil]. }
  assert (forall p, tracks_process (Some p) (evs ++ [Event (WaitProcess pid) r]) -> handler_inv n0 tr0
     (with_cmd (mkCmd (node_argv n0) out (Some p)) n, ((tr0 ++ evs) ++ [Event (WaitProcess pid) r], w'))) as Hinv.
  { intros p Hp. rewrite <- app_assoc. apply inv_intro. constructor; try done. by exists out, (Some p). }
  destruct r as [[e|]|e|m|]; cbn; apply Hinv; cbn; rewrite !omap_app, Hs, Hr; done.
Qed.

Lemma node_stop_inv n0 tr0 : preserves (handler_inv n0 tr0) (node_stop kernel GOOS).
Proof.
  intros s Hs. unfold node_stop. destruct (cmd s.1 ≫= Cmd_Process) as [p|] eqn:Ep; [|done].
  set (sig := if String.eqb GOOS "windows" then _ else _).
  assert (handler_inv n0 tr0 (on_world (Process_Signal kernel p sig) s).2) as H1.
  { unfold Process_Signal. destruct (Process_done p) eqn:Ed; [by destruct s|].
    destruct s as [n [tr w]], Hs as (evs & Htr & T). cbn in Htr, T, Ep. subst tr.
    destruct (on_world _ _) as [r s'] eqn:H.
    destruct (call_tracks _ _ _ _ _ _ _ _ H T) as (w' & -> & T'); [|by apply inv_intro].
    destruct T as [(out & p' & Hc & Hp) _ _ _]. rewrite Hc in Ep. cbn in Ep. subst p'.
    destruct Hp as [Hst Hre]. rewrite Ed in Hre. intros r'. cbn. rewrite Hst, Hre.
    split_and!; set_solver. }
  destruct (on_world _ s) as [[u|e|m|] s1]; cbn in H1; try done; try by apply wait_inv.
  pose proof (wait_inv n0 tr0 s1 H1) as H2.
  by destruct (on_cmd _ s1) as [[] s2].
Qed.

Lemma Stop_inv n0 tr0 : preserves (handler_inv n0 tr0) (Stop kernel GOOS).
Proof. apply preserves_bind; [apply node_stop_inv|intros _; apply cleanup_inv]. Qed.

Lemma Start_inv n0 tr0 : preserves (handler_inv n0 tr0) (Start kernel).
Proof.
  intros s Hs. pose proof (node_start_inv n0 tr0 s Hs) as H1. unfold Start.
  destruct (node_start kernel s) as [[u|e|p|] s1]; try done. cbn in H1.
  pose proof (cleanup_inv n0 tr0 s1 H1) as H2.
  by destruct (cleanup kernel s1) as [[] s2].
Qed.

(** Any calls of the two methods, whatever they return. *)
Inductive method_call : babylonNode * TW (W := W) -> babylonNode * TW (W := W) -> Prop :=
| call_Start s : method_call s (Start kernel s).2
| call_Stop s : method_call s (Stop kernel GOOS s).2.

Lemma calls_inv n0 tr0 s s' : rtc method_call s s' -> handler_inv n0 tr0 s -> handler_inv n0 tr0 s'.
Proof. induction 1 as [|s1 s2 s3 [s|s] _ IH]; intros H;
  [done|by apply IH, Start_inv|by apply IH, Stop_inv]. Qed.

(** ** Construction *)

Lemma sys_grows {A} (c : syscall A) tw r tw' : sys kernel c tw = (r, tw') -> tw.1 `prefix_of` tw'.1.
Proof. destruct (sys_run c tw) as (r0 & w' & ->). intros [= <- <-]. cbn. by apply prefix_app_r. Qed.

Lemma run_cmd_grows argv out tw r tw' :
  run_cmd kernel (mkCmd argv out None) tw = (r, tw') -> tw.1 `prefix_of` tw'.1.
Proof.
  unfold run_cmd, Cmd_Run. rewrite go_bind_run. unfold Cmd_Start. cbn [Cmd_Process].
  destruct (sys kernel _ tw) as [r1 tw1] eqn:H1. apply sys_grows in H1.
  destruct r1 as [pid|e|m|]; try (intros [= <- <-]; done). unfold Cmd_Wait. cbn [Cmd_Process Process_done].
  destruct (sys kernel _ tw1) as [r2 tw2] eqn:H2. apply sys_grows in H2.
  destruct r2 as [[e|]|e|m|]; intros [= <- <-]; by etrans.
Qed.

Lemma baseDir_made pattern tw dir tw' :
  baseDir kernel TempDir pattern tw = (Ok dir, tw') ->
  Event (MkdirTemp TempDir pattern) (Ok dir) ∈ tw'.1.
Proof.
  unfold baseDir. rewrite go_bind_run.
  destruct (sys_run (MkdirTemp TempDir pattern) tw) as (r & w1 & ->).
  destruct r as [name|e|m|]; try done. rewrite go_bind_run.
  edestruct (sys_run (Chmod name 493)) as (r & w2 & ->). destruct r; try done.
  intros [= <- <-]. cbn. set_solver.
Qed.

Lemma remove_on_error_Ok {A} dir (m : Go (TW (W := W)) A) tw a tw' :
  remove_on_error kernel dir m tw = (Ok a, tw') <-> m tw = (Ok a, tw').
Proof.
  unfold remove_on_error. destruct (m tw) as [[] ?]; try naive_solver.
  destruct (require_NoError _ _) as [[] ?]; naive_solver.
Qed.

Lemma new_handler covPk tw n tw' :
  NewBabylonNodeHandler kernel TempDir covPk tw = (Ok n, tw') ->
  Event (MkdirTemp TempDir "zBabylonTest") (Ok (dataDir n)) ∈ tw'.1 /\
  GetCovenantPk n = covPk /\ pidFile n = "" /\
  exists fd, cmd n = Some (mkCmd (node_argv n) (Some fd) None).
Proof.
  unfold NewBabylonNodeHandler. rewrite go_bind_Ok. intros (dir & tw1 & H1 & H2).
  apply remove_on_error_Ok in H2. go_inv. apply baseDir_made in H1.
  repeat match goal with
  | H : run_cmd _ _ _ = _ |- _ => apply run_cmd_grows in H
  | H : sys _ _ _ = _ |- _ => apply sys_grows in H
  end.
  split_and!; try done; [|by eexists]. cbn.
  eapply elem_of_prefix; [exact H1|]. by etrans.
Qed.

(** ** The calls an operation makes, and what it leaves alone *)

Definition emits {A} (Q : event -> Prop) (m : Go (babylonNode * TW (W := W)) A) : Prop :=
  forall s, exists evs, (m s).2.2.1 = s.2.1 ++ evs /\ Forall Q evs.

Lemma emits_none {A} Q (m : Go (babylonNode * TW (W := W)) A) :
  (forall s, (m s).2.2 = s.2) -> emits Q m.
Proof. intros H s. exists []. rewrite H, app_nil_r. by split. Qed.

Lemma emits_bind {A C} Q (m : Go (babylonNode * TW (W := W)) A) (k : A -> Go (babylonNode * TW (W := W)) C) :
  emits Q m -> (forall a, emits Q (k a)) -> emits Q (m ≫= k).
Proof.
  intros Hm Hk s. destruct (Hm s) as (evs & He & HQ). rewrite go_bind_run.
  destruct (m s) as [[a|e|p|] s1]; cbn in *; try by exists evs.
  destruct (Hk a s1) as (evs' & He' & HQ'). exists (evs ++ evs').
  rewrite He', He, app_assoc. split; [done|by apply Forall_app].
Qed.

Lemma emits_call {A} (Q : event -> Prop) (c : syscall A) :
  (forall r, Q (Event c r)) -> emits Q (on_world (sys kernel c)).
Proof.
  intros HQ [n tw]. unfold on_world. destruct (sys_run c tw) as (r & w' & ->).
  exists [Event c r]. split; [done|by constructor].
Qed.

Lemma emits_with {A} Q (m : babylonNode -> Go (babylonNode * TW (W := W)) A) :
  (forall n, emits Q (m n)) -> emits Q (fun s => m s.1 s).
Proof. intros H s. apply H. Qed.

(** A call on neither a process nor a directory. *)
Definition file_call (e : event) : Prop :=
  on_process e = false /\ removes e = false /\ started_pid e = None.

Lemma write_pid_emits : emits file_call (write_pid kernel).
Proof.
  apply emits_bind; [|intros fd].
  { apply (emits_with _ (fun n => on_world (sys kernel (CreateFile (pid_path n))))).
    intros n. by apply emits_call. }
  apply emits_bind; [apply emits_none; by intros [n tw]|]. intros _.
  apply emits_bind; [|intros _; by apply emits_call].
  intros s. destruct (cmd s.1 ≫= Cmd_Process) as [p|]; [|by apply emits_none].
  by apply emits_call.
Qed.

(** The pid file does not change the command or the directory. *)
Lemma write_pid_keeps s :
  cmd (write_pid kernel s).2.1 = cmd s.1 /\ dataDir (write_pid kernel s).2.1 = dataDir s.1.
Proof.
  apply (preserves_bind (fun x => cmd x.1 = cmd s.1 /\ dataDir x.1 = dataDir s.1)); [| |done].
  - intros [n tw]. unfold on_world. cbn. by destruct (sys kernel _ tw).
  - intros fd. apply preserves_bind; [by intros [n tw]|]. intros _.
    apply preserves_bind; [|intros _ [n tw]; unfold on_world; by destruct (sys kernel _ tw)].
    intros [n tw]. cbn. destruct (cmd n ≫= Cmd_Process); [|done]. by destruct (sys kernel _ tw).
Qed.

(** A cleanup that comes back ends with the removal of the directory, and never fails. *)
Lemma cleanup_run s r s' :
  cleanup kernel s = (r, s') -> returns r = true ->
  r = Ok tt /\ s'.1 = s.1 /\ exists evs x,
    s'.2.1 = s.2.1 ++ evs ++ [Event (RemoveAll (dataDir s.1)) x] /\
    Forall (fun e => on_process e = false /\ started_pid e = None) evs.
Proof.
  destruct s as [n tw]. unfold cleanup. cbn [fst]. rewrite go_bind_run.
  assert (forall tw1 evs, tw1.1 = tw.1 ++ evs ->
     Forall (fun e => on_process e = false /\ started_pid e = None) evs ->
     on_world (log_only (sys kernel (RemoveAll (dataDir n)))) (n, tw1) = (r, s') -> returns r = true ->
     r = Ok tt /\ s'.1 = n /\ exists evs x,
       s'.2.1 = tw.1 ++ evs ++ [Event (RemoveAll (dataDir n)) x] /\
       Forall (fun e => on_process e = false /\ started_pid e = None) evs) as Hlast.
  { intros tw1 evs He HQ. unfold on_world, log_only.
    destruct (sys_run (RemoveAll (dataDir n)) tw1) as (x & w' & ->).
    destruct x as [[]|e|m|]; intros [= <- <-]; try done; intros _; split_and!; try done;
      exists evs; eexists; cbn; rewrite He, <- app_assoc; done. }
  destruct (String.eqb (pidFile n) "").
  - rewrite go_ret_run. apply (Hlast tw []); [by rewrite app_nil_r|constructor].
  - unfold on_world at 1, log_only at 1. destruct (sys_run (Remove (pidFile n)) tw) as (x & w' & ->).
    destruct x as [[]|e|m|]; try (intros [= <- <-]; done);
      eapply Hlast; try reflexivity; by constructor.
Qed.

(** Starting the command concerns no other process. *)
Lemma Cmd_Start_run n tw r s' :
  cmd n ≫= Cmd_Process = None -> on_cmd (Cmd_Start kernel) (n, tw) = (r, s') ->
  dataDir s'.1 = dataDir n /\ exists evs, s'.2.1 = tw.1 ++ evs /\
    Forall (fun e => on_process e = false) evs /\
    omap started_pid evs =
      match cmd s'.1 ≫= Cmd_Process with Some p => [Pid p] | None => [] end /\
    (forall p, cmd s'.1 ≫= Cmd_Process = Some p -> Process_done p = false).
Proof.
  intros Hp. unfold on_cmd. destruct (cmd n) as [[argv out p]|] eqn:Hc; cbn in Hp.
  2:{ intros [= <- <-]. split; [done|]. exists []. cbn. rewrite app_nil_r, Hc. done. }
  subst p. unfold Cmd_Start. cbn [Cmd_Process Args Stdout].
  destruct (sys_run (StartProcess argv out) tw) as (x & w' & ->).
  destruct x; intros [= <- <-]; (split; [done|]); eexists; (split; [reflexivity|]); cbn;
    (split; [by constructor|]); (split; [done|]); by intros p [= <-].
Qed.

Lemma omap_none evs : Forall (fun e => started_pid e = None) evs -> omap started_pid evs = [].
Proof. induction 1 as [|e evs H _ IH]; [done|]. cbn. by rewrite H. Qed.

(** A failing [Start] ends with the removal of the directory; it has concerned itself
    with no process but the one it may have started, which nobody has waited for. *)
Lemma failed_start n tw e s' :
  cmd n ≫= Cmd_Process = None -> Start kernel (n, tw) = (Err e, s') ->
  exists evs x, s'.2.1 = tw.1 ++ evs ++ [Event (RemoveAll (dataDir n)) x] /\
    Forall (fun e => on_process e = false) evs /\
    omap started_pid evs =
      match cmd s'.1 ≫= Cmd_Process with Some p => [Pid p] | None => [] end /\
    (forall p, cmd s'.1 ≫= Cmd_Process = Some p -> Process_done p = false).
Proof.
  intros Hp. unfold Start. destruct (node_start kernel (n, tw)) as [[u|e1|m|] s1] eqn:H1; try done.
  destruct (cleanup kernel s1) as [r2 s2] eqn:H2. intros H.
  assert (returns r2 = true /\ s2 = s') as [Hr ->] by (by destruct r2; simplify_eq).
  destruct (cleanup_run _ _ _ H2 Hr) as (_ & Hn & evs2 & x & He2 & HQ2). rewrite Hn.
  assert (exists evs1, s1.2.1 = tw.1 ++ evs1 /\ dataDir s1.1 = dataDir n /\
    Forall (fun e => on_process e = false) evs1 /\
    omap started_pid evs1 = match cmd s1.1 ≫= Cmd_Process with Some p => [Pid p] | None => [] end /\
    (forall p, cmd s1.1 ≫= Cmd_Process = Some p -> Process_done p = false))
    as (evs1 & He1 & Hd1 & HQ1 & Hst1 & Hdone1).
  { revert H1. unfold node_start. rewrite go_bind_run.
    destruct (on_cmd _ (n, tw)) as [r0 s0] eqn:H0.
    destruct (Cmd_Start_run _ _ _ _ Hp H0) as (Hd0 & evs0 & He0 & HQ0 & Hst0 & Hdone0).
    destruct r0 as [u|e0|m|]; try done; [|intros [= <- <-]; by exists evs0].
    intros H1. destruct (write_pid_emits s0) as (evs1 & He1 & HQ1), (write_pid_keeps s0) as [Hc1 Hd1].
    rewrite H1 in He1, Hc1, Hd1. cbn in He1, Hc1, Hd1. exists (evs0 ++ evs1).
    rewrite He1, He0, Hc1, Hd1, app_assoc. split_and!; try done.
    - apply Forall_app. split; [done|]. eapply Forall_impl; [exact HQ1|]. by intros ? [? _].
    - rewrite omap_app, (omap_none evs1), app_nil_r; [done|].
      eapply Forall_impl; [exact HQ1|]. by intros ? (_ & _ & ?). }
  exists (evs1 ++ evs2), x. rewrite He2, He1, Hd1, <- !app_assoc. split_and!; try done.
  - apply Forall_app. split; [done|]. eapply Forall_impl; [exact HQ2|]. by intros ? [? _].
  - rewrite omap_app, (omap_none evs2), app_nil_r; [done|].
    eapply Forall_impl; [exact HQ2|]. by intros ? [_ ?].
Qed.

Lemma Cmd_Wait_emits : emits (fun e => removes e = false) (on_cmd (Cmd_Wait kernel)).
Proof.
  intros [n tw]. unfold on_cmd, Cmd_Wait.
  destruct (cmd n) as [[argv out [[pid []]|]]|]; cbn; try (exists []; by rewrite app_nil_r).
  destruct (sys_run (WaitProcess pid) tw) as (x & w' & ->).
  exists [Event (WaitProcess pid) x]. destruct x; (split; [done|by constructor]).
Qed.

Lemma node_stop_emits : emits (fun e => removes e = false) (node_stop kernel GOOS).
Proof.
  intros s. unfold node_stop. destruct (cmd s.1 ≫= Cmd_Process) as [p|]; [|exists []; by rewrite app_nil_r].
  set (sig := if String.eqb GOOS "windows" then _ else _).
  assert (emits (fun e => removes e = false) (on_world (Process_Signal kernel p sig))) as Hs.
  { unfold Process_Signal. destruct (Process_done p); [by apply emits_none; intros []|by apply emits_call]. }
  destruct (Hs s) as (evs1 & He1 & HQ1). destruct (on_world _ s) as [r s1]. cbn in He1.
  destruct (Cmd_Wait_emits s1) as (evs2 & He2 & HQ2).
  assert (exists evs, (on_cmd (Cmd_Wait kernel) s1).2.2.1 = s.2.1 ++ evs /\
            Forall (fun e => removes e = false) evs) as Hboth.
  { exists (evs1 ++ evs2). rewrite He2, He1, app_assoc. split; [done|by apply Forall_app]. }
  destruct r; [done|done| |by exists evs1]. by destruct (on_cmd _ s1) as [[] s2].
Qed.

(** A failing [Stop] has signalled and waited, and removed nothing. *)
Lemma failed_stop s e s' :
  Stop kernel GOOS s = (Err e, s') ->
  exists evs, s'.2.1 = s.2.1 ++ evs /\ Forall (fun e => removes e = false) evs.
Proof.
  unfold Stop, node_shutdown. rewrite go_bind_run. pose proof (node_stop_emits s) as H1.
  destruct (node_stop kernel GOOS s) as [[u|e1|m|] s1]; try done; [|by intros [= <- <-]].
  intros H2. destruct (cleanup_run _ _ _ H2 eq_refl) as [? _]. done.
Qed.

(** ** Properties *)

(** C37: The handler touches nothing but its own.  Whatever the operating system answers
    and however [Start] and [Stop] are called on a handler that has been made, its
    directory is the temporary one the constructor made; it starts at most one process,
    [babylond] on the home that [GetNodeDataDir] names; it signals and waits for that
    process only, and never again once it has been waited for, when its number may
    belong to another; and all it creates or removes is its pid file and its directory. *)
Theorem handler_touches_only_its_own covPk tw n tw' s :
  NewBabylonNodeHandler kernel TempDir covPk tw = (Ok n, tw') ->
  rtc method_call (n, tw') s ->
  Event (MkdirTemp TempDir "zBabylonTest") (Ok (dataDir n)) ∈ tw'.1 /\
  exists evs, s.2.1 = tw'.1 ++ evs /\ disciplined n evs.
Proof.
  intros Hn Hs. apply new_handler in Hn as (Hdir & _ & Hf & fd & Hc). split; [done|].
  destruct (calls_inv n tw'.1 _ _ Hs) as (evs & He & T); [|exists evs; by split; [|apply T]].
  exists []. split; [by rewrite app_nil_r|]. constructor; [|by left|done|constructor].
  by exists (Some fd), None.
Qed.

(** C40: What the failing methods leave behind.  A [Start] that fails removes the directory
    of the node, but neither signals nor waits for the process when that had already
    been started (as when only the pid file cannot be written): [babylond] keeps
    running in a directory that is gone.  A [Stop] that fails, as it does when the
    process exits with an error, removes neither the pid file nor the directory. *)
Theorem failing_methods_leave_things_behind :
  (forall n tw e s', cmd n ≫= Cmd_Process = None -> Start kernel (n, tw) = (Err e, s') ->
     exists evs x, s'.2.1 = tw.1 ++ evs ++ [Event (RemoveAll (dataDir n)) x] /\
       Forall (fun e => on_process e = false) evs /\
       omap started_pid evs =
         match cmd s'.1 ≫= Cmd_Process with Some p => [Pid p] | None => [] end) /\
  (forall s e s', Stop kernel GOOS s = (Err e, s') ->
     exists evs, s'.2.1 = s.2.1 ++ evs /\ Forall (fun e => removes e = false) evs).
Proof.
  split; [|apply failed_stop]. intros n tw e s' Hp H.
  destruct (failed_start n tw e s' Hp H) as (evs & x & He & HQ & Hst & _). by exists evs, x.
Qed.

End facts.

(** *** Runs on a concrete system *)

(** Calls succeed, process 42 exits with [exit], and the pid file can be created or not. *)
Definition toy_kernel (pid_ok : bool) (exit : option error) (A : Type) (c : syscall A) : Go unit A :=
  fun w => (match c in syscall A return result A with
            | StartProcess _ _ => Ok 42
            | WaitProcess _ => Ok exit
            | CreateFile name =>
                if pid_ok || negb (String.eqb name "/tmp/z1/config.pid") then Ok 7%nat
                else Err (errorString "no space left on device")
            | MkdirTemp _ _ => Ok "/tmp/z1"
            | SignalProcess _ _ | WriteFile _ _ | CloseFile _ | Remove _ | RemoveAll _ | Chmod _ _ => Ok tt
            end, w).

Definition toy_covenantPk : BIP340PubKey (BtcLib := toy_BtcLib) := [].

Definition toy_node : babylonNode :=
  newBabylonNode "/tmp/z1" (Some (startCmd "/tmp/z1/node0/babylond" 7)) test_chainID test_slashingAddr
    toy_covenantPk.

(** The calls of a new handler, and of its [Start] and [Stop]. *)
Definition toy_made : TW (W := unit) :=
  (NewBabylonNodeHandler (toy_kernel true None) "/tmp" toy_covenantPk ([], tt)).2.

Definition toy_stopped : babylonNode * TW (W := unit) :=
  (Stop (toy_kernel true None) "linux" (Start (toy_kernel true None) (toy_node, toy_made)).2).2.

Lemma handler_touches_only_its_own_witness :
  exists evs, toy_stopped.2.1 = toy_made.1 ++ evs /\ disciplined toy_node evs /\ length evs = 8%nat.
Proof.
  destruct (handler_touches_only_its_own (toy_kernel true None) "linux" "/tmp" toy_covenantPk ([], tt) toy_node
    toy_made toy_stopped) as (_ & evs & He & Hd).
  - vm_compute. reflexivity.
  - eapply rtc_l; [apply call_Start|]. eapply rtc_l; [apply call_Stop|]. apply rtc_refl.
  - exists evs. split_and!; [exact He|exact Hd|].
    assert (length toy_stopped.2.1 = 13%nat) as Hl by (vm_compute; reflexivity).
    rewrite He, length_app in Hl. assert (length toy_made.1 = 5%nat) as Hm by (vm_compute; reflexivity).
    lia.
Defined.

(** The pid file cannot be created: process 42 is left to itself. *)
Lemma failing_methods_leave_things_behind_witness :
  (exists s' evs x, Start (toy_kernel false None) (toy_node, toy_made) =
       (Err (errorString "no space left on device"), s') /\
     s'.2.1 = toy_made.1 ++ evs ++ [Event (RemoveAll "/tmp/z1") x] /\
     Forall (fun e => on_process e = false) evs /\ omap started_pid evs = [42]) /\
  (exists s' evs, Stop (toy_kernel true (Some (errorString "exit status 1"))) "linux"
       (Start (toy_kernel true None) (toy_node, toy_made)).2 = (Err (errorString "exit status 1"), s') /\
     s'.2.1 = (Start (toy_kernel true None) (toy_node, toy_made)).2.2.1 ++ evs /\
     Forall (fun e => removes e = false) evs).
Proof.
  split.
  - destruct (failing_methods_leave_things_behind (toy_kernel false None) "linux") as [H _].
    destruct (H toy_node toy_made (errorString "no space left on device")
      (Start (toy_kernel false None) (toy_node, toy_made)).2 eq_refl eq_refl) as (evs & x & He & HQ & Hs).
    eexists _, evs, x. split_and!; [reflexivity|exact He|exact HQ|exact Hs].
  - destruct (failing_methods_leave_things_behind (toy_kernel true (Some (errorString "exit status 1"))) "linux")
      as [_ H].
    destruct (H (Start (toy_kernel true None) (toy_node, toy_made)).2 (errorString "exit status 1")
      (Stop (toy_kernel true (Some (errorString "exit status 1"))) "linux"
         (Start (toy_kernel true None) (toy_node, toy_made)).2).2 eq_refl) as (evs & He & HQ).
    eexists _, evs. split_and!; [reflexivity|exact He|exact HQ].
Defined.
