(* ===== verification/Datagen.v ===== *)
(** * Random data for the tests: [testutil/datagen.go]

    The fuzz tests of the emulator draw their staking parameters and keys from these
    generators.  The source of randomness is the world; Babylon's own generators and the
    decimal type's constructor are parameters with what the code relies on as a class. *)

From S2P Require Import Prelude External ToyLib GoLib Types.
From Stdlib Require Import ZArith Lia String Strings.Byte.
From stdpp Require Import base list strings.

#[local] Open Scope string_scope.
#[local] Open Scope list_scope.
#[local] Open Scope Z_scope.

(** Generators over a source of randomness [R]. *)
Class DatagenLib {L : BtcLib} (R : Type) := {
  (** babylon/testutil/datagen *)
  GenRandomByteArray : Z -> Go R bytes;
  RandomInt : Z -> Go R Z;
  GenRandomBTCKeyPair : Go R (PrivateKey * PublicKey);
  GenRandomBTCAddress : NetParams -> Go R Address;
  (** cosmossdk.io/math; the second is the zero value of the type *)
  LegacyNewDecWithPrec : Z -> Z -> LegacyDec;
  LegacyDec_zero : LegacyDec;
  (** math/rand: a source from a seed, and a draw from it *)
  rand_NewSource : Z -> R;
  Int63 : Go R Z;
}.

(** [RandomInt r n] is below [n], byte arrays have the length asked for, and 63-bit
    draws are non-negative. *)
Class DatagenSpec {L : BtcLib} {R} (D : DatagenLib R) : Prop := {
  RandomInt_range n r k r' : 0 < n -> RandomInt n r = (Ok k, r') -> 0 <= k < n;
  GenRandomByteArray_length n r b r' : GenRandomByteArray n r = (Ok b, r') -> go_len b = n;
  Int63_range r k r' : Int63 r = (Ok k, r') -> 0 <= k < 2 ^ 63;
}.

Section datagen.
Context {L : BtcLib} {R : Type} {D : DatagenLib R}.

Definition GenRandomHexStr (length : Z) : Go R string :=
  randBytes ← GenRandomByteArray length;
  mret (hex_EncodeToString randBytes).

(** The corpus of a fuzz test is the list of its seeds. *)
Fixpoint add_seeds (n : nat) : Go R (list Z) :=
  match n with
  | O => mret []
  | S n' => seed ← Int63; rest ← add_seeds n'; mret (seed :: rest)
  end.

Definition AddRandomSeedsToFuzzer (now : Z) (corpus : list Z) (num : Z) : result (list Z) :=
  match add_seeds (Z.to_nat num) (rand_NewSource now) with
  | (r, _) => seeds ← r; mret (corpus ++ seeds)
  end.

Definition GenValidSlashingRate : Go R LegacyDec :=
  k ← RandomInt 41;
  mret (LegacyNewDecWithPrec (i64 (u64 (k + 10))) 2).

(** [make] of a slice of pointers: 8 bytes each, of at most [2^48] bytes. *)
Definition make_pointers (cap : Z) : result unit :=
  if (cap <? 0) || (2 ^ 45 <? cap) then Panic "runtime error: makeslice: cap out of range" else Ok tt.

(** The loop that draws keys. *)
Fixpoint gen_pks (n : nat) : Go R (list PublicKey) :=
  match n with
  | O => mret []
  | S n' => kp ← require_NoError GenRandomBTCKeyPair; rest ← gen_pks n'; mret (kp.2 :: rest)
  end.

Definition GenRandomParams : Go R StakingParams :=
  k ← RandomInt 5;
  let covThreshold := u64 (k + 1) in
  let covNum := u64 (covThreshold * 2) in
  _ ← lift (make_pointers covNum);
  covenantPks ← gen_pks (Z.to_nat (i64 covNum));
  slashingAddr ← require_NoError (GenRandomBTCAddress SimNetParams);
  slashingRate ← GenValidSlashingRate;
  mret {| ComfirmationTimeBlocks := 10;
          FinalizationTimeoutBlocks := 100;
          MinUnbondingTime := 100;
          MinSlashingTxFeeSat := 1;
          CovenantPks := covenantPks;
          SlashingAddress := slashingAddr;
          CovenantQuorum := u32 covThreshold;
          SlashingRate := slashingRate;
          MinComissionRate := LegacyDec_zero (* not set by the literal: zero value *) |}.

Definition GenBtcPublicKeys (num : Z) : Go R (list PublicKey) :=
  _ ← lift (make_pointers num);
  gen_pks (Z.to_nat num).

(** ** Facts *)

Lemma gen_pks_length n r pks r' : gen_pks n r = (Ok pks, r') -> length pks = n.
Proof.
  revert r pks. induction n as [|n IH]; intros r pks; cbn [gen_pks]; [by intros [= <- _]|].
  intros H. go_inv. cbn. f_equal. eauto.
Qed.

Lemma add_seeds_length n r seeds r' : add_seeds n r = (Ok seeds, r') -> length seeds = n.
Proof.
  revert r seeds. induction n as [|n IH]; intros r seeds; cbn [add_seeds]; [by intros [= <- _]|].
  intros H. go_inv. cbn. f_equal. eauto.
Qed.

Lemma AddRandomSeedsToFuzzer_adds now corpus num corpus' :
  0 <= num -> AddRandomSeedsToFuzzer now corpus num = Ok corpus' ->
  exists seeds, corpus' = corpus ++ seeds /\ go_len seeds = num.
Proof.
  intros Hn. unfold AddRandomSeedsToFuzzer.
  destruct (add_seeds _ _) as [r r'] eqn:H. intros Hr. go_inv.
  apply add_seeds_length in H. eexists. split; [done|]. unfold go_len. lia.
Qed.

Lemma GenBtcPublicKeys_length num r pks r' :
  GenBtcPublicKeys num r = (Ok pks, r') -> go_len pks = num.
Proof.
  unfold GenBtcPublicKeys, make_pointers. destruct (num <? 0) eqn:Hn; cbn; [done|].
  intros H. destruct (2 ^ 45 <? num); cbn in H; [done|]. go_inv.
  match goal with H : gen_pks _ _ = _ |- _ => apply gen_pks_length in H end.
  unfold go_len. lia.
Qed.

Context {S : DatagenSpec D}.

Lemma GenRandomHexStr_length n r s r' :
  0 <= n -> GenRandomHexStr n r = (Ok s, r') -> Z.of_nat (String.length s) = 2 * n.
Proof using S.
  intros Hn H. unfold GenRandomHexStr in H. go_inv.
  match goal with H : GenRandomByteArray _ _ = _ |- _ => apply GenRandomByteArray_length in H; rename H into Hl end.
  rewrite hex_encode_length. unfold go_len in Hl. lia.
Qed.

Lemma slashing_rate_range r rate r' :
  GenValidSlashingRate r = (Ok rate, r') ->
  exists k, 10 <= k <= 50 /\ rate = LegacyNewDecWithPrec k 2.
Proof using S.
  intros H. unfold GenValidSlashingRate in H. go_inv.
  match goal with H : RandomInt _ _ = _ |- _ => apply RandomInt_range in H; [|lia]; rename H into Hk end.
  eexists. split; [|done]. rewrite u64_id, i64_id; unfold in_u64, in_i64; lia.
Qed.

(** C39: Generated staking parameters are well formed: every field fits its Go type, the
    quorum is between 1 and 5 and can be met, with exactly twice as many covenant keys,
    and the slashing rate is a percentage between 10 and 50.  They also show what the
    tests cannot see: the finalization timeout always equals the minimum unbonding
    time, so [MinimumUnbondingTime] never differs from the field the emulator compares
    with. *)
Theorem generated_params_are_well_formed r p r' :
  (forall a b, sdkmath_Max a b = Z.max a b) ->
  GenRandomParams r = (Ok p, r') ->
  wf_StakingParams p /\
  1 <= CovenantQuorum p <= 5 /\ go_len (CovenantPks p) = 2 * CovenantQuorum p /\
  (exists k, 10 <= k <= 50 /\ SlashingRate p = LegacyNewDecWithPrec k 2) /\
  MinimumUnbondingTime p = MinUnbondingTime p.
Proof using S.
  intros Hmax H. unfold GenRandomParams in H. go_inv.
  repeat match goal with
  | H : RandomInt _ _ = _ |- _ => apply RandomInt_range in H; [|lia]
  | H : gen_pks _ _ = _ |- _ => apply gen_pks_length in H
  | H : GenValidSlashingRate _ = _ |- _ => apply slashing_rate_range in H
  end.
  match goal with H : 0 <= ?x < 5 |- _ => rename x into k; rename H into Hk end.
  assert (u64 (k + 1) = k + 1) as Eth by (apply u64_id; unfold in_u64; lia).
  rewrite Eth in *. rewrite (u64_id ((k + 1) * 2)), i64_id in * by (unfold in_u64, in_i64; lia).
  assert (u32 (k + 1) = k + 1) as Equ by (apply u32_id; unfold in_u32; lia).
  unfold wf_StakingParams, in_u64, in_i64, in_u32, MinimumUnbondingTime, go_len. cbn. rewrite Equ, Hmax.
  split_and!; try done; lia.
Qed.

End datagen.

(** *** A concrete generator *)

(** The source is a counter, draws are reduced to their range. *)
#[export] Instance toy_Datagen : DatagenLib Z := {|
  GenRandomByteArray := fun n r =>
    if n <? 0 then (Panic "runtime error: makeslice: len out of range", r)
    else (Ok (replicate (Z.to_nat n) Byte.xab), r + 1);
  RandomInt := fun n r => (Ok (r mod n), r + 1);
  GenRandomBTCKeyPair := fun r => (Ok ([Byte.x2a], [Byte.x2a]), r + 1);
  GenRandomBTCAddress := fun _ r => (Ok "address", r + 1);
  LegacyNewDecWithPrec := fun k _ => k;
  LegacyDec_zero := 0;
  rand_NewSource := fun seed => seed;
  Int63 := fun r => (Ok (r mod 2 ^ 63), r + 1);
|}.

#[export] Instance toy_Datagen_spec : DatagenSpec toy_Datagen.
Proof.
  split; cbn.
  - intros n r k r' Hn [= <- _]. by apply Z.mod_pos_bound.
  - intros n r b r'. destruct (n <? 0) eqn:Hn; intros [= <- _].
    unfold go_len. rewrite length_replicate. lia.
  - intros r k r' [= <- _]. by apply Z.mod_pos_bound.
Qed.

Definition toy_generated : StakingParams :=
  mkStakingParams 10 100 1 (replicate 6 [Byte.x2a]) "address" 3 39 0 100.

Lemma generated_params_are_well_formed_witness :
  GenRandomParams 62 = (Ok toy_generated, 71) /\
  wf_StakingParams toy_generated /\ go_len (CovenantPks toy_generated) = 2 * CovenantQuorum toy_generated.
Proof.
  assert (GenRandomParams 62 = (Ok toy_generated, 71)) as Hg by (vm_compute; reflexivity).
  split; [exact Hg|].
  destruct (generated_params_are_well_formed 62 toy_generated 71 (fun _ _ => eq_refl) Hg)
    as (Hw & _ & Hl & _). split; [exact Hw|exact Hl].
Defined.
