(* ===== verification/Codec.v ===== *)
(** * The protobuf codec: package [codec]

    [MakeCodec] of [src/codec/codec.go].  The Cosmos SDK's constructors are parameters
    over a world of registries; what the code relies on is that a registry is shared by
    reference, so that the codec, made before the crypto interfaces are registered, sees
    them all the same. *)

From S2P Require Import Prelude.
From stdpp Require Import base list gmap.

(** The calls of the SDK's [codec], [codec/types] and [crypto/codec]. *)
Class CodecLib (W : Type) := {
  InterfaceRegistry : Type;
  ProtoCodec : Type;
  Interface : Type;
  NewInterfaceRegistry : Go W InterfaceRegistry;
  NewProtoCodec : InterfaceRegistry -> Go W ProtoCodec;
  RegisterInterfaces : InterfaceRegistry -> Go W unit;
}.

Section codec.
Context {W : Type} {C : CodecLib W}.

Definition MakeCodec : Go W ProtoCodec :=
  ir ← NewInterfaceRegistry;
  cdc ← NewProtoCodec ir;
  _ ← RegisterInterfaces ir;
  mret cdc.

End codec.

(** What the code relies on: a codec resolves what its registry knows at the time it is
    asked, and registering adds the crypto interfaces. *)
Class CodecSpec {W} (C : CodecLib W) := {
  known : InterfaceRegistry -> W -> list Interface;
  resolves : ProtoCodec -> W -> list Interface;
  crypto_interfaces : list Interface;
  NewProtoCodec_shares ir w cdc w' :
    NewProtoCodec ir w = (Ok cdc, w') -> forall v, resolves cdc v = known ir v;
  RegisterInterfaces_adds ir w w' :
    RegisterInterfaces ir w = (Ok tt, w') -> crypto_interfaces ⊆ known ir w';
}.

(** The codec resolves the crypto interfaces. *)
Lemma MakeCodec_resolves {W} {C : CodecLib W} {S : CodecSpec C} w cdc w' :
  MakeCodec w = (Ok cdc, w') -> crypto_interfaces ⊆ resolves cdc w'.
Proof.
  unfold MakeCodec. intros H. go_inv.
  match goal with H : NewProtoCodec _ _ = _ |- _ => rewrite (NewProtoCodec_shares _ _ _ _ H) end.
  match goal with H : RegisterInterfaces _ _ = (Ok ?u, _) |- _ =>
    destruct u; by apply RegisterInterfaces_adds in H end.
Qed.

(** *** Registries in a heap *)

Definition heap_codec : CodecLib (gmap nat (list nat)) := {|
  InterfaceRegistry := nat;
  ProtoCodec := nat;
  Interface := nat;
  NewInterfaceRegistry := fun h => let ir := fresh (dom h) in (Ok ir, <[ir := []]> h);
  NewProtoCodec := fun ir h => (Ok ir, h);
  RegisterInterfaces := fun ir h => (Ok tt, <[ir := default [] (h !! ir) ++ [1; 2]]> h)%nat;
|}.

#[export] Instance heap_codec_spec : CodecSpec heap_codec.
Proof.
  refine {| known := fun ir h => default [] (h !! ir) : list (Interface (CodecLib := heap_codec));
            resolves := fun cdc h => default [] (h !! cdc);
            crypto_interfaces := [1; 2]%nat |}.
  - by intros ir w cdc w' [= <- _] v.
  - cbn. intros ir w w' [= <-]. rewrite lookup_insert_eq. intros x Hx. apply elem_of_app. by right.
Defined.

Lemma MakeCodec_resolves_witness :
  exists cdc, MakeCodec (C := heap_codec) ∅ = (Ok cdc, {[cdc := [1; 2]]})%nat /\
    [1; 2]%nat ⊆ resolves cdc ({[cdc := [1; 2]]} : gmap nat (list nat))%nat.
Proof.
  exists 0%nat. assert (MakeCodec (C := heap_codec) ∅ = (Ok 0, {[0 := [1; 2]]}))%nat as H by (vm_compute; reflexivity).
  split; [exact H|]. exact (MakeCodec_resolves _ _ _ H).
Defined.
